(* ===== verification/_CoqProject ===== *)
-Q . S2P
Prelude.v
Lists.v
MatrixMath.v
Camera.v
CameraProps.v
Contract.v
InputMode.v
Reflection.v
ReflectionProps.v
Geometry.v
GeometryProps.v
GL.v
GLProps.v
WebGLApp.v
RenderProps.v
SceneProps.v
AppProps.v
FrameProps.v
MirrorProps.v
StartProps.v
Application.v
