(* ===== verification/Prelude.v ===== *)
(** * Reflexo e Transparencia: a verified model of the WebGL mirror viewer

    The program is a browser application (src/js/main.js, src/js/camera.js,
    src/js/geometry.js) that flies a camera through a scene of a cube, a
    sphere and a vertical glass plane at x = 0; the glass shows a reflection
    of the scene that is rendered from a mirrored camera into an offscreen
    framebuffer and blended onto the plane.

    ** Parts of the program and how they interact

    The listener of [DOMContentLoaded] (main.js) constructs a [WebGLApp].
    Its constructor gets the WebGL 2 context of the canvas, constructs the
    [FlybyCamera] (camera.js), which registers the keyboard, mouse, wheel and
    pointer-lock listeners, and calls [init].  [init] sizes the canvas
    and starts to load two shader programs; the constructor returns while
    they load.  When they have arrived [init] links them, builds the three
    meshes (geometry.js) and uploads them as vertex arrays, creates the
    textures and the reflection framebuffer, registers the listeners of the
    page controls and renders the first frame.  Every frame [render] moves the
    camera by the keys held, counts the frame, renders the scene mirrored
    into the framebuffer ([renderReflectionPass]), renders it on the canvas
    and the glass plane over it ([renderMainScene]), and asks the browser
    for the next frame.

    ** The files and what they model

    - [Prelude] (this file): the JavaScript number model and the shared
      automation.  A JS number is a real number ([R]); [Math.min],
      [Math.max], [Math.sqrt], [Math.cos], [Math.sin], [Math.tan],
      [Math.round] and [Math.PI] are the functions of module [Math]; a
      comparison of the source ([len > 0.0001]) is a boolean ([Rgtb]); the
      chain [a || b || 0] over possibly-undefined numbers is [or_num].
    - [Lists]: loops that [push] onto arrays, as folds, with the length and
      the elements of what they build; [forLoop], the [for] statement run
      test by test with a bound on the number of tests.
    - [MatrixMath]: [Float32Array] vectors and 4x4 matrices as records
      ([Vec3], [Vec4], [Mat4]) indexed the way the source indexes them
      ([a.[5]]), [multiplyMatrices] (main.js) and the reference look-at and
      perspective constructions that the camera and the reflection inline.
    - [Camera], [CameraProps]: class [FlybyCamera] of camera.js.  Its fields
      are the record [FlybyCamera]; [constructor], [update],
      [updateViewMatrix], [updateProjectionMatrix], [reset], [getPosition],
      [getForward] and every listener of [setupEventListeners] and
      [setupFallbackMouseControls] is one definition, taking the event's
      data and the time [performance.now()] returned as arguments.
      [handle] dispatches an event to the listeners in the order they were
      registered, and [reachable] are the states of a camera during its
      life.
    - [Contract]: what the application relies on of its camera, as the
      class [CameraContract] of the predicates on cameras that hold of a
      new camera, are kept by every listener and method, bound the pitch
      and make the view matrix the look-at matrix of the pose.  The state
      invariant and [reachable] are instances, and [reachable] is the
      least.  The lemmas about the application are proved for any
      predicate of the class; the theorems of [Application] are stated for
      [reachable].
    - [InputMode]: the input-mode machine of the specification ([Router],
      [route], [lookDelta]) and the relation [implements] between the
      camera and a state of the machine.
    - [Reflection], [ReflectionProps]: [calculateReflectionViewMatrix] and
      the reflection view-projection product of
      [setupGlassProgramUniforms] (main.js), with the mirror map across the
      plane x = 0.
    - [Geometry], [GeometryProps]: [createCube], [createSphere] and
      [createPlane] of geometry.js, with arrays as lists and
      [Uint16Array] keeping the low 16 bits; [createSphereLoop] is
      [createSphere] with its loops run test by test.
    - [GL], [GLProps]: the part of a WebGL 2 context that main.js drives
      (module [gl], one definition per call of the context), as a record
      of the state [GLState], and the statements of the source as a monad
      [GL] of state, recorded outputs and exceptions.  An [Output] is a
      clear or a draw with the state it ran in, an error of the context, or
      an effect on the page (console, alert, text, listener, frame
      request).
    - [WebGLApp]: class [WebGLApp] of main.js (module [App], one definition
      per method and per listener), the functions it imports from
      shaders.js and framebuffer.js, whose success an [Environment] decides,
      and the application as a machine.  The asynchronous [init] is two
      definitions beside its text: [init_begin], the statements that run
      inside the constructor, and [init_resume], the rest.  The machine has
      three phases ([Phase]): [loading] from the return of the listener of
      [DOMContentLoaded] ([main]) until the shader files have arrived,
      with the events of the page handled by the listeners registered by
      then ([stepLoading]); then [settle] runs the rest of [init] and the
      application is [rendering], its events handled by [step]
      ([runEvents] for a sequence), or [failed].  [running] are the states
      the machine reaches.  The [resize] listener ([on_resize]) is
      modelled with the exception that [resize] does not catch
      ([listener]): the page reports it, and the application keeps the
      fields that [resize] assigned before the call that threw
      ([resizedCanvas]).
    - [RenderProps]: the two passes, symbolically executed: the state of
      every clear and draw.
    - [SceneProps]: [createVAO], [createGeometry], the model matrices and
      where they put the meshes.
    - [AppProps]: [updateFPS], one frame, [resize] and its listener,
      [loadShaders], the two parts of [init], and the invariants of an
      application that renders: [canRender], which every event keeps on
      every environment, and [appInvariant], which adds that the
      reflection target has the size of the canvas and is kept as long as
      every reflection target can be completed.
    - [FrameProps]: what a frame puts out, and the steps of an application
      that can render, a resize that throws included.
    - [MirrorProps]: the relation [mirrors] between the state of the
      reflection draw of an object and the state of its main draw.
    - [StartProps]: the constructor, the listeners of a loading
      application and its invariant ([loadingInvariant]), [settle],
      startup that fails, and the invariants of the phases: [survives] on an
      environment on which the shaders load ([loads]), [lives] on one that
      works ([working]).
    - [Application]: the theorems about the life of the application, with
      an example environment and example states for their witnesses.

    ** What the theorems show

    - [MatrixMath]: [multiplyMatrices] is composition of the linear maps in
      column-major, column-vector convention; the identity is neutral; the
      product is associative; the look-at matrix of a non-degenerate pair
      is a rigid motion that puts the eye at the origin and the target on
      the negative z axis.
    - [CameraProps]: the pitch stays in [-89, 89] and the speed in
      [0.5, 20] under every handler and so in every reachable state; the
      stored view matrix always equals the look-at matrix of the current
      position and orientation; within the pitch range neither
      normalisation guard of the look-at code can fail, so the view matrix
      is orthonormal; [update] clamps the elapsed time at 0.1 s and moves
      along the view axes; [reset] restores the spawn pose; the routing of
      pointer motion between pointer lock and the click-and-drag fallback.
    - [InputMode]: the listeners of the camera implement the input-mode
      machine as long as the click-and-drag fallback is entered at most
      once ([input_mode_refinement]); [CameraProps] shows that a drag is
      applied n times after n rejected requests.
    - [ReflectionProps]: the inlined look-at of
      [calculateReflectionViewMatrix] is the look-at of the mirrored eye and
      target; mirroring is an involution; the reflection view is the camera
      view conjugated by the mirror, up to a flip of the eye-space x axis.
    - [GeometryProps]: the meshes are well formed (array lengths, every
      index names a vertex) up to 255 segments of the sphere, and the
      indices wrap from 256 on; the vertices of the sphere are the points of
      the latitude-longitude grid with unit normals; the winding of the
      cube and the plane; the loops of [createSphere] end.
    - [SceneProps]: [createVAO] binds the three attributes and the index
      buffer of a mesh to a new vertex array; [createGeometry] leaves three
      drawable objects with the index counts of their meshes; the cube is
      left of the glass, the sphere right of it, the glass in the mirror
      plane x = 0.
    - [Contract], [ReflectionProps]: for every predicate of the class the
      reflection view matrix is the view matrix conjugated by the mirror
      ([good_mirrored_view]); the application uses it for its camera.
    - [AppProps]: the two parts of [init] in sequence are [init]
      ([init_split]).
    - [Application]: on an environment on which the shaders load and the
      first reflection target can be completed, the listener of
      [DOMContentLoaded] returns an application that loads its shaders
      ([main_spec]); whatever events arrive meanwhile the rest of [init]
      renders the first frame ([loading_completes], [settle_spec]); on an
      environment that works every state satisfies the invariant of its
      phase and the application never fails ([running_invariant]); on
      every environment on which the shaders load, every event of an
      application that renders is handled without an error of the context
      ([events_handled]) and the render loop asks for exactly one frame
      per frame ([frame_loop]), also when a resize throws because the new
      reflection target cannot be completed ([resize_failure]).  In every
      frame the reflection pass draws what the main pass draws, mirrored:
      this composes the camera, the reflection transform and the two
      passes ([reflection_mirrors_scene]).  What each pass clears and
      draws, in which state ([renderReflectionPass_spec],
      [renderMainScene_spec], [render_spec]); [resize], [updateFPS] and
      the transparency slider; and when the environment does not work,
      startup ends with an alert and draws nothing ([main_failure],
      [settle_failure]).

    ** Numbers

    JavaScript numbers are IEEE binary64 values and a [Float32Array] rounds
    what is stored in it to binary32.  The model computes with real numbers:
    no rounding, no NaN and no infinities.  Every theorem is therefore a
    statement about the exact arithmetic the code approximates; where the
    code divides, the theorems carry the hypothesis (or prove from the
    state invariant) that the divisor is not zero, because in [R] a division
    by zero is an unspecified number while JavaScript yields an infinity or
    NaN.  Time stamps are milliseconds as returned by [performance.now()].
    The indices of a mesh are integers ([Z]) reduced modulo 65536 where the
    source stores them in a [Uint16Array].

    ** Bounds and fuel

    Every definition is a total function by structural recursion, except
    that [forLoop] takes the number of tests of the loop condition it may
    make: [createSphere_terminates] shows that [segments + 2] tests are
    enough for each of the four loops of [createSphere] and that
    [segments + 1] are not.  The number of segments is a natural number;
    the source would also accept a fraction, and would not end on
    [Infinity].  The render loop is not a loop of the model: a frame is one
    event ([requestedFrame]) of the machine, which the browser delivers
    after [render] asked for it.

    ** The context and the environment

    The WebGL context is modelled from the WebGL 2 specification, not from
    code: handles are natural numbers given out in order ([nextHandle]); a
    draw fails with [INVALID_OPERATION] when no program is in use, when the
    bound vertex array has no index buffer or too few indices, or when a
    sampler of the program reads the texture being rendered to; a uniform
    call fails for a location of another program.  An [Environment] says
    whether the browser has WebGL 2, which shader files load, which pairs of
    sources link (and with which active uniforms), and which framebuffers
    are complete.  On an environment that [loads], the browser has WebGL 2,
    the shader files load and link, and the scene program declares no
    sampler but [uTexture]; on one that is [working], every framebuffer
    can be completed as well.  The theorems say which of the two they
    assume.  [createFramebuffer] is modelled from its use: when it throws
    it leaves the context as it was.

    ** Not modelled

    Rasterisation, the shaders themselves, the contents of textures and the
    DOM are not modelled.  [init] is suspended once in the model, at the
    first [fetch] of [loadShaders]: the source awaits four files one after
    the other and assigns nothing between them, so an event between two of
    them does what it does before the first.  Of the listeners, only that
    of [resize] is modelled with what it leaves behind when it throws: it
    is the only one that throws in a state of an application that can
    render ([events_handled]).  Where another listener throws, the machine
    has no next state.  The listeners of a [failed] application read none
    of the fields that the failed [init] had assigned, and the model does
    not keep them.  The shaders are outside the sources: whether the
    clipping plane, the mirrored light and the eye position that the
    reflection pass uploads give the image of a mirror is not decided
    here, only that they are uploaded ([reflection_mirrors_scene]).  The
    browser's side of the pointer lock
    (when it grants, rejects and releases the lock) is an input of the
    model: the events of [handle].  shaders.js and framebuffer.js are imported by
    main.js but are not part of the sources; [createProceduralTexture] is
    imported and never called. *)

From Stdlib Require Import Reals Lra Psatz Bool.

#[global] Open Scope R_scope.

(** ** JavaScript's [Math] object, on real numbers *)

Module Math.

Definition PI : R := Rtrigo1.PI.
Definition min (a b : R) : R := Rmin a b.
Definition max (a b : R) : R := Rmax a b.
Definition sqrt (x : R) : R := R_sqrt.sqrt x.
Definition cos (x : R) : R := Rtrigo_def.cos x.
Definition sin (x : R) : R := Rtrigo_def.sin x.
Definition tan (x : R) : R := Rtrigo1.tan x.

(** [Math.round]: the nearest integer, a tie going up. *)
Definition round (x : R) : Z := Int_part (x + 0.5).

End Math.

(** ** Comparisons and truthiness *)

Declare Scope js_scope.
Delimit Scope js_scope with js.

(** [x > y] as the condition of an [if]. *)
Definition Rgtb (x y : R) : bool := if Rgt_dec x y then true else false.

(** [x >= y] as the condition of an [if]. *)
Definition Rgeb (x y : R) : bool := if Rge_dec x y then true else false.

Notation "x >? y" := (Rgtb x y) (at level 70, no associativity) : js_scope.
Notation "x >=? y" := (Rgeb x y) (at level 70, no associativity) : js_scope.

(** A possibly-undefined number is truthy when it is defined and not zero. *)
Definition truthy (a : option R) : bool :=
  match a with
  | Some x => if Req_dec_T x 0 then false else true
  | None => false
  end.

(** [a || b] where [a] may be undefined and [b] is a number. *)
Definition or_num (a : option R) (b : R) : R :=
  match a with
  | Some x => if truthy a then x else b
  | None => b
  end.

Notation "a ||: b" := (or_num a b) (at level 60, right associativity) : js_scope.

#[global] Open Scope js_scope.

(** ** Automation *)

Create HintDb js discriminated.
Create Rewrite HintDb js.

(** Unfold the [Math] wrappers so the Standard Library's lemmas apply. *)
Ltac math_unfold :=
  unfold Math.min, Math.max, Math.sqrt, Math.cos, Math.sin, Math.tan, Math.PI in *.

(** Case analysis on every [Math.min] and [Math.max] in sight. *)
Ltac minmax :=
  math_unfold; unfold Rmin, Rmax in *; repeat destruct Rle_dec; try lra.

Lemma Rgtb_spec (x y : R) : reflect (x > y) (x >? y).
Proof. unfold Rgtb. destruct (Rgt_dec x y); constructor; assumption. Qed.

Lemma Rgeb_spec (x y : R) : reflect (x >= y) (x >=? y).
Proof. unfold Rgeb. destruct (Rge_dec x y); constructor; assumption. Qed.

Lemma Rgtb_true (x y : R) : x > y -> (x >? y) = true.
Proof. intros H. destruct (Rgtb_spec x y); [reflexivity | contradiction]. Qed.

Lemma Rgtb_false (x y : R) : x <= y -> (x >? y) = false.
Proof. intros H. destruct (Rgtb_spec x y); [lra | reflexivity]. Qed.

Lemma Rgeb_true (x y : R) : x >= y -> (x >=? y) = true.
Proof. intros H. destruct (Rgeb_spec x y); [reflexivity | contradiction]. Qed.

Lemma Rgeb_false (x y : R) : x < y -> (x >=? y) = false.
Proof. intros H. destruct (Rgeb_spec x y); [lra | reflexivity]. Qed.

(** Case analysis on every comparison of the source in the goal. *)
Ltac cmp_cases :=
  repeat match goal with
    | |- context [Rgtb ?a ?b] => destruct (Rgtb_spec a b)
    | |- context [Rgeb ?a ?b] => destruct (Rgeb_spec a b)
    end.

(** ** [Math.max(lo, Math.min(hi, x))]: the clamp idiom of the source *)

Lemma max_min_range (lo hi x : R) :
  lo <= hi -> lo <= Math.max lo (Math.min hi x) <= hi.
Proof. intros H. minmax. Qed.

Lemma max_min_id (lo hi x : R) :
  lo <= x <= hi -> Math.max lo (Math.min hi x) = x.
Proof. intros H. minmax. Qed.

Lemma max_min_low (lo hi x : R) :
  lo <= hi -> x <= lo -> Math.max lo (Math.min hi x) = lo.
Proof. intros H1 H2. minmax. Qed.

Lemma max_min_high (lo hi x : R) :
  lo <= hi -> hi <= x -> Math.max lo (Math.min hi x) = hi.
Proof. intros H1 H2. minmax. Qed.

Lemma min_cap (cap x : R) : cap <= x -> Math.min x cap = cap.
Proof. intros H. minmax. Qed.

Lemma min_under (cap x : R) : x <= cap -> Math.min x cap = x.
Proof. intros H. minmax. Qed.

#[export] Hint Resolve max_min_range : js.
#[export] Hint Rewrite max_min_id max_min_low max_min_high using lra : js.

(** ** Possibly-undefined numbers *)

Lemma truthy_Some (x : R) : truthy (Some x) = true <-> x <> 0.
Proof.
  unfold truthy. destruct (Req_dec_T x 0); split; congruence.
Qed.

Lemma or_num_undefined (b : R) : None ||: b = b.
Proof. reflexivity. Qed.

Lemma or_num_zero (b : R) : Some 0 ||: b = b.
Proof.
  unfold or_num, truthy. destruct (Req_dec_T 0 0); [reflexivity | lra].
Qed.

Lemma or_num_nonzero (x b : R) : x <> 0 -> Some x ||: b = x.
Proof.
  intros H. unfold or_num, truthy. destruct (Req_dec_T x 0); [contradiction | reflexivity].
Qed.

(** With the fallbacks undefined or zero the chain yields the first field,
    zero included. *)
Lemma or_num_standard (x : R) : Some x ||: 0 = x.
Proof.
  destruct (Req_dec_T x 0) as [-> | H]; [apply or_num_zero | now apply or_num_nonzero].
Qed.

#[export] Hint Rewrite or_num_undefined or_num_zero or_num_standard : js.

(** ** Rounding *)

Lemma round_spec (x : R) :
  IZR (Math.round x) - 0.5 <= x < IZR (Math.round x) + 0.5.
Proof.
  unfold Math.round, Int_part. rewrite minus_IZR.
  destruct (archimed (x + 0.5)). lra.
Qed.

Lemma round_unique (x : R) (n : Z) :
  IZR n - 0.5 <= x < IZR n + 0.5 -> Math.round x = n.
Proof.
  intros H. pose proof (round_spec x) as Hr.
  assert (IZR (Math.round x - n) < 1) as H0 by (rewrite minus_IZR; lra).
  assert (-1 < IZR (Math.round x - n)) as H1 by (rewrite minus_IZR; lra).
  apply lt_IZR in H0, H1. lia.
Qed.

Lemma round_IZR (n : Z) : Math.round (IZR n) = n.
Proof. apply round_unique. lra. Qed.

(** ** Squares, square roots and norms *)

Lemma sumsq3_nonneg (a b c : R) : 0 <= a ^ 2 + b ^ 2 + c ^ 2.
Proof. nra. Qed.

Lemma sqrt_sumsq3_sq (a b c : R) :
  Math.sqrt (a ^ 2 + b ^ 2 + c ^ 2) * Math.sqrt (a ^ 2 + b ^ 2 + c ^ 2)
  = a ^ 2 + b ^ 2 + c ^ 2.
Proof. math_unfold. apply sqrt_sqrt, sumsq3_nonneg. Qed.

Lemma sqrt_unit (x : R) : x = 1 -> Math.sqrt x = 1.
Proof. intros ->. math_unfold. apply sqrt_1. Qed.

Lemma sqrt_square_nonneg (x : R) : 0 <= x -> Math.sqrt (x ^ 2) = x.
Proof. intros H. math_unfold. now apply sqrt_pow2. Qed.

#[export] Hint Resolve sumsq3_nonneg : js.

(** ** Trigonometry in degrees *)

Lemma PI_bounds : 3 < Math.PI <= 4.
Proof. math_unfold. split; [pose proof PI2_3_2; lra | exact PI_4]. Qed.

Lemma sin2_cos2_pow (x : R) : Math.sin x ^ 2 + Math.cos x ^ 2 = 1.
Proof. math_unfold. pose proof (sin2_cos2 x) as H. unfold Rsqr in H. lra. Qed.

Lemma sin_cubic_lb (a : R) : 0 <= a <= PI -> a - a ^ 3 / 6 <= sin a.
Proof.
  intros [H0 H1]. destruct (sin_bound a 0 H0 H1) as [Hlb _].
  unfold sin_approx, sin_term in Hlb. cbn in Hlb. lra.
Qed.

Lemma sin_1deg_lb : 1 / 100 < sin (PI / 180).
Proof.
  pose proof PI_bounds as [Hl Hu]. math_unfold.
  pose proof (sin_cubic_lb (PI / 180)) as H.
  assert (Hc : (PI / 180) ^ 3 <= (4 / 180) ^ 3) by (apply pow_incr; lra).
  lra.
Qed.

(** The cosine of an angle of at most 89 degrees is bounded away from 0. *)
Lemma cos_deg_lb (p : R) : -89 <= p <= 89 -> 1 / 100 < Math.cos (p * Math.PI / 180).
Proof.
  intros Hp. pose proof PI_bounds as [Hl Hu]. math_unfold.
  apply Rlt_le_trans with (1 := sin_1deg_lb).
  replace (sin (PI / 180)) with (cos (89 * PI / 180))
    by (rewrite <- cos_shift; f_equal; lra).
  destruct (Rle_dec 0 p).
  - apply cos_decr_1; nra.
  - rewrite <- (cos_neg (p * PI / 180)). apply cos_decr_1; nra.
Qed.

Lemma tan_fov_pos : 0 < Math.tan (45 * Math.PI / 180 / 2).
Proof.
  pose proof PI_bounds as [Hl Hu]. math_unfold. apply tan_gt_0; lra.
Qed.

#[export] Hint Resolve tan_fov_pos : js.
#[export] Hint Rewrite sin2_cos2_pow : js.
