(* ===== verification/Lists.v ===== *)
(** * Lists: loops that push onto arrays

    The sources build arrays with [for] loops that [push] a fixed number of
    elements per iteration (src/js/geometry.js).  Such a loop is a
    [fold_left] whose accumulator grows by [++]; this file relates it to
    [flat_map] and gives the length and the element at a position of the
    result, for loops over [seq] and for two nested loops.  [forLoop] is
    the [for] statement itself, one test of its condition after the other,
    with a bound on the number of tests; a loop that counts up ends, and
    is the fold over the values of its counter. *)

From Stdlib Require Import List Arith Lia.
Import ListNotations.

(** The elements pushed by the iterations [a, a+1, ..., a+n-1] of a loop
    whose iteration [i] pushes [f i]. *)
Definition pushes {A : Type} (f : nat -> list A) (a n : nat) : list A :=
  flat_map f (seq a n).

(** The groups of three consecutive elements of an array, as [drawElements]
    in [TRIANGLES] mode reads an index buffer; an incomplete group at the
    end is dropped. *)
Fixpoint triples {A : Type} (l : list A) : list (A * A * A) :=
  match l with
  | a :: b :: c :: rest => (a, b, c) :: triples rest
  | _ => []
  end.

(** [for (let i = from; cond(i); i++) body]: the loop as the source runs
    it, one test of the condition after the other; [fuel] bounds the number
    of tests, and the loop has no value when the bound is reached.  The
    body has no value when a loop inside it has none. *)
Fixpoint forLoop {S : Type} (fuel : nat) (cond : nat -> bool) (i : nat)
  (body : nat -> S -> option S) (s : S) : option S :=
  match fuel with
  | O => None
  | Datatypes.S fuel =>
      if cond i then
        match body i s with
        | Some s => forLoop fuel cond (Datatypes.S i) body s
        | None => None
        end
      else Some s
  end.

Section Push.

Context {A : Type}.
Implicit Types (f : nat -> list A) (l acc : list A).

Lemma fold_left_push {B : Type} (g : B -> list A) (xs : list B) acc :
  fold_left (fun acc x => acc ++ g x) xs acc = acc ++ flat_map g xs.
Proof.
  revert acc; induction xs as [|x xs IH]; intros acc; cbn.
  - now rewrite app_nil_r.
  - now rewrite IH, app_assoc.
Qed.

Lemma fold_left_ext {B C : Type} (g h : C -> B -> C) (xs : list B) (c : C) :
  (forall c x, g c x = h c x) -> fold_left g xs c = fold_left h xs c.
Proof.
  intros E; revert c; induction xs as [|x xs IH]; intros c; cbn; [easy|].
  now rewrite E, IH.
Qed.

(** Two nested loops whose body pushes [g x y] onto the array. *)
Lemma fold_left_grid {B1 B2 : Type} (step : list A -> B1 -> B2 -> list A)
  (g : B1 -> B2 -> list A) (xs : list B1) (ys : list B2) acc :
  (forall acc x y, step acc x y = acc ++ g x y) ->
  fold_left (fun acc x => fold_left (fun acc y => step acc x y) ys acc) xs acc
  = acc ++ flat_map (fun x => flat_map (g x) ys) xs.
Proof.
  intros E. revert acc; induction xs as [|x xs IH]; intros acc; cbn.
  - now rewrite app_nil_r.
  - rewrite IH. rewrite (fold_left_ext _ (fun acc y => acc ++ g x y)) by (intros; apply E).
    now rewrite fold_left_push, app_assoc.
Qed.

(** The same for a body that pushes onto three arrays at once. *)
Lemma fold_left_push3 {B C D : Type}
  (step : list A * list C * list D -> B -> list A * list C * list D)
  (g : B -> list A) (h : B -> list C) (k : B -> list D) (xs : list B) arrays :
  (forall a c d x, step (a, c, d) x = (a ++ g x, c ++ h x, d ++ k x)) ->
  fold_left step xs arrays
  = (fst (fst arrays) ++ flat_map g xs, snd (fst arrays) ++ flat_map h xs,
     snd arrays ++ flat_map k xs).
Proof.
  intros E. revert arrays; induction xs as [|x xs IH]; intros [[a c] d]; cbn.
  - now rewrite !app_nil_r.
  - now rewrite IH, E, !app_assoc.
Qed.

Lemma fold_left_grid3 {B1 B2 C D : Type}
  (step : list A * list C * list D -> B1 -> B2 -> list A * list C * list D)
  (g : B1 -> B2 -> list A) (h : B1 -> B2 -> list C) (k : B1 -> B2 -> list D)
  (xs : list B1) (ys : list B2) arrays :
  (forall a c d x y, step (a, c, d) x y = (a ++ g x y, c ++ h x y, d ++ k x y)) ->
  fold_left (fun arrays x => fold_left (fun arrays y => step arrays x y) ys arrays)
    xs arrays
  = (fst (fst arrays) ++ flat_map (fun x => flat_map (g x) ys) xs,
     snd (fst arrays) ++ flat_map (fun x => flat_map (h x) ys) xs,
     snd arrays ++ flat_map (fun x => flat_map (k x) ys) xs).
Proof.
  intros E.
  apply (fold_left_push3 _ (fun x => flat_map (g x) ys) (fun x => flat_map (h x) ys)
           (fun x => flat_map (k x) ys)).
  intros a c d x.
  now rewrite (fold_left_push3 _ (g x) (h x) (k x)) by (intros; apply E).
Qed.

Lemma pushes_S f a n : pushes f a (S n) = f a ++ pushes f (S a) n.
Proof. reflexivity. Qed.

Lemma pushes_length f a n c :
  (forall i, length (f i) = c) -> length (pushes f a n) = n * c.
Proof.
  intros Hc; revert a; induction n as [|n IH]; intros a; [easy|].
  rewrite pushes_S, length_app, Hc, IH. lia.
Qed.

(** Element [j] of the chunk pushed by iteration [a + i]. *)
Lemma pushes_nth f a n c i j :
  (forall i, length (f i) = c) -> i < n -> j < c ->
  nth_error (pushes f a n) (i * c + j) = nth_error (f (a + i)) j.
Proof.
  intros Hc; revert a i; induction n as [|n IH]; intros a i Hi Hj; [lia|].
  rewrite pushes_S. destruct i as [|i].
  - rewrite nth_error_app1 by (rewrite Hc; lia). now rewrite Nat.add_0_r.
  - rewrite nth_error_app2 by (rewrite Hc; lia).
    rewrite Hc. replace (S i * c + j - c) with (i * c + j) by lia.
    rewrite IH by lia. f_equal. f_equal. lia.
Qed.

Lemma pushes_Forall (P : A -> Prop) f a n :
  (forall i, a <= i < a + n -> Forall P (f i)) -> Forall P (pushes f a n).
Proof.
  intros H. apply Forall_flat_map, Forall_forall.
  intros i Hi%in_seq. now apply H.
Qed.

Lemma pushes_ext f g a n :
  (forall i, a <= i < a + n -> f i = g i) -> pushes f a n = pushes g a n.
Proof.
  revert a; induction n as [|n IH]; intros a H; [easy|].
  rewrite !pushes_S, H by lia. f_equal. apply IH. intros i Hi. apply H. lia.
Qed.

(** Two nested loops: the outer runs [rows] times, the inner [cols] times,
    and the body of iteration [(r, k)] pushes [f r k]. *)
Lemma grid_length (f : nat -> nat -> list A) rows cols c :
  (forall r k, length (f r k) = c) ->
  length (pushes (fun r => pushes (f r) 0 cols) 0 rows) = rows * (cols * c).
Proof.
  intros Hc. apply pushes_length. intros r. now apply pushes_length.
Qed.

Lemma grid_nth (f : nat -> nat -> list A) rows cols c r k j :
  (forall r k, length (f r k) = c) -> r < rows -> k < cols -> j < c ->
  nth_error (pushes (fun r => pushes (f r) 0 cols) 0 rows) (c * (r * cols + k) + j)
  = nth_error (f r k) j.
Proof.
  intros Hc Hr Hk Hj.
  replace (c * (r * cols + k) + j) with (r * (cols * c) + (k * c + j)) by lia.
  rewrite (pushes_nth _ 0 rows (cols * c)); [| |easy|].
  - cbn [Nat.add]. now rewrite (pushes_nth _ 0 cols c).
  - intros i. now apply pushes_length.
  - assert (k * c + j < k * c + c) by lia. nia.
Qed.

Lemma grid_Forall (P : A -> Prop) (f : nat -> nat -> list A) rows cols :
  (forall r k, r < rows -> k < cols -> Forall P (f r k)) ->
  Forall P (pushes (fun r => pushes (f r) 0 cols) 0 rows).
Proof.
  intros H. apply pushes_Forall. intros r Hr. apply pushes_Forall.
  intros k Hk. apply H; lia.
Qed.

End Push.

(** ** Triples *)

Lemma triples_app3 {A : Type} (a b c : A) (l : list A) :
  triples ([a; b; c] ++ l) = (a, b, c) :: triples l.
Proof. reflexivity. Qed.

Lemma triples_Forall {A : Type} (P : A -> Prop) (l : list A) :
  Forall P l ->
  Forall (fun t => P (fst (fst t)) /\ P (snd (fst t)) /\ P (snd t)) (triples l).
Proof.
  revert l. fix IH 2. intros l H.
  destruct H as [|a l Ha [|b l' Hb [|c l'' Hc H]]]; cbn; try constructor; auto.
Qed.

(** ** Loops with a counter *)

Section ForLoop.

Context {S : Type}.
Variables (body : nat -> S -> option S) (f : S -> nat -> S).
Hypothesis Hbody : forall i s, body i s = Some (f s i).

(** A loop that counts from [i] up to [n], [n] excluded, ends after
    [n - i + 1] tests of its condition, with the fold of its body over the
    values of the counter. *)
Lemma forLoop_lt (n fuel i : nat) (s : S) :
  n - i < fuel ->
  forLoop fuel (fun i => i <? n) i body s = Some (fold_left f (seq i (n - i)) s).
Proof.
  revert i s. induction fuel as [|fuel IH]; intros i s H; [lia|]. cbn [forLoop].
  destruct (Nat.ltb_spec i n) as [Hi|Hi].
  - rewrite Hbody, IH by lia. replace (n - i) with (Datatypes.S (n - Datatypes.S i)) by lia.
    reflexivity.
  - now replace (n - i) with 0 by lia.
Qed.

(** The same with [n] included. *)
Lemma forLoop_le (n fuel i : nat) (s : S) :
  Datatypes.S n - i < fuel ->
  forLoop fuel (fun i => i <=? n) i body s
  = Some (fold_left f (seq i (Datatypes.S n - i)) s).
Proof.
  revert i s. induction fuel as [|fuel IH]; intros i s H; [lia|]. cbn [forLoop].
  destruct (Nat.leb_spec i n) as [Hi|Hi].
  - rewrite Hbody, IH by lia.
    replace (Datatypes.S n - i) with (Datatypes.S (Datatypes.S n - Datatypes.S i)) by lia.
    reflexivity.
  - now replace (Datatypes.S n - i) with 0 by lia.
Qed.

Lemma forLoop_lt0 (n fuel : nat) (s : S) :
  n < fuel -> forLoop fuel (fun i => i <? n) 0 body s = Some (fold_left f (seq 0 n) s).
Proof. intros H. rewrite (forLoop_lt n) by lia. now rewrite Nat.sub_0_r. Qed.

Lemma forLoop_le0 (n fuel : nat) (s : S) :
  Datatypes.S n < fuel ->
  forLoop fuel (fun i => i <=? n) 0 body s = Some (fold_left f (seq 0 (Datatypes.S n)) s).
Proof. intros H. now rewrite (forLoop_le n) by lia. Qed.

End ForLoop.

(** A loop whose condition holds at every test that is made has not ended
    when the tests run out. *)
Lemma forLoop_out_of_fuel {S : Type} (cond : nat -> bool) (body : nat -> S -> option S)
  (fuel i : nat) (s : S) :
  (forall j, i <= j < i + fuel -> cond j = true) -> forLoop fuel cond i body s = None.
Proof.
  revert i s. induction fuel as [|fuel IH]; intros i s H; [reflexivity|]. cbn [forLoop].
  rewrite H by lia. destruct (body i s) as [s'|]; [|reflexivity]. apply IH. intros j Hj.
  apply H. lia.
Qed.
