(* ===== verification/MatrixMath.v ===== *)
(** * MatrixMath: vectors, 4x4 matrices and the constructions the viewer inlines

    [Vec3], [Vec4] and [Mat4] model the [Float32Array]s of 3, 4 and 16
    numbers of the sources, read with [a.[i]] as the code reads [a[i]].  A
    matrix is stored column-major, as WebGL expects: entry [4 * c + r] is
    row [r] of column [c].

    [multiplyMatrices] is the method of main.js, written entry by entry as
    there.  [normalize], [cross], [lookAt] and [perspective] are the
    constructions that camera.js and main.js write out inline; the files
    [Camera] and [Reflection] transcribe the inlined code and prove it equal
    to these.  [apply] gives a matrix its meaning as a map on column
    vectors, against which the product and the look-at matrix are
    specified. *)

From Stdlib Require Import Reals Lra Psatz Bool RNsatz.
From S2P Require Import Prelude.

(** ** Typed arrays *)

Record Vec3 : Type := vec3 { v3_0 : R; v3_1 : R; v3_2 : R }.

Record Vec4 : Type := vec4 { v4_0 : R; v4_1 : R; v4_2 : R; v4_3 : R }.

Record Mat4 : Type := mat4 {
  m_0 : R; m_1 : R; m_2 : R; m_3 : R;
  m_4 : R; m_5 : R; m_6 : R; m_7 : R;
  m_8 : R; m_9 : R; m_10 : R; m_11 : R;
  m_12 : R; m_13 : R; m_14 : R; m_15 : R }.

(** Reading an element of a typed array by its index. *)
Class Indexed (A : Type) := index : A -> nat -> R.

#[export] Instance Vec3_Indexed : Indexed Vec3 := fun v i =>
  match i with
  | 0%nat => v3_0 v | 1%nat => v3_1 v | 2%nat => v3_2 v
  | _ => 0
  end.

#[export] Instance Vec4_Indexed : Indexed Vec4 := fun v i =>
  match i with
  | 0%nat => v4_0 v | 1%nat => v4_1 v | 2%nat => v4_2 v | 3%nat => v4_3 v
  | _ => 0
  end.

#[export] Instance Mat4_Indexed : Indexed Mat4 := fun m i =>
  match i with
  | 0%nat => m_0 m | 1%nat => m_1 m | 2%nat => m_2 m | 3%nat => m_3 m
  | 4%nat => m_4 m | 5%nat => m_5 m | 6%nat => m_6 m | 7%nat => m_7 m
  | 8%nat => m_8 m | 9%nat => m_9 m | 10%nat => m_10 m | 11%nat => m_11 m
  | 12%nat => m_12 m | 13%nat => m_13 m | 14%nat => m_14 m | 15%nat => m_15 m
  | _ => 0
  end.

Notation "a .[ i ]" := (index a i%nat) (at level 1, left associativity, format "a .[ i ]") : js_scope.

(** ** Vector operations *)

Definition vadd (a b : Vec3) : Vec3 :=
  vec3 (a.[0] + b.[0]) (a.[1] + b.[1]) (a.[2] + b.[2]).

Definition vsub (a b : Vec3) : Vec3 :=
  vec3 (a.[0] - b.[0]) (a.[1] - b.[1]) (a.[2] - b.[2]).

Definition vscale (k : R) (a : Vec3) : Vec3 :=
  vec3 (k * a.[0]) (k * a.[1]) (k * a.[2]).

Definition vneg (a : Vec3) : Vec3 := vec3 (- a.[0]) (- a.[1]) (- a.[2]).

Definition dot (a b : Vec3) : R := a.[0] * b.[0] + a.[1] * b.[1] + a.[2] * b.[2].

Definition cross (a b : Vec3) : Vec3 :=
  vec3 (a.[1] * b.[2] - a.[2] * b.[1])
       (a.[2] * b.[0] - a.[0] * b.[2])
       (a.[0] * b.[1] - a.[1] * b.[0]).

Definition norm (a : Vec3) : R := Math.sqrt (a.[0] ^ 2 + a.[1] ^ 2 + a.[2] ^ 2).

(** Division by the length, skipped when the length is at most 0.0001. *)
Definition normalize (a : Vec3) : Vec3 :=
  let len := Math.sqrt (a.[0] ^ 2 + a.[1] ^ 2 + a.[2] ^ 2) in
  if len >? 0.0001 then vec3 (a.[0] / len) (a.[1] / len) (a.[2] / len) else a.

(** ** Matrices *)

Definition identity : Mat4 :=
  mat4 1 0 0 0
       0 1 0 0
       0 0 1 0
       0 0 0 1.

(** The matrix as a map on column vectors. *)
Definition apply (m : Mat4) (v : Vec4) : Vec4 :=
  vec4 (m.[0] * v.[0] + m.[4] * v.[1] + m.[8] * v.[2] + m.[12] * v.[3])
       (m.[1] * v.[0] + m.[5] * v.[1] + m.[9] * v.[2] + m.[13] * v.[3])
       (m.[2] * v.[0] + m.[6] * v.[1] + m.[10] * v.[2] + m.[14] * v.[3])
       (m.[3] * v.[0] + m.[7] * v.[1] + m.[11] * v.[2] + m.[15] * v.[3]).

(** A point of space as a homogeneous vector, and a direction. *)
Definition point (p : Vec3) : Vec4 := vec4 p.[0] p.[1] p.[2] 1.

Definition direction (d : Vec3) : Vec4 := vec4 d.[0] d.[1] d.[2] 0.

(** [multiplyMatrices(a, b)] of main.js. *)
Definition multiplyMatrices (a b : Mat4) : Mat4 :=
  let a00 := a.[0] in let a01 := a.[1] in let a02 := a.[2] in let a03 := a.[3] in
  let a10 := a.[4] in let a11 := a.[5] in let a12 := a.[6] in let a13 := a.[7] in
  let a20 := a.[8] in let a21 := a.[9] in let a22 := a.[10] in let a23 := a.[11] in
  let a30 := a.[12] in let a31 := a.[13] in let a32 := a.[14] in let a33 := a.[15] in
  let b00 := b.[0] in let b01 := b.[1] in let b02 := b.[2] in let b03 := b.[3] in
  let b10 := b.[4] in let b11 := b.[5] in let b12 := b.[6] in let b13 := b.[7] in
  let b20 := b.[8] in let b21 := b.[9] in let b22 := b.[10] in let b23 := b.[11] in
  let b30 := b.[12] in let b31 := b.[13] in let b32 := b.[14] in let b33 := b.[15] in
  mat4
    (a00 * b00 + a10 * b01 + a20 * b02 + a30 * b03)
    (a01 * b00 + a11 * b01 + a21 * b02 + a31 * b03)
    (a02 * b00 + a12 * b01 + a22 * b02 + a32 * b03)
    (a03 * b00 + a13 * b01 + a23 * b02 + a33 * b03)
    (a00 * b10 + a10 * b11 + a20 * b12 + a30 * b13)
    (a01 * b10 + a11 * b11 + a21 * b12 + a31 * b13)
    (a02 * b10 + a12 * b11 + a22 * b12 + a32 * b13)
    (a03 * b10 + a13 * b11 + a23 * b12 + a33 * b13)
    (a00 * b20 + a10 * b21 + a20 * b22 + a30 * b23)
    (a01 * b20 + a11 * b21 + a21 * b22 + a31 * b23)
    (a02 * b20 + a12 * b21 + a22 * b22 + a32 * b23)
    (a03 * b20 + a13 * b21 + a23 * b22 + a33 * b23)
    (a00 * b30 + a10 * b31 + a20 * b32 + a30 * b33)
    (a01 * b30 + a11 * b31 + a21 * b32 + a31 * b33)
    (a02 * b30 + a12 * b31 + a22 * b32 + a32 * b33)
    (a03 * b30 + a13 * b31 + a23 * b32 + a33 * b33).

(** The look-at construction: forward, side and up vectors of the camera
    frame, and the translation that brings the eye to the origin. *)
Definition lookAt (eye center up : Vec3) : Mat4 :=
  let f := normalize (vsub center eye) in
  let s := normalize (cross f up) in
  let u := cross s f in
  mat4 s.[0] u.[0] (- f.[0]) 0
       s.[1] u.[1] (- f.[1]) 0
       s.[2] u.[2] (- f.[2]) 0
       (- (s.[0] * eye.[0] + s.[1] * eye.[1] + s.[2] * eye.[2]))
       (- (u.[0] * eye.[0] + u.[1] * eye.[1] + u.[2] * eye.[2]))
       (f.[0] * eye.[0] + f.[1] * eye.[1] + f.[2] * eye.[2])
       1.

(** The perspective projection of vertical field of view [fov] (radians). *)
Definition perspective (fov aspect near far : R) : Mat4 :=
  let f := 1.0 / Math.tan (fov / 2) in
  mat4 (f / aspect) 0 0 0
       0 f 0 0
       0 0 ((far + near) / (near - far)) (-1)
       0 0 ((2 * far * near) / (near - far)) 0.

(** The world up direction used by both look-at computations. *)
Definition worldUp : Vec3 := vec3 0 1 0.

(** The frame of a look-at matrix is usable when neither normalisation was
    skipped. *)
Definition nondegenerate (eye center up : Vec3) : Prop :=
  norm (vsub center eye) > 0.0001 /\
  norm (cross (normalize (vsub center eye)) up) > 0.0001.

(** Row [r] of the upper-left 3x3 block: for a view matrix, one axis of the
    camera frame in world coordinates. *)
Definition row (m : Mat4) (r : nat) : Vec3 :=
  match r with
  | 0%nat => vec3 m.[0] m.[4] m.[8]
  | 1%nat => vec3 m.[1] m.[5] m.[9]
  | _ => vec3 m.[2] m.[6] m.[10]
  end.

(** The three axes are unit vectors and pairwise perpendicular. *)
Definition orthonormal (m : Mat4) : Prop :=
  dot (row m 0) (row m 0) = 1 /\ dot (row m 1) (row m 1) = 1 /\
  dot (row m 2) (row m 2) = 1 /\ dot (row m 0) (row m 1) = 0 /\
  dot (row m 0) (row m 2) = 0 /\ dot (row m 1) (row m 2) = 0.

(** The last row is (0, 0, 0, 1): the matrix maps points to points. *)
Definition affine (m : Mat4) : Prop :=
  m.[3] = 0 /\ m.[7] = 0 /\ m.[11] = 0 /\ m.[15] = 1.

(** The first three components of a homogeneous vector. *)
Definition xyz (v : Vec4) : Vec3 := vec3 v.[0] v.[1] v.[2].

(** ** Automation for array equalities *)

Ltac vec_unfold :=
  unfold vadd, vsub, vscale, vneg, dot, cross, point, direction, worldUp, xyz in *.

Ltac index_simpl := cbn [index Vec3_Indexed Vec4_Indexed Mat4_Indexed
  v3_0 v3_1 v3_2 v4_0 v4_1 v4_2 v4_3
  m_0 m_1 m_2 m_3 m_4 m_5 m_6 m_7 m_8 m_9 m_10 m_11 m_12 m_13 m_14 m_15] in *.

Lemma vec3_eta (v : Vec3) : vec3 v.[0] v.[1] v.[2] = v.
Proof. now destruct v. Qed.

Lemma vec3_ext (a b : Vec3) :
  a.[0] = b.[0] -> a.[1] = b.[1] -> a.[2] = b.[2] -> a = b.
Proof. destruct a, b; index_simpl; congruence. Qed.

Lemma vec4_ext (a b : Vec4) :
  a.[0] = b.[0] -> a.[1] = b.[1] -> a.[2] = b.[2] -> a.[3] = b.[3] -> a = b.
Proof. destruct a, b; index_simpl; congruence. Qed.

Lemma mat4_ext (a b : Mat4) :
  a.[0] = b.[0] -> a.[1] = b.[1] -> a.[2] = b.[2] -> a.[3] = b.[3] ->
  a.[4] = b.[4] -> a.[5] = b.[5] -> a.[6] = b.[6] -> a.[7] = b.[7] ->
  a.[8] = b.[8] -> a.[9] = b.[9] -> a.[10] = b.[10] -> a.[11] = b.[11] ->
  a.[12] = b.[12] -> a.[13] = b.[13] -> a.[14] = b.[14] -> a.[15] = b.[15] ->
  a = b.
Proof. destruct a, b; index_simpl; intros; subst; reflexivity. Qed.

Lemma vec3_eq (a0 a1 a2 b0 b1 b2 : R) :
  a0 = b0 -> a1 = b1 -> a2 = b2 -> vec3 a0 a1 a2 = vec3 b0 b1 b2.
Proof. now intros -> -> ->. Qed.

Lemma mat4_eq (a0 a1 a2 a3 a4 a5 a6 a7 a8 a9 a10 a11 a12 a13 a14 a15
                b0 b1 b2 b3 b4 b5 b6 b7 b8 b9 b10 b11 b12 b13 b14 b15 : R) :
  a0 = b0 -> a1 = b1 -> a2 = b2 -> a3 = b3 -> a4 = b4 -> a5 = b5 -> a6 = b6 ->
  a7 = b7 -> a8 = b8 -> a9 = b9 -> a10 = b10 -> a11 = b11 -> a12 = b12 ->
  a13 = b13 -> a14 = b14 -> a15 = b15 ->
  mat4 a0 a1 a2 a3 a4 a5 a6 a7 a8 a9 a10 a11 a12 a13 a14 a15
  = mat4 b0 b1 b2 b3 b4 b5 b6 b7 b8 b9 b10 b11 b12 b13 b14 b15.
Proof. intros. subst. reflexivity. Qed.

(** Reduce array expressions built from constructors to their components. *)
Ltac array_cbv :=
  cbv [apply xyz point direction vadd vsub vscale vneg cross dot worldUp
       index Vec3_Indexed Vec4_Indexed Mat4_Indexed
       v3_0 v3_1 v3_2 v4_0 v4_1 v4_2 v4_3
       m_0 m_1 m_2 m_3 m_4 m_5 m_6 m_7 m_8 m_9 m_10 m_11 m_12 m_13 m_14 m_15].

(** Two arrays with equal components are equal: reduce to the components. *)
Ltac array_ext :=
  first [apply vec3_ext | apply vec4_ext | apply mat4_ext];
  vec_unfold; index_simpl.

Ltac array_eq := array_ext; try ring; try lra; try nra.

(** ** Vector algebra *)

Lemma norm_sq (a : Vec3) : norm a * norm a = dot a a.
Proof. unfold norm, dot. rewrite sqrt_sumsq3_sq. ring. Qed.

Lemma norm_nonneg (a : Vec3) : 0 <= norm a.
Proof. unfold norm, Math.sqrt. apply sqrt_pos. Qed.

Lemma norm_unit_iff (a : Vec3) : norm a = 1 <-> dot a a = 1.
Proof.
  split; intros H.
  - rewrite <- norm_sq, H. lra.
  - pose proof (norm_sq a) as Hs. pose proof (norm_nonneg a). nra.
Qed.

Lemma norm_vneg (a : Vec3) : norm (vneg a) = norm a.
Proof. unfold norm. vec_unfold. index_simpl. apply (f_equal Math.sqrt). ring. Qed.

Lemma cross_orthogonal_l (a b : Vec3) : dot (cross a b) a = 0.
Proof. vec_unfold; index_simpl; ring. Qed.

Lemma cross_orthogonal_r (a b : Vec3) : dot (cross a b) b = 0.
Proof. vec_unfold; index_simpl; ring. Qed.

Lemma cross_anticomm (a b : Vec3) : cross a b = vneg (cross b a).
Proof. array_eq. Qed.

(** Lagrange's identity. *)
Lemma cross_norm_sq (a b : Vec3) :
  dot (cross a b) (cross a b) = dot a a * dot b b - dot a b * dot a b.
Proof. vec_unfold; index_simpl; ring. Qed.

Lemma dot_comm (a b : Vec3) : dot a b = dot b a.
Proof. vec_unfold; ring. Qed.

(** ** Normalisation *)

Lemma normalize_degenerate (a : Vec3) : norm a <= 0.0001 -> normalize a = a.
Proof. intros H. unfold normalize. fold (norm a). now rewrite Rgtb_false. Qed.

Lemma normalize_regular (a : Vec3) :
  norm a > 0.0001 -> normalize a = vscale (/ norm a) a.
Proof.
  intros H. unfold normalize. fold (norm a). rewrite Rgtb_true by assumption.
  array_eq.
Qed.

Lemma normalize_dot (a : Vec3) : norm a > 0.0001 -> dot (normalize a) (normalize a) = 1.
Proof.
  intros H. rewrite normalize_regular by assumption.
  pose proof (norm_sq a) as Hs. vec_unfold. index_simpl.
  replace (_ + _ + _)
    with (/ norm a * / norm a * (v3_0 a * v3_0 a + v3_1 a * v3_1 a + v3_2 a * v3_2 a))
    by ring.
  rewrite <- Hs. field. lra.
Qed.

Lemma normalize_unit (a : Vec3) : norm a > 0.0001 -> norm (normalize a) = 1.
Proof. intros H. apply norm_unit_iff, normalize_dot, H. Qed.

Lemma normalize_of_unit (a : Vec3) : norm a = 1 -> normalize a = a.
Proof.
  intros H. rewrite normalize_regular by lra. rewrite H.
  apply vec3_ext; vec_unfold; index_simpl; lra.
Qed.

Lemma normalize_dot_l (a b : Vec3) :
  norm a > 0.0001 -> dot (normalize a) b = dot a b / norm a.
Proof.
  intros H. rewrite normalize_regular by assumption.
  vec_unfold. index_simpl. field. lra.
Qed.

(** ** The product *)

Lemma multiplyMatrices_apply (a b : Mat4) (v : Vec4) :
  apply (multiplyMatrices a b) v = apply a (apply b v).
Proof. unfold multiplyMatrices, apply. array_ext; ring. Qed.

Lemma multiplyMatrices_identity_l (m : Mat4) : multiplyMatrices identity m = m.
Proof. unfold multiplyMatrices, identity. array_ext; ring. Qed.

Lemma multiplyMatrices_identity_r (m : Mat4) : multiplyMatrices m identity = m.
Proof. unfold multiplyMatrices, identity. array_ext; ring. Qed.

Lemma multiplyMatrices_assoc (a b c : Mat4) :
  multiplyMatrices (multiplyMatrices a b) c = multiplyMatrices a (multiplyMatrices b c).
Proof. unfold multiplyMatrices. array_ext; ring. Qed.

Lemma multiplyMatrices_affine (a b : Mat4) :
  affine a -> affine b -> affine (multiplyMatrices a b).
Proof.
  unfold affine, multiplyMatrices. index_simpl.
  intros (A3 & A7 & A11 & A15) (B3 & B7 & B11 & B15).
  rewrite A3, A7, A11, A15, B3, B7, B11, B15. repeat split; ring.
Qed.

(** ** Orthonormal frames *)

(** A unit vector [s] perpendicular to a unit vector [f], with their cross
    product, is an orthonormal frame. *)
Lemma frame_orthonormal (s f : Vec3) :
  dot s s = 1 -> dot f f = 1 -> dot s f = 0 ->
  dot (cross s f) (cross s f) = 1 /\ dot s (cross s f) = 0 /\ dot (cross s f) f = 0.
Proof.
  intros Hs Hf Hsf. rewrite cross_norm_sq, Hs, Hf, Hsf.
  rewrite (dot_comm s), cross_orthogonal_l, cross_orthogonal_r. repeat split; ring.
Qed.

(** Coordinates in an orthonormal frame [s], [s x f], [f] preserve the dot
    product. *)
Lemma frame_isometry (s f a b : Vec3) :
  dot s s = 1 -> dot f f = 1 -> dot s f = 0 ->
  dot s a * dot s b + dot (cross s f) a * dot (cross s f) b + dot f a * dot f b
  = dot a b.
Proof.
  destruct s, f, a, b. vec_unfold. index_simpl. intros Hs Hf Hsf. nsatz.
Qed.

Lemma orthonormal_neg_row2 (s u f : Vec3) (t0 t1 t2 : R) :
  dot s s = 1 -> dot u u = 1 -> dot f f = 1 ->
  dot s u = 0 -> dot s f = 0 -> dot u f = 0 ->
  orthonormal (mat4 s.[0] u.[0] (- f.[0]) 0 s.[1] u.[1] (- f.[1]) 0
                    s.[2] u.[2] (- f.[2]) 0 t0 t1 t2 1).
Proof.
  unfold orthonormal, row. vec_unfold. index_simpl. intros. repeat split; lra.
Qed.

(** ** The look-at matrix *)

Section LookAt.

Variables eye center up : Vec3.

Let f := normalize (vsub center eye).
Let s := normalize (cross f up).

(** The matrix is affine and sends the eye to the origin, degenerate or not. *)
Lemma lookAt_affine : affine (lookAt eye center up).
Proof. unfold affine, lookAt. index_simpl. repeat split; reflexivity. Qed.

Lemma lookAt_eye : apply (lookAt eye center up) (point eye) = vec4 0 0 0 1.
Proof. unfold lookAt, apply. array_ext; ring. Qed.

Hypothesis Hnd : nondegenerate eye center up.

Lemma lookAt_frame : dot s s = 1 /\ dot f f = 1 /\ dot s f = 0.
Proof.
  destruct Hnd as [Hf Hs]. fold f in Hs. repeat split.
  - now apply normalize_dot.
  - now apply normalize_dot.
  - unfold s. rewrite normalize_dot_l by assumption.
    rewrite cross_orthogonal_l. unfold Rdiv. ring.
Qed.

Lemma lookAt_orthonormal : orthonormal (lookAt eye center up).
Proof.
  destruct lookAt_frame as (Hs & Hf & Hsf).
  destruct (frame_orthonormal s f Hs Hf Hsf) as (Hu & Hsu & Huf).
  unfold lookAt. fold f. fold s. now apply orthonormal_neg_row2.
Qed.

(** Directions keep their dot products: the rotation part is an isometry. *)
Lemma lookAt_isometry (a b : Vec3) :
  dot (xyz (apply (lookAt eye center up) (direction a)))
      (xyz (apply (lookAt eye center up) (direction b))) = dot a b.
Proof.
  destruct lookAt_frame as (Hs & Hf & Hsf).
  rewrite <- (frame_isometry s f a b Hs Hf Hsf).
  unfold lookAt, apply. fold f. fold s. vec_unfold. index_simpl. ring.
Qed.

(** The target lies straight ahead, on the negative z axis of the eye frame. *)
Lemma lookAt_center :
  apply (lookAt eye center up) (point center)
  = vec4 0 0 (- norm (vsub center eye)) 1.
Proof.
  destruct lookAt_frame as (Hs & Hf & Hsf). destruct Hnd as [Hlen _].
  assert (Hc : vsub center eye = vscale (norm (vsub center eye)) f).
  { unfold f. rewrite normalize_regular by assumption.
    array_ext; field; lra. }
  pose proof (cross_orthogonal_r s f) as Huf.
  pose proof (cross_orthogonal_l s f) as Hus.
  set (n := norm (vsub center eye)) in *.
  assert (H0 : center.[0] = eye.[0] + n * f.[0])
    by (apply (f_equal (fun v => v.[0])) in Hc; vec_unfold; index_simpl; lra).
  assert (H1 : center.[1] = eye.[1] + n * f.[1])
    by (apply (f_equal (fun v => v.[1])) in Hc; vec_unfold; index_simpl; lra).
  assert (H2 : center.[2] = eye.[2] + n * f.[2])
    by (apply (f_equal (fun v => v.[2])) in Hc; vec_unfold; index_simpl; lra).
  unfold lookAt, apply. fold f. fold s.
  apply vec4_ext; vec_unfold; index_simpl; index_simpl;
    rewrite ?H0, ?H1, ?H2; nra.
Qed.

End LookAt.

(** ** The perspective matrix *)

Section Perspective.

Variables fov aspect near far : R.
Hypothesis Hnear : 0 < near.
Hypothesis Hfar : near < far.

(** The clip-space w of a point is its distance in front of the eye. *)
Lemma perspective_w (p : Vec3) :
  (apply (perspective fov aspect near far) (point p)).[3] = - p.[2].
Proof. unfold perspective, apply. vec_unfold. index_simpl. ring. Qed.

(** A point on the near plane has depth -1 after the perspective divide. *)
Lemma perspective_near (x y : R) :
  let c := apply (perspective fov aspect near far) (point (vec3 x y (- near))) in
  c.[2] / c.[3] = -1.
Proof. unfold perspective, apply. vec_unfold. index_simpl. field. lra. Qed.

(** A point on the far plane has depth 1 after the perspective divide. *)
Lemma perspective_far (x y : R) :
  let c := apply (perspective fov aspect near far) (point (vec3 x y (- far))) in
  c.[2] / c.[3] = 1.
Proof. unfold perspective, apply. vec_unfold. index_simpl. field. lra. Qed.

(** Only entry 0 depends on the aspect ratio. *)
Lemma perspective_aspect (aspect' : R) (i : nat) :
  i <> 0%nat ->
  (perspective fov aspect near far).[i] = (perspective fov aspect' near far).[i].
Proof.
  intros Hi. unfold perspective.
  do 16 (destruct i as [|i]; [try contradiction; reflexivity|]). reflexivity.
Qed.

End Perspective.

(** ** Theorems *)

(** C32: [multiplyMatrices a b] is the matrix of "apply b, then a" on column
    vectors; the identity matrix is neutral on both sides and the product
    is associative. *)
Theorem multiplyMatrices_spec (a b c : Mat4) (v : Vec4) :
  apply (multiplyMatrices a b) v = apply a (apply b v) /\
  multiplyMatrices identity a = a /\ multiplyMatrices a identity = a /\
  multiplyMatrices (multiplyMatrices a b) c = multiplyMatrices a (multiplyMatrices b c).
Proof.
  split; [apply multiplyMatrices_apply|].
  split; [apply multiplyMatrices_identity_l|].
  split; [apply multiplyMatrices_identity_r | apply multiplyMatrices_assoc].
Qed.

(** When neither normalisation is skipped, the look-at matrix is a rigid
    motion: its axes are orthonormal, it preserves dot products of
    directions, it sends the eye to the origin and the target to the
    negative z axis at its distance from the eye. *)
Theorem lookAt_rigid (eye center up a b : Vec3) :
  nondegenerate eye center up ->
  let V := lookAt eye center up in
  orthonormal V /\ affine V /\
  dot (xyz (apply V (direction a))) (xyz (apply V (direction b))) = dot a b /\
  apply V (point eye) = vec4 0 0 0 1 /\
  apply V (point center) = vec4 0 0 (- norm (vsub center eye)) 1.
Proof.
  intros H. cbv zeta.
  split; [now apply lookAt_orthonormal|].
  split; [apply lookAt_affine|].
  split; [now apply lookAt_isometry|].
  split; [apply lookAt_eye | now apply lookAt_center].
Qed.

(** An eye on the z axis looking at the origin. *)
Lemma lookAt_rigid_hyp : nondegenerate (vec3 0 0 5) (vec3 0 0 0) worldUp.
Proof.
  assert (Hn : norm (vsub (vec3 0 0 0) (vec3 0 0 5)) = 5).
  { unfold norm. vec_unfold. index_simpl.
    replace (_ + _ + _) with (5 ^ 2) by ring. apply sqrt_square_nonneg. lra. }
  assert (Hf : normalize (vsub (vec3 0 0 0) (vec3 0 0 5)) = vec3 0 0 (-1)).
  { rewrite normalize_regular by lra. rewrite Hn.
    apply vec3_ext; vec_unfold; index_simpl; lra. }
  split; [lra|]. rewrite Hf. unfold norm. vec_unfold. index_simpl.
  replace (_ + _ + _) with (1 ^ 2) by ring. rewrite sqrt_square_nonneg; lra.
Qed.

Lemma lookAt_rigid_witness :
  let V := lookAt (vec3 0 0 5) (vec3 0 0 0) worldUp in
  orthonormal V /\ affine V /\
  dot (xyz (apply V (direction (vec3 1 0 0)))) (xyz (apply V (direction (vec3 1 2 3))))
  = dot (vec3 1 0 0) (vec3 1 2 3) /\
  apply V (point (vec3 0 0 5)) = vec4 0 0 0 1 /\
  apply V (point (vec3 0 0 0))
  = vec4 0 0 (- norm (vsub (vec3 0 0 0) (vec3 0 0 5))) 1.
Proof.
  exact (lookAt_rigid (vec3 0 0 5) (vec3 0 0 0) worldUp (vec3 1 0 0) (vec3 1 2 3)
           lookAt_rigid_hyp).
Defined.

(** A vector no longer than 0.0001 is left as it is by the
    normalisation, and no division takes place; a longer one gets length 1. *)
Theorem normalize_guard (a : Vec3) :
  (norm a <= 0.0001 -> normalize a = a) /\
  (norm a > 0.0001 -> norm (normalize a) = 1).
Proof. split; [apply normalize_degenerate | apply normalize_unit]. Qed.
