(* ===== verification/Camera.v ===== *)
(** * Camera: class [FlybyCamera] of src/js/camera.js

    The record [FlybyCamera] holds the fields the constructor creates; the
    canvas the camera keeps a reference to is a shared DOM object and is
    passed to the operations that read it.  Every method is one definition
    of the same name.  The anonymous listeners that [setupEventListeners] and
    [setupFallbackMouseControls] register are the definitions [on_...] and
    [fallback_on_...]; each call of [setupFallbackMouseControls] creates one
    more closure with its own [isMouseDown], [lastX] and [lastY], kept in the
    list [fallbackControls] in registration order.  [handle] dispatches an
    event to the listeners registered for it, in registration order, and
    [reachable] is the set of camera states the constructor and the events
    can produce.

    What a listener does to the DOM (the pointer-lock requests, the
    [preventDefault] of the wheel) is returned as a list of [Effect]s; what
    it reads from the clock ([performance.now()]) is an argument.

    The theorems are in [CameraProps]. *)

From Stdlib Require Import Reals Lra Psatz Bool ZArith Ascii String List.
From stdpp Require Import gmap strings.
From S2P Require Import Prelude MatrixMath.
Import ListNotations.

(** ** The DOM objects the camera reads *)

(** DOM elements are compared by identity. *)
Definition Element : Type := nat.

Record Canvas : Type := mkCanvas {
  canvasElement : Element;
  width : Z;
  height : Z;
  requestPointerLock : bool;
  mozRequestPointerLock : bool;
  webkitRequestPointerLock : bool }.

Record Document : Type := mkDocument {
  pointerLockElement : option Element;
  mozPointerLockElement : option Element;
  webkitPointerLockElement : option Element;
  exitPointerLock : bool;
  mozExitPointerLock : bool;
  webkitExitPointerLock : bool }.

Record MouseEvent : Type := mkMouseEvent {
  movementX : option R;
  mozMovementX : option R;
  webkitMovementX : option R;
  movementY : option R;
  mozMovementY : option R;
  webkitMovementY : option R;
  clientX : R;
  clientY : R }.

(** What a listener asks of the browser. *)
Inductive Effect : Type :=
  | AssignRequestPointerLock
  | RequestPointerLock (withCatch : bool)
  | AssignExitPointerLock
  | ExitPointerLock
  | PreventDefault.

(** [element === this.canvas]. *)
Definition isCanvas (e : option Element) (canvas : Canvas) : bool :=
  match e with
  | Some x => Nat.eqb x (canvasElement canvas)
  | None => false
  end.

(** ** Strings *)

Definition lower_ascii (a : ascii) : ascii :=
  let n := nat_of_ascii a in
  if Nat.leb 65 n && Nat.leb n 90 then ascii_of_nat (n + 32) else a.

(** [String.prototype.toLowerCase], on ASCII letters. *)
Fixpoint toLowerCase (s : string) : string :=
  match s with
  | EmptyString => EmptyString
  | String a s' => String (lower_ascii a) (toLowerCase s')
  end.

(** ** The camera *)

(** The variables a call of [setupFallbackMouseControls] closes over. *)
Record FallbackControls : Type := mkFallbackControls {
  isMouseDown : bool;
  lastX : R;
  lastY : R }.

Record FlybyCamera : Type := mkFlybyCamera {
  position : Vec3;
  yaw : R;
  pitch : R;
  moveSpeed : R;
  rotationSpeed : R;
  isPointerLocked : bool;
  lastMouseX : R;
  lastMouseY : R;
  viewMatrix : Mat4;
  projectionMatrix : Mat4;
  lastFrameTime : R;
  keys : gmap string bool;
  fallbackControls : list FallbackControls }.

(** Assignments to single fields. *)
Definition with_position (v : Vec3) (c : FlybyCamera) : FlybyCamera :=
  mkFlybyCamera v (yaw c) (pitch c) (moveSpeed c) (rotationSpeed c)
    (isPointerLocked c) (lastMouseX c) (lastMouseY c) (viewMatrix c)
    (projectionMatrix c) (lastFrameTime c) (keys c) (fallbackControls c).

Definition with_yaw (v : R) (c : FlybyCamera) : FlybyCamera :=
  mkFlybyCamera (position c) v (pitch c) (moveSpeed c) (rotationSpeed c)
    (isPointerLocked c) (lastMouseX c) (lastMouseY c) (viewMatrix c)
    (projectionMatrix c) (lastFrameTime c) (keys c) (fallbackControls c).

Definition with_pitch (v : R) (c : FlybyCamera) : FlybyCamera :=
  mkFlybyCamera (position c) (yaw c) v (moveSpeed c) (rotationSpeed c)
    (isPointerLocked c) (lastMouseX c) (lastMouseY c) (viewMatrix c)
    (projectionMatrix c) (lastFrameTime c) (keys c) (fallbackControls c).

Definition with_moveSpeed (v : R) (c : FlybyCamera) : FlybyCamera :=
  mkFlybyCamera (position c) (yaw c) (pitch c) v (rotationSpeed c)
    (isPointerLocked c) (lastMouseX c) (lastMouseY c) (viewMatrix c)
    (projectionMatrix c) (lastFrameTime c) (keys c) (fallbackControls c).

Definition with_isPointerLocked (v : bool) (c : FlybyCamera) : FlybyCamera :=
  mkFlybyCamera (position c) (yaw c) (pitch c) (moveSpeed c) (rotationSpeed c)
    v (lastMouseX c) (lastMouseY c) (viewMatrix c)
    (projectionMatrix c) (lastFrameTime c) (keys c) (fallbackControls c).

Definition with_viewMatrix (v : Mat4) (c : FlybyCamera) : FlybyCamera :=
  mkFlybyCamera (position c) (yaw c) (pitch c) (moveSpeed c) (rotationSpeed c)
    (isPointerLocked c) (lastMouseX c) (lastMouseY c) v
    (projectionMatrix c) (lastFrameTime c) (keys c) (fallbackControls c).

Definition with_projectionMatrix (v : Mat4) (c : FlybyCamera) : FlybyCamera :=
  mkFlybyCamera (position c) (yaw c) (pitch c) (moveSpeed c) (rotationSpeed c)
    (isPointerLocked c) (lastMouseX c) (lastMouseY c) (viewMatrix c)
    v (lastFrameTime c) (keys c) (fallbackControls c).

Definition with_lastFrameTime (v : R) (c : FlybyCamera) : FlybyCamera :=
  mkFlybyCamera (position c) (yaw c) (pitch c) (moveSpeed c) (rotationSpeed c)
    (isPointerLocked c) (lastMouseX c) (lastMouseY c) (viewMatrix c)
    (projectionMatrix c) v (keys c) (fallbackControls c).

Definition with_keys (v : gmap string bool) (c : FlybyCamera) : FlybyCamera :=
  mkFlybyCamera (position c) (yaw c) (pitch c) (moveSpeed c) (rotationSpeed c)
    (isPointerLocked c) (lastMouseX c) (lastMouseY c) (viewMatrix c)
    (projectionMatrix c) (lastFrameTime c) v (fallbackControls c).

Definition with_fallbackControls (v : list FallbackControls) (c : FlybyCamera)
  : FlybyCamera :=
  mkFlybyCamera (position c) (yaw c) (pitch c) (moveSpeed c) (rotationSpeed c)
    (isPointerLocked c) (lastMouseX c) (lastMouseY c) (viewMatrix c)
    (projectionMatrix c) (lastFrameTime c) (keys c) v.

(** [this.keys[k]] as a condition: an absent key is undefined, hence falsy. *)
Definition held (this : FlybyCamera) (k : string) : bool :=
  default false (keys this !! k).

(** ** Methods *)

Definition getPosition (this : FlybyCamera) : Vec3 := position this.

Definition getForward (this : FlybyCamera) : Vec3 :=
  let yawRad := yaw this * Math.PI / 180 in
  let pitchRad := pitch this * Math.PI / 180 in
  let forward := vec3 (Math.cos pitchRad * Math.cos yawRad)
                      (Math.sin pitchRad)
                      (Math.cos pitchRad * Math.sin yawRad) in
  forward.

Definition updateViewMatrix (this : FlybyCamera) : FlybyCamera :=
  let yawRad := yaw this * Math.PI / 180 in
  let pitchRad := pitch this * Math.PI / 180 in
  let forward := vec3 (Math.cos pitchRad * Math.cos yawRad)
                      (Math.sin pitchRad)
                      (Math.cos pitchRad * Math.sin yawRad) in
  let target := vec3 ((position this).[0] + forward.[0])
                     ((position this).[1] + forward.[1])
                     ((position this).[2] + forward.[2]) in
  let eye := position this in
  let center := target in
  let up := vec3 0 1 0 in
  let f := vec3 (center.[0] - eye.[0]) (center.[1] - eye.[1]) (center.[2] - eye.[2]) in
  let len := Math.sqrt (f.[0] ^ 2 + f.[1] ^ 2 + f.[2] ^ 2) in
  let f := if len >? 0.0001 then vec3 (f.[0] / len) (f.[1] / len) (f.[2] / len) else f in
  let s := vec3 (f.[1] * up.[2] - f.[2] * up.[1])
                (f.[2] * up.[0] - f.[0] * up.[2])
                (f.[0] * up.[1] - f.[1] * up.[0]) in
  let slen := Math.sqrt (s.[0] ^ 2 + s.[1] ^ 2 + s.[2] ^ 2) in
  let s := if slen >? 0.0001 then vec3 (s.[0] / slen) (s.[1] / slen) (s.[2] / slen) else s in
  let u := vec3 (s.[1] * f.[2] - s.[2] * f.[1])
                (s.[2] * f.[0] - s.[0] * f.[2])
                (s.[0] * f.[1] - s.[1] * f.[0]) in
  with_viewMatrix
    (mat4 s.[0] u.[0] (- f.[0]) 0
          s.[1] u.[1] (- f.[1]) 0
          s.[2] u.[2] (- f.[2]) 0
          (- (s.[0] * eye.[0] + s.[1] * eye.[1] + s.[2] * eye.[2]))
          (- (u.[0] * eye.[0] + u.[1] * eye.[1] + u.[2] * eye.[2]))
          (f.[0] * eye.[0] + f.[1] * eye.[1] + f.[2] * eye.[2])
          1)
    this.

Definition updateProjectionMatrix (canvas : Canvas) (this : FlybyCamera) : FlybyCamera :=
  let fov := 45 * Math.PI / 180 in
  let aspect := IZR (width canvas) / IZR (height canvas) in
  let near := 0.1 in
  let far := 100.0 in
  let f := 1.0 / Math.tan (fov / 2) in
  with_projectionMatrix
    (mat4 (f / aspect) 0 0 0
          0 f 0 0
          0 0 ((far + near) / (near - far)) (-1)
          0 0 ((2 * far * near) / (near - far)) 0)
    this.

(** [this.keys = {}]; the listeners it registers are the [on_...] below. *)
Definition setupEventListeners (this : FlybyCamera) : FlybyCamera :=
  with_keys ∅ this.

(** [new FlybyCamera(canvas)], with [now] the value of [performance.now()]. *)
Definition constructor (canvas : Canvas) (now : R) : FlybyCamera :=
  let this := {|
    position := vec3 0 5 15;
    yaw := -90.0;
    pitch := -20.0;
    moveSpeed := 5.0;
    rotationSpeed := 0.1;
    isPointerLocked := false;
    lastMouseX := 0;
    lastMouseY := 0;
    viewMatrix := mat4 0 0 0 0 0 0 0 0 0 0 0 0 0 0 0 0;
    projectionMatrix := mat4 0 0 0 0 0 0 0 0 0 0 0 0 0 0 0 0;
    lastFrameTime := now;
    keys := ∅;
    fallbackControls := [] |} in
  let this := setupEventListeners this in
  let this := updateProjectionMatrix canvas this in
  updateViewMatrix this.

(** [update()], with [now] the value of [performance.now()]. *)
Definition update (now : R) (this : FlybyCamera) : FlybyCamera :=
  let currentTime := now in
  let deltaTime := (currentTime - lastFrameTime this) / 1000.0 in
  let this := with_lastFrameTime currentTime this in
  let dt := Math.min deltaTime 0.1 in
  let yawRad := yaw this * Math.PI / 180 in
  let pitchRad := pitch this * Math.PI / 180 in
  let forward := vec3 (Math.cos pitchRad * Math.cos yawRad)
                      (Math.sin pitchRad)
                      (Math.cos pitchRad * Math.sin yawRad) in
  let up := vec3 0 1 0 in
  let right := vec3 (forward.[2] * up.[1] - forward.[1] * up.[2])
                    (forward.[0] * up.[2] - forward.[2] * up.[0])
                    (forward.[1] * up.[0] - forward.[0] * up.[1]) in
  let rightLen := Math.sqrt (right.[0] ^ 2 + right.[1] ^ 2 + right.[2] ^ 2) in
  let right := if rightLen >? 0.0001
               then vec3 (right.[0] / rightLen) (right.[1] / rightLen) (right.[2] / rightLen)
               else right in
  let speed := moveSpeed this * dt in
  let p := position this in
  let p := if held this "w"
           then vec3 (p.[0] + forward.[0] * speed) (p.[1] + forward.[1] * speed)
                     (p.[2] + forward.[2] * speed)
           else p in
  let p := if held this "s"
           then vec3 (p.[0] - forward.[0] * speed) (p.[1] - forward.[1] * speed)
                     (p.[2] - forward.[2] * speed)
           else p in
  let p := if held this "a"
           then vec3 (p.[0] + right.[0] * speed) (p.[1] + right.[1] * speed)
                     (p.[2] + right.[2] * speed)
           else p in
  let p := if held this "d"
           then vec3 (p.[0] - right.[0] * speed) (p.[1] - right.[1] * speed)
                     (p.[2] - right.[2] * speed)
           else p in
  let p := if held this " " then vec3 p.[0] (p.[1] + speed) p.[2] else p in
  let p := if held this "shift" then vec3 p.[0] (p.[1] - speed) p.[2] else p in
  updateViewMatrix (with_position p this).

(** [reset()], with [now] the value of [performance.now()]. *)
Definition reset (now : R) (this : FlybyCamera) : FlybyCamera :=
  let this := with_position (vec3 0 5 15) this in
  let this := with_yaw (-90.0) this in
  let this := with_pitch (-20.0) this in
  let this := with_lastFrameTime now this in
  updateViewMatrix this.

(** ** The listeners of [setupEventListeners] *)

(** [keydown] on the document: record the key, and ask for the pointer lock
    on space or W. *)
Definition on_keydown (canvas : Canvas) (key : string) (this : FlybyCamera)
  : FlybyCamera * list Effect :=
  let this := with_keys (<[toLowerCase key := true]> (keys this)) this in
  if String.eqb key " " || String.eqb (toLowerCase key) "w" then
    if requestPointerLock canvas || mozRequestPointerLock canvas
       || webkitRequestPointerLock canvas
    then (this, [AssignRequestPointerLock; RequestPointerLock false])
    else (this, [AssignRequestPointerLock])
  else (this, []).

Definition on_keyup (key : string) (this : FlybyCamera) : FlybyCamera :=
  with_keys (<[toLowerCase key := false]> (keys this)) this.

Definition on_pointerlockchange (canvas : Canvas) (document : Document)
  (this : FlybyCamera) : FlybyCamera :=
  with_isPointerLocked
    (isCanvas (pointerLockElement document) canvas
     || isCanvas (mozPointerLockElement document) canvas
     || isCanvas (webkitPointerLockElement document) canvas)
    this.

Definition on_mozpointerlockchange (canvas : Canvas) (document : Document)
  (this : FlybyCamera) : FlybyCamera :=
  with_isPointerLocked (isCanvas (mozPointerLockElement document) canvas) this.

Definition on_webkitpointerlockchange (canvas : Canvas) (document : Document)
  (this : FlybyCamera) : FlybyCamera :=
  with_isPointerLocked (isCanvas (webkitPointerLockElement document) canvas) this.

(** [mousemove] on the document, while the pointer is locked. *)
Definition on_mousemove (e : MouseEvent) (this : FlybyCamera) : FlybyCamera :=
  if isPointerLocked this then
    let movementX := movementX e ||: mozMovementX e ||: webkitMovementX e ||: 0 in
    let movementY := movementY e ||: mozMovementY e ||: webkitMovementY e ||: 0 in
    let this := with_yaw (yaw this + movementX * rotationSpeed this) this in
    let this := with_pitch (pitch this - movementY * rotationSpeed this) this in
    let this := with_pitch (Math.max (-89) (Math.min 89 (pitch this))) this in
    updateViewMatrix this
  else this.

(** One more set of click-and-drag listeners, with fresh variables. *)
Definition setupFallbackMouseControls (this : FlybyCamera) : FlybyCamera :=
  with_fallbackControls
    (fallbackControls this ++ [mkFallbackControls false 0 0]) this.

(** [click] on the canvas: ask for the pointer lock, and fall back to
    click-and-drag when the canvas cannot be asked. *)
Definition on_click (canvas : Canvas) (this : FlybyCamera)
  : FlybyCamera * list Effect :=
  if requestPointerLock canvas || mozRequestPointerLock canvas
     || webkitRequestPointerLock canvas
  then (this, [AssignRequestPointerLock; RequestPointerLock true])
  else (setupFallbackMouseControls this, [AssignRequestPointerLock]).

(** The [catch] callback of the request made by [on_click]. *)
Definition on_requestPointerLock_rejected (this : FlybyCamera) : FlybyCamera :=
  setupFallbackMouseControls this.

Definition on_wheel (deltaY : R) (this : FlybyCamera) : FlybyCamera * list Effect :=
  let this := with_moveSpeed (moveSpeed this + deltaY * 0.1) this in
  let this := with_moveSpeed (Math.max 0.5 (Math.min 20.0 (moveSpeed this))) this in
  (this, [PreventDefault]).

(** The second [keydown] listener: Escape releases the pointer. *)
Definition on_keydown_escape (document : Document) (key : string)
  : list Effect :=
  if String.eqb key "Escape" then
    if exitPointerLock document || mozExitPointerLock document
       || webkitExitPointerLock document
    then [AssignExitPointerLock; ExitPointerLock]
    else [AssignExitPointerLock]
  else [].

(** ** The listeners of [setupFallbackMouseControls] *)

Definition fallback_on_mousedown (e : MouseEvent) (fc : FallbackControls)
  : FallbackControls :=
  mkFallbackControls true (clientX e) (clientY e).

Definition fallback_on_mouseup (fc : FallbackControls) : FallbackControls :=
  mkFallbackControls false (lastX fc) (lastY fc).

Definition fallback_on_mousemove (e : MouseEvent) (fc : FallbackControls)
  (this : FlybyCamera) : FlybyCamera * FallbackControls :=
  if isMouseDown fc && negb (isPointerLocked this) then
    let deltaX := clientX e - lastX fc in
    let deltaY := clientY e - lastY fc in
    let this := with_yaw (yaw this + deltaX * rotationSpeed this) this in
    let this := with_pitch (pitch this - deltaY * rotationSpeed this) this in
    let this := with_pitch (Math.max (-89) (Math.min 89 (pitch this))) this in
    let fc := mkFallbackControls (isMouseDown fc) (clientX e) (clientY e) in
    (updateViewMatrix this, fc)
  else (this, fc).

(** ** Dispatch *)

(** Run the [mousemove] listener of every fallback closure, oldest first. *)
Fixpoint fallback_mousemove_all (e : MouseEvent) (fcs : list FallbackControls)
  (this : FlybyCamera) : FlybyCamera * list FallbackControls :=
  match fcs with
  | [] => (this, [])
  | fc :: rest =>
      let '(this, fc') := fallback_on_mousemove e fc this in
      let '(this, rest') := fallback_mousemove_all e rest this in
      (this, fc' :: rest')
  end.

Inductive Event : Type :=
  | keydown (document : Document) (key : string)
  | keyup (key : string)
  | pointerlockchange (document : Document)
  | mozpointerlockchange (document : Document)
  | webkitpointerlockchange (document : Document)
  | mousemove (e : MouseEvent)
  | mousedown (e : MouseEvent)
  | mouseup
  | click
  | requestPointerLock_rejected
  | wheel (deltaY : R)
  | animationFrame (now : R)
  | resetCamera (now : R)
  | resize.

(** All listeners registered for the event run, in registration order.
    [animationFrame], [resetCamera] and [resize] stand for the calls the
    application makes ([update], [reset], [updateProjectionMatrix]). *)
Definition handle (canvas : Canvas) (ev : Event) (this : FlybyCamera)
  : FlybyCamera * list Effect :=
  match ev with
  | keydown document key =>
      let '(this, effs) := on_keydown canvas key this in
      (this, effs ++ on_keydown_escape document key)
  | keyup key => (on_keyup key this, [])
  | pointerlockchange document => (on_pointerlockchange canvas document this, [])
  | mozpointerlockchange document => (on_mozpointerlockchange canvas document this, [])
  | webkitpointerlockchange document =>
      (on_webkitpointerlockchange canvas document this, [])
  | mousemove e =>
      let this := on_mousemove e this in
      let '(this, fcs) := fallback_mousemove_all e (fallbackControls this) this in
      (with_fallbackControls fcs this, [])
  | mousedown e =>
      (with_fallbackControls (map (fallback_on_mousedown e) (fallbackControls this)) this, [])
  | mouseup =>
      (with_fallbackControls (map fallback_on_mouseup (fallbackControls this)) this, [])
  | click => on_click canvas this
  | requestPointerLock_rejected => (on_requestPointerLock_rejected this, [])
  | wheel deltaY => on_wheel deltaY this
  | animationFrame now => (update now this, [])
  | resetCamera now => (reset now this, [])
  | resize => (updateProjectionMatrix canvas this, [])
  end.

(** The camera after a sequence of events, each with the canvas as it was
    when the event arrived. *)
Definition run (evs : list (Canvas * Event)) (this : FlybyCamera) : FlybyCamera :=
  fold_left (fun c ce => fst (handle (fst ce) (snd ce) c)) evs this.

(** The states of a camera during its life. *)
Inductive reachable : FlybyCamera -> Prop :=
  | reachable_new (canvas : Canvas) (now : R) :
      reachable (constructor canvas now)
  | reachable_event (canvas : Canvas) (ev : Event) (this : FlybyCamera) :
      reachable this -> reachable (fst (handle canvas ev this)).

(** ** The state invariant *)

Record invariant (this : FlybyCamera) : Prop := mkInvariant {
  inv_pitch : -89 <= pitch this <= 89;
  inv_speed : 0.5 <= moveSpeed this <= 20.0;
  inv_rotation : rotationSpeed this = 0.1;
  inv_view :
    viewMatrix this
    = lookAt (position this) (vadd (position this) (getForward this)) worldUp }.
