(* ===== verification/CameraProps.v ===== *)
(** * CameraProps: the properties of [FlybyCamera]

    The state invariant and its preservation by every listener and method,
    the agreement of the inlined view and projection code with [lookAt] and
    [perspective], and the behaviour of [update], [reset] and the look
    listeners. *)

From Stdlib Require Import Reals Lra Psatz RNsatz Bool ZArith Ascii String List.
From stdpp Require Import gmap strings.
From S2P Require Import Prelude MatrixMath Camera.
Import ListNotations.

(** ** Automation *)

(** Reduce field reads of field assignments. *)
Ltac cam_simpl :=
  cbn [with_position with_yaw with_pitch with_moveSpeed with_isPointerLocked
       with_viewMatrix with_projectionMatrix with_lastFrameTime with_keys
       with_fallbackControls
       position yaw pitch moveSpeed rotationSpeed isPointerLocked lastMouseX
       lastMouseY viewMatrix projectionMatrix lastFrameTime keys fallbackControls
       fst snd] in *.

(** Expand the look-at construction down to array components, so that the
    inlined code and [lookAt] become the same term. *)
Ltac inline_lookAt :=
  cbv [lookAt normalize vsub vadd cross worldUp
       index Vec3_Indexed v3_0 v3_1 v3_2].

(** The view matrix the current pose calls for. *)
Definition viewOf (this : FlybyCamera) : Mat4 :=
  lookAt (position this) (vadd (position this) (getForward this)) worldUp.

(** ** The inlined matrix code *)

Lemma updateViewMatrix_eq (this : FlybyCamera) :
  updateViewMatrix this = with_viewMatrix (viewOf this) this.
Proof.
  cbv [updateViewMatrix viewOf getForward lookAt normalize vsub vadd cross worldUp
       index Vec3_Indexed v3_0 v3_1 v3_2].
  reflexivity.
Qed.

Lemma updateProjectionMatrix_eq (canvas : Canvas) (this : FlybyCamera) :
  updateProjectionMatrix canvas this
  = with_projectionMatrix
      (perspective (45 * Math.PI / 180) (IZR (width canvas) / IZR (height canvas))
                   0.1 100.0)
      this.
Proof. reflexivity. Qed.

Lemma viewOf_pose (a b : FlybyCamera) :
  position a = position b -> yaw a = yaw b -> pitch a = pitch b -> viewOf a = viewOf b.
Proof. unfold viewOf, getForward. now intros -> -> ->. Qed.

(** ** The forward vector *)

Lemma getForward_dot (this : FlybyCamera) :
  dot (getForward this) (getForward this) = 1.
Proof.
  unfold getForward. vec_unfold. index_simpl.
  set (p := pitch this * Math.PI / 180). set (y := yaw this * Math.PI / 180).
  pose proof (sin2_cos2_pow p). pose proof (sin2_cos2_pow y). nra.
Qed.

Lemma getForward_norm (this : FlybyCamera) : norm (getForward this) = 1.
Proof. apply norm_unit_iff, getForward_dot. Qed.

Lemma vsub_vadd (p f : Vec3) : vsub (vadd p f) p = f.
Proof. array_eq. Qed.

(** The side vector before normalisation has the length cos(pitch). *)
Lemma side_norm (this : FlybyCamera) :
  -89 <= pitch this <= 89 ->
  norm (cross (getForward this) worldUp) = Math.cos (pitch this * Math.PI / 180).
Proof.
  intros Hp. pose proof (cos_deg_lb _ Hp) as Hc.
  unfold norm, getForward. vec_unfold. index_simpl.
  set (p := pitch this * Math.PI / 180) in *. set (y := yaw this * Math.PI / 180).
  replace (_ + _ + _) with ((Math.cos p) ^ 2).
  - apply sqrt_square_nonneg. lra.
  - pose proof (sin2_cos2_pow y). nra.
Qed.

(** Within the pitch range neither guard of the look-at code is taken. *)
Lemma view_nondegenerate (this : FlybyCamera) :
  -89 <= pitch this <= 89 ->
  nondegenerate (position this) (vadd (position this) (getForward this)) worldUp.
Proof.
  intros Hp. unfold nondegenerate. rewrite vsub_vadd.
  rewrite normalize_of_unit by apply getForward_norm.
  rewrite getForward_norm, side_norm by assumption.
  pose proof (cos_deg_lb _ Hp). lra.
Qed.

(** ** Establishing and keeping the invariant *)

Lemma invariant_updateViewMatrix (this : FlybyCamera) :
  -89 <= pitch this <= 89 -> 0.5 <= moveSpeed this <= 20.0 ->
  rotationSpeed this = 0.1 ->
  invariant (updateViewMatrix this).
Proof. intros. rewrite updateViewMatrix_eq. now constructor. Qed.

(** A step that keeps the pose, the speed and the view matrix keeps the
    invariant. *)
Lemma invariant_same_pose (a b : FlybyCamera) :
  invariant a ->
  position b = position a -> yaw b = yaw a -> pitch b = pitch a ->
  moveSpeed b = moveSpeed a -> rotationSpeed b = rotationSpeed a ->
  viewMatrix b = viewMatrix a ->
  invariant b.
Proof.
  intros [Hp Hs Hr Hv] Ep Ey Epi Es Er Ev. constructor.
  - now rewrite Epi.
  - now rewrite Es.
  - now rewrite Er.
  - rewrite Ev, Hv. symmetry. now apply (viewOf_pose b a).
Qed.

(** The look update shared by the locked and the fallback listener. *)
Lemma invariant_look (dx dy : R) (this : FlybyCamera) :
  invariant this ->
  invariant
    (updateViewMatrix
       (with_pitch (Math.max (-89) (Math.min 89 (pitch this - dy * rotationSpeed this)))
          (with_yaw (yaw this + dx * rotationSpeed this) this))).
Proof.
  intros [Hp Hs Hr Hv]. apply invariant_updateViewMatrix; cam_simpl; auto.
  apply max_min_range. lra.
Qed.

Lemma on_mousemove_invariant (e : MouseEvent) (this : FlybyCamera) :
  invariant this -> invariant (on_mousemove e this).
Proof.
  intros H. unfold on_mousemove. destruct (isPointerLocked this); [|assumption].
  cbv zeta. cam_simpl. now apply invariant_look.
Qed.

Lemma fallback_on_mousemove_invariant (e : MouseEvent) (fc : FallbackControls)
  (this : FlybyCamera) :
  invariant this -> invariant (fst (fallback_on_mousemove e fc this)).
Proof.
  intros H. unfold fallback_on_mousemove.
  destruct (isMouseDown fc && negb (isPointerLocked this)); [|assumption].
  cbv zeta. cam_simpl. now apply invariant_look.
Qed.

Lemma fallback_mousemove_all_invariant (e : MouseEvent) (fcs : list FallbackControls) :
  forall this, invariant this -> invariant (fst (fallback_mousemove_all e fcs this)).
Proof.
  induction fcs as [|fc rest IH]; intros this H; [assumption|].
  cbn [fallback_mousemove_all].
  pose proof (fallback_on_mousemove_invariant e fc this H) as H1.
  destruct (fallback_on_mousemove e fc this) as [c1 fc'].
  specialize (IH c1 H1). destruct (fallback_mousemove_all e rest c1). exact IH.
Qed.




(** ** [update] *)

(** The block of [update] that derives the strafe vector (named [right] in
    the source) from the forward vector. *)
Definition strafeCode (forward : Vec3) : Vec3 :=
  let up := vec3 0 1 0 in
  let right := vec3 (forward.[2] * up.[1] - forward.[1] * up.[2])
                    (forward.[0] * up.[2] - forward.[2] * up.[0])
                    (forward.[1] * up.[0] - forward.[0] * up.[1]) in
  let rightLen := Math.sqrt (right.[0] ^ 2 + right.[1] ^ 2 + right.[2] ^ 2) in
  if rightLen >? 0.0001
  then vec3 (right.[0] / rightLen) (right.[1] / rightLen) (right.[2] / rightLen)
  else right.

(** The block of [update] that moves the position, as a function of the
    six key states. *)
Definition moveCode (w s a d space shift : bool) (p forward right : Vec3) (speed : R)
  : Vec3 :=
  let p := if w
           then vec3 (p.[0] + forward.[0] * speed) (p.[1] + forward.[1] * speed)
                     (p.[2] + forward.[2] * speed)
           else p in
  let p := if s
           then vec3 (p.[0] - forward.[0] * speed) (p.[1] - forward.[1] * speed)
                     (p.[2] - forward.[2] * speed)
           else p in
  let p := if a
           then vec3 (p.[0] + right.[0] * speed) (p.[1] + right.[1] * speed)
                     (p.[2] + right.[2] * speed)
           else p in
  let p := if d
           then vec3 (p.[0] - right.[0] * speed) (p.[1] - right.[1] * speed)
                     (p.[2] - right.[2] * speed)
           else p in
  let p := if space then vec3 p.[0] (p.[1] + speed) p.[2] else p in
  let p := if shift then vec3 p.[0] (p.[1] - speed) p.[2] else p in
  p.

(** The elapsed time in seconds, clamped. *)
Definition elapsed (now : R) (this : FlybyCamera) : R :=
  Math.min ((now - lastFrameTime this) / 1000.0) 0.1.

Lemma update_eq (now : R) (this : FlybyCamera) :
  update now this
  = updateViewMatrix
      (with_position
         (moveCode (held this "w") (held this "s") (held this "a") (held this "d")
                   (held this " ") (held this "shift")
                   (position this) (getForward this) (strafeCode (getForward this))
                   (moveSpeed this * elapsed now this))
         (with_lastFrameTime now this)).
Proof. reflexivity. Qed.

(** The strafe vector of [update] is the normalised cross product of the
    world up vector with the forward vector: it points to the camera's left. *)
Definition leftward (this : FlybyCamera) : Vec3 :=
  normalize (cross worldUp (getForward this)).

Definition b2r (b : bool) : R := if b then 1 else 0.

(** The direction the held keys ask for, in world coordinates. *)
Definition moveIntent (this : FlybyCamera) : Vec3 :=
  vadd (vadd (vscale (b2r (held this "w") - b2r (held this "s")) (getForward this))
             (vscale (b2r (held this "a") - b2r (held this "d")) (leftward this)))
       (vscale (b2r (held this " ") - b2r (held this "shift")) worldUp).

Lemma strafeCode_eq (forward : Vec3) :
  strafeCode forward = normalize (cross worldUp forward).
Proof.
  assert (H : vec3 (forward.[2] * 1 - forward.[1] * 0)
                   (forward.[0] * 0 - forward.[2] * 0)
                   (forward.[1] * 0 - forward.[0] * 1)
              = cross worldUp forward) by array_eq.
  rewrite <- H. reflexivity.
Qed.

Lemma moveCode_closed (w s a d space shift : bool) (p forward right : Vec3) (speed : R) :
  moveCode w s a d space shift p forward right speed
  = vadd p (vscale speed
      (vadd (vadd (vscale (b2r w - b2r s) forward) (vscale (b2r a - b2r d) right))
            (vscale (b2r space - b2r shift) worldUp))).
Proof.
  destruct w, s, a, d, space, shift; unfold moveCode, b2r; cbv zeta;
    apply vec3_ext; vec_unfold; index_simpl; ring.
Qed.

Lemma update_closed (now : R) (this : FlybyCamera) :
  update now this
  = updateViewMatrix
      (with_position
         (vadd (position this)
               (vscale (moveSpeed this * elapsed now this) (moveIntent this)))
         (with_lastFrameTime now this)).
Proof. rewrite update_eq, moveCode_closed, strafeCode_eq. reflexivity. Qed.

Lemma update_invariant (now : R) (this : FlybyCamera) :
  invariant this -> invariant (update now this).
Proof.
  intros [Hp Hs Hr Hv]. rewrite update_closed.
  apply invariant_updateViewMatrix; cam_simpl; assumption.
Qed.

Lemma reset_invariant (now : R) (this : FlybyCamera) :
  invariant this -> invariant (reset now this).
Proof.
  intros [Hp Hs Hr Hv]. unfold reset. cbv zeta.
  apply invariant_updateViewMatrix; cam_simpl; auto; lra.
Qed.

Lemma on_wheel_invariant (deltaY : R) (this : FlybyCamera) :
  invariant this -> invariant (fst (on_wheel deltaY this)).
Proof.
  intros [Hp Hs Hr Hv]. unfold on_wheel. cbv zeta. cam_simpl.
  constructor; cam_simpl; auto. apply max_min_range. lra.
Qed.

Lemma constructor_invariant (canvas : Canvas) (now : R) :
  invariant (constructor canvas now).
Proof.
  unfold constructor. cbv zeta. apply invariant_updateViewMatrix;
    rewrite updateProjectionMatrix_eq; unfold setupEventListeners; cam_simpl; lra.
Qed.

(** A step that only touches fields outside the pose keeps the invariant. *)
Ltac same_pose this := cam_simpl; now apply (invariant_same_pose this).

Lemma on_keydown_invariant (canvas : Canvas) (key : string) (this : FlybyCamera) :
  invariant this -> invariant (fst (on_keydown canvas key this)).
Proof.
  intros H. unfold on_keydown. cbv zeta.
  destruct (_ || _); [destruct (_ || _ || _)|]; same_pose this.
Qed.

Lemma on_click_invariant (canvas : Canvas) (this : FlybyCamera) :
  invariant this -> invariant (fst (on_click canvas this)).
Proof.
  intros H. unfold on_click. destruct (_ || _ || _); [assumption | same_pose this].
Qed.

Lemma mousemove_invariant (e : MouseEvent) (this : FlybyCamera) :
  invariant this ->
  invariant (fst (fallback_mousemove_all e (fallbackControls (on_mousemove e this))
                    (on_mousemove e this))).
Proof.
  intros H. apply fallback_mousemove_all_invariant, on_mousemove_invariant, H.
Qed.

Lemma handle_invariant (canvas : Canvas) (ev : Event) (this : FlybyCamera) :
  invariant this -> invariant (fst (handle canvas ev this)).
Proof.
  intros H. destruct ev; cbn [handle].
  - pose proof (on_keydown_invariant canvas key this H).
    now destruct (on_keydown canvas key this).
  - same_pose this.
  - same_pose this.
  - same_pose this.
  - same_pose this.
  - pose proof (mousemove_invariant e this H) as H1.
    destruct (fallback_mousemove_all e _ _) as [c fcs]. same_pose c.
  - same_pose this.
  - same_pose this.
  - now apply on_click_invariant.
  - same_pose this.
  - now apply on_wheel_invariant.
  - now apply update_invariant.
  - now apply reset_invariant.
  - rewrite updateProjectionMatrix_eq. same_pose this.
Qed.

Lemma invariant_reachable (this : FlybyCamera) : reachable this -> invariant this.
Proof.
  induction 1 as [canvas now | canvas ev this _ IH].
  - apply constructor_invariant.
  - now apply handle_invariant.
Qed.

Lemma run_invariant (evs : list (Canvas * Event)) :
  forall this, invariant this -> invariant (run evs this).
Proof.
  unfold run. induction evs as [|[canvas ev] evs IH]; intros this H; [assumption|].
  cbn [fold_left]. apply IH. now apply handle_invariant.
Qed.

Lemma run_reachable (evs : list (Canvas * Event)) :
  forall this, reachable this -> reachable (run evs this).
Proof.
  unfold run. induction evs as [|[canvas ev] evs IH]; intros this H; [assumption|].
  cbn [fold_left]. apply IH. now constructor.
Qed.

(** A canvas of 800 by 600 pixels that supports the pointer lock. *)
Definition canvas0 : Canvas := mkCanvas 0%nat 800%Z 600%Z true false false.

(** ** Theorems *)

(** C1: in every state the camera can reach, the pitch is within [-89, 89]
    degrees, the speed within [0.5, 20], the sensitivity is 0.1 and the
    stored view matrix is the look-at matrix of the current pose. *)
Theorem reachable_invariant (this : FlybyCamera) :
  reachable this ->
  -89 <= pitch this <= 89 /\ 0.5 <= moveSpeed this <= 20.0 /\
  rotationSpeed this = 0.1 /\
  viewMatrix this
  = lookAt (position this) (vadd (position this) (getForward this)) worldUp.
Proof. intros H. now destruct (invariant_reachable this H). Qed.

Lemma reachable_invariant_witness :
  let this := fst (handle canvas0 (wheel 1000) (constructor canvas0 0)) in
  -89 <= pitch this <= 89 /\ 0.5 <= moveSpeed this <= 20.0 /\
  rotationSpeed this = 0.1 /\
  viewMatrix this
  = lookAt (position this) (vadd (position this) (getForward this)) worldUp.
Proof.
  exact (reachable_invariant _
           (reachable_event canvas0 (wheel 1000) _ (reachable_new canvas0 0))).
Defined.

(** C3: in every reachable state the view matrix is a rigid motion: its
    axes are orthonormal, its last row is (0, 0, 0, 1), and it sends the
    camera position to the origin.  Neither normalisation guard of the
    look-at code is ever taken. *)
Theorem reachable_view_rigid (this : FlybyCamera) :
  reachable this ->
  orthonormal (viewMatrix this) /\ affine (viewMatrix this) /\
  apply (viewMatrix this) (point (position this)) = vec4 0 0 0 1 /\
  nondegenerate (position this) (vadd (position this) (getForward this)) worldUp.
Proof.
  intros H. destruct (invariant_reachable this H) as [Hp _ _ Hv].
  pose proof (view_nondegenerate this Hp) as Hnd. rewrite Hv.
  split; [now apply lookAt_orthonormal|].
  split; [apply lookAt_affine|].
  split; [apply lookAt_eye | exact Hnd].
Qed.

Lemma reachable_view_rigid_witness :
  let this := constructor canvas0 0 in
  orthonormal (viewMatrix this) /\ affine (viewMatrix this) /\
  apply (viewMatrix this) (point (position this)) = vec4 0 0 0 1 /\
  nondegenerate (position this) (vadd (position this) (getForward this)) worldUp.
Proof. exact (reachable_view_rigid _ (reachable_new canvas0 0)). Defined.

(** C9: [update] stamps the frame time, displaces the position by
    speed x clamped elapsed time along the direction the held keys ask for,
    leaves orientation, speed and keys alone and recomputes the view
    matrix for the new position. *)
Theorem update_spec (now : R) (this : FlybyCamera) :
  let this' := update now this in
  position this'
  = vadd (position this)
         (vscale (moveSpeed this * Math.min ((now - lastFrameTime this) / 1000.0) 0.1)
                 (moveIntent this)) /\
  lastFrameTime this' = now /\
  yaw this' = yaw this /\ pitch this' = pitch this /\
  moveSpeed this' = moveSpeed this /\ keys this' = keys this /\
  viewMatrix this'
  = lookAt (position this') (vadd (position this') (getForward this')) worldUp.
Proof.
  cbv zeta. rewrite update_closed, updateViewMatrix_eq. cam_simpl.
  repeat split; reflexivity.
Qed.

(** ** The camera frame in closed form *)

Section Frame.

Variable this : FlybyCamera.
Hypothesis Hp : -89 <= pitch this <= 89.

Let cp := Math.cos (pitch this * Math.PI / 180).
Let sp := Math.sin (pitch this * Math.PI / 180).
Let cy := Math.cos (yaw this * Math.PI / 180).
Let sy := Math.sin (yaw this * Math.PI / 180).

Lemma cp_pos : 1 / 100 < cp.
Proof. apply cos_deg_lb, Hp. Qed.

Lemma pitch_circle : sp * sp + cp * cp = 1.
Proof. pose proof (sin2_cos2_pow (pitch this * Math.PI / 180)). fold sp cp in H. lra. Qed.

Lemma yaw_circle : sy * sy + cy * cy = 1.
Proof. pose proof (sin2_cos2_pow (yaw this * Math.PI / 180)). fold sy cy in H. lra. Qed.

Lemma getForward_closed : getForward this = vec3 (cp * cy) sp (cp * sy).
Proof. reflexivity. Qed.

(** The side axis of the view matrix. *)
Lemma side_closed :
  normalize (cross (getForward this) worldUp) = vec3 (- sy) 0 cy.
Proof.
  pose proof cp_pos as Hc. pose proof (side_norm this Hp) as Hn. fold cp in Hn.
  rewrite normalize_regular by lra. rewrite Hn, getForward_closed.
  apply vec3_ext; vec_unfold; index_simpl; field; lra.
Qed.

(** The strafe vector of [update] is the opposite of the side axis. *)
Lemma leftward_closed : leftward this = vec3 sy 0 (- cy).
Proof.
  unfold leftward. rewrite cross_anticomm.
  pose proof cp_pos as Hc. pose proof (side_norm this Hp) as Hn. fold cp in Hn.
  rewrite normalize_regular by (rewrite norm_vneg; lra).
  rewrite norm_vneg, Hn, getForward_closed.
  apply vec3_ext; vec_unfold; index_simpl; field; lra.
Qed.

Lemma viewOf_closed :
  viewOf this
  = let p := position this in
    mat4 (- sy) (- (cy * sp)) (- (cp * cy)) 0
         0 cp (- sp) 0
         cy (- (sy * sp)) (- (cp * sy)) 0
         (- (- sy * p.[0] + cy * p.[2]))
         (- (- (cy * sp) * p.[0] + cp * p.[1] - sy * sp * p.[2]))
         (cp * cy * p.[0] + sp * p.[1] + cp * sy * p.[2])
         1.
Proof.
  unfold viewOf, lookAt. cbv zeta. rewrite vsub_vadd.
  rewrite (normalize_of_unit (getForward this)) by apply getForward_norm.
  rewrite side_closed, getForward_closed.
  pose proof yaw_circle as Hy.
  apply mat4_ext; vec_unfold; index_simpl; first [ring | nsatz].
Qed.

End Frame.

(** ** Field reads through the methods *)

Lemma position_updateViewMatrix (this : FlybyCamera) :
  position (updateViewMatrix this) = position this.
Proof. now rewrite updateViewMatrix_eq. Qed.

Lemma updateViewMatrix_fixed (this : FlybyCamera) :
  viewMatrix this = viewOf this -> updateViewMatrix this = this.
Proof.
  intros H. rewrite updateViewMatrix_eq, <- H. now destruct this.
Qed.

Lemma with_fallbackControls_same (this : FlybyCamera) :
  with_fallbackControls (fallbackControls this) this = this.
Proof. now destruct this. Qed.

Lemma vadd_vscale_0 (p v : Vec3) (k : R) : k = 0 -> vadd p (vscale k v) = p.
Proof. intros ->. array_eq. Qed.

Lemma restamp_fixed (this : FlybyCamera) :
  viewMatrix this = viewOf this ->
  updateViewMatrix
    (with_position (position this) (with_lastFrameTime (lastFrameTime this) this))
  = this.
Proof.
  intros H. rewrite updateViewMatrix_eq.
  rewrite (viewOf_pose _ this), <- H by reflexivity. now destruct this.
Qed.

Lemma update_view (now : R) (this : FlybyCamera) :
  viewMatrix (update now this) = viewOf (update now this).
Proof. rewrite update_closed, updateViewMatrix_eq. reflexivity. Qed.

Lemma update_lastFrameTime (now : R) (this : FlybyCamera) :
  lastFrameTime (update now this) = now.
Proof. rewrite update_closed, updateViewMatrix_eq. reflexivity. Qed.

Lemma elapsed_saturated (now : R) (this : FlybyCamera) :
  lastFrameTime this + 100 <= now -> elapsed now this = 0.1.
Proof. intros H. unfold elapsed. apply min_cap. lra. Qed.

(** ** More theorems *)

(** C12: the inlined look-at code of [updateViewMatrix] computes the look-at
    matrix from the position towards position + forward with up (0, 1, 0),
    and the method changes no other field. *)
Theorem updateViewMatrix_lookAt (this : FlybyCamera) :
  updateViewMatrix this
  = with_viewMatrix
      (lookAt (position this) (vadd (position this) (getForward this)) (vec3 0 1 0))
      this.
Proof. exact (updateViewMatrix_eq this). Qed.

(** [updateProjectionMatrix] stores the perspective matrix of a 45
    degree field of view, the canvas aspect ratio, near 0.1 and far 100, and
    changes no other field. *)
Theorem updateProjectionMatrix_perspective (canvas : Canvas) (this : FlybyCamera) :
  updateProjectionMatrix canvas this
  = with_projectionMatrix
      (perspective (45 * Math.PI / 180) (IZR (width canvas) / IZR (height canvas))
                   0.1 100.0)
      this.
Proof. exact (updateProjectionMatrix_eq canvas this). Qed.

(** C10: when 100 ms or more have passed since the last frame, [update]
    moves the camera exactly as far as after 100 ms. *)
Theorem update_clamp (now : R) (this : FlybyCamera) :
  lastFrameTime this + 100 <= now ->
  position (update now this) = position (update (lastFrameTime this + 100) this).
Proof.
  intros H. rewrite !update_closed, !position_updateViewMatrix. cam_simpl.
  rewrite !elapsed_saturated by lra. reflexivity.
Qed.

Lemma update_clamp_witness :
  let this := with_lastFrameTime 0 (constructor canvas0 0) in
  position (update 5000 this) = position (update (lastFrameTime this + 100) this).
Proof.
  apply (update_clamp 5000 (with_lastFrameTime 0 (constructor canvas0 0))).
  cam_simpl. lra.
Defined.

(** [update] is idempotent when no time has passed: a second call at
    the same time stamp changes nothing, whatever keys are held. *)
Theorem update_idempotent (now : R) (this : FlybyCamera) :
  update now (update now this) = update now this.
Proof.
  rewrite (update_closed now (update now this)).
  pose proof (update_lastFrameTime now this) as Ht.
  pose proof (update_view now this) as Hv.
  set (U := update now this) in *. clearbody U.
  subst now. rewrite vadd_vscale_0.
  - now apply restamp_fixed.
  - unfold elapsed.
    replace ((lastFrameTime U - lastFrameTime U) / 1000.0) with 0 by lra.
    rewrite min_under by lra. ring.
Qed.

(** C36: seen from the camera, [update] moves along the axes of the view
    frame: W and S along the viewing direction (eye-space -z and +z), A
    and D to the left and right (eye-space -x and +x), space and shift
    along the world vertical. *)
Theorem update_view_frame (now : R) (this : FlybyCamera) :
  reachable this ->
  let k := moveSpeed this * Math.min ((now - lastFrameTime this) / 1000.0) 0.1 in
  let pitchRad := pitch this * Math.PI / 180 in
  let ws := b2r (held this "w") - b2r (held this "s") in
  let ad := b2r (held this "a") - b2r (held this "d") in
  let ud := b2r (held this " ") - b2r (held this "shift") in
  xyz (apply (viewMatrix this)
         (direction (vsub (position (update now this)) (position this))))
  = vec3 (- (k * ad))
         (k * ud * Math.cos pitchRad)
         (- (k * ws) - k * ud * Math.sin pitchRad).
Proof.
  intros H. destruct (invariant_reachable this H) as [Hp _ _ Hv].
  cbv zeta. fold (elapsed now this). fold (viewOf this) in Hv.
  rewrite Hv, (viewOf_closed this Hp), update_closed, position_updateViewMatrix.
  cam_simpl. unfold moveIntent.
  rewrite (leftward_closed this Hp), (getForward_closed this).
  pose proof (pitch_circle this) as Hc. pose proof (yaw_circle this) as Hy.
  cbv zeta in *. unfold apply.
  set (cp := Math.cos (pitch this * Math.PI / 180)) in *.
  set (sp := Math.sin (pitch this * Math.PI / 180)) in *.
  set (cy := Math.cos (yaw this * Math.PI / 180)) in *.
  set (sy := Math.sin (yaw this * Math.PI / 180)) in *.
  set (k := moveSpeed this * elapsed now this).
  set (ws := b2r (held this "w") - b2r (held this "s")).
  set (ad := b2r (held this "a") - b2r (held this "d")).
  set (ud := b2r (held this " ") - b2r (held this "shift")).
  set (p := position this).
  clearbody cp sp cy sy k ws ad ud p. clear -Hc Hy.
  destruct p as [p0 p1 p2]. array_cbv. apply vec3_eq; nsatz.
Qed.

Lemma update_view_frame_witness :
  let this := constructor canvas0 0 in
  let k := moveSpeed this * Math.min ((16 - lastFrameTime this) / 1000.0) 0.1 in
  let pitchRad := pitch this * Math.PI / 180 in
  let ws := b2r (held this "w") - b2r (held this "s") in
  let ad := b2r (held this "a") - b2r (held this "d") in
  let ud := b2r (held this " ") - b2r (held this "shift") in
  xyz (apply (viewMatrix this)
         (direction (vsub (position (update 16 this)) (position this))))
  = vec3 (- (k * ad))
         (k * ud * Math.cos pitchRad)
         (- (k * ws) - k * ud * Math.sin pitchRad).
Proof. exact (update_view_frame 16 _ (reachable_new canvas0 0)). Defined.

(** [reset] restores the spawn position, yaw, pitch and view matrix of
    a freshly constructed camera whatever the state was, stamps the time,
    and keeps the speed, the keys and the pointer-lock flag. *)
Theorem reset_spawn (now : R) (this : FlybyCamera) (canvas : Canvas) (t0 : R) :
  let r := reset now this in
  let fresh := constructor canvas t0 in
  position r = position fresh /\ yaw r = yaw fresh /\ pitch r = pitch fresh /\
  viewMatrix r = viewMatrix fresh /\ lastFrameTime r = now /\
  moveSpeed r = moveSpeed this /\ keys r = keys this /\
  isPointerLocked r = isPointerLocked this.
Proof.
  cbv zeta. unfold reset, constructor. cbv zeta.
  rewrite !updateViewMatrix_eq, updateProjectionMatrix_eq.
  unfold setupEventListeners. cam_simpl. repeat split; reflexivity.
Qed.

(** [getForward] returns a vector of length 1 for every yaw and pitch. *)
Theorem getForward_unit (this : FlybyCamera) : norm (getForward this) = 1.
Proof. exact (getForward_norm this). Qed.

(** ** Routing of pointer motion *)

Lemma fallback_mousemove_all_locked (e : MouseEvent) (fcs : list FallbackControls)
  (this : FlybyCamera) :
  isPointerLocked this = true -> fallback_mousemove_all e fcs this = (this, fcs).
Proof.
  intros H. induction fcs as [|fc rest IH]; [reflexivity|].
  cbn [fallback_mousemove_all]. unfold fallback_on_mousemove.
  rewrite H, andb_false_r, IH. reflexivity.
Qed.

Lemma fallback_mousemove_all_released (e : MouseEvent) (fcs : list FallbackControls)
  (this : FlybyCamera) :
  Forall (fun fc => isMouseDown fc = false) fcs ->
  fallback_mousemove_all e fcs this = (this, fcs).
Proof.
  induction 1 as [|fc rest Hfc _ IH]; [reflexivity|].
  cbn [fallback_mousemove_all]. unfold fallback_on_mousemove.
  rewrite Hfc. cbn [andb]. rewrite IH. reflexivity.
Qed.

(** C35: while the pointer is locked, a mouse move turns the camera by the
    relative motion times the sensitivity, clamps the pitch to [-89, 89],
    recomputes the view matrix, and the click-and-drag listeners stay
    silent. *)
Theorem look_locked (canvas : Canvas) (e : MouseEvent) (this : FlybyCamera) :
  isPointerLocked this = true ->
  let dx := movementX e ||: mozMovementX e ||: webkitMovementX e ||: 0 in
  let dy := movementY e ||: mozMovementY e ||: webkitMovementY e ||: 0 in
  let this' := fst (handle canvas (mousemove e) this) in
  yaw this' = yaw this + dx * rotationSpeed this /\
  pitch this' = Math.max (-89) (Math.min 89 (pitch this - dy * rotationSpeed this)) /\
  position this' = position this /\
  fallbackControls this' = fallbackControls this /\
  viewMatrix this'
  = lookAt (position this') (vadd (position this') (getForward this')) worldUp.
Proof.
  intros H. cbv zeta. cbn [handle]. unfold on_mousemove. rewrite H. cbv zeta.
  rewrite fallback_mousemove_all_locked
    by (rewrite updateViewMatrix_eq; exact H).
  rewrite updateViewMatrix_eq. cam_simpl. repeat split; reflexivity.
Qed.

(** A mouse event that reports a relative motion of (30, -10). *)
Definition motion0 : MouseEvent :=
  mkMouseEvent (Some 30) None None (Some (-10)) None None 400 300.

Lemma look_locked_witness :
  let this := with_isPointerLocked true (constructor canvas0 0) in
  let this' := fst (handle canvas0 (mousemove motion0) this) in
  yaw this' = yaw this + (Some 30 ||: None ||: None ||: 0) * rotationSpeed this /\
  pitch this'
  = Math.max (-89) (Math.min 89
      (pitch this - (Some (-10) ||: None ||: None ||: 0) * rotationSpeed this)) /\
  position this' = position this /\
  fallbackControls this' = fallbackControls this /\
  viewMatrix this'
  = lookAt (position this') (vadd (position this') (getForward this')) worldUp.
Proof.
  exact (look_locked canvas0 motion0
           (with_isPointerLocked true (constructor canvas0 0)) eq_refl).
Defined.

(** While the pointer is not locked and no fallback closure has its
    button down, a mouse move changes nothing. *)
Theorem mousemove_ignored (canvas : Canvas) (e : MouseEvent) (this : FlybyCamera) :
  isPointerLocked this = false ->
  Forall (fun fc => isMouseDown fc = false) (fallbackControls this) ->
  fst (handle canvas (mousemove e) this) = this.
Proof.
  intros Hl Hf. cbn [handle]. unfold on_mousemove. rewrite Hl.
  rewrite fallback_mousemove_all_released by assumption.
  apply with_fallbackControls_same.
Qed.

Lemma mousemove_ignored_witness :
  fst (handle canvas0 (mousemove motion0) (constructor canvas0 0)) = constructor canvas0 0.
Proof.
  apply (mousemove_ignored canvas0 motion0 (constructor canvas0 0)).
  - reflexivity.
  - constructor.
Defined.

(** ** Repeated fallback registration *)

Lemma run_app (evs1 evs2 : list (Canvas * Event)) (this : FlybyCamera) :
  run (evs1 ++ evs2) this = run evs2 (run evs1 this).
Proof. unfold run. apply fold_left_app. Qed.

(** A rejected request adds one closure and changes nothing else. *)
Lemma run_rejected (canvas : Canvas) (n : nat) (this : FlybyCamera) :
  run (map (pair canvas) (repeat requestPointerLock_rejected n)) this
  = with_fallbackControls
      (fallbackControls this ++ repeat (mkFallbackControls false 0 0) n) this.
Proof.
  revert this. induction n as [|n IH]; intros this.
  - cbn. rewrite app_nil_r. symmetry. apply with_fallbackControls_same.
  - cbn [repeat map]. change (run (?x :: ?l) this) with (run l (fst (handle (fst x) (snd x) this))).
    cbn [fst snd handle]. rewrite IH. unfold on_requestPointerLock_rejected,
      setupFallbackMouseControls. cam_simpl. rewrite <- app_assoc. reflexivity.
Qed.

(** Every closure whose button is down applies the same drag again. *)
Lemma fallback_mousemove_all_pressed (e : MouseEvent) (x0 y0 : R) (n : nat) :
  forall this, isPointerLocked this = false ->
  let r := fallback_mousemove_all e (repeat (mkFallbackControls true x0 y0) n) this in
  yaw (fst r) = yaw this + INR n * ((clientX e - x0) * rotationSpeed this).
Proof.
  induction n as [|n IH]; intros this Hl; cbv zeta.
  - cbn. lra.
  - cbn [repeat fallback_mousemove_all]. unfold fallback_on_mousemove.
    cbn [isMouseDown lastX lastY]. rewrite Hl. cbn [negb andb]. cbv zeta.
    rewrite updateViewMatrix_eq.
    match goal with |- context [fallback_mousemove_all e _ ?c] =>
      specialize (IH c Hl); cbv zeta in IH;
      destruct (fallback_mousemove_all e _ c) as [c' fcs']
    end.
    cam_simpl. rewrite IH. rewrite S_INR. ring.
Qed.

(** C34: every rejected pointer-lock request registers one more set of
    click-and-drag listeners, and each registered set applies the drag: after
    [n] rejections a drag of dx pixels turns the camera by n * dx * 0.1
    degrees instead of dx * 0.1. *)
Theorem rejected_requests_multiply_drag (canvas : Canvas) (n : nat)
  (down move : MouseEvent) (this : FlybyCamera) :
  isPointerLocked this = false ->
  fallbackControls this = [] ->
  yaw (run (map (pair canvas)
              (repeat requestPointerLock_rejected n ++ [mousedown down; mousemove move]))
           this)
  = yaw this + INR n * ((clientX move - clientX down) * rotationSpeed this).
Proof.
  intros Hl Hf. rewrite map_app, run_app, run_rejected, Hf. cbn [app map].
  unfold run. cbn [fold_left fst snd handle]. cam_simpl.
  rewrite map_repeat. unfold fallback_on_mousedown at 1. unfold on_mousemove. cam_simpl.
  rewrite Hl.
  pose proof (fallback_mousemove_all_pressed move (clientX down) (clientY down) n
                (with_fallbackControls
                   (repeat (mkFallbackControls true (clientX down) (clientY down)) n)
                   (with_fallbackControls (repeat (mkFallbackControls false 0 0) n) this))
                Hl) as H.
  cbv zeta in H. cam_simpl.
  destruct (fallback_mousemove_all move _ _) as [c fcs]. cam_simpl. exact H.
Qed.

Lemma rejected_requests_multiply_drag_witness :
  yaw (run (map (pair canvas0)
              (repeat requestPointerLock_rejected 3
               ++ [mousedown motion0;
                   mousemove (mkMouseEvent None None None None None None 410 300)]))
           (constructor canvas0 0))
  = yaw (constructor canvas0 0)
    + INR 3 * ((410 - clientX motion0) * rotationSpeed (constructor canvas0 0)).
Proof.
  exact (rejected_requests_multiply_drag canvas0 3 motion0
           (mkMouseEvent None None None None None None 410 300)
           (constructor canvas0 0) eq_refl eq_refl).
Defined.

(** ** Speed, projection and keys *)

(** The wheel adds a tenth of the scroll amount to the speed and clamps
    it to [0.5, 20]; the pose, the view matrix and the keys are untouched and
    the event's default action is prevented. *)
Theorem on_wheel_speed (deltaY : R) (this : FlybyCamera) :
  let r := on_wheel deltaY this in
  moveSpeed (fst r) = Math.max 0.5 (Math.min 20 (moveSpeed this + deltaY * 0.1)) /\
  0.5 <= moveSpeed (fst r) <= 20 /\
  position (fst r) = position this /\ yaw (fst r) = yaw this /\
  pitch (fst r) = pitch this /\ viewMatrix (fst r) = viewMatrix this /\
  keys (fst r) = keys this /\ snd r = [PreventDefault].
Proof.
  cbv zeta. unfold on_wheel. cbv zeta. cam_simpl.
  replace 20.0 with 20 by lra.
  repeat split; try reflexivity; apply max_min_range; lra.
Qed.

(** A resize changes only the projection matrix, and of its entries
    only entry 0 depends on the canvas size; position, orientation and view
    matrix stay as they are. *)
Theorem resize_only_projection (canvas canvas' : Canvas) (i : nat)
  (this : FlybyCamera) :
  i <> 0%nat ->
  let r := fst (handle canvas resize this) in
  let r' := fst (handle canvas' resize this) in
  (projectionMatrix r).[i] = (projectionMatrix r').[i] /\
  viewMatrix r = viewMatrix this /\ position r = position this /\
  yaw r = yaw this /\ pitch r = pitch this /\ moveSpeed r = moveSpeed this.
Proof.
  intros Hi. cbv zeta. cbn [handle fst]. rewrite !updateProjectionMatrix_eq. cam_simpl.
  split; [now apply perspective_aspect | repeat split; reflexivity].
Qed.

Lemma resize_only_projection_witness :
  let this := constructor canvas0 0 in
  let r := fst (handle canvas0 resize this) in
  let r' := fst (handle (mkCanvas 0%nat 1920%Z 1080%Z true false false) resize this) in
  (projectionMatrix r).[5] = (projectionMatrix r').[5] /\
  viewMatrix r = viewMatrix this /\ position r = position this /\
  yaw r = yaw this /\ pitch r = pitch this /\ moveSpeed r = moveSpeed this.
Proof.
  apply (resize_only_projection canvas0
           (mkCanvas 0%nat 1920%Z 1080%Z true false false) 5 (constructor canvas0 0)).
  discriminate.
Defined.

(** The projection matrix maps the near plane (0.1 in front of the
    eye) to depth -1 and the far plane (100 in front) to depth +1 after the
    perspective divide, and the clip-space w of a point is its distance in
    front of the eye. *)
Theorem projection_depth (canvas : Canvas) (this : FlybyCamera) (p : Vec3) :
  let P := projectionMatrix (updateProjectionMatrix canvas this) in
  let near := apply P (point (vec3 p.[0] p.[1] (- 0.1))) in
  let far := apply P (point (vec3 p.[0] p.[1] (- 100.0))) in
  near.[2] / near.[3] = -1 /\ far.[2] / far.[3] = 1 /\
  (apply P (point p)).[3] = - p.[2].
Proof.
  cbv zeta. rewrite updateProjectionMatrix_eq. cam_simpl.
  destruct p as [p0 p1 p2]. unfold perspective. array_cbv.
  split; [|split].
  - replace (0 * p0 + 0 * p1 + -1 * -0.1 + 0 * 1) with 0.1 by lra. lra.
  - replace (0 * p0 + 0 * p1 + -1 * -100.0 + 0 * 1) with 100 by lra. lra.
  - lra.
Qed.

Lemma held_insert (k key : string) (b : bool) (this : FlybyCamera) :
  held (with_keys (<[key := b]> (keys this)) this) k
  = if decide (k = key) then b else held this k.
Proof.
  unfold held. cam_simpl. destruct (decide (k = key)) as [-> | Hne].
  - now rewrite lookup_insert_eq.
  - now rewrite lookup_insert_ne.
Qed.

(** A key is held from its keydown to its keyup, under its lower-case
    name, and no other key changes state. *)
Theorem key_tracking (canvas : Canvas) (key k : string) (this : FlybyCamera) :
  held (fst (on_keydown canvas key this)) k
  = (if decide (k = toLowerCase key) then true else held this k) /\
  held (on_keyup key this) k
  = (if decide (k = toLowerCase key) then false else held this k).
Proof.
  split.
  - unfold on_keydown. cbv zeta.
    destruct (_ || _); [destruct (_ || _ || _)|]; cbn [fst]; apply held_insert.
  - apply held_insert.
Qed.

