(* ===== verification/Contract.v ===== *)
(** * Contract: what the camera promises to the application

    main.js creates its camera, lets the page deliver events to its
    listeners, calls [update], [reset] and [updateProjectionMatrix], and
    reads the position, the forward vector and the view matrix.  What it
    relies on is written as a class: a predicate [good] on cameras that
    holds of a new camera, is kept by every listener and method, bounds the
    pitch away from the poles, and says that the view matrix is the look-at
    matrix of the pose.  The lemmas about the application are proved for
    any such predicate; the state invariant of [CameraProps] and
    reachability are two, and reachability is the least one. *)

From Stdlib Require Import Reals Lra Bool ZArith String List.
From S2P Require Import Prelude MatrixMath Camera CameraProps.
Import ListNotations.
Local Open Scope R_scope.

(** ** The interface *)

Class CameraContract (good : FlybyCamera -> Prop) : Prop := {
  good_constructor (canvas : Canvas) (now : R) : good (constructor canvas now);
  good_handle (canvas : Canvas) (ev : Event) (this : FlybyCamera) :
    good this -> good (fst (handle canvas ev this));
  good_pitch (this : FlybyCamera) : good this -> -89 <= pitch this <= 89;
  good_view (this : FlybyCamera) : good this -> viewMatrix this = viewOf this }.

(** ** The calls of the application as events of the camera *)

Lemma fst_pair {A B : Type} (a : A) (b : B) : fst (a, b) = a.
Proof. reflexivity. Qed.

Lemma handle_animationFrame (canvas : Canvas) (now : R) (c : FlybyCamera) :
  handle canvas (animationFrame now) c = (update now c, []).
Proof. reflexivity. Qed.

Lemma handle_resetCamera (canvas : Canvas) (now : R) (c : FlybyCamera) :
  handle canvas (resetCamera now) c = (reset now c, []).
Proof. reflexivity. Qed.

Lemma handle_resize (canvas : Canvas) (c : FlybyCamera) :
  handle canvas resize c = (updateProjectionMatrix canvas c, []).
Proof. reflexivity. Qed.

(** ** What follows from the contract *)

Section Contract.

Context {good : FlybyCamera -> Prop} `{!CameraContract good}.

Lemma good_update (now : R) (c : FlybyCamera) : good c -> good (update now c).
Proof.
  intros H. pose proof (good_handle canvas0 (animationFrame now) c H) as H'.
  rewrite handle_animationFrame, fst_pair in H'. exact H'.
Qed.

Lemma good_reset (now : R) (c : FlybyCamera) : good c -> good (reset now c).
Proof.
  intros H. pose proof (good_handle canvas0 (resetCamera now) c H) as H'.
  rewrite handle_resetCamera, fst_pair in H'. exact H'.
Qed.

Lemma good_updateProjectionMatrix (canvas : Canvas) (c : FlybyCamera) :
  good c -> good (updateProjectionMatrix canvas c).
Proof.
  intros H. pose proof (good_handle canvas resize c H) as H'.
  rewrite handle_resize, fst_pair in H'. exact H'.
Qed.

(** A sequence of events keeps the camera good. *)
Lemma good_run (evs : list (Canvas * Event)) :
  forall c, good c -> good (run evs c).
Proof.
  unfold run. induction evs as [|[canvas ev] evs IH]; intros c H; [assumption|].
  cbn [fold_left]. apply IH. now apply good_handle.
Qed.

(** Every state that the camera reaches is good: reachability is the least
    predicate that satisfies the contract. *)
Lemma good_reachable (c : FlybyCamera) : reachable c -> good c.
Proof.
  induction 1 as [canvas now | canvas ev c _ IH].
  - apply good_constructor.
  - now apply good_handle.
Qed.

(** The view matrix of a good camera in closed form. *)
Lemma good_view_closed (c : FlybyCamera) :
  good c ->
  viewMatrix c
  = let cp := Math.cos (pitch c * Math.PI / 180) in
    let sp := Math.sin (pitch c * Math.PI / 180) in
    let cy := Math.cos (yaw c * Math.PI / 180) in
    let sy := Math.sin (yaw c * Math.PI / 180) in
    let p := position c in
    mat4 (- sy) (- (cy * sp)) (- (cp * cy)) 0
         0 cp (- sp) 0
         cy (- (sy * sp)) (- (cp * sy)) 0
         (- (- sy * p.[0] + cy * p.[2]))
         (- (- (cy * sp) * p.[0] + cp * p.[1] - sy * sp * p.[2]))
         (cp * cy * p.[0] + sp * p.[1] + cp * sy * p.[2])
         1.
Proof.
  intros H. rewrite (good_view c H). exact (viewOf_closed c (good_pitch c H)).
Qed.

End Contract.

(** ** The implementations *)

(** The state invariant of the camera satisfies the contract. *)
#[export] Instance invariant_contract : CameraContract invariant.
Proof.
  split.
  - exact constructor_invariant.
  - exact handle_invariant.
  - now intros this [].
  - now intros this [].
Qed.

(** So does reachability. *)
#[export] Instance reachable_contract : CameraContract reachable.
Proof.
  split.
  - exact reachable_new.
  - exact reachable_event.
  - intros this H. exact (inv_pitch this (invariant_reachable this H)).
  - intros this H. exact (inv_view this (invariant_reachable this H)).
Qed.
