(* ===== verification/InputMode.v ===== *)
(** * InputMode: the input-mode machine, and the camera as its implementation

    The specification routes pointer input through a machine with the
    modes [Locked] (the relative motion of the captured pointer turns the
    camera) and [Fallback] (the motion of the pointer while a button is
    held does).  [Router] is the state of that machine, with the mode
    [Idle] of the code before either is entered; [route] is its transition
    function on the events of the page, [lookDelta] the look delta it makes
    of a pointer motion, and [applyLookDelta] what the camera does with
    one.  The listeners of camera.js implement the machine
    ([input_mode_refinement]) as long as the fallback is entered once:
    [CameraProps.rejected_requests_multiply_drag] shows what happens when
    it is entered again. *)

From Stdlib Require Import Reals Lra Bool List String.
From S2P Require Import Prelude MatrixMath Camera CameraProps.
Import ListNotations.
Local Open Scope R_scope.
Local Open Scope js_scope.

Inductive InputMode : Type := Idle | Locked | Fallback.

(** The state of the machine: whether the capture of the pointer is
    granted, and, once the fallback has been entered, the button and the
    last position of click-and-drag. *)
Record Router : Type := mkRouter {
  captured : bool;
  drag : option FallbackControls }.

Definition mode (r : Router) : InputMode :=
  if captured r then Locked
  else match drag r with Some _ => Fallback | None => Idle end.

(** The fallback is entered lazily, and persists once entered. *)
Definition enterFallback (r : Router) : Router :=
  mkRouter (captured r)
    (Some (match drag r with Some fc => fc | None => mkFallbackControls false 0 0 end)).

(** Whether the event enters the fallback: a rejected request for the
    capture, or a click on a canvas that cannot be asked for it. *)
Definition entersFallback (canvas : Canvas) (ev : Event) : bool :=
  match ev with
  | requestPointerLock_rejected => true
  | click =>
      negb (requestPointerLock canvas || mozRequestPointerLock canvas
            || webkitRequestPointerLock canvas)
  | _ => false
  end.

(** The transitions of the machine. *)
Definition route (canvas : Canvas) (ev : Event) (r : Router) : Router :=
  match ev with
  | pointerlockchange document =>
      mkRouter (isCanvas (pointerLockElement document) canvas
                || isCanvas (mozPointerLockElement document) canvas
                || isCanvas (webkitPointerLockElement document) canvas) (drag r)
  | mozpointerlockchange document =>
      mkRouter (isCanvas (mozPointerLockElement document) canvas) (drag r)
  | webkitpointerlockchange document =>
      mkRouter (isCanvas (webkitPointerLockElement document) canvas) (drag r)
  | mousedown e =>
      mkRouter (captured r)
        (option_map (fun _ => mkFallbackControls true (clientX e) (clientY e)) (drag r))
  | mouseup =>
      mkRouter (captured r)
        (option_map (fun fc => mkFallbackControls false (lastX fc) (lastY fc)) (drag r))
  | mousemove e =>
      if captured r then r
      else mkRouter false
             (option_map (fun fc => if isMouseDown fc
                                    then mkFallbackControls true (clientX e) (clientY e)
                                    else fc) (drag r))
  | click | requestPointerLock_rejected =>
      if entersFallback canvas ev then enterFallback r else r
  | _ => r
  end.

(** The look delta, in pixels, that the machine makes of a pointer
    motion. *)
Definition lookDelta (e : MouseEvent) (r : Router) : option (R * R) :=
  if captured r then
    Some (movementX e ||: mozMovementX e ||: webkitMovementX e ||: 0,
          movementY e ||: mozMovementY e ||: webkitMovementY e ||: 0)
  else
    match drag r with
    | Some fc =>
        if isMouseDown fc then Some (clientX e - lastX fc, clientY e - lastY fc) else None
    | None => None
    end.

(** What the camera does with a look delta: yaw and pitch by the
    sensitivity, the pitch clamped, the view matrix recomputed. *)
Definition applyLookDelta (d : R * R) (this : FlybyCamera) : FlybyCamera :=
  let this := with_yaw (yaw this + fst d * rotationSpeed this) this in
  let this := with_pitch (pitch this - snd d * rotationSpeed this) this in
  let this := with_pitch (Math.max (-89) (Math.min 89 (pitch this))) this in
  updateViewMatrix this.

(** The closures of the camera for a state of the machine. *)
Definition closures (r : Router) : list FallbackControls :=
  match drag r with Some fc => [fc] | None => [] end.

(** The camera implements a state of the machine. *)
Definition implements (this : FlybyCamera) (r : Router) : Prop :=
  isPointerLocked this = captured r /\ fallbackControls this = closures r.

Lemma implements_new (canvas : Canvas) (now : R) :
  implements (constructor canvas now) (mkRouter false None).
Proof. now split. Qed.

Section Refinement.

Variables (canvas : Canvas) (this : FlybyCamera) (r : Router).
Hypothesis Himpl : implements this r.

(** A pointer motion turns the camera by the look delta of the machine. *)
Lemma handle_mousemove (e : MouseEvent) :
  fst (handle canvas (mousemove e) this)
  = with_fallbackControls (closures (route canvas (mousemove e) r))
      (match lookDelta e r with
       | Some d => applyLookDelta d this
       | None => this
       end).
Proof.
  destruct Himpl as [Hl Hf]. destruct r as [c d]. cbn [captured drag] in *.
  cbn [handle route]. unfold on_mousemove, lookDelta, closures. cbn [captured drag].
  rewrite Hl. destruct c.
  - cbv zeta. rewrite fallback_mousemove_all_locked by (rewrite updateViewMatrix_eq; exact Hl).
    cbn [fst]. unfold applyLookDelta. cbn [fst snd]. rewrite !updateViewMatrix_eq.
    cam_simpl. now rewrite Hf.
  - rewrite Hf. destruct d as [[b x y]|]; cbn [closures option_map drag isMouseDown
      fallback_mousemove_all]; [|reflexivity].
    unfold fallback_on_mousemove. cbn [isMouseDown lastX lastY]. rewrite Hl.
    destruct b; cbn [andb negb fst snd]; [|reflexivity].
    unfold applyLookDelta. cbn [fst snd]. cbv zeta. reflexivity.
Qed.

(** Every event that does not enter the fallback a second time takes the
    camera to a state that implements the next state of the machine. *)
Lemma handle_implements (ev : Event) :
  (entersFallback canvas ev = true -> drag r = None) ->
  implements (fst (handle canvas ev this)) (route canvas ev r).
Proof.
  intros Honce. destruct ev; try (rewrite handle_mousemove);
    destruct Himpl as [Hl Hf]; destruct r as [c d]; cbn [captured drag] in *.
  - cbn [handle route]. unfold on_keydown.
    repeat match goal with |- context [if ?b then _ else _] => destruct b end;
      now split.
  - now split.
  - now split.
  - now split.
  - now split.
  - split; [|reflexivity]. cbn [route]. unfold lookDelta. cbn [captured drag].
    destruct c; [unfold applyLookDelta; rewrite updateViewMatrix_eq; exact Hl|].
    destruct d as [[[] x y]|]; cbn [isMouseDown captured];
      unfold applyLookDelta; rewrite ?updateViewMatrix_eq; exact Hl.
  - split; [exact Hl|]. cbn [handle route fst]. cam_simpl. rewrite Hf.
    now destruct d.
  - split; [exact Hl|]. cbn [handle route fst]. cam_simpl. rewrite Hf.
    now destruct d.
  - cbn [handle route entersFallback] in *. unfold on_click.
    destruct (requestPointerLock canvas || mozRequestPointerLock canvas
              || webkitRequestPointerLock canvas); cbn [negb fst]; [now split|].
    rewrite (Honce eq_refl) in *. split; [exact Hl|].
    unfold setupFallbackMouseControls. cam_simpl. now rewrite Hf.
  - cbn [handle route entersFallback fst] in *. rewrite (Honce eq_refl) in *.
    split; [exact Hl|].
    unfold on_requestPointerLock_rejected, setupFallbackMouseControls. cam_simpl.
    now rewrite Hf.
  - now split.
  - cbn [handle route fst]. rewrite update_eq. now split.
  - cbn [handle route fst]. unfold reset. rewrite updateViewMatrix_eq. now split.
  - cbn [handle route fst]. rewrite updateProjectionMatrix_eq. now split.
Qed.

End Refinement.

(** ** Sequences of events *)

(** The machine before any event, and after a sequence of events. *)
Definition idle : Router := mkRouter false None.

Definition routes (evs : list (Canvas * Event)) (r : Router) : Router :=
  fold_left (fun r ce => route (fst ce) (snd ce) r) evs r.

(** No event of the sequence enters the fallback when it has been entered
    before. *)
Fixpoint entersOnce (evs : list (Canvas * Event)) (r : Router) : Prop :=
  match evs with
  | [] => True
  | ce :: rest =>
      (entersFallback (fst ce) (snd ce) = true -> drag r = None) /\
      entersOnce rest (route (fst ce) (snd ce) r)
  end.

Lemma run_implements (evs : list (Canvas * Event)) :
  forall this r,
    implements this r -> entersOnce evs r -> implements (run evs this) (routes evs r).
Proof.
  induction evs as [|[canvas ev] evs IH]; intros this r Hi Ho; [exact Hi|].
  destruct Ho as [Ho1 Ho2]. apply IH; [|exact Ho2].
  now apply handle_implements.
Qed.

(** C13: the listeners of the camera implement the input-mode machine of the
    specification as long as the click-and-drag fallback is entered at most
    once: after any such sequence of events the pointer-lock flag and the
    click-and-drag closure of the camera are the state of the machine, and a
    pointer motion turns the camera by the look delta that the machine makes
    of it: the relative motion in [Locked], the motion since the last
    position while the button is held in [Fallback], nothing otherwise. *)
Theorem input_mode_refinement (canvas : Canvas) (now : R) (evs : list (Canvas * Event))
  (at_canvas : Canvas) (e : MouseEvent) :
  entersOnce evs idle ->
  let this := run evs (constructor canvas now) in
  let r := routes evs idle in
  implements this r /\
  fst (handle at_canvas (mousemove e) this)
  = with_fallbackControls (closures (route at_canvas (mousemove e) r))
      (match lookDelta e r with
       | Some d => applyLookDelta d this
       | None => this
       end).
Proof.
  intros Ho this r.
  assert (Hi : implements this r)
    by exact (run_implements evs _ _ (implements_new canvas now) Ho).
  split; [exact Hi | exact (handle_mousemove at_canvas this r Hi e)].
Qed.

(** A click on a canvas that can be asked for the pointer lock, the
    rejection of the request, and a press of the button at (400, 300). *)
Definition events0 : list (Canvas * Event) :=
  [(canvas0, click); (canvas0, requestPointerLock_rejected); (canvas0, mousedown motion0)].

(** A mouse event at (410, 300). *)
Definition drag0 : MouseEvent := mkMouseEvent None None None None None None 410 300.

Lemma events0_once : entersOnce events0 idle.
Proof. cbn. repeat split; intros H; first [reflexivity | discriminate H]. Qed.

Lemma input_mode_refinement_witness :
  let this := run events0 (constructor canvas0 0) in
  let r := routes events0 idle in
  implements this r /\
  fst (handle canvas0 (mousemove drag0) this)
  = with_fallbackControls (closures (route canvas0 (mousemove drag0) r))
      (match lookDelta drag0 r with
       | Some d => applyLookDelta d this
       | None => this
       end).
Proof. exact (input_mode_refinement canvas0 0 events0 canvas0 drag0 events0_once). Defined.
