(* ===== verification/Reflection.v ===== *)
(** * Reflection: the mirrored view of src/js/main.js

    [calculateReflectionViewMatrix] is the method of [WebGLApp]: it mirrors
    the camera position and look target across the glass plane x = 0 and
    builds a look-at matrix from them, with the look-at code written out
    inline as in the source.  [reflectionViewProj] is the product that
    [setupGlassProgramUniforms] uploads as [uReflectionViewProjectionMatrix].

    The theorems are in [ReflectionProps]. *)

From Stdlib Require Import Reals Lra Psatz Bool ZArith Ascii String List.
From stdpp Require Import gmap strings.
From S2P Require Import Prelude MatrixMath Camera.

Definition calculateReflectionViewMatrix (camera : FlybyCamera) : Mat4 :=
  let cameraPos := getPosition camera in
  let cameraFwd := getForward camera in
  let cameraTarget := vec3 (cameraPos.[0] + cameraFwd.[0])
                           (cameraPos.[1] + cameraFwd.[1])
                           (cameraPos.[2] + cameraFwd.[2]) in
  let eye := vec3 (- cameraPos.[0]) cameraPos.[1] cameraPos.[2] in
  let center := vec3 (- cameraTarget.[0]) cameraTarget.[1] cameraTarget.[2] in
  let up := vec3 0 1 0 in
  let f := vec3 (center.[0] - eye.[0]) (center.[1] - eye.[1]) (center.[2] - eye.[2]) in
  let len := Math.sqrt (f.[0] * f.[0] + f.[1] * f.[1] + f.[2] * f.[2]) in
  let f := if len >? 0.0001 then vec3 (f.[0] / len) (f.[1] / len) (f.[2] / len) else f in
  let s := vec3 (f.[1] * up.[2] - f.[2] * up.[1])
                (f.[2] * up.[0] - f.[0] * up.[2])
                (f.[0] * up.[1] - f.[1] * up.[0]) in
  let slen := Math.sqrt (s.[0] * s.[0] + s.[1] * s.[1] + s.[2] * s.[2]) in
  let s := if slen >? 0.0001 then vec3 (s.[0] / slen) (s.[1] / slen) (s.[2] / slen) else s in
  let u := vec3 (s.[1] * f.[2] - s.[2] * f.[1])
                (s.[2] * f.[0] - s.[0] * f.[2])
                (s.[0] * f.[1] - s.[1] * f.[0]) in
  mat4 s.[0] u.[0] (- f.[0]) 0
       s.[1] u.[1] (- f.[1]) 0
       s.[2] u.[2] (- f.[2]) 0
       (- (s.[0] * eye.[0] + s.[1] * eye.[1] + s.[2] * eye.[2]))
       (- (u.[0] * eye.[0] + u.[1] * eye.[1] + u.[2] * eye.[2]))
       (f.[0] * eye.[0] + f.[1] * eye.[1] + f.[2] * eye.[2])
       1.

(** The matrix uploaded as [uReflectionViewProjectionMatrix]. *)
Definition reflectionViewProj (camera : FlybyCamera) : Mat4 :=
  let reflectionView := calculateReflectionViewMatrix camera in
  multiplyMatrices (projectionMatrix camera) reflectionView.

(** ** The mirror *)

(** Reflection of a point across the glass plane x = 0. *)
Definition mirrorX (p : Vec3) : Vec3 := vec3 (- p.[0]) p.[1] p.[2].

(** The same reflection as a matrix. *)
Definition mirrorMatrix : Mat4 :=
  mat4 (-1) 0 0 0
       0 1 0 0
       0 0 1 0
       0 0 0 1.

(** The camera whose view the reflection pass uses: at the mirrored
    position, with the yaw mirrored (180 degrees minus the yaw) and the same
    pitch. *)
Definition mirroredCamera (camera : FlybyCamera) : FlybyCamera :=
  updateViewMatrix
    (with_yaw (180 - yaw camera) (with_position (mirrorX (position camera)) camera)).
