(* ===== verification/ReflectionProps.v ===== *)
(** * ReflectionProps: what the mirrored view is

    The inlined look-at of [calculateReflectionViewMatrix] agrees with
    [lookAt]; the matrix is the view matrix of the mirrored camera, and it
    is the camera's own view matrix conjugated by the mirror. *)

From Stdlib Require Import Reals Lra Psatz RNsatz Bool ZArith Ascii String List.
From stdpp Require Import gmap strings.
From S2P Require Import Prelude MatrixMath Camera CameraProps Contract Reflection.

(** ** The inlined look-at code *)

(** [normalize] with the squares written as products, as main.js has them. *)
Definition normalizeMul (a : Vec3) : Vec3 :=
  let len := Math.sqrt (a.[0] * a.[0] + a.[1] * a.[1] + a.[2] * a.[2]) in
  if len >? 0.0001 then vec3 (a.[0] / len) (a.[1] / len) (a.[2] / len) else a.

Definition lookAtMul (eye center up : Vec3) : Mat4 :=
  let f := normalizeMul (vsub center eye) in
  let s := normalizeMul (cross f up) in
  let u := cross s f in
  mat4 s.[0] u.[0] (- f.[0]) 0
       s.[1] u.[1] (- f.[1]) 0
       s.[2] u.[2] (- f.[2]) 0
       (- (s.[0] * eye.[0] + s.[1] * eye.[1] + s.[2] * eye.[2]))
       (- (u.[0] * eye.[0] + u.[1] * eye.[1] + u.[2] * eye.[2]))
       (f.[0] * eye.[0] + f.[1] * eye.[1] + f.[2] * eye.[2])
       1.

Lemma normalizeMul_eq (a : Vec3) : normalizeMul a = normalize a.
Proof.
  unfold normalizeMul, normalize.
  replace (a.[0] * a.[0] + a.[1] * a.[1] + a.[2] * a.[2])
    with (a.[0] ^ 2 + a.[1] ^ 2 + a.[2] ^ 2) by ring.
  reflexivity.
Qed.

Lemma lookAtMul_eq (eye center up : Vec3) : lookAtMul eye center up = lookAt eye center up.
Proof. unfold lookAtMul, lookAt. now rewrite !normalizeMul_eq. Qed.

Lemma calculateReflectionViewMatrix_eq (camera : FlybyCamera) :
  calculateReflectionViewMatrix camera
  = lookAt (mirrorX (position camera))
           (mirrorX (vadd (position camera) (getForward camera))) worldUp.
Proof.
  rewrite <- lookAtMul_eq.
  cbv [calculateReflectionViewMatrix lookAtMul normalizeMul mirrorX getPosition
       getForward vsub vadd cross worldUp index Vec3_Indexed v3_0 v3_1 v3_2].
  reflexivity.
Qed.

(** ** The mirror *)


Lemma mirrorMatrix_apply (p : Vec3) :
  apply mirrorMatrix (point p) = point (mirrorX p).
Proof. unfold mirrorMatrix, mirrorX. array_cbv. apply vec4_ext; index_simpl; ring. Qed.

Lemma mirrorMatrix_involutive : multiplyMatrices mirrorMatrix mirrorMatrix = identity.
Proof.
  unfold multiplyMatrices, mirrorMatrix, identity. apply mat4_ext; index_simpl; ring.
Qed.

Lemma mirrorX_vadd (a b : Vec3) : mirrorX (vadd a b) = vadd (mirrorX a) (mirrorX b).
Proof. apply vec3_ext; unfold mirrorX; vec_unfold; index_simpl; ring. Qed.

(** Mirroring the yaw mirrors the forward vector. *)
Lemma getForward_mirrored (camera : FlybyCamera) (p : Vec3) :
  getForward (with_yaw (180 - yaw camera) (with_position p camera))
  = mirrorX (getForward camera).
Proof.
  unfold getForward, mirrorX. cam_simpl. index_simpl.
  replace ((180 - yaw camera) * Math.PI / 180)
    with (Math.PI - yaw camera * Math.PI / 180) by (unfold Math.PI; field).
  unfold Math.cos, Math.sin, Math.PI.
  rewrite Rtrigo_facts.cos_pi_minus, sin_PI_x.
  apply vec3_eq; ring.
Qed.

Lemma calculateReflectionViewMatrix_mirrored (camera : FlybyCamera) :
  calculateReflectionViewMatrix camera = viewMatrix (mirroredCamera camera).
Proof.
  rewrite calculateReflectionViewMatrix_eq. unfold mirroredCamera.
  rewrite updateViewMatrix_eq. cam_simpl. unfold viewOf. cam_simpl.
  now rewrite getForward_mirrored, mirrorX_vadd.
Qed.

Lemma mirroredCamera_invariant (camera : FlybyCamera) :
  invariant camera -> invariant (mirroredCamera camera).
Proof.
  intros [Hp Hs Hr Hv]. unfold mirroredCamera.
  apply invariant_updateViewMatrix; cam_simpl; assumption.
Qed.

(** ** The mirrored view of a camera that keeps its contract *)

Section Conjugate.

Context {good : FlybyCamera -> Prop} `{!CameraContract good}.

(** The reflection view matrix is the view matrix conjugated by the
    mirror. *)
Lemma good_mirrored_view (camera : FlybyCamera) :
  good camera ->
  calculateReflectionViewMatrix camera
  = multiplyMatrices mirrorMatrix (multiplyMatrices (viewMatrix camera) mirrorMatrix).
Proof.
  intros H. pose proof (good_pitch camera H) as Hp.
  rewrite calculateReflectionViewMatrix_mirrored, (good_view camera H).
  unfold mirroredCamera. rewrite updateViewMatrix_eq. cam_simpl.
  rewrite (viewOf_closed _ Hp), (viewOf_closed (with_yaw _ (with_position _ camera)) Hp).
  cam_simpl.
  replace ((180 - yaw camera) * Math.PI / 180)
    with (Math.PI - yaw camera * Math.PI / 180) by (unfold Math.PI; field).
  unfold Math.cos, Math.sin, Math.PI.
  rewrite Rtrigo_facts.cos_pi_minus, sin_PI_x.
  set (cp := cos (pitch camera * PI / 180)). set (sp := sin (pitch camera * PI / 180)).
  set (cy := cos (yaw camera * PI / 180)). set (sy := sin (yaw camera * PI / 180)).
  destruct (position camera) as [p0 p1 p2]. clearbody cp sp cy sy.
  cbv [multiplyMatrices mirrorMatrix mirrorX index Vec3_Indexed Mat4_Indexed
       v3_0 v3_1 v3_2
       m_0 m_1 m_2 m_3 m_4 m_5 m_6 m_7 m_8 m_9 m_10 m_11 m_12 m_13 m_14 m_15].
  apply mat4_eq; ring.
Qed.

(** A point of the world is seen in the reflection pass where the camera
    sees its mirror image, with the x axis of the eye flipped. *)
Lemma good_mirrored_point (camera : FlybyCamera) (p : Vec3) :
  good camera ->
  apply (calculateReflectionViewMatrix camera) (point p)
  = apply mirrorMatrix (apply (viewMatrix camera) (point (mirrorX p))).
Proof.
  intros H.
  now rewrite (good_mirrored_view camera H), !multiplyMatrices_apply, mirrorMatrix_apply.
Qed.

End Conjugate.

(** ** Theorems *)

(** C11: the look-at code inlined in [calculateReflectionViewMatrix] computes
    the look-at matrix from the mirrored camera position towards the
    mirrored look target, with up (0, 1, 0): the eye and the target have
    their x negated and their y and z kept. *)
Theorem calculateReflectionViewMatrix_lookAt (camera : FlybyCamera) :
  calculateReflectionViewMatrix camera
  = lookAt (vec3 (- (position camera).[0]) (position camera).[1] (position camera).[2])
           (mirrorX (vadd (position camera) (getForward camera)))
           (vec3 0 1 0).
Proof. exact (calculateReflectionViewMatrix_eq camera). Qed.

(** C4: the reflection view matrix is the camera's view matrix conjugated
    by the mirror: a world point is seen in the reflection pass where the
    camera sees its mirror image, with the eye-space x axis flipped. *)
Theorem reflection_conjugate (camera : FlybyCamera) (p : Vec3) :
  reachable camera ->
  calculateReflectionViewMatrix camera
  = multiplyMatrices mirrorMatrix (multiplyMatrices (viewMatrix camera) mirrorMatrix) /\
  apply (calculateReflectionViewMatrix camera) (point p)
  = apply mirrorMatrix (apply (viewMatrix camera) (point (mirrorX p))).
Proof.
  intros H. split; [exact (good_mirrored_view camera H)|].
  exact (good_mirrored_point camera p H).
Qed.

Lemma reflection_conjugate_witness :
  let camera := constructor canvas0 0 in
  calculateReflectionViewMatrix camera
  = multiplyMatrices mirrorMatrix (multiplyMatrices (viewMatrix camera) mirrorMatrix) /\
  apply (calculateReflectionViewMatrix camera) (point (vec3 4 1.5 (-3)))
  = apply mirrorMatrix (apply (viewMatrix camera) (point (mirrorX (vec3 4 1.5 (-3))))).
Proof.
  exact (reflection_conjugate (constructor canvas0 0) (vec3 4 1.5 (-3))
           (reachable_new canvas0 0)).
Defined.



(** The matrix uploaded for reflection sampling is the projection
    applied after the reflection view, and for a reachable camera the
    reflection view is a rigid motion that puts the mirrored eye at the
    origin. *)
Theorem reflectionViewProj_spec (camera : FlybyCamera) (v : Vec4) :
  reachable camera ->
  apply (reflectionViewProj camera) v
  = apply (projectionMatrix camera) (apply (calculateReflectionViewMatrix camera) v) /\
  orthonormal (calculateReflectionViewMatrix camera) /\
  affine (calculateReflectionViewMatrix camera) /\
  apply (calculateReflectionViewMatrix camera) (point (mirrorX (position camera)))
  = vec4 0 0 0 1.
Proof.
  intros H. pose proof (invariant_reachable camera H) as Hi.
  split; [apply multiplyMatrices_apply|].
  rewrite calculateReflectionViewMatrix_eq.
  destruct Hi as [Hp _ _ _].
  pose proof (view_nondegenerate
                (with_yaw (180 - yaw camera)
                   (with_position (mirrorX (position camera)) camera)) Hp) as Hnd.
  rewrite getForward_mirrored in Hnd. cam_simpl. rewrite <- mirrorX_vadd in Hnd.
  split; [now apply lookAt_orthonormal|].
  split; [apply lookAt_affine | apply lookAt_eye].
Qed.

Lemma reflectionViewProj_spec_witness :
  let camera := constructor canvas0 0 in
  apply (reflectionViewProj camera) (vec4 1 2 3 1)
  = apply (projectionMatrix camera)
      (apply (calculateReflectionViewMatrix camera) (vec4 1 2 3 1)) /\
  orthonormal (calculateReflectionViewMatrix camera) /\
  affine (calculateReflectionViewMatrix camera) /\
  apply (calculateReflectionViewMatrix camera) (point (mirrorX (position camera)))
  = vec4 0 0 0 1.
Proof.
  exact (reflectionViewProj_spec (constructor canvas0 0) (vec4 1 2 3 1)
           (reachable_new canvas0 0)).
Defined.
