(* ===== verification/Geometry.v ===== *)
(** * Geometry: the meshes of src/js/geometry.js

    [createCube], [createSphere] and [createPlane] return an object with
    four typed arrays: three floats per vertex in [positions] and [normals],
    two in [texCoords], and three indices per triangle in [indices].  The
    arrays are lists here; the loops of [createSphere] are [fold_left]s over
    the counter values, pushing with [++] as the source pushes;
    [createSphereLoop] runs the same loops test by test, with a bound on
    the number of tests.

    A [Uint16Array] keeps the low 16 bits of what is stored in it
    ([Uint16]); the [Float32Array] conversion is the identity of the number
    model (see [Prelude]).  The parameter [segments] is a natural number.
    The defaults of the source ([radius = 1], [segments = 32],
    [width = height = 10]) apply when a caller leaves an argument out;
    main.js passes every argument.

    The theorems are in [GeometryProps]. *)

From Stdlib Require Import Reals ZArith Bool List.
From S2P Require Import Prelude Lists MatrixMath.
Import ListNotations.

Record Geometry : Type := mkGeometry {
  positions : list R;
  normals : list R;
  texCoords : list R;
  indices : list Z }.

(** What a [Uint16Array] stores for the integer [n]. *)
Definition Uint16 (n : Z) : Z := (n mod 65536)%Z.

Definition Uint16Array (l : list Z) : list Z := map Uint16 l.

Definition createCube : Geometry :=
  let positions := [
    (* Front face *)
    -1; -1; 1;   1; -1; 1;   1; 1; 1;   -1; 1; 1;
    (* Back face *)
    -1; -1; -1;   -1; 1; -1;   1; 1; -1;   1; -1; -1;
    (* Top face *)
    -1; 1; -1;   -1; 1; 1;   1; 1; 1;   1; 1; -1;
    (* Bottom face *)
    -1; -1; -1;   1; -1; -1;   1; -1; 1;   -1; -1; 1;
    (* Right face *)
    1; -1; -1;   1; 1; -1;   1; 1; 1;   1; -1; 1;
    (* Left face *)
    -1; -1; -1;   -1; -1; 1;   -1; 1; 1;   -1; 1; -1
  ] in
  let normals := [
    (* Front *)
    0; 0; 1;   0; 0; 1;   0; 0; 1;   0; 0; 1;
    (* Back *)
    0; 0; -1;   0; 0; -1;   0; 0; -1;   0; 0; -1;
    (* Top *)
    0; 1; 0;   0; 1; 0;   0; 1; 0;   0; 1; 0;
    (* Bottom *)
    0; -1; 0;   0; -1; 0;   0; -1; 0;   0; -1; 0;
    (* Right *)
    1; 0; 0;   1; 0; 0;   1; 0; 0;   1; 0; 0;
    (* Left *)
    -1; 0; 0;   -1; 0; 0;   -1; 0; 0;   -1; 0; 0
  ] in
  let texCoords := [
    (* Front *)
    0; 0;   1; 0;   1; 1;   0; 1;
    (* Back *)
    1; 0;   1; 1;   0; 1;   0; 0;
    (* Top *)
    0; 1;   0; 0;   1; 0;   1; 1;
    (* Bottom *)
    1; 1;   0; 1;   0; 0;   1; 0;
    (* Right *)
    1; 0;   1; 1;   0; 1;   0; 0;
    (* Left *)
    0; 0;   1; 0;   1; 1;   0; 1
  ] in
  let indices := Uint16Array [
    0; 1; 2;   0; 2; 3;         (* front *)
    4; 5; 6;   4; 6; 7;         (* back *)
    8; 9; 10;   8; 10; 11;      (* top *)
    12; 13; 14;   12; 14; 15;   (* bottom *)
    16; 17; 18;   16; 18; 19;   (* right *)
    20; 21; 22;   20; 22; 23    (* left *)
  ]%Z in
  mkGeometry positions normals texCoords indices.

Definition createSphere (radius : R) (segments : nat) : Geometry :=
  let '(positions, normals, texCoords) :=
    fold_left (fun arrays lat =>
      let theta := INR lat * Math.PI / INR segments in
      let sinTheta := Math.sin theta in
      let cosTheta := Math.cos theta in
      fold_left (fun '(positions, normals, texCoords) lon =>
        let phi := INR lon * 2 * Math.PI / INR segments in
        let sinPhi := Math.sin phi in
        let cosPhi := Math.cos phi in
        let x := cosPhi * sinTheta in
        let y := cosTheta in
        let z := sinPhi * sinTheta in
        (positions ++ [radius * x; radius * y; radius * z],
         normals ++ [x; y; z],
         texCoords ++ [INR lon / INR segments; INR lat / INR segments]))
        (seq 0 (S segments)) arrays)
      (seq 0 (S segments)) ([], [], []) in
  let indices :=
    fold_left (fun indices lat =>
      fold_left (fun indices lon =>
        let first := (Z.of_nat lat * (Z.of_nat segments + 1) + Z.of_nat lon)%Z in
        let second := (first + Z.of_nat segments + 1)%Z in
        (indices ++ [first; second; (first + 1)%Z])
          ++ [second; (second + 1)%Z; (first + 1)%Z])
        (seq 0 segments) indices)
      (seq 0 segments) [] in
  mkGeometry positions normals texCoords (Uint16Array indices).

(** [createSphere] with its four [for] loops run test by test, each with
    at most [fuel] tests of its condition. *)
Definition createSphereLoop (fuel : nat) (radius : R) (segments : nat)
  : option Geometry :=
  match
    forLoop fuel (fun lat => lat <=? segments) 0 (fun lat arrays =>
      let theta := INR lat * Math.PI / INR segments in
      let sinTheta := Math.sin theta in
      let cosTheta := Math.cos theta in
      forLoop fuel (fun lon => lon <=? segments) 0
        (fun lon '(positions, normals, texCoords) =>
           let phi := INR lon * 2 * Math.PI / INR segments in
           let sinPhi := Math.sin phi in
           let cosPhi := Math.cos phi in
           let x := cosPhi * sinTheta in
           let y := cosTheta in
           let z := sinPhi * sinTheta in
           Some (positions ++ [radius * x; radius * y; radius * z],
                 normals ++ [x; y; z],
                 texCoords ++ [INR lon / INR segments; INR lat / INR segments]))
        arrays)
      ([], [], [])
  with
  | Some (positions, normals, texCoords) =>
      match
        forLoop fuel (fun lat => lat <? segments) 0 (fun lat indices =>
          forLoop fuel (fun lon => lon <? segments) 0 (fun lon indices =>
            let first := (Z.of_nat lat * (Z.of_nat segments + 1) + Z.of_nat lon)%Z in
            let second := (first + Z.of_nat segments + 1)%Z in
            Some ((indices ++ [first; second; (first + 1)%Z])
                    ++ [second; (second + 1)%Z; (first + 1)%Z]))
            indices)
          []
      with
      | Some indices => Some (mkGeometry positions normals texCoords (Uint16Array indices))
      | None => None
      end
  | None => None
  end.

Definition createPlane (width height : R) : Geometry :=
  let w := width / 2 in
  let h := height / 2 in
  let positions := [
    - w; 0; - h;
    w; 0; - h;
    w; 0; h;
    - w; 0; h
  ] in
  let normals := [
    0; 1; 0;
    0; 1; 0;
    0; 1; 0;
    0; 1; 0
  ] in
  let texCoords := [
    0; 0;
    1; 0;
    1; 1;
    0; 1
  ] in
  let indices := Uint16Array [
    0; 1; 2;
    0; 2; 3
  ]%Z in
  mkGeometry positions normals texCoords indices.

(** ** Reading a mesh

    How WebGL reads the arrays once [createVAO] of main.js has declared
    them: attribute 0 and 1 take three consecutive floats per vertex,
    attribute 2 takes two, and [drawElements] in [TRIANGLES] mode takes
    three consecutive indices per triangle. *)

Definition attribute3 (l : list R) (i : nat) : option Vec3 :=
  match nth_error l (3 * i), nth_error l (3 * i + 1), nth_error l (3 * i + 2) with
  | Some x, Some y, Some z => Some (vec3 x y z)
  | _, _, _ => None
  end.

Definition attribute2 (l : list R) (i : nat) : option (R * R) :=
  match nth_error l (2 * i), nth_error l (2 * i + 1) with
  | Some u, Some v => Some (u, v)
  | _, _ => None
  end.

Definition vertexCount (g : Geometry) : nat := Nat.div (length (positions g)) 3.

Definition positionOf (g : Geometry) (i : Z) : option Vec3 :=
  if (i <? 0)%Z then None else attribute3 (positions g) (Z.to_nat i).

Definition normalOf (g : Geometry) (i : Z) : option Vec3 :=
  if (i <? 0)%Z then None else attribute3 (normals g) (Z.to_nat i).

(** The index triples drawn. *)
Definition trianglesOf (g : Geometry) : list (Z * Z * Z) := triples (indices g).

(** Every index names a vertex of the mesh. *)
Definition indicesInRange (g : Geometry) : bool :=
  forallb (fun i => (0 <=? i)%Z && (i <? Z.of_nat (vertexCount g))%Z) (indices g).

(** The arrays have the lengths the attribute layout needs. *)
Definition wellSized (g : Geometry) : bool :=
  Nat.eqb (length (positions g)) (3 * vertexCount g)
  && Nat.eqb (length (normals g)) (3 * vertexCount g)
  && Nat.eqb (length (texCoords g)) (2 * vertexCount g)
  && Nat.eqb (Nat.modulo (length (indices g)) 3) 0.
