(* ===== verification/GeometryProps.v ===== *)
(** * GeometryProps: what the meshes of src/js/geometry.js are

    The loops of [createSphere] are put in closed form (the grid of
    latitudes and longitudes), from which the array lengths, the vertex at
    each grid point and the index triples follow; the sphere's indices stay
    below 65536 up to 255 segments and wrap from 256 on.  The cube and the
    plane are finite tables, checked entry by entry.  The loops of
    [createSphere] run test by test end and give the same arrays. *)

From Stdlib Require Import Reals Lra Psatz ZArith Bool List Lia.
From S2P Require Import Prelude Lists MatrixMath Geometry.
Import ListNotations.

(** ** The sphere in closed form *)

(** Polar angle of latitude ring [lat] and azimuth of meridian [lon]. *)
Definition sphereTheta (segments lat : nat) : R := INR lat * Math.PI / INR segments.
Definition spherePhi (segments lon : nat) : R := INR lon * 2 * Math.PI / INR segments.

(** The unit vector at grid point [(lat, lon)]. *)
Definition sphereNormal (segments lat lon : nat) : Vec3 :=
  vec3 (Math.cos (spherePhi segments lon) * Math.sin (sphereTheta segments lat))
       (Math.cos (sphereTheta segments lat))
       (Math.sin (spherePhi segments lon) * Math.sin (sphereTheta segments lat)).

(** The vertex number of grid point [(lat, lon)]. *)
Definition sphereVertex (segments lat lon : nat) : nat :=
  (lat * (segments + 1) + lon)%nat.

(** The six indices pushed for the quad whose corner is [(lat, lon)]. *)
Definition sphereQuad (segments lat lon : nat) : list Z :=
  let first := (Z.of_nat lat * (Z.of_nat segments + 1) + Z.of_nat lon)%Z in
  let second := (first + Z.of_nat segments + 1)%Z in
  [first; second; first + 1; second; second + 1; first + 1]%Z.

(** The three floats an attribute array holds for a vector. *)
Definition floats3 (v : Vec3) : list R := [v.[0]; v.[1]; v.[2]].

Definition grid {A : Type} (f : nat -> nat -> list A) (rows cols : nat) : list A :=
  pushes (fun r => pushes (f r) 0 cols) 0 rows.

Lemma createSphere_eq (radius : R) (segments : nat) :
  createSphere radius segments
  = mkGeometry
      (grid (fun lat lon => floats3 (vscale radius (sphereNormal segments lat lon)))
            (S segments) (S segments))
      (grid (fun lat lon => floats3 (sphereNormal segments lat lon))
            (S segments) (S segments))
      (grid (fun lat lon => [INR lon / INR segments; INR lat / INR segments])
            (S segments) (S segments))
      (Uint16Array (grid (sphereQuad segments) segments segments)).
Proof.
  unfold createSphere.
  rewrite (fold_left_grid3 _
             (fun lat lon => floats3 (vscale radius (sphereNormal segments lat lon)))
             (fun lat lon => floats3 (sphereNormal segments lat lon))
             (fun lat lon => [INR lon / INR segments; INR lat / INR segments]))
    by reflexivity.
  rewrite (fold_left_grid _ (sphereQuad segments))
    by (intros; unfold sphereQuad; now rewrite <- app_assoc).
  reflexivity.
Qed.

Local Open Scope nat_scope.

Lemma grid_nth_error {A : Type} (f : nat -> nat -> list A) rows cols c r k j :
  (forall r k, length (f r k) = c) -> r < rows -> k < cols -> j < c ->
  nth_error (grid f rows cols) (c * (r * cols + k) + j) = nth_error (f r k) j.
Proof. apply grid_nth. Qed.

Lemma grid_len {A : Type} (f : nat -> nat -> list A) rows cols c :
  (forall r k, length (f r k) = c) -> length (grid f rows cols) = rows * (cols * c).
Proof. apply grid_length. Qed.

Lemma attribute3_grid (f : nat -> nat -> Vec3) rows cols r k :
  r < rows -> k < cols ->
  attribute3 (grid (fun r k => floats3 (f r k)) rows cols) (r * cols + k)
  = Some (f r k).
Proof.
  intros Hr Hk. unfold attribute3.
  rewrite <- (Nat.add_0_r (3 * _)) at 1.
  rewrite !(grid_nth_error _ rows cols 3) by (auto; lia).
  cbn. now destruct (f r k).
Qed.

Lemma attribute2_grid (f g : nat -> nat -> R) rows cols r k :
  r < rows -> k < cols ->
  attribute2 (grid (fun r k => [f r k; g r k]) rows cols) (r * cols + k)
  = Some (f r k, g r k).
Proof.
  intros Hr Hk. unfold attribute2.
  rewrite <- (Nat.add_0_r (2 * _)) at 1.
  now rewrite !(grid_nth_error _ rows cols 2) by (auto; lia).
Qed.

Local Open Scope R_scope.

(** ** Trigonometry of the grid *)

Lemma sphereNormal_unit (segments lat lon : nat) :
  dot (sphereNormal segments lat lon) (sphereNormal segments lat lon) = 1.
Proof.
  unfold sphereNormal, dot. cbn.
  pose proof (sin2_cos2_pow (spherePhi segments lon)).
  pose proof (sin2_cos2_pow (sphereTheta segments lat)). nra.
Qed.

Lemma sphereTheta_range (segments lat : nat) :
  (0 < segments)%nat -> (lat <= segments)%nat ->
  0 <= sphereTheta segments lat <= Math.PI.
Proof.
  intros Hs Hl. unfold sphereTheta.
  assert (0 < INR segments) by now apply lt_0_INR.
  assert (0 <= INR lat <= INR segments) by (split; [apply pos_INR | now apply le_INR]).
  pose proof PI_bounds.
  split.
  - apply Rmult_le_pos; [nra | left; now apply Rinv_0_lt_compat].
  - apply (Rmult_le_reg_r (INR segments)); [easy|].
    unfold Rdiv. rewrite Rmult_assoc, Rinv_l by lra. nra.
Qed.

(** ** The sphere: sizes, vertices, indices *)

Section Sphere.

Variables (radius : R) (segments : nat).

Lemma createSphere_positions_length :
  length (positions (createSphere radius segments)) = (3 * ((segments + 1) * (segments + 1)))%nat.
Proof.
  rewrite createSphere_eq. cbn [positions].
  rewrite (grid_len _ _ _ 3) by reflexivity. lia.
Qed.

Lemma createSphere_normals_length :
  length (normals (createSphere radius segments)) = (3 * ((segments + 1) * (segments + 1)))%nat.
Proof.
  rewrite createSphere_eq. cbn [normals].
  rewrite (grid_len _ _ _ 3) by reflexivity. lia.
Qed.

Lemma createSphere_texCoords_length :
  length (texCoords (createSphere radius segments)) = (2 * ((segments + 1) * (segments + 1)))%nat.
Proof.
  rewrite createSphere_eq. cbn [texCoords].
  rewrite (grid_len _ _ _ 2) by reflexivity. lia.
Qed.

Lemma createSphere_indices_length :
  length (indices (createSphere radius segments)) = (6 * (segments * segments))%nat.
Proof.
  rewrite createSphere_eq. cbn [indices]. unfold Uint16Array.
  rewrite length_map, (grid_len _ _ _ 6) by reflexivity. lia.
Qed.

Lemma createSphere_vertexCount :
  vertexCount (createSphere radius segments) = ((segments + 1) * (segments + 1))%nat.
Proof.
  unfold vertexCount. rewrite createSphere_positions_length.
  rewrite Nat.mul_comm. apply Nat.div_mul. lia.
Qed.

(** The vertex at grid point [(lat, lon)]. *)
Lemma createSphere_position (lat lon : nat) :
  (lat <= segments)%nat -> (lon <= segments)%nat ->
  attribute3 (positions (createSphere radius segments)) (sphereVertex segments lat lon)
  = Some (vscale radius (sphereNormal segments lat lon)).
Proof.
  intros Hlat Hlon. rewrite createSphere_eq. cbn [positions]. unfold sphereVertex.
  replace (segments + 1)%nat with (S segments) by lia.
  apply (attribute3_grid (fun lat lon => vscale radius (sphereNormal segments lat lon)));
    lia.
Qed.

Lemma createSphere_normal (lat lon : nat) :
  (lat <= segments)%nat -> (lon <= segments)%nat ->
  attribute3 (normals (createSphere radius segments)) (sphereVertex segments lat lon)
  = Some (sphereNormal segments lat lon).
Proof.
  intros Hlat Hlon. rewrite createSphere_eq. cbn [normals]. unfold sphereVertex.
  replace (segments + 1)%nat with (S segments) by lia.
  apply (attribute3_grid (sphereNormal segments)); lia.
Qed.

Lemma createSphere_texCoord (lat lon : nat) :
  (lat <= segments)%nat -> (lon <= segments)%nat ->
  attribute2 (texCoords (createSphere radius segments)) (sphereVertex segments lat lon)
  = Some (INR lon / INR segments, INR lat / INR segments).
Proof.
  intros Hlat Hlon. rewrite createSphere_eq. cbn [texCoords]. unfold sphereVertex.
  replace (segments + 1)%nat with (S segments) by lia.
  apply (attribute2_grid (fun _ lon => INR lon / INR segments)
           (fun lat _ => INR lat / INR segments)); lia.
Qed.

(** The indices before they are stored in the [Uint16Array]. *)
Lemma sphereQuad_range (lat lon : nat) :
  (lat < segments)%nat -> (lon < segments)%nat ->
  Forall (fun i => (0 <= i < (Z.of_nat segments + 1) * (Z.of_nat segments + 1))%Z)
         (sphereQuad segments lat lon).
Proof.
  intros Hlat Hlon. unfold sphereQuad. repeat constructor; nia.
Qed.

Lemma sphereQuad_length (lat lon : nat) : length (sphereQuad segments lat lon) = 6%nat.
Proof. reflexivity. Qed.

Lemma Uint16_small (n : Z) : (0 <= n < 65536)%Z -> Uint16 n = n.
Proof. intros H. unfold Uint16. now apply Z.mod_small. Qed.

Lemma Uint16_range (n : Z) : (0 <= Uint16 n < 65536)%Z.
Proof. unfold Uint16. now apply Z.mod_pos_bound. Qed.

Lemma Uint16Array_small (l : list Z) :
  Forall (fun n => (0 <= n < 65536)%Z) l -> Uint16Array l = l.
Proof.
  unfold Uint16Array. induction 1 as [|n l Hn _ IH]; cbn; [easy|].
  now rewrite IH, Uint16_small.
Qed.

(** Up to 255 segments no index is changed by the 16-bit store. *)
Lemma createSphere_indices_exact :
  (segments <= 255)%nat ->
  indices (createSphere radius segments) = grid (sphereQuad segments) segments segments.
Proof.
  intros Hs. rewrite createSphere_eq. cbn [indices].
  apply Uint16Array_small, grid_Forall. intros lat lon Hlat Hlon.
  eapply Forall_impl; [|now apply sphereQuad_range]. cbn beta. nia.
Qed.


End Sphere.

(** ** Orientation of triangles *)

(** Twice the area vector of the triangle [pa pb pc]: it points to the side
    from which the corners are seen counter-clockwise. *)
Definition faceNormal (pa pb pc : Vec3) : Vec3 := cross (vsub pb pa) (vsub pc pa).

(** The three corners of a triangle carry the same normal [n], and the
    winding of the triangle agrees with it ([sign = 1]) or is opposite to it
    ([sign = -1]); [area2] is twice the area. *)
Definition oriented (g : Geometry) (sign area2 : R) (t : Z * Z * Z) : Prop :=
  let '(a, b, c) := t in
  exists pa pb pc n,
    positionOf g a = Some pa /\ positionOf g b = Some pb /\ positionOf g c = Some pc /\
    normalOf g a = Some n /\ normalOf g b = Some n /\ normalOf g c = Some n /\
    dot n n = 1 /\
    faceNormal pa pb pc = vscale (sign * area2) n.

Ltac oriented_tac :=
  unfold oriented; do 4 eexists;
  repeat (split; [reflexivity|]);
  split; [cbv [dot index Vec3_Indexed v3_0 v3_1 v3_2]; lra|];
  cbv [faceNormal cross vsub vscale index Vec3_Indexed v3_0 v3_1 v3_2];
  apply vec3_eq; lra.

Lemma createCube_oriented : Forall (oriented createCube 1 4) (trianglesOf createCube).
Proof. repeat constructor; oriented_tac. Qed.

Lemma createPlane_oriented (width height : R) :
  Forall (oriented (createPlane width height) (-1) (width * height))
         (trianglesOf (createPlane width height)).
Proof. repeat constructor; oriented_tac. Qed.

Lemma indicesInRange_spec (g : Geometry) :
  indicesInRange g = true
  <-> Forall (fun i => (0 <= i < Z.of_nat (vertexCount g))%Z) (indices g).
Proof.
  unfold indicesInRange. rewrite forallb_forall, Forall_forall.
  split; intros H i Hi; specialize (H i Hi); lia.
Qed.

Lemma sphereTheta_0 (segments : nat) : sphereTheta segments 0 = 0.
Proof. unfold sphereTheta. cbn [INR]. lra. Qed.

Lemma spherePhi_0 (segments : nat) : spherePhi segments 0 = 0.
Proof. unfold spherePhi. cbn [INR]. lra. Qed.

Lemma sphereTheta_full (segments : nat) :
  (0 < segments)%nat -> sphereTheta segments segments = Math.PI.
Proof.
  intros H%lt_0_INR. unfold sphereTheta. field. lra.
Qed.

Lemma spherePhi_full (segments : nat) :
  (0 < segments)%nat -> spherePhi segments segments = 2 * Math.PI.
Proof.
  intros H%lt_0_INR. unfold spherePhi. field. lra.
Qed.

Lemma INR_ratio_unit (k n : nat) : (0 < n)%nat -> (k <= n)%nat -> 0 <= INR k / INR n <= 1.
Proof.
  intros Hn%lt_0_INR Hk%le_INR. pose proof (pos_INR k).
  split.
  - apply Rmult_le_pos; [easy | left; now apply Rinv_0_lt_compat].
  - apply (Rmult_le_reg_r (INR n)); [easy|].
    unfold Rdiv. rewrite Rmult_assoc, Rinv_l by lra. lra.
Qed.

(** The north pole: every vertex of ring 0 is at [(0, radius, 0)]. *)
Lemma sphereNormal_north (segments lon : nat) :
  sphereNormal segments 0 lon = vec3 0 1 0.
Proof.
  unfold sphereNormal. rewrite sphereTheta_0. unfold Math.sin, Math.cos.
  rewrite sin_0, cos_0. apply vec3_eq; lra.
Qed.

Lemma sphereNormal_south (segments lon : nat) :
  (0 < segments)%nat -> sphereNormal segments segments lon = vec3 0 (-1) 0.
Proof.
  intros H. unfold sphereNormal. rewrite sphereTheta_full by easy.
  unfold Math.sin, Math.cos, Math.PI. rewrite sin_PI, cos_PI. apply vec3_eq; lra.
Qed.

(** The seam: the last meridian repeats the first. *)
Lemma sphereNormal_seam (segments lat : nat) :
  (0 < segments)%nat ->
  sphereNormal segments lat segments = sphereNormal segments lat 0.
Proof.
  intros H. unfold sphereNormal. rewrite spherePhi_full, spherePhi_0 by easy.
  unfold Math.sin, Math.cos, Math.PI. now rewrite sin_2PI, cos_2PI, sin_0, cos_0.
Qed.

Lemma dot_vscale_unit (k : R) (n : Vec3) :
  dot n n = 1 -> dot (vscale k n) (vscale k n) = k * k.
Proof. destruct n. array_cbv. nra. Qed.

(** ** The mesh theorems *)

(** C28: the vertex that [createSphere] stores for grid point (lat, lon) is
    the point of the sphere of the given radius at polar angle
    lat * pi / segments and azimuth lon * 2 pi / segments; its normal is the
    unit vector from the centre to it, and its texture coordinates are
    (lon / segments, lat / segments), both within [0, 1]. *)
Theorem createSphere_vertices (radius : R) (segments lat lon : nat) :
  (0 < segments)%nat -> (lat <= segments)%nat -> (lon <= segments)%nat ->
  let g := createSphere radius segments in
  let v := sphereVertex segments lat lon in
  let n := sphereNormal segments lat lon in
  attribute3 (positions g) v = Some (vscale radius n) /\
  attribute3 (normals g) v = Some n /\
  attribute2 (texCoords g) v = Some (INR lon / INR segments, INR lat / INR segments) /\
  dot n n = 1 /\
  dot (vscale radius n) (vscale radius n) = radius * radius /\
  0 <= INR lon / INR segments <= 1 /\ 0 <= INR lat / INR segments <= 1.
Proof.
  intros Hs Hlat Hlon g v n. subst g v n.
  pose proof (sphereNormal_unit segments lat lon) as Hn.
  repeat split;
    auto using createSphere_position, createSphere_normal, createSphere_texCoord,
      dot_vscale_unit;
    now apply INR_ratio_unit.
Qed.

Lemma createSphere_vertices_witness :
  let g := createSphere 1.5 32 in
  let v := sphereVertex 32 3 5 in
  let n := sphereNormal 32 3 5 in
  attribute3 (positions g) v = Some (vscale 1.5 n) /\
  attribute3 (normals g) v = Some n /\
  attribute2 (texCoords g) v = Some (INR 5 / INR 32, INR 3 / INR 32) /\
  dot n n = 1 /\
  dot (vscale 1.5 n) (vscale 1.5 n) = 1.5 * 1.5 /\
  0 <= INR 5 / INR 32 <= 1 /\ 0 <= INR 3 / INR 32 <= 1.
Proof.
  exact (createSphere_vertices 1.5 32 3 5 ltac:(lia) ltac:(lia) ltac:(lia)).
Defined.

(** C22: up to 255 segments the sphere is a well-formed indexed mesh: it has
    (segments + 1)^2 vertices with three position floats, three normal
    floats and two texture floats each, 2 segments^2 triangles, and every
    index it stores names one of its vertices. *)
Theorem createSphere_wellformed (radius : R) (segments : nat) :
  (segments <= 255)%nat ->
  let g := createSphere radius segments in
  vertexCount g = ((segments + 1) * (segments + 1))%nat /\
  length (indices g) = (3 * (2 * (segments * segments)))%nat /\
  wellSized g = true /\
  indicesInRange g = true.
Proof.
  intros Hs g. subst g.
  split; [apply createSphere_vertexCount|].
  split; [rewrite createSphere_indices_length; lia|].
  split.
  - unfold wellSized.
    rewrite createSphere_positions_length, createSphere_normals_length,
      createSphere_texCoords_length, createSphere_indices_length,
      createSphere_vertexCount, !Nat.eqb_refl.
    replace (6 * (segments * segments))%nat with (2 * (segments * segments) * 3)%nat
      by lia.
    now rewrite Nat.Div0.mod_mul.
  - apply indicesInRange_spec.
    rewrite createSphere_indices_exact, createSphere_vertexCount by easy.
    apply grid_Forall. intros lat lon Hlat Hlon.
    eapply Forall_impl; [|now apply sphereQuad_range]. cbn beta. lia.
Qed.

Lemma createSphere_wellformed_witness :
  let g := createSphere 1 32 in
  vertexCount g = ((32 + 1) * (32 + 1))%nat /\
  length (indices g) = (3 * (2 * (32 * 32)))%nat /\
  wellSized g = true /\
  indicesInRange g = true.
Proof. exact (createSphere_wellformed 1 32 ltac:(lia)). Defined.


(** The top and bottom rings of the sphere collapse to the poles and
    the last meridian repeats the first: the vertices of ring 0 are all at
    (0, radius, 0), those of the last ring at (0, -radius, 0), and the
    vertex (lat, segments) is at the position of (lat, 0). *)
Theorem createSphere_poles_seam (radius : R) (segments lat lon : nat) :
  (0 < segments)%nat -> (lat <= segments)%nat -> (lon <= segments)%nat ->
  let g := createSphere radius segments in
  attribute3 (positions g) (sphereVertex segments 0 lon) = Some (vec3 0 radius 0) /\
  attribute3 (positions g) (sphereVertex segments segments lon)
  = Some (vec3 0 (- radius) 0) /\
  attribute3 (positions g) (sphereVertex segments lat segments)
  = attribute3 (positions g) (sphereVertex segments lat 0).
Proof.
  intros Hs Hlat Hlon g. subst g.
  rewrite !createSphere_position by lia.
  rewrite sphereNormal_north, sphereNormal_south, sphereNormal_seam by easy.
  repeat split; f_equal; array_cbv; apply vec3_eq; lra.
Qed.

Lemma createSphere_poles_seam_witness :
  let g := createSphere 1.5 32 in
  attribute3 (positions g) (sphereVertex 32 0 7) = Some (vec3 0 1.5 0) /\
  attribute3 (positions g) (sphereVertex 32 32 7) = Some (vec3 0 (Ropp 1.5) 0) /\
  attribute3 (positions g) (sphereVertex 32 9 32)
  = attribute3 (positions g) (sphereVertex 32 9 0).
Proof.
  exact (createSphere_poles_seam 1.5 32 9 7 ltac:(lia) ltac:(lia) ltac:(lia)).
Defined.

(** The cube is a well-formed mesh of 24 vertices and 12 triangles whose
    corners lie on the faces of [-1, 1]^3; each triangle is wound
    counter-clockwise as seen from the side its normal points to, its three
    corners carry that unit normal, and twice its area is 4. *)
Theorem createCube_wellformed :
  vertexCount createCube = 24%nat /\
  length (trianglesOf createCube) = 12%nat /\
  wellSized createCube = true /\
  indicesInRange createCube = true /\
  Forall (oriented createCube 1 4) (trianglesOf createCube) /\
  Forall (fun x => x = -1 \/ x = 1) (positions createCube).
Proof.
  repeat split; try reflexivity; [apply createCube_oriented|].
  cbn [positions createCube]. repeat (apply Forall_cons; [lra|]). apply Forall_nil.
Qed.

(** C40: the plane is a well-formed quad of the given width and height in the
    plane y = 0, centred at the origin, with normals (0, 1, 0); its two
    triangles are wound clockwise as seen from above, that is, against the
    normals they carry. *)
Theorem createPlane_spec (width height : R) :
  let g := createPlane width height in
  vertexCount g = 4%nat /\
  wellSized g = true /\
  indicesInRange g = true /\
  positionOf g 0 = Some (vec3 (- (width / 2)) 0 (- (height / 2))) /\
  positionOf g 1 = Some (vec3 (width / 2) 0 (- (height / 2))) /\
  positionOf g 2 = Some (vec3 (width / 2) 0 (height / 2)) /\
  positionOf g 3 = Some (vec3 (- (width / 2)) 0 (height / 2)) /\
  trianglesOf g = [(0, 1, 2); (0, 2, 3)]%Z /\
  Forall (oriented g (-1) (width * height)) (trianglesOf g).
Proof.
  intros g. repeat split; try reflexivity. apply createPlane_oriented.
Qed.

(** ** The loops of createSphere *)

(** C30: the four loops of [createSphere] end: run test by test they stop
    after at most [segments + 2] tests of a condition each, and what they
    leave in the arrays is what the folds of [createSphere] give; with fewer
    tests the loops have not ended. *)
Theorem createSphere_terminates (radius : R) (segments fuel : nat) :
  (segments + 2 <= fuel)%nat ->
  createSphereLoop fuel radius segments = Some (createSphere radius segments) /\
  createSphereLoop (S segments) radius segments = None.
Proof.
  intros H. unfold createSphereLoop, createSphere. split.
  - lazymatch goal with
    | |- context [fold_left ?F (seq 0 (S segments)) ([], [], [])] =>
        rewrite (forLoop_le0 _ F); [|intros lat arrays|lia]
    end.
    2: { apply forLoop_le0; [intros lon [[p n] t]; reflexivity | lia]. }
    destruct (fold_left _ (seq 0 (S segments)) ([], [], [])) as [[p n] t].
    lazymatch goal with
    | |- context [fold_left ?F (seq 0 segments) []] =>
        rewrite (forLoop_lt0 _ F); [reflexivity|intros lat indices|lia]
    end.
    apply forLoop_lt0; [intros lon l; reflexivity | lia].
  - rewrite forLoop_out_of_fuel; [reflexivity|]. intros j Hj. apply Nat.leb_le. lia.
Qed.

Lemma createSphere_terminates_witness :
  createSphereLoop 34 1 32 = Some (createSphere 1 32) /\
  createSphereLoop 33 1 32 = None.
Proof. exact (createSphere_terminates 1 32 34 ltac:(lia)). Defined.
