(* ===== verification/GL.v ===== *)
(** * GL: the part of the WebGL2 state machine that main.js drives

    main.js talks to the graphics library through [this.gl].  This file is
    the model of that library, written from the WebGL 2 specification for
    exactly the calls the sources make: the context state each call reads or
    writes ([GLState]), what a call records as visible output ([Output]: a
    clear or a draw with the state it ran in, or an error the context
    raises), and the calls themselves, in module [gl] so that a call reads
    as in the source ([gl.enable gl.DEPTH_TEST]).

    A method of the application is a computation [GL A]: a function from the
    context state to a result, which is a value with the new state and the
    outputs, or a JavaScript exception.  [let*] sequences computations and
    concatenates their outputs. *)

From Stdlib Require Import Reals ZArith Bool List String.
From S2P Require Import Prelude MatrixMath.
Import ListNotations.

Local Open Scope nat_scope.

(** ** Objects of the library *)

(** WebGL objects (programs, buffers, vertex arrays, textures,
    framebuffers) are opaque to the application: a [Handle] names one. *)
Definition Handle : Type := nat.

Inductive Capability : Type := DEPTH_TEST | BLEND.
Inductive BlendFactor : Type := ZERO | ONE | SRC_ALPHA | ONE_MINUS_SRC_ALPHA.
Inductive BufferTarget : Type := ARRAY_BUFFER | ELEMENT_ARRAY_BUFFER.
Inductive BufferUsage : Type := STATIC_DRAW.
Inductive DataType : Type := FLOAT | UNSIGNED_SHORT.
Inductive DrawMode : Type := TRIANGLES.

(** The data given to [bufferData]: the source passes a [Float32Array] or a
    [Uint16Array]. *)
Inductive BufferData : Type :=
  | Float32Data (l : list R)
  | Uint16Data (l : list Z).

(** The uniform names the sources look up. *)
Inductive Uniform : Type :=
  | uModelMatrix | uViewMatrix | uProjectionMatrix | uTexture | uLightPosition
  | uLightColor | uCameraPosition | uClippingPlane | uGlassTexture
  | uReflectionTexture | uTransparency | uReflectionViewProjectionMatrix.

Inductive UniformValue : Type :=
  | Mat4Value (m : Mat4)
  | IntValue (i : Z)
  | FloatValue (x : R)
  | Vec3Value (v : Vec3)
  | Vec4Value (v : Vec4).

(** A linked program: its handle and the uniforms its shaders declare. *)
Record Program : Type := mkProgram {
  programHandle : Handle;
  activeUniforms : Uniform -> bool }.

(** A uniform location: of one uniform in one program. *)
Record Location : Type := mkLocation {
  locationProgram : Handle;
  locationUniform : Uniform }.

(** One vertex attribute of a vertex array object. *)
Record Attrib : Type := mkAttrib {
  attribEnabled : bool;
  attribBuffer : option Handle;
  attribSize : nat;
  attribType : DataType;
  attribNormalized : bool;
  attribStride : nat;
  attribOffset : nat }.

Record VertexArray : Type := mkVertexArray {
  attribs : nat -> Attrib;
  elementArrayBuffer : option Handle }.

(** A framebuffer object with a colour texture and a depth attachment of
    the same size. *)
Record FramebufferObject : Type := mkFramebufferObject {
  colorTexture : Handle;
  fboWidth : Z;
  fboHeight : Z }.

Inductive GLError : Type := INVALID_OPERATION | INVALID_VALUE.

Definition Uniform_eqb (a b : Uniform) : bool :=
  match a, b with
  | uModelMatrix, uModelMatrix | uViewMatrix, uViewMatrix
  | uProjectionMatrix, uProjectionMatrix | uTexture, uTexture
  | uLightPosition, uLightPosition | uLightColor, uLightColor
  | uCameraPosition, uCameraPosition | uClippingPlane, uClippingPlane
  | uGlassTexture, uGlassTexture | uReflectionTexture, uReflectionTexture
  | uTransparency, uTransparency
  | uReflectionViewProjectionMatrix, uReflectionViewProjectionMatrix => true
  | _, _ => false
  end.

(** A table indexed by handles or units, updated at one key. *)
Definition upd {A : Type} (f : nat -> A) (k : nat) (v : A) : nat -> A :=
  fun h => if Nat.eqb h k then v else f h.

(** ** The context state *)

Record GLState : Type := mkGLState {
  nextHandle : Handle;
  capabilities : Capability -> bool;
  blendFactors : BlendFactor * BlendFactor;
  viewportBox : Z * Z * Z * Z;
  colorClearValue : R * R * R * R;
  depthWritemask : bool;
  framebufferBinding : option Handle;
  framebuffers : Handle -> option FramebufferObject;
  currentProgram : option Handle;
  programs : Handle -> option Program;
  uniforms : Handle -> Uniform -> option UniformValue;
  vertexArrayBinding : option Handle;
  vertexArrays : Handle -> option VertexArray;
  arrayBufferBinding : option Handle;
  buffers : Handle -> option BufferData;
  activeTextureUnit : nat;
  textureBindings : nat -> option Handle }.

(** What the application does to the page besides drawing. *)
Inductive HostEffect : Type :=
  | ConsoleLog (message : string)
  | ConsoleError (message : string)
  | Alert (message : string)
  | SetTextContent (id prefix : string) (value : R)
  | AddEventListener (target type : string)
  | RequestAnimationFrame
  | Uncaught (message : string).

(** One visible effect of a call: a clear or a draw, with the state the
    call ran in, an error the context raised, or an effect on the page. *)
Inductive Output : Type :=
  | Cleared (color depth : bool) (st : GLState)
  | Drawn (count : nat) (st : GLState)
  | Failed (e : GLError)
  | Host (e : HostEffect).

(** The vertex array that has no buffers: the state of a vertex array
    object when it is created. *)
Definition emptyVertexArray : VertexArray :=
  mkVertexArray (fun _ => mkAttrib false None 4 FLOAT false 0 0) None.

(** The state of a context as [getContext('webgl2')] returns it, for a
    canvas of the given size. *)
Definition initialState (width height : Z) : GLState :=
  {| nextHandle := 1;
     capabilities := fun _ => false;
     blendFactors := (ONE, ZERO);
     viewportBox := (0, 0, width, height)%Z;
     colorClearValue := (0%R, 0%R, 0%R, 0%R);
     depthWritemask := true;
     framebufferBinding := None;
     framebuffers := fun _ => None;
     currentProgram := None;
     programs := fun _ => None;
     uniforms := fun _ _ => None;
     vertexArrayBinding := None;
     vertexArrays := upd (fun _ => None) 0 (Some emptyVertexArray);
     arrayBufferBinding := None;
     buffers := fun _ => None;
     activeTextureUnit := 0;
     textureBindings := fun _ => None |}.

(** ** Field updates *)

Definition with_nextHandle (v : Handle) (s : GLState) : GLState :=
  mkGLState v (capabilities s) (blendFactors s) (viewportBox s) (colorClearValue s)
    (depthWritemask s) (framebufferBinding s) (framebuffers s) (currentProgram s)
    (programs s) (uniforms s) (vertexArrayBinding s) (vertexArrays s)
    (arrayBufferBinding s) (buffers s) (activeTextureUnit s) (textureBindings s).

Definition with_capabilities (v : Capability -> bool) (s : GLState) : GLState :=
  mkGLState (nextHandle s) v (blendFactors s) (viewportBox s) (colorClearValue s)
    (depthWritemask s) (framebufferBinding s) (framebuffers s) (currentProgram s)
    (programs s) (uniforms s) (vertexArrayBinding s) (vertexArrays s)
    (arrayBufferBinding s) (buffers s) (activeTextureUnit s) (textureBindings s).

Definition with_blendFactors (v : BlendFactor * BlendFactor) (s : GLState) : GLState :=
  mkGLState (nextHandle s) (capabilities s) v (viewportBox s) (colorClearValue s)
    (depthWritemask s) (framebufferBinding s) (framebuffers s) (currentProgram s)
    (programs s) (uniforms s) (vertexArrayBinding s) (vertexArrays s)
    (arrayBufferBinding s) (buffers s) (activeTextureUnit s) (textureBindings s).

Definition with_viewportBox (v : Z * Z * Z * Z) (s : GLState) : GLState :=
  mkGLState (nextHandle s) (capabilities s) (blendFactors s) v (colorClearValue s)
    (depthWritemask s) (framebufferBinding s) (framebuffers s) (currentProgram s)
    (programs s) (uniforms s) (vertexArrayBinding s) (vertexArrays s)
    (arrayBufferBinding s) (buffers s) (activeTextureUnit s) (textureBindings s).

Definition with_colorClearValue (v : R * R * R * R) (s : GLState) : GLState :=
  mkGLState (nextHandle s) (capabilities s) (blendFactors s) (viewportBox s) v
    (depthWritemask s) (framebufferBinding s) (framebuffers s) (currentProgram s)
    (programs s) (uniforms s) (vertexArrayBinding s) (vertexArrays s)
    (arrayBufferBinding s) (buffers s) (activeTextureUnit s) (textureBindings s).

Definition with_depthWritemask (v : bool) (s : GLState) : GLState :=
  mkGLState (nextHandle s) (capabilities s) (blendFactors s) (viewportBox s)
    (colorClearValue s) v (framebufferBinding s) (framebuffers s) (currentProgram s)
    (programs s) (uniforms s) (vertexArrayBinding s) (vertexArrays s)
    (arrayBufferBinding s) (buffers s) (activeTextureUnit s) (textureBindings s).

Definition with_framebufferBinding (v : option Handle) (s : GLState) : GLState :=
  mkGLState (nextHandle s) (capabilities s) (blendFactors s) (viewportBox s)
    (colorClearValue s) (depthWritemask s) v (framebuffers s) (currentProgram s)
    (programs s) (uniforms s) (vertexArrayBinding s) (vertexArrays s)
    (arrayBufferBinding s) (buffers s) (activeTextureUnit s) (textureBindings s).

Definition with_framebuffers (v : Handle -> option FramebufferObject) (s : GLState)
  : GLState :=
  mkGLState (nextHandle s) (capabilities s) (blendFactors s) (viewportBox s)
    (colorClearValue s) (depthWritemask s) (framebufferBinding s) v (currentProgram s)
    (programs s) (uniforms s) (vertexArrayBinding s) (vertexArrays s)
    (arrayBufferBinding s) (buffers s) (activeTextureUnit s) (textureBindings s).

Definition with_currentProgram (v : option Handle) (s : GLState) : GLState :=
  mkGLState (nextHandle s) (capabilities s) (blendFactors s) (viewportBox s)
    (colorClearValue s) (depthWritemask s) (framebufferBinding s) (framebuffers s) v
    (programs s) (uniforms s) (vertexArrayBinding s) (vertexArrays s)
    (arrayBufferBinding s) (buffers s) (activeTextureUnit s) (textureBindings s).

Definition with_programs (v : Handle -> option Program) (s : GLState) : GLState :=
  mkGLState (nextHandle s) (capabilities s) (blendFactors s) (viewportBox s)
    (colorClearValue s) (depthWritemask s) (framebufferBinding s) (framebuffers s)
    (currentProgram s) v (uniforms s) (vertexArrayBinding s) (vertexArrays s)
    (arrayBufferBinding s) (buffers s) (activeTextureUnit s) (textureBindings s).

Definition with_uniforms (v : Handle -> Uniform -> option UniformValue) (s : GLState)
  : GLState :=
  mkGLState (nextHandle s) (capabilities s) (blendFactors s) (viewportBox s)
    (colorClearValue s) (depthWritemask s) (framebufferBinding s) (framebuffers s)
    (currentProgram s) (programs s) v (vertexArrayBinding s) (vertexArrays s)
    (arrayBufferBinding s) (buffers s) (activeTextureUnit s) (textureBindings s).

Definition with_vertexArrayBinding (v : option Handle) (s : GLState) : GLState :=
  mkGLState (nextHandle s) (capabilities s) (blendFactors s) (viewportBox s)
    (colorClearValue s) (depthWritemask s) (framebufferBinding s) (framebuffers s)
    (currentProgram s) (programs s) (uniforms s) v (vertexArrays s)
    (arrayBufferBinding s) (buffers s) (activeTextureUnit s) (textureBindings s).

Definition with_vertexArrays (v : Handle -> option VertexArray) (s : GLState) : GLState :=
  mkGLState (nextHandle s) (capabilities s) (blendFactors s) (viewportBox s)
    (colorClearValue s) (depthWritemask s) (framebufferBinding s) (framebuffers s)
    (currentProgram s) (programs s) (uniforms s) (vertexArrayBinding s) v
    (arrayBufferBinding s) (buffers s) (activeTextureUnit s) (textureBindings s).

Definition with_arrayBufferBinding (v : option Handle) (s : GLState) : GLState :=
  mkGLState (nextHandle s) (capabilities s) (blendFactors s) (viewportBox s)
    (colorClearValue s) (depthWritemask s) (framebufferBinding s) (framebuffers s)
    (currentProgram s) (programs s) (uniforms s) (vertexArrayBinding s) (vertexArrays s)
    v (buffers s) (activeTextureUnit s) (textureBindings s).

Definition with_buffers (v : Handle -> option BufferData) (s : GLState) : GLState :=
  mkGLState (nextHandle s) (capabilities s) (blendFactors s) (viewportBox s)
    (colorClearValue s) (depthWritemask s) (framebufferBinding s) (framebuffers s)
    (currentProgram s) (programs s) (uniforms s) (vertexArrayBinding s) (vertexArrays s)
    (arrayBufferBinding s) v (activeTextureUnit s) (textureBindings s).

Definition with_activeTextureUnit (v : nat) (s : GLState) : GLState :=
  mkGLState (nextHandle s) (capabilities s) (blendFactors s) (viewportBox s)
    (colorClearValue s) (depthWritemask s) (framebufferBinding s) (framebuffers s)
    (currentProgram s) (programs s) (uniforms s) (vertexArrayBinding s) (vertexArrays s)
    (arrayBufferBinding s) (buffers s) v (textureBindings s).

Definition with_textureBindings (v : nat -> option Handle) (s : GLState) : GLState :=
  mkGLState (nextHandle s) (capabilities s) (blendFactors s) (viewportBox s)
    (colorClearValue s) (depthWritemask s) (framebufferBinding s) (framebuffers s)
    (currentProgram s) (programs s) (uniforms s) (vertexArrayBinding s) (vertexArrays s)
    (arrayBufferBinding s) (buffers s) (activeTextureUnit s) v.

(** ** Computations on the context *)

Inductive Exception : Type :=
  | TypeError (message : string)
  | Error (message : string).

(** [error.message]. *)
Definition message (error : Exception) : string :=
  match error with TypeError message | Error message => message end.

Inductive Result (A : Type) : Type :=
  | Ok (value : A) (st : GLState) (out : list Output)
  | Threw (e : Exception) (st : GLState) (out : list Output).

Arguments Ok {A} value st out.
Arguments Threw {A} e st out.

Definition GL (A : Type) : Type := GLState -> Result A.

Definition ret {A : Type} (a : A) : GL A := fun st => Ok a st [].

Definition bind {A B : Type} (m : GL A) (k : A -> GL B) : GL B :=
  fun st =>
    match m st with
    | Ok a st1 out1 =>
        match k a st1 with
        | Ok b st2 out2 => Ok b st2 (out1 ++ out2)
        | Threw e st2 out2 => Threw e st2 (out1 ++ out2)
        end
    | Threw e st1 out1 => Threw e st1 out1
    end.

Definition throw {A : Type} (e : Exception) : GL A := fun st => Threw e st [].

(** [try { m } catch (error) { handler(error) }]. *)
Definition try_catch {A : Type} (m : GL A) (handler : Exception -> GL A) : GL A :=
  fun st =>
    match m st with
    | Ok a st1 out1 => Ok a st1 out1
    | Threw e st1 out1 =>
        match handler e st1 with
        | Ok b st2 out2 => Ok b st2 (out1 ++ out2)
        | Threw e' st2 out2 => Threw e' st2 (out1 ++ out2)
        end
    end.

Declare Scope gl_scope.
Delimit Scope gl_scope with gl.

Notation "'let*' x := m 'in' k" := (bind m (fun x => k))
  (at level 10, x pattern, m at level 100, k at level 200) : gl_scope.
Notation "m ;; k" := (bind m (fun _ => k))
  (at level 100, k at level 200, right associativity) : gl_scope.

#[global] Open Scope gl_scope.

(** A call that only changes the state. *)
Definition modify (f : GLState -> GLState) : GL unit := fun st => Ok tt (f st) [].

(** A call that records an output. *)
Definition emit (o : GLState -> Output) : GL unit := fun st => Ok tt st [o st].

(** An effect on the page. *)
Definition host (e : HostEffect) : GL unit := fun st => Ok tt st [Host e].

(** Reading a property of an object that may be [null]. *)
Definition deref {A : Type} (what : string) (o : option A) : GL A :=
  match o with
  | Some a => ret a
  | None => throw (TypeError what)
  end.

(** [array.forEach((x, index) => body)]. *)
Fixpoint forEach_from {A : Type} (body : A -> nat -> GL unit) (index : nat)
  (l : list A) : GL unit :=
  match l with
  | [] => ret tt
  | x :: rest => body x index ;; forEach_from body (S index) rest
  end.

Definition forEach {A : Type} (l : list A) (body : A -> nat -> GL unit) : GL unit :=
  forEach_from body 0 l.

(** The parts of a result. *)
Definition outputs {A : Type} (r : Result A) : list Output :=
  match r with Ok _ _ out | Threw _ _ out => out end.

Definition final {A : Type} (r : Result A) : GLState :=
  match r with Ok _ st _ | Threw _ st _ => st end.

Definition returned {A : Type} (r : Result A) : option A :=
  match r with Ok a _ _ => Some a | Threw _ _ _ => None end.

(** ** What a draw reads *)

(** The samplers among the uniforms, and the texture unit a sampler reads:
    the integer it was set to, unit 0 when it was never set. *)
Definition isSampler (u : Uniform) : bool :=
  match u with
  | uTexture | uGlassTexture | uReflectionTexture => true
  | _ => false
  end.

Definition samplerUnit (st : GLState) (p : Handle) (u : Uniform) : nat :=
  match uniforms st p u with
  | Some (IntValue i) => Z.to_nat i
  | _ => 0
  end.

Definition allUniforms : list Uniform :=
  [uModelMatrix; uViewMatrix; uProjectionMatrix; uTexture; uLightPosition;
   uLightColor; uCameraPosition; uClippingPlane; uGlassTexture;
   uReflectionTexture; uTransparency; uReflectionViewProjectionMatrix].

(** The texture that the current program reads through sampler [u]. *)
Definition sampledTexture (st : GLState) (u : Uniform) : option Handle :=
  match currentProgram st with
  | Some p => textureBindings st (samplerUnit st p u)
  | None => None
  end.

(** The texture being rendered to: the colour attachment of the bound
    framebuffer, none for the canvas. *)
Definition renderTarget (st : GLState) : option Handle :=
  match framebufferBinding st with
  | Some fb => option_map colorTexture (framebuffers st fb)
  | None => None
  end.

Definition Handle_option_eqb (a b : option Handle) : bool :=
  match a, b with
  | Some x, Some y => Nat.eqb x y
  | _, _ => false
  end.

(** A feedback loop: an active sampler of the current program reads the
    texture that is being rendered to. *)
Definition feedbackLoop (st : GLState) : bool :=
  match currentProgram st with
  | Some p =>
      match programs st p with
      | Some prog =>
          existsb (fun u => isSampler u && activeUniforms prog u
                            && Handle_option_eqb (sampledTexture st u) (renderTarget st))
                  allUniforms
      | None => false
      end
  | None => false
  end.

(** The vertex array in use: the bound one, or the default vertex array
    (handle 0) when none is bound. *)
Definition vertexArrayInUse (st : GLState) : Handle :=
  match vertexArrayBinding st with Some h => h | None => 0 end.

(** The index buffer of vertex array [vao]. *)
Definition vaoIndices (st : GLState) (vao : Handle) : option (list Z) :=
  match vertexArrays st vao with
  | Some va =>
      match elementArrayBuffer va with
      | Some b =>
          match buffers st b with
          | Some (Uint16Data l) => Some l
          | _ => None
          end
      | None => None
      end
  | None => None
  end.

(** The floats that attribute [index] of vertex array [vao] reads, with the
    number of components per vertex. *)
Definition vaoAttribute (st : GLState) (vao : Handle) (index : nat)
  : option (nat * list R) :=
  match vertexArrays st vao with
  | Some va =>
      let a := attribs va index in
      match attribEnabled a, attribBuffer a with
      | true, Some b =>
          match buffers st b with
          | Some (Float32Data l) => Some (attribSize a, l)
          | _ => None
          end
      | _, _ => None
      end
  | None => None
  end.

Definition boundIndices (st : GLState) : option (list Z) :=
  vaoIndices st (vertexArrayInUse st).

Definition boundAttribute (st : GLState) (index : nat) : option (nat * list R) :=
  vaoAttribute st (vertexArrayInUse st) index.

(** ** The calls *)

Module gl.

Definition enable (cap : Capability) : GL unit :=
  modify (fun st =>
    with_capabilities
      (fun c => match cap, c with
                | DEPTH_TEST, DEPTH_TEST | BLEND, BLEND => true
                | _, _ => capabilities st c
                end) st).

Definition blendFunc (sfactor dfactor : BlendFactor) : GL unit :=
  modify (with_blendFactors (sfactor, dfactor)).

Definition viewport (x y width height : Z) : GL unit :=
  modify (with_viewportBox (x, y, width, height)).

Definition clearColor (r g b a : R) : GL unit :=
  modify (with_colorClearValue (r, g, b, a)).

(** [clear(COLOR_BUFFER_BIT | DEPTH_BUFFER_BIT)], the two bits as flags. *)
Definition clear (color depth : bool) : GL unit :=
  emit (Cleared color depth).

Definition depthMask (flag : bool) : GL unit :=
  modify (with_depthWritemask flag).

Definition bindFramebuffer (framebuffer : option Handle) : GL unit :=
  modify (with_framebufferBinding framebuffer).

Definition useProgram (program : option Program) : GL unit :=
  modify (with_currentProgram (option_map programHandle program)).

(** The location of a uniform the program declares, [null] for another
    name; the program itself must not be [null]. *)
Definition getUniformLocation (program : option Program) (name : Uniform)
  : GL (option Location) :=
  match program with
  | Some program =>
      ret (if activeUniforms program name
           then Some (mkLocation (programHandle program) name)
           else None)
  | None => throw (TypeError "getUniformLocation: program is null")
  end.

(** Every [uniform...] call: a [null] location is ignored; a location of a
    program that is not the current one is an error. *)
Definition uniform (location : option Location) (v : UniformValue) : GL unit :=
  fun st =>
    match location with
    | None => Ok tt st []
    | Some loc =>
        if Handle_option_eqb (Some (locationProgram loc)) (currentProgram st)
        then Ok tt
               (with_uniforms
                  (fun p u => if Uniform_eqb u (locationUniform loc)
                                 && Nat.eqb p (locationProgram loc)
                              then Some v else uniforms st p u) st) []
        else Ok tt st [Failed INVALID_OPERATION]
    end.

Definition uniformMatrix4fv (location : option Location) (transpose : bool)
  (value : Mat4) : GL unit :=
  uniform location (Mat4Value value).

Definition uniform1i (location : option Location) (v0 : Z) : GL unit :=
  uniform location (IntValue v0).

Definition uniform1f (location : option Location) (v0 : R) : GL unit :=
  uniform location (FloatValue v0).

Definition uniform3fv (location : option Location) (value : Vec3) : GL unit :=
  uniform location (Vec3Value value).

Definition uniform3f (location : option Location) (v0 v1 v2 : R) : GL unit :=
  uniform location (Vec3Value (vec3 v0 v1 v2)).

Definition uniform4fv (location : option Location) (value : Vec4) : GL unit :=
  uniform location (Vec4Value value).

Definition uniform4f (location : option Location) (v0 v1 v2 v3 : R) : GL unit :=
  uniform location (Vec4Value (vec4 v0 v1 v2 v3)).

Definition createVertexArray : GL Handle :=
  fun st =>
    let h := nextHandle st in
    Ok h (with_nextHandle (S h)
            (with_vertexArrays (upd (vertexArrays st) h (Some emptyVertexArray)) st)) [].

(** [bindVertexArray(null)] puts the default vertex array in use. *)
Definition bindVertexArray (vao : option Handle) : GL unit :=
  modify (with_vertexArrayBinding vao).

Definition createBuffer : GL Handle :=
  fun st =>
    let h := nextHandle st in
    Ok h (with_nextHandle (S h) st) [].

Definition currentVertexArray (st : GLState) : Handle * VertexArray :=
  let h := vertexArrayInUse st in
  (h, match vertexArrays st h with Some va => va | None => emptyVertexArray end).

(** The element array binding belongs to the bound vertex array. *)
Definition bindBuffer (target : BufferTarget) (buffer : option Handle) : GL unit :=
  modify (fun st =>
    match target with
    | ARRAY_BUFFER => with_arrayBufferBinding buffer st
    | ELEMENT_ARRAY_BUFFER =>
        let '(h, va) := currentVertexArray st in
        with_vertexArrays
          (upd (vertexArrays st) h (Some (mkVertexArray (attribs va) buffer))) st
    end).

Definition bufferData (target : BufferTarget) (data : BufferData) (usage : BufferUsage)
  : GL unit :=
  fun st =>
    let bound := match target with
                 | ARRAY_BUFFER => arrayBufferBinding st
                 | ELEMENT_ARRAY_BUFFER => elementArrayBuffer (snd (currentVertexArray st))
                 end in
    match bound with
    | Some b => Ok tt (with_buffers (upd (buffers st) b (Some data)) st) []
    | None => Ok tt st [Failed INVALID_OPERATION]
    end.

Definition enableVertexAttribArray (index : nat) : GL unit :=
  modify (fun st =>
    let '(h, va) := currentVertexArray st in
    let a := attribs va index in
    with_vertexArrays
      (upd (vertexArrays st) h
         (Some (mkVertexArray
                  (upd (attribs va) index
                     (mkAttrib true (attribBuffer a) (attribSize a) (attribType a)
                        (attribNormalized a) (attribStride a) (attribOffset a)))
                  (elementArrayBuffer va)))) st).

(** The attribute takes its data from the buffer bound to [ARRAY_BUFFER]
    at the time of the call. *)
Definition vertexAttribPointer (index size : nat) (type : DataType) (normalized : bool)
  (stride offset : nat) : GL unit :=
  fun st =>
    match arrayBufferBinding st with
    | None => Ok tt st [Failed INVALID_OPERATION]
    | Some b =>
        let '(h, va) := currentVertexArray st in
        let a := attribs va index in
        Ok tt
          (with_vertexArrays
             (upd (vertexArrays st) h
                (Some (mkVertexArray
                         (upd (attribs va) index
                            (mkAttrib (attribEnabled a) (Some b) size type normalized
                               stride offset))
                         (elementArrayBuffer va)))) st) []
    end.

Definition activeTexture (texture : nat) : GL unit :=
  modify (with_activeTextureUnit texture).

(** [bindTexture(TEXTURE_2D, texture)]: the binding of the active unit. *)
Definition bindTexture (texture : option Handle) : GL unit :=
  modify (fun st =>
    with_textureBindings (upd (textureBindings st) (activeTextureUnit st) texture) st).

(** [drawElements(TRIANGLES, count, UNSIGNED_SHORT, 0)]: an error when no
    program is in use, when the bound vertex array has no index buffer or
    one with fewer than [count] indices, or when a sampler of the program
    reads the texture being rendered to. *)
Definition drawElements (mode : DrawMode) (count : nat) (type : DataType) (offset : nat)
  : GL unit :=
  fun st =>
    match currentProgram st, boundIndices st with
    | Some _, Some l =>
        if Nat.leb (offset + count) (List.length l) && negb (feedbackLoop st)
        then Ok tt st [Drawn count st]
        else Ok tt st [Failed INVALID_OPERATION]
    | _, _ => Ok tt st [Failed INVALID_OPERATION]
    end.

(** The constants of the context object, under their names. *)
Definition DEPTH_TEST := DEPTH_TEST.
Definition BLEND := BLEND.
Definition SRC_ALPHA := SRC_ALPHA.
Definition ONE_MINUS_SRC_ALPHA := ONE_MINUS_SRC_ALPHA.
Definition ARRAY_BUFFER := ARRAY_BUFFER.
Definition ELEMENT_ARRAY_BUFFER := ELEMENT_ARRAY_BUFFER.
Definition STATIC_DRAW := STATIC_DRAW.
Definition FLOAT := FLOAT.
Definition UNSIGNED_SHORT := UNSIGNED_SHORT.
Definition TRIANGLES := TRIANGLES.
Definition TEXTURE0 : nat := 0.
Definition TEXTURE1 : nat := 1.

End gl.
