(* ===== verification/GLProps.v ===== *)
(** * GLProps: laws of the computations on the context

    The monad laws of [GL], the outputs of a sequence, the loop [forEach],
    and the lemmas and tactics that run a method on a state step by step:
    a lemma of the form [m st = Ok a st' out] describes one statement, and
    [bind_Ok] moves execution past it. *)

From Stdlib Require Import Reals ZArith Bool List String Lia.
From S2P Require Import Prelude MatrixMath GL.
Import ListNotations.

Local Open Scope nat_scope.

(** The result [r], after the outputs [out] that came before it. *)
Definition prepend {A : Type} (out : list Output) (r : Result A) : Result A :=
  match r with
  | Ok a st o => Ok a st (out ++ o)
  | Threw e st o => Threw e st (out ++ o)
  end.

(** The draws among the outputs, with the state each ran in. *)
Definition draws (out : list Output) : list (nat * GLState) :=
  flat_map (fun o => match o with Drawn n st => [(n, st)] | _ => [] end) out.

(** The errors the context raised. *)
Definition errors (out : list Output) : list GLError :=
  flat_map (fun o => match o with Failed e => [e] | _ => [] end) out.

(** The effects on the page. *)
Definition hostEffects (out : list Output) : list HostEffect :=
  flat_map (fun o => match o with Host e => [e] | _ => [] end) out.

(** The number of frames the application asked the page for. *)
Definition frameRequests (out : list Output) : nat :=
  List.length (filter (fun e => match e with RequestAnimationFrame => true | _ => false end)
                 (hostEffects out)).

Create HintDb gl discriminated.
Create Rewrite HintDb gl.

Section Laws.

Context {A B C : Type}.
Implicit Types (m : GL A) (k : A -> GL B) (h : B -> GL C) (st : GLState).

Lemma prepend_nil (r : Result A) : prepend [] r = r.
Proof. now destruct r. Qed.

Lemma prepend_prepend (o1 o2 : list Output) (r : Result A) :
  prepend o1 (prepend o2 r) = prepend (o1 ++ o2) r.
Proof. destruct r; cbn; now rewrite app_assoc. Qed.

Lemma outputs_prepend (o : list Output) (r : Result A) :
  outputs (prepend o r) = o ++ outputs r.
Proof. now destruct r. Qed.

Lemma final_prepend (o : list Output) (r : Result A) : final (prepend o r) = final r.
Proof. now destruct r. Qed.

Lemma returned_prepend (o : list Output) (r : Result A) :
  returned (prepend o r) = returned r.
Proof. now destruct r. Qed.

Lemma bind_Ok m k st a st1 o1 :
  m st = Ok a st1 o1 -> bind m k st = prepend o1 (k a st1).
Proof. intros E. unfold bind. now rewrite E. Qed.

Lemma bind_Threw m k st e st1 o1 :
  m st = Threw e st1 o1 -> bind m k st = Threw e st1 o1.
Proof. intros E. unfold bind. now rewrite E. Qed.

(** The monad laws, at every state. *)
Lemma bind_ret_l (a : A) k st : bind (ret a) k st = k a st.
Proof. unfold bind, ret. now destruct (k a st). Qed.

Lemma bind_ret_r m st : bind m ret st = m st.
Proof. unfold bind, ret. destruct (m st); cbn; now rewrite ?app_nil_r. Qed.

Lemma bind_assoc m k h st :
  bind (bind m k) h st = bind m (fun a => bind (k a) h) st.
Proof.
  unfold bind. destruct (m st) as [a st1 o1|]; [|easy].
  destruct (k a st1) as [b st2 o2|]; [|easy].
  destruct (h b st2); cbn; now rewrite app_assoc.
Qed.

(** A statement that fails makes the sequence fail, with its outputs. *)
Lemma try_catch_Ok m (handler : Exception -> GL A) st a st1 o1 :
  m st = Ok a st1 o1 -> try_catch m handler st = Ok a st1 o1.
Proof. intros E. unfold try_catch. now rewrite E. Qed.

Lemma try_catch_Threw m (handler : Exception -> GL A) st e st1 o1 :
  m st = Threw e st1 o1 -> try_catch m handler st = prepend o1 (handler e st1).
Proof. intros E. unfold try_catch. now rewrite E. Qed.

End Laws.

Lemma draws_app (o1 o2 : list Output) : draws (o1 ++ o2) = draws o1 ++ draws o2.
Proof. apply flat_map_app. Qed.

Lemma errors_app (o1 o2 : list Output) : errors (o1 ++ o2) = errors o1 ++ errors o2.
Proof. apply flat_map_app. Qed.

Lemma hostEffects_app (o1 o2 : list Output) :
  hostEffects (o1 ++ o2) = hostEffects o1 ++ hostEffects o2.
Proof. apply flat_map_app. Qed.

Lemma frameRequests_app (o1 o2 : list Output) :
  frameRequests (o1 ++ o2) = frameRequests o1 + frameRequests o2.
Proof. unfold frameRequests. now rewrite hostEffects_app, filter_app, length_app. Qed.

Lemma frameRequests_Cleared (color depth : bool) (st : GLState) (out : list Output) :
  frameRequests (Cleared color depth st :: out) = frameRequests out.
Proof. reflexivity. Qed.

Lemma frameRequests_Drawn (count : nat) (st : GLState) (out : list Output) :
  frameRequests (Drawn count st :: out) = frameRequests out.
Proof. reflexivity. Qed.

Lemma frameRequests_quiet (out : list Output) : hostEffects out = [] -> frameRequests out = 0.
Proof. unfold frameRequests. now intros ->. Qed.

Lemma prepend_Ok {A : Type} (o o' : list Output) (a : A) (st : GLState) :
  prepend o (Ok a st o') = Ok a st (o ++ o').
Proof. reflexivity. Qed.

Lemma prepend_Threw {A : Type} (o o' : list Output) (e : Exception) (st : GLState) :
  prepend o (@Threw A e st o') = Threw e st (o ++ o').
Proof. reflexivity. Qed.

Lemma app_cons_l {A : Type} (x : A) (l l' : list A) : (x :: l) ++ l' = x :: (l ++ l').
Proof. reflexivity. Qed.

#[export] Hint Rewrite @prepend_nil @prepend_prepend @outputs_prepend @final_prepend
  @returned_prepend @prepend_Ok @prepend_Threw draws_app errors_app hostEffects_app
  @app_nil_r @app_nil_l @app_cons_l : gl.

(** ** Tables *)

Lemma upd_same {A : Type} (f : nat -> A) (k : nat) (v : A) : upd f k v k = v.
Proof. unfold upd. now rewrite Nat.eqb_refl. Qed.

Lemma upd_other {A : Type} (f : nat -> A) (k h : nat) (v : A) :
  h <> k -> upd f k v h = f h.
Proof. intros H. unfold upd. now apply Nat.eqb_neq in H as ->. Qed.

#[export] Hint Rewrite @upd_same : gl.
#[export] Hint Rewrite @upd_other using lia : gl.

Lemma Uniform_eqb_eq (a b : Uniform) : Uniform_eqb a b = true <-> a = b.
Proof. destruct a, b; cbn; split; congruence. Qed.

Lemma Uniform_eqb_refl (a : Uniform) : Uniform_eqb a a = true.
Proof. now apply Uniform_eqb_eq. Qed.

(** ** Running a method *)

(** One step: the first statement of the sequence is described by a lemma
    of the database [gl] or evaluates by itself. *)
Ltac gl_step :=
  lazymatch goal with
  | |- context [bind ?m ?k ?st] =>
      first
        [ erewrite (bind_Ok m k st) by (solve [eauto 3 with gl nocore])
        | erewrite (bind_Ok m k st) by reflexivity ]
  end.

Ltac gl_run := repeat gl_step; autorewrite with gl.

(** ** The loop *)

Section ForEach.

Context {A : Type}.
Variable body : A -> nat -> GL unit.

Lemma forEach_from_nil (index : nat) (st : GLState) :
  forEach_from body index [] st = Ok tt st [].
Proof. reflexivity. Qed.

Lemma forEach_from_cons (x : A) (rest : list A) (index : nat) (st : GLState) :
  forEach_from body index (x :: rest) st
  = bind (body x index) (fun _ => forEach_from body (S index) rest) st.
Proof. reflexivity. Qed.

(** A loop whose body never throws, under an invariant [Inv] of the state
    and a condition [Pre] on the elements: the loop does not throw, keeps
    the invariant, and its outputs are those of the iterations. *)
Variable Inv : GLState -> Prop.
Variable Pre : A -> nat -> Prop.
Variable Post : A -> nat -> list Output -> Prop.
Hypothesis body_ok : forall x index st,
  Pre x index -> Inv st -> exists st' out,
    body x index st = Ok tt st' out /\ Inv st' /\ Post x index out.

(** The outputs of the iterations [index, index + 1, ...] over [l]. *)
Inductive iterations : nat -> list A -> list Output -> Prop :=
  | iterations_nil index : iterations index [] []
  | iterations_cons index x rest out outs :
      Post x index out -> iterations (S index) rest outs ->
      iterations index (x :: rest) (out ++ outs).

Lemma forEach_from_ok (l : list A) (index : nat) (st : GLState) :
  (forall k x, nth_error l k = Some x -> Pre x (index + k)) ->
  Inv st -> exists st' out,
    forEach_from body index l st = Ok tt st' out /\ Inv st' /\ iterations index l out.
Proof.
  revert index st; induction l as [|x rest IH]; intros index st HP HI.
  - exists st, []. repeat split; [easy | constructor].
  - destruct (body_ok x index st) as (st1 & o1 & E1 & HI1 & Hpost); [|easy|].
    { rewrite <- (Nat.add_0_r index). now apply HP. }
    destruct (IH (S index) st1) as (st2 & o2 & E2 & HI2 & Hit); [|easy|].
    { intros k y Hk. rewrite Nat.add_succ_comm. now apply HP. }
    exists st2, (o1 ++ o2). rewrite forEach_from_cons, (bind_Ok _ _ _ _ _ _ E1), E2.
    repeat split; [easy | now constructor].
Qed.

(** When every iteration makes one draw: the draws of the loop, one per
    element and in order. *)
Variable cnt : A -> nat.
Variable Q : A -> nat -> GLState -> Prop.
Hypothesis Post_draw : forall x index out,
  Post x index out -> exists s, out = [Drawn (cnt x) s] /\ Q x index s.

Lemma iterations_draws (index : nat) (l : list A) (out : list Output) :
  iterations index l out ->
  errors out = [] /\ hostEffects out = [] /\
  List.length (draws out) = List.length l /\
  forall k x, nth_error l k = Some x ->
    exists s, nth_error (draws out) k = Some (cnt x, s) /\ Q x (index + k) s.
Proof.
  induction 1 as [|index x rest out outs HP _ (He & Hh & Hl & Hn)].
  { repeat split. now intros [|k] x Hx. }
  destruct (Post_draw _ _ _ HP) as (s & -> & HQ).
  rewrite errors_app, hostEffects_app, draws_app, He, Hh.
  cbn [errors hostEffects draws flat_map app List.length]. rewrite Hl.
  repeat split. intros [|k] y Hy; cbn [nth_error] in *.
  - injection Hy as <-. exists s. now rewrite Nat.add_0_r.
  - destruct (Hn k y Hy) as (s' & E & HQ'). exists s'.
    now rewrite <- Nat.add_succ_comm.
Qed.

End ForEach.
