(* ===== verification/WebGLApp.v ===== *)
(** * WebGLApp: class WebGLApp of src/js/main.js

    The fields of the class are the record [WebGLApp]; a field that the
    constructor sets to [null] is an [option].  A method is a definition of
    module [App] with [this] as an argument and, where it assigns a field,
    the new [this] as its value; the calls on [this.gl] are the calls of
    module [gl] and run in the monad [GL], which also carries the
    exceptions.  [performance.now()], the size of the canvas's container and
    the value of the transparency slider are arguments.

    shaders.js and framebuffer.js are not part of the sources: what main.js
    imports from them ([loadShaderFromFile], [createProgram], [loadTexture],
    [createFramebuffer]) is modelled from the way main.js uses the results,
    with the things that decide success (is WebGL 2 there, do the shader
    files load and link, is the framebuffer complete) in the record
    [Environment].

    [init] is an [async] method.  [init] and [loadShaders] are its text
    run in one piece; [init_begin] is the part that runs inside the
    constructor, up to the first [await] that waits for the network, and
    [init_resume] the part that runs when the shader files have arrived.
    Between the two the application is [loading], and the listeners that
    are registered by then handle the events of the page ([stepLoading]);
    [settle] runs the rest of [init] and leaves the application [rendering]
    or, when it throws, [failed].  The listeners that [init] and [setupUI]
    register are the definitions [on_...]; [step] dispatches an event to
    them and to the listeners of the camera, and [running] is the set of
    states the application reaches.

    The theorems are in [RenderProps], [SceneProps], [AppProps] and
    [FrameProps]. *)

From Stdlib Require Import Reals ZArith Bool List String.
From S2P Require Import Prelude Lists MatrixMath Camera Reflection Geometry GL.
Import ListNotations.

(** ** What main.js imports from shaders.js and framebuffer.js *)

Record Environment : Type := mkEnvironment {
  (** [canvas.getContext('webgl2')] returns a context *)
  webgl2 : bool;
  (** the text of a shader file, when it loads *)
  fetchText : string -> option string;
  (** the uniforms of the program linked from two sources, when they link *)
  linkProgram : string -> string -> option (Uniform -> bool);
  (** a framebuffer of that size can be completed *)
  framebufferComplete : Z -> Z -> bool }.

(** The object [createFramebuffer] returns. *)
Record ReflectionFBO : Type := mkReflectionFBO {
  framebuffer : Handle;
  texture : Handle;
  fbo_width : Z;
  fbo_height : Z }.

Definition loadShaderFromFile (env : Environment) (path : string) : GL string :=
  match fetchText env path with
  | Some source => ret source
  | None => throw (Error "Failed to load shader")
  end.

Definition createProgram (env : Environment) (vertexSource fragmentSource : string)
  : GL Program :=
  match linkProgram env vertexSource fragmentSource with
  | Some active =>
      fun st =>
        let h := nextHandle st in
        let program := mkProgram h active in
        Ok program
          (with_nextHandle (S h) (with_programs (upd (programs st) h (Some program)) st))
          []
  | None => throw (Error "Failed to compile or link program")
  end.

Definition loadTexture (url : string) : GL Handle :=
  fun st => Ok (nextHandle st) (with_nextHandle (S (nextHandle st)) st) [].

(** A colour texture and a framebuffer that renders to it; the bindings are
    as they were when the call returns. *)
Definition createFramebuffer (env : Environment) (width height : Z) : GL ReflectionFBO :=
  if framebufferComplete env width height then
    fun st =>
      let texture := nextHandle st in
      let framebuffer := S texture in
      Ok (mkReflectionFBO framebuffer texture width height)
        (with_nextHandle (S framebuffer)
           (with_framebuffers
              (upd (framebuffers st) framebuffer
                 (Some (mkFramebufferObject texture width height))) st))
        []
  else throw (Error "Framebuffer is not complete").

(** ** The fields of the class *)

(** An entry of [this.objects], and [this.glassPlane]. *)
Record Renderable : Type := mkRenderable {
  vao : Handle;
  count : nat;
  modelMatrix : Mat4 }.

Record WebGLApp : Type := mkWebGLApp {
  canvas : Canvas;
  camera : FlybyCamera;
  transparency : R;
  program : option Program;
  glassProgram : option Program;
  objects : list Renderable;
  glassPlane : option Renderable;
  textures : list Handle;
  glassTexture : option Handle;
  reflectionFBO : option ReflectionFBO;
  frameCount : Z;
  lastTime : R;
  fps : Z }.

Definition with_canvas (v : Canvas) (a : WebGLApp) : WebGLApp :=
  mkWebGLApp v (camera a) (transparency a) (program a) (glassProgram a) (objects a)
    (glassPlane a) (textures a) (glassTexture a) (reflectionFBO a) (frameCount a)
    (lastTime a) (fps a).

Definition with_camera (v : FlybyCamera) (a : WebGLApp) : WebGLApp :=
  mkWebGLApp (canvas a) v (transparency a) (program a) (glassProgram a) (objects a)
    (glassPlane a) (textures a) (glassTexture a) (reflectionFBO a) (frameCount a)
    (lastTime a) (fps a).

Definition with_transparency (v : R) (a : WebGLApp) : WebGLApp :=
  mkWebGLApp (canvas a) (camera a) v (program a) (glassProgram a) (objects a)
    (glassPlane a) (textures a) (glassTexture a) (reflectionFBO a) (frameCount a)
    (lastTime a) (fps a).

Definition with_program (v : option Program) (a : WebGLApp) : WebGLApp :=
  mkWebGLApp (canvas a) (camera a) (transparency a) v (glassProgram a) (objects a)
    (glassPlane a) (textures a) (glassTexture a) (reflectionFBO a) (frameCount a)
    (lastTime a) (fps a).

Definition with_glassProgram (v : option Program) (a : WebGLApp) : WebGLApp :=
  mkWebGLApp (canvas a) (camera a) (transparency a) (program a) v (objects a)
    (glassPlane a) (textures a) (glassTexture a) (reflectionFBO a) (frameCount a)
    (lastTime a) (fps a).

Definition with_objects (v : list Renderable) (a : WebGLApp) : WebGLApp :=
  mkWebGLApp (canvas a) (camera a) (transparency a) (program a) (glassProgram a) v
    (glassPlane a) (textures a) (glassTexture a) (reflectionFBO a) (frameCount a)
    (lastTime a) (fps a).

Definition with_glassPlane (v : option Renderable) (a : WebGLApp) : WebGLApp :=
  mkWebGLApp (canvas a) (camera a) (transparency a) (program a) (glassProgram a)
    (objects a) v (textures a) (glassTexture a) (reflectionFBO a) (frameCount a)
    (lastTime a) (fps a).

Definition with_textures (v : list Handle) (a : WebGLApp) : WebGLApp :=
  mkWebGLApp (canvas a) (camera a) (transparency a) (program a) (glassProgram a)
    (objects a) (glassPlane a) v (glassTexture a) (reflectionFBO a) (frameCount a)
    (lastTime a) (fps a).

Definition with_glassTexture (v : option Handle) (a : WebGLApp) : WebGLApp :=
  mkWebGLApp (canvas a) (camera a) (transparency a) (program a) (glassProgram a)
    (objects a) (glassPlane a) (textures a) v (reflectionFBO a) (frameCount a)
    (lastTime a) (fps a).

Definition with_reflectionFBO (v : option ReflectionFBO) (a : WebGLApp) : WebGLApp :=
  mkWebGLApp (canvas a) (camera a) (transparency a) (program a) (glassProgram a)
    (objects a) (glassPlane a) (textures a) (glassTexture a) v (frameCount a)
    (lastTime a) (fps a).

Definition with_frameCount (v : Z) (a : WebGLApp) : WebGLApp :=
  mkWebGLApp (canvas a) (camera a) (transparency a) (program a) (glassProgram a)
    (objects a) (glassPlane a) (textures a) (glassTexture a) (reflectionFBO a) v
    (lastTime a) (fps a).

Definition with_lastTime (v : R) (a : WebGLApp) : WebGLApp :=
  mkWebGLApp (canvas a) (camera a) (transparency a) (program a) (glassProgram a)
    (objects a) (glassPlane a) (textures a) (glassTexture a) (reflectionFBO a)
    (frameCount a) v (fps a).

Definition with_fps (v : Z) (a : WebGLApp) : WebGLApp :=
  mkWebGLApp (canvas a) (camera a) (transparency a) (program a) (glassProgram a)
    (objects a) (glassPlane a) (textures a) (glassTexture a) (reflectionFBO a)
    (frameCount a) (lastTime a) v.

(** [canvas.width = w; canvas.height = h]. *)
Definition with_size (w h : Z) (c : Canvas) : Canvas :=
  mkCanvas (canvasElement c) w h (requestPointerLock c) (mozRequestPointerLock c)
    (webkitRequestPointerLock c).

(** [if (c) statement;] *)
Definition when (c : bool) (m : GL unit) : GL unit := if c then m else ret tt.

(** An object reference as a condition: [null] is falsy. *)
Definition notNull {A : Type} (o : option A) : bool :=
  match o with Some _ => true | None => false end.

(** ** The methods *)

Module App.

(** The second declaration of [createFramebuffers] in the class: the one
    in effect, because a later method of a class replaces an earlier one of
    the same name. *)
Definition createFramebuffers (env : Environment) (this : WebGLApp) : GL WebGLApp :=
  let width := Camera.width (canvas this) in
  let height := Camera.height (canvas this) in
  let* fbo := createFramebuffer env width height in
  ret (with_reflectionFBO (Some fbo) this).

(** The first declaration of [createFramebuffers], which the second
    replaces: no call reaches it. *)
Definition createFramebuffers_replaced (env : Environment) (this : WebGLApp)
  : GL WebGLApp :=
  try_catch
    (host (ConsoleLog "Creating framebuffers...") ;;
     let width := 1024%Z in
     let height := 1024%Z in
     let* fbo := createFramebuffer env width height in
     let this := with_reflectionFBO (Some fbo) this in
     host (ConsoleLog "Framebuffers created successfully") ;;
     ret this)
    (fun error =>
       host (ConsoleError "Framebuffer creation error:") ;;
       throw error).

Definition resize (env : Environment) (clientWidth clientHeight : Z) (this : WebGLApp)
  : GL WebGLApp :=
  let this := with_canvas (with_size clientWidth clientHeight (canvas this)) this in
  gl.viewport 0 0 (Camera.width (canvas this)) (Camera.height (canvas this)) ;;
  let this := with_camera (updateProjectionMatrix (canvas this) (camera this)) this in
  createFramebuffers env this.

Definition loadShaders (env : Environment) (this : WebGLApp) : GL WebGLApp :=
  try_catch
    (host (ConsoleLog "Loading shaders...") ;;
     let* vertexSource := loadShaderFromFile env "shaders/vertex.glsl" in
     let* fragmentSource := loadShaderFromFile env "shaders/fragment.glsl" in
     let* glassVertexSource := loadShaderFromFile env "shaders/glass.v.glsl" in
     let* glassFragmentSource := loadShaderFromFile env "shaders/glass.glsl" in
     host (ConsoleLog "Compiling shaders...") ;;
     let* program := createProgram env vertexSource fragmentSource in
     let this := with_program (Some program) this in
     host (ConsoleLog "Main program compiled successfully") ;;
     let* glassProgram := createProgram env glassVertexSource glassFragmentSource in
     let this := with_glassProgram (Some glassProgram) this in
     host (ConsoleLog "Glass program compiled successfully") ;;
     ret this)
    (fun error =>
       host (ConsoleError "Shader loading/compilation error:") ;;
       throw error).

Definition createVAO (geometry : Geometry) : GL Handle :=
  let* vao := gl.createVertexArray in
  gl.bindVertexArray (Some vao) ;;
  (* Positions *)
  let* positionBuffer := gl.createBuffer in
  gl.bindBuffer gl.ARRAY_BUFFER (Some positionBuffer) ;;
  gl.bufferData gl.ARRAY_BUFFER (Float32Data (positions geometry)) gl.STATIC_DRAW ;;
  let posLoc := 0%nat in
  gl.enableVertexAttribArray posLoc ;;
  gl.vertexAttribPointer posLoc 3 gl.FLOAT false 0 0 ;;
  (* Normals *)
  let* normalBuffer := gl.createBuffer in
  gl.bindBuffer gl.ARRAY_BUFFER (Some normalBuffer) ;;
  gl.bufferData gl.ARRAY_BUFFER (Float32Data (normals geometry)) gl.STATIC_DRAW ;;
  let normalLoc := 1%nat in
  gl.enableVertexAttribArray normalLoc ;;
  gl.vertexAttribPointer normalLoc 3 gl.FLOAT false 0 0 ;;
  (* TexCoords *)
  let* texCoordBuffer := gl.createBuffer in
  gl.bindBuffer gl.ARRAY_BUFFER (Some texCoordBuffer) ;;
  gl.bufferData gl.ARRAY_BUFFER (Float32Data (texCoords geometry)) gl.STATIC_DRAW ;;
  let texLoc := 2%nat in
  gl.enableVertexAttribArray texLoc ;;
  gl.vertexAttribPointer texLoc 2 gl.FLOAT false 0 0 ;;
  (* Indices *)
  let* indexBuffer := gl.createBuffer in
  gl.bindBuffer gl.ELEMENT_ARRAY_BUFFER (Some indexBuffer) ;;
  gl.bufferData gl.ELEMENT_ARRAY_BUFFER (Uint16Data (indices geometry)) gl.STATIC_DRAW ;;
  gl.bindVertexArray None ;;
  ret vao.

Definition createModelMatrix (translation rotation scale : Vec3) : Mat4 :=
  mat4 scale.[0] 0 0 0
       0 scale.[1] 0 0
       0 0 scale.[2] 0
       translation.[0] translation.[1] translation.[2] 1.

Definition createVerticalPlaneMatrix (translation : Vec3) : Mat4 :=
  let cos90 := 0 in
  let sin90 := 1 in
  mat4 cos90 sin90 0 0
       (- sin90) cos90 0 0
       0 0 1 0
       translation.[0] translation.[1] translation.[2] 1.

Definition createGeometry (this : WebGLApp) : GL WebGLApp :=
  let cube := createCube in
  let* cubeVAO := createVAO cube in
  let this :=
    with_objects
      (objects this
       ++ [mkRenderable cubeVAO (List.length (indices cube))
             (createModelMatrix (vec3 (-4) 1 (-3)) (vec3 0 0 0) (vec3 1.5 1.5 1.5))])
      this in
  let sphere := createSphere 1 32 in
  let* sphereVAO := createVAO sphere in
  let this :=
    with_objects
      (objects this
       ++ [mkRenderable sphereVAO (List.length (indices sphere))
             (createModelMatrix (vec3 4 1.5 (-3)) (vec3 0 0 0) (vec3 1.5 1.5 1.5))])
      this in
  let plane := createPlane 15 10 in
  let* planeVAO := createVAO plane in
  ret (with_glassPlane
         (Some (mkRenderable planeVAO (List.length (indices plane))
                  (createVerticalPlaneMatrix (vec3 0 2 (-3)))))
         this).

Definition createTextures (this : WebGLApp) : GL WebGLApp :=
  let* texture := loadTexture "textures/blueimg.jpg" in
  let this := with_textures (textures this ++ [texture]) this in
  let this := with_textures (textures this ++ [texture]) this in
  ret (with_glassTexture (Some texture) this).

Definition setModelMatrix (program : option Program) (matrix : Mat4) : GL unit :=
  let* loc := gl.getUniformLocation program uModelMatrix in
  when (notNull loc) (gl.uniformMatrix4fv loc false matrix).

Definition setupProgramUniforms (this : WebGLApp) (program : option Program)
  (viewMatrix : Mat4) (clippingPlane : option Vec4) (lightPos : Vec3) : GL unit :=
  let* loc_model := gl.getUniformLocation program uModelMatrix in
  let* loc_view := gl.getUniformLocation program uViewMatrix in
  let* loc_proj := gl.getUniformLocation program uProjectionMatrix in
  let* loc_texture := gl.getUniformLocation program uTexture in
  let* loc_lightPos := gl.getUniformLocation program uLightPosition in
  let* loc_lightColor := gl.getUniformLocation program uLightColor in
  let* loc_cameraPos := gl.getUniformLocation program uCameraPosition in
  let* loc_clippingPlane := gl.getUniformLocation program uClippingPlane in
  when (notNull loc_view) (gl.uniformMatrix4fv loc_view false viewMatrix) ;;
  when (notNull loc_proj)
    (gl.uniformMatrix4fv loc_proj false (projectionMatrix (camera this))) ;;
  when (notNull loc_texture) (gl.uniform1i loc_texture 0) ;;
  when (notNull loc_lightPos) (gl.uniform3fv loc_lightPos lightPos) ;;
  when (notNull loc_lightColor) (gl.uniform3f loc_lightColor 1 1 1) ;;
  when (notNull loc_cameraPos)
    (gl.uniform3fv loc_cameraPos (getPosition (camera this))) ;;
  when (notNull loc_clippingPlane)
    (match clippingPlane with
     | Some clippingPlane => gl.uniform4fv loc_clippingPlane clippingPlane
     | None => gl.uniform4f loc_clippingPlane 0 0 0 0
     end).

Definition setupGlassProgramUniforms (this : WebGLApp) : GL unit :=
  let* loc_model := gl.getUniformLocation (glassProgram this) uModelMatrix in
  let* loc_view := gl.getUniformLocation (glassProgram this) uViewMatrix in
  let* loc_proj := gl.getUniformLocation (glassProgram this) uProjectionMatrix in
  let* loc_glassTexture := gl.getUniformLocation (glassProgram this) uGlassTexture in
  let* loc_reflectionTexture :=
    gl.getUniformLocation (glassProgram this) uReflectionTexture in
  let* loc_transparency := gl.getUniformLocation (glassProgram this) uTransparency in
  let* loc_cameraPos := gl.getUniformLocation (glassProgram this) uCameraPosition in
  let* loc_clippingPlane := gl.getUniformLocation (glassProgram this) uClippingPlane in
  let* loc_reflectionViewProj :=
    gl.getUniformLocation (glassProgram this) uReflectionViewProjectionMatrix in
  when (notNull loc_view)
    (gl.uniformMatrix4fv loc_view false (viewMatrix (camera this))) ;;
  when (notNull loc_proj)
    (gl.uniformMatrix4fv loc_proj false (projectionMatrix (camera this))) ;;
  when (notNull loc_glassTexture) (gl.uniform1i loc_glassTexture 0) ;;
  when (notNull loc_reflectionTexture) (gl.uniform1i loc_reflectionTexture 1) ;;
  when (notNull loc_transparency) (gl.uniform1f loc_transparency (transparency this)) ;;
  when (notNull loc_cameraPos)
    (gl.uniform3fv loc_cameraPos (getPosition (camera this))) ;;
  when (notNull loc_clippingPlane) (gl.uniform4f loc_clippingPlane 0 0 0 0) ;;
  when (notNull loc_reflectionViewProj)
    (let reflectionView := calculateReflectionViewMatrix (camera this) in
     let reflectionViewProj :=
       multiplyMatrices (projectionMatrix (camera this)) reflectionView in
     gl.uniformMatrix4fv loc_reflectionViewProj false reflectionViewProj).

Definition renderReflectionPass (this : WebGLApp) : GL unit :=
  let* fbo := deref "reflectionFBO" (reflectionFBO this) in
  gl.bindFramebuffer (Some (framebuffer fbo)) ;;
  gl.viewport 0 0 (fbo_width fbo) (fbo_height fbo) ;;
  gl.clearColor 0.1 0.1 0.15 1.0 ;;
  gl.clear true true ;;
  let reflectionView := calculateReflectionViewMatrix (camera this) in
  let clippingPlane := vec4 1 0 0 0 in
  let reflectedLightPos := vec3 (-5) 10 5 in
  gl.useProgram (program this) ;;
  setupProgramUniforms this (program this) reflectionView (Some clippingPlane)
    reflectedLightPos ;;
  forEach (objects this) (fun obj index =>
    gl.bindVertexArray (Some (vao obj)) ;;
    setModelMatrix (program this) (modelMatrix obj) ;;
    gl.activeTexture gl.TEXTURE0 ;;
    gl.bindTexture (nth_error (textures this) index) ;;
    gl.drawElements gl.TRIANGLES (count obj) gl.UNSIGNED_SHORT 0) ;;
  gl.bindFramebuffer None.

Definition renderMainScene (this : WebGLApp) : GL unit :=
  gl.viewport 0 0 (Camera.width (canvas this)) (Camera.height (canvas this)) ;;
  gl.clearColor 0.05 0.05 0.1 1.0 ;;
  gl.clear true true ;;
  (* Render regular objects *)
  gl.useProgram (program this) ;;
  setupProgramUniforms this (program this) (viewMatrix (camera this)) None
    (vec3 5 10 5) ;;
  forEach (objects this) (fun obj index =>
    gl.bindVertexArray (Some (vao obj)) ;;
    setModelMatrix (program this) (modelMatrix obj) ;;
    gl.activeTexture gl.TEXTURE0 ;;
    gl.bindTexture (nth_error (textures this) index) ;;
    gl.drawElements gl.TRIANGLES (count obj) gl.UNSIGNED_SHORT 0) ;;
  (* Render glass plane *)
  gl.useProgram (glassProgram this) ;;
  gl.depthMask false ;;
  setupGlassProgramUniforms this ;;
  let* fbo := deref "reflectionFBO" (reflectionFBO this) in
  gl.bindTexture (Some (texture fbo)) ;;
  let* glass := deref "glassPlane" (glassPlane this) in
  gl.bindVertexArray (Some (vao glass)) ;;
  setModelMatrix (glassProgram this) (modelMatrix glass) ;;
  gl.activeTexture gl.TEXTURE0 ;;
  gl.bindTexture (glassTexture this) ;;
  gl.activeTexture gl.TEXTURE1 ;;
  gl.bindTexture (Some (texture fbo)) ;;
  gl.drawElements gl.TRIANGLES (count glass) gl.UNSIGNED_SHORT 0 ;;
  gl.depthMask true.

(** The three listeners that [setupUI] registers. *)
Definition on_transparency_input (value : R) (this : WebGLApp) : GL WebGLApp :=
  let this := with_transparency (value / 100) this in
  host (SetTextContent "transparency-value" "" value) ;;
  ret this.

Definition on_reset_click (now : R) (this : WebGLApp) : WebGLApp :=
  with_camera (reset now (camera this)) this.

Definition on_keydown_r (key : string) (now : R) (this : WebGLApp) : WebGLApp :=
  if String.eqb key "r" || String.eqb key "R"
  then with_camera (reset now (camera this)) this
  else this.

Definition setupUI : GL unit :=
  host (AddEventListener "transparency" "input") ;;
  host (AddEventListener "reset-camera" "click") ;;
  host (AddEventListener "document" "keydown").

Definition updateFPS (now : R) (this : WebGLApp) : GL WebGLApp :=
  let this := with_frameCount (frameCount this + 1)%Z this in
  let delta := now - lastTime this in
  if delta >=? 1000 then
    let this := with_fps (Math.round ((IZR (frameCount this) * 1000) / delta)) this in
    host (SetTextContent "fps" "FPS: " (IZR (fps this))) ;;
    let this := with_frameCount 0%Z this in
    let this := with_lastTime now this in
    ret this
  else ret this.

(** [render()]: [now_update] and [now_fps] are the two values of
    [performance.now()] it reads, in [camera.update()] and in
    [updateFPS()]. *)
Definition render (now_update now_fps : R) (this : WebGLApp) : GL WebGLApp :=
  let this := with_camera (update now_update (camera this)) this in
  let* this := updateFPS now_fps this in
  (* Pass 1: Render reflection *)
  renderReflectionPass this ;;
  (* Pass 2: Render main scene *)
  renderMainScene this ;;
  host RequestAnimationFrame ;;
  ret this.

Definition init (env : Environment) (clientWidth clientHeight : Z)
  (now_update now_fps : R) (this : WebGLApp) : GL WebGLApp :=
  let* this := resize env clientWidth clientHeight this in
  host (AddEventListener "window" "resize") ;;
  gl.enable gl.DEPTH_TEST ;;
  gl.enable gl.BLEND ;;
  gl.blendFunc gl.SRC_ALPHA gl.ONE_MINUS_SRC_ALPHA ;;
  let* this := loadShaders env this in
  let* this := createGeometry this in
  let* this := createTextures this in
  let* this := createFramebuffers env this in
  setupUI ;;
  render now_update now_fps this.

(** [new WebGLApp()] up to the call of [init]: the fields, for the canvas
    element of the page; [now_camera] and [now] are the values of
    [performance.now()] read by the camera's constructor and by this one. *)
Definition constructor (env : Environment) (element : Canvas) (now_camera now : R)
  : GL WebGLApp :=
  if webgl2 env then
    ret {| canvas := element;
           camera := Camera.constructor element now_camera;
           transparency := 0.5;
           program := None;
           glassProgram := None;
           objects := [];
           glassPlane := None;
           textures := [];
           glassTexture := None;
           reflectionFBO := None;
           frameCount := 0%Z;
           lastTime := now;
           fps := 0%Z |}
  else throw (Error "WebGL2 not supported").

(** [init] is an [async] method.  It runs inside the constructor up to
    the first [await] that waits for the network, the [fetch] of the first
    shader file in [loadShaders]: these are the statements of [init_begin],
    the last of them the first statement of [loadShaders]. *)
Definition init_begin (env : Environment) (clientWidth clientHeight : Z)
  (this : WebGLApp) : GL WebGLApp :=
  let* this := resize env clientWidth clientHeight this in
  host (AddEventListener "window" "resize") ;;
  gl.enable gl.DEPTH_TEST ;;
  gl.enable gl.BLEND ;;
  gl.blendFunc gl.SRC_ALPHA gl.ONE_MINUS_SRC_ALPHA ;;
  host (ConsoleLog "Loading shaders...") ;;
  ret this.

(** [loadShaders] from that [await] on: the rest of its [try] block, run
    when the files have arrived or have failed to. *)
Definition loadShaders_resume (env : Environment) (this : WebGLApp) : GL WebGLApp :=
  try_catch
    (let* vertexSource := loadShaderFromFile env "shaders/vertex.glsl" in
     let* fragmentSource := loadShaderFromFile env "shaders/fragment.glsl" in
     let* glassVertexSource := loadShaderFromFile env "shaders/glass.v.glsl" in
     let* glassFragmentSource := loadShaderFromFile env "shaders/glass.glsl" in
     host (ConsoleLog "Compiling shaders...") ;;
     let* program := createProgram env vertexSource fragmentSource in
     let this := with_program (Some program) this in
     host (ConsoleLog "Main program compiled successfully") ;;
     let* glassProgram := createProgram env glassVertexSource glassFragmentSource in
     let this := with_glassProgram (Some glassProgram) this in
     host (ConsoleLog "Glass program compiled successfully") ;;
     ret this)
    (fun error =>
       host (ConsoleError "Shader loading/compilation error:") ;;
       throw error).

(** The rest of [init]. *)
Definition init_resume (env : Environment) (now_update now_fps : R) (this : WebGLApp)
  : GL WebGLApp :=
  let* this := loadShaders_resume env this in
  let* this := createGeometry this in
  let* this := createTextures this in
  let* this := createFramebuffers env this in
  setupUI ;;
  render now_update now_fps this.

(** [new WebGLApp()]: the fields, then [this.init()], which runs to its
    first [await].  An exception of these statements rejects the promise of
    [init] and is not thrown by the constructor: the value is the
    application, with the exception that has rejected the promise, if
    any. *)
Definition start (env : Environment) (element : Canvas) (clientWidth clientHeight : Z)
  (now_camera now : R) : GL (WebGLApp * option Exception) :=
  let* this := constructor env element now_camera now in
  try_catch
    (let* this := init_begin env clientWidth clientHeight this in
     ret (this, None))
    (fun error => ret (this, Some error)).

(** The callback of [this.init().catch(...)]. *)
Definition on_init_rejected : GL unit :=
  host (ConsoleError "Initialization error:") ;;
  host (Alert "Failed to initialize: ").

(** The listener of [DOMContentLoaded], and the callback of a promise that
    is rejected by then, which runs as soon as the listener has returned.
    The value is the application when [init] is still under way. *)
Definition main (env : Environment) (element : Canvas) (clientWidth clientHeight : Z)
  (now_camera now : R) : GL (option WebGLApp) :=
  let* app :=
    try_catch
      (let* app := start env element clientWidth clientHeight now_camera now in
       host (ConsoleLog "WebGL application initialized successfully") ;;
       ret (Some app))
      (fun error =>
         host (ConsoleError "Failed to initialize application:") ;;
         host (ConsoleError "Error stack:") ;;
         host (Alert "Failed to initialize WebGL application.") ;;
         ret None) in
  match app with
  | Some (this, None) => ret (Some this)
  | Some (this, Some error) => on_init_rejected ;; ret None
  | None => ret None
  end.

End App.

(** ** The events of the application *)

(** What reaches the application: the callback of
    [requestAnimationFrame], the [resize] listener of the window, the two
    controls of the page, and the DOM events that the listeners of the
    camera and the [keydown] listener of [setupUI] receive.  [now] is the
    value of [performance.now()] a listener reads when it resets the
    camera. *)
Inductive AppEvent : Type :=
  | requestedFrame (now_update now_fps : R)
  | windowResized (clientWidth clientHeight : Z)
  | transparencyInput (value : R)
  | resetClicked (now : R)
  | dom (ev : Event) (now : R).

(** The application is loading its shaders, renders, or has failed to
    start. *)
Inductive Phase : Type := loading | rendering | failed.

(** The statements of [resize] before its call of [createFramebuffers]:
    the assignments that stay when that call throws. *)
Definition resizedCanvas (clientWidth clientHeight : Z) (this : WebGLApp) : WebGLApp :=
  let this := with_canvas (with_size clientWidth clientHeight (canvas this)) this in
  with_camera (updateProjectionMatrix (canvas this) (camera this)) this.

(** The page calls a listener.  When the listener throws, the page reports
    the exception and goes on: the listener has no caller in the program,
    and the fields of the application that it assigned before the exception
    keep their values; [partial] is the application with those
    assignments. *)
Definition listener (body : GL WebGLApp) (partial : WebGLApp) : GL WebGLApp :=
  try_catch body (fun error => host (Uncaught (message error)) ;; ret partial).

(** The listener of [resize] that [init] registers. *)
Definition on_resize (env : Environment) (clientWidth clientHeight : Z) (this : WebGLApp)
  : GL WebGLApp :=
  listener (App.resize env clientWidth clientHeight this)
    (resizedCanvas clientWidth clientHeight this).

(** The listeners that run for an event while the application renders, in
    the order they were registered: those of the camera, registered by its
    constructor, before those of [setupUI].  The events [animationFrame],
    [resetCamera] and [resize] of the camera are calls that the application
    makes and not events of the page: as a [dom] event they do nothing. *)
Definition step (env : Environment) (ev : AppEvent) (this : WebGLApp) : GL WebGLApp :=
  match ev with
  | requestedFrame now_update now_fps => App.render now_update now_fps this
  | windowResized clientWidth clientHeight => on_resize env clientWidth clientHeight this
  | transparencyInput value => App.on_transparency_input value this
  | resetClicked now => ret (App.on_reset_click now this)
  | dom (animationFrame _) _ | dom (resetCamera _) _ | dom resize _ => ret this
  | dom (keydown document key) now =>
      let this :=
        with_camera (fst (handle (canvas this) (keydown document key) (camera this)))
          this in
      ret (App.on_keydown_r key now this)
  | dom ev _ => ret (with_camera (fst (handle (canvas this) ev (camera this))) this)
  end.

(** The listeners that run while the shaders load and after startup has
    failed: those of the camera and the [resize] listener of [init].
    [setupUI] has not run, and no frame has been asked for. *)
Definition stepLoading (env : Environment) (ev : AppEvent) (this : WebGLApp)
  : GL WebGLApp :=
  match ev with
  | windowResized clientWidth clientHeight => on_resize env clientWidth clientHeight this
  | requestedFrame _ _ | transparencyInput _ | resetClicked _ => ret this
  | dom (animationFrame _) _ | dom (resetCamera _) _ | dom resize _ => ret this
  | dom ev _ => ret (with_camera (fst (handle (canvas this) ev (camera this))) this)
  end.

(** What runs when the shader files have arrived, or have failed to: the
    rest of [init], and the callback of the constructor when it throws.
    [now_update] and [now_fps] are the times the first frame reads. *)
Definition settle (env : Environment) (now_update now_fps : R) (this : WebGLApp)
  : GL (Phase * WebGLApp) :=
  try_catch
    (let* this := App.init_resume env now_update now_fps this in
     ret (rendering, this))
    (fun error => App.on_init_rejected ;; ret (failed, this)).

(** The states of the application and of the context during its life:
    after the listener of [DOMContentLoaded] has returned an application on
    a new context, and after every event that a listener handled: the
    listener returned, or it was the [resize] listener and threw.  The
    other listeners do not throw in the states of a life on an environment
    that works; where one throws, the model has no next state. *)
Inductive running (env : Environment) : Phase -> WebGLApp -> GLState -> Prop :=
  | running_main (element : Canvas) (clientWidth clientHeight width height : Z)
      (now_camera now : R) (this : WebGLApp) (st : GLState) (out : list Output) :
      App.main env element clientWidth clientHeight now_camera now
        (initialState width height) = Ok (Some this) st out ->
      running env loading this st
  | running_early (ev : AppEvent) (this this' : WebGLApp) (st st' : GLState)
      (out : list Output) :
      running env loading this st ->
      stepLoading env ev this st = Ok this' st' out ->
      running env loading this' st'
  | running_settle (now_update now_fps : R) (phase : Phase) (this this' : WebGLApp)
      (st st' : GLState) (out : list Output) :
      running env loading this st ->
      settle env now_update now_fps this st = Ok (phase, this') st' out ->
      running env phase this' st'
  | running_step (ev : AppEvent) (this this' : WebGLApp) (st st' : GLState)
      (out : list Output) :
      running env rendering this st ->
      step env ev this st = Ok this' st' out ->
      running env rendering this' st'
  | running_late (ev : AppEvent) (this this' : WebGLApp) (st st' : GLState)
      (out : list Output) :
      running env failed this st ->
      stepLoading env ev this st = Ok this' st' out ->
      running env failed this' st'.

(** A sequence of events of an application that renders, each handled
    when the one before it has been: the listeners of the page run one
    after the other. *)
Fixpoint runEvents (env : Environment) (evs : list AppEvent) (this : WebGLApp)
  : GL WebGLApp :=
  match evs with
  | [] => ret this
  | ev :: rest =>
      let* this := step env ev this in
      runEvents env rest this
  end.
