(* ===== verification/RenderProps.v ===== *)
(** * RenderProps: what the two passes of a frame draw

    [renderReflectionPass] and [renderMainScene] of src/js/main.js are run
    on a context state, statement by statement, and every draw call is
    described by the state it ran in: the framebuffer it drew to, the
    program, the uniforms the program reads, the textures its samplers
    read, the vertex array and the depth mask. *)

From Stdlib Require Import Reals Lra ZArith Bool List String Lia FunctionalExtensionality.
From Stdlib Require Import Setoid Morphisms RelationClasses.
From S2P Require Import Prelude Lists MatrixMath Camera Reflection Geometry.
From S2P Require Import GL GLProps WebGLApp.
Import ListNotations.

(** ** Uniform uploads *)

(** The location [getUniformLocation] returns. *)
Definition locOf (p : Program) (u : Uniform) : option Location :=
  if activeUniforms p u then Some (mkLocation (programHandle p) u) else None.

(** The state after [u] of program [p] was set to [v], if [p] declares
    [u]. *)
Definition setUniform (p : Program) (u : Uniform) (v : UniformValue) (st : GLState)
  : GLState :=
  with_uniforms
    (fun h u' => if Uniform_eqb u' u && (Nat.eqb h (programHandle p) && activeUniforms p u)
                 then Some v else uniforms st h u')
    st.

Lemma exec_getUniformLocation (p : Program) (u : Uniform) (st : GLState) :
  gl.getUniformLocation (Some p) u st = Ok (locOf p u) st [].
Proof. reflexivity. Qed.

Lemma with_uniforms_ext (f g : Handle -> Uniform -> option UniformValue) (st : GLState) :
  (forall h u, f h u = g h u) -> with_uniforms f st = with_uniforms g st.
Proof.
  intros E. replace f with g; [easy|].
  extensionality h; extensionality u. now rewrite E.
Qed.

Lemma with_uniforms_id (f : Handle -> Uniform -> option UniformValue) (st : GLState) :
  (forall h u, f h u = uniforms st h u) -> with_uniforms f st = st.
Proof.
  intros E. rewrite (with_uniforms_ext f (uniforms st)) by easy. now destruct st.
Qed.

Lemma exec_uniform (p : Program) (u : Uniform) (v : UniformValue) (st : GLState) :
  currentProgram st = Some (programHandle p) ->
  when (notNull (locOf p u)) (gl.uniform (locOf p u) v) st = Ok tt (setUniform p u v st) [].
Proof.
  intros Hp. unfold locOf, setUniform, gl.uniform, when, notNull, ret.
  destruct (activeUniforms p u).
  - rewrite Hp. cbn [Handle_option_eqb locationProgram locationUniform].
    rewrite Nat.eqb_refl. f_equal. apply with_uniforms_ext. intros h u'.
    now rewrite andb_true_r.
  - f_equal. symmetry. apply with_uniforms_id. intros h u'.
    now rewrite !andb_false_r.
Qed.

Ltac gl_side := first [assumption | reflexivity | cbn; assumption | cbn; reflexivity].

(** One statement of a method, by its lemma or by evaluation. *)
Ltac gl_exec :=
  first [ apply exec_getUniformLocation
        | apply exec_uniform; gl_side
        | solve [eauto 3 with gl nocore]
        | reflexivity ].

Ltac gl_next :=
  lazymatch goal with
  | |- context [bind ?m ?k ?st] => erewrite (bind_Ok m k st) by gl_exec; cbn beta
  end.

(** The last statement of a sequence. *)
Ltac gl_last :=
  lazymatch goal with
  | |- prepend ?o (?m ?st) = _ => rewrite <- (bind_ret_r m st); gl_next; unfold ret
  | |- ?m ?st = _ => rewrite <- (bind_ret_r m st); gl_next; unfold ret
  end.

Ltac gl_go :=
  repeat gl_next; autorewrite with gl; try gl_last; autorewrite with gl.

Lemma exec_setModelMatrix (p : Program) (matrix : Mat4) (st : GLState) :
  currentProgram st = Some (programHandle p) ->
  App.setModelMatrix (Some p) matrix st
  = Ok tt (setUniform p uModelMatrix (Mat4Value matrix) st) [].
Proof.
  intros Hp. unfold App.setModelMatrix. now gl_go.
Qed.

(** ** The uniforms of the two programs *)

(** The state after [setupProgramUniforms]. *)
Definition sceneUniforms (this : WebGLApp) (p : Program) (viewMatrix : Mat4)
  (clippingPlane : option Vec4) (lightPos : Vec3) (st : GLState) : GLState :=
  setUniform p uClippingPlane
    (Vec4Value (match clippingPlane with Some c => c | None => vec4 0 0 0 0 end))
    (setUniform p uCameraPosition (Vec3Value (getPosition (camera this)))
       (setUniform p uLightColor (Vec3Value (vec3 1 1 1))
          (setUniform p uLightPosition (Vec3Value lightPos)
             (setUniform p uTexture (IntValue 0)
                (setUniform p uProjectionMatrix
                   (Mat4Value (projectionMatrix (camera this)))
                   (setUniform p uViewMatrix (Mat4Value viewMatrix) st)))))).

(** The state after [setupGlassProgramUniforms]. *)
Definition glassUniforms (this : WebGLApp) (q : Program) (st : GLState) : GLState :=
  setUniform q uReflectionViewProjectionMatrix
    (Mat4Value (multiplyMatrices (projectionMatrix (camera this))
                  (calculateReflectionViewMatrix (camera this))))
    (setUniform q uClippingPlane (Vec4Value (vec4 0 0 0 0))
       (setUniform q uCameraPosition (Vec3Value (getPosition (camera this)))
          (setUniform q uTransparency (FloatValue (transparency this))
             (setUniform q uReflectionTexture (IntValue 1)
                (setUniform q uGlassTexture (IntValue 0)
                   (setUniform q uProjectionMatrix
                      (Mat4Value (projectionMatrix (camera this)))
                      (setUniform q uViewMatrix
                         (Mat4Value (viewMatrix (camera this))) st))))))).

Lemma exec_setupProgramUniforms (this : WebGLApp) (p : Program) (viewMatrix : Mat4)
  (clippingPlane : option Vec4) (lightPos : Vec3) (st : GLState) :
  currentProgram st = Some (programHandle p) ->
  App.setupProgramUniforms this (Some p) viewMatrix clippingPlane lightPos st
  = Ok tt (sceneUniforms this p viewMatrix clippingPlane lightPos st) [].
Proof.
  intros Hp. unfold App.setupProgramUniforms, sceneUniforms.
  destruct clippingPlane; now gl_go.
Qed.

Lemma exec_setupGlassProgramUniforms (this : WebGLApp) (q : Program) (st : GLState) :
  glassProgram this = Some q ->
  currentProgram st = Some (programHandle q) ->
  App.setupGlassProgramUniforms this st = Ok tt (glassUniforms this q st) [].
Proof.
  intros Hq Hp. unfold App.setupGlassProgramUniforms, glassUniforms. rewrite Hq.
  now gl_go.
Qed.

(** What a program reads for uniform [u]: stated for the programs that
    declare [u]. *)
Definition uniformIs (p : Program) (st : GLState) (u : Uniform) (v : UniformValue)
  : Prop :=
  activeUniforms p u = true -> uniforms st (programHandle p) u = Some v.

Lemma uniformIs_set (p : Program) (st : GLState) (u : Uniform) (v : UniformValue) :
  uniformIs p (setUniform p u v st) u v.
Proof.
  intros Ha. cbn. now rewrite Uniform_eqb_refl, Nat.eqb_refl, Ha.
Qed.

Lemma uniformIs_keep (p : Program) (st : GLState) (u u' : Uniform) (v v' : UniformValue) :
  Uniform_eqb u u' = false ->
  uniformIs p st u v -> uniformIs p (setUniform p u' v' st) u v.
Proof. intros Hu H Ha. cbn. rewrite Hu. now apply H. Qed.

(** Bindings and parameters do not change what a program reads. *)
Lemma uniformIs_ext (p : Program) (st st' : GLState) (u : Uniform) (v : UniformValue) :
  uniforms st' = uniforms st -> uniformIs p st u v -> uniformIs p st' u v.
Proof. intros E H Ha. rewrite E. now apply H. Qed.

(** The state after [bindTexture]: the binding of the active unit. *)
Definition boundTexture (t : option Handle) (st : GLState) : GLState :=
  with_textureBindings (upd (textureBindings st) (activeTextureUnit st) t) st.

Section Unchanged.

Context (p : Program) (st : GLState) (u : Uniform) (v : UniformValue).
Hypothesis H : uniformIs p st u v.

Lemma uniformIs_boundTexture t : uniformIs p (boundTexture t st) u v.
Proof. exact H. Qed.

Lemma uniformIs_activeTextureUnit n : uniformIs p (with_activeTextureUnit n st) u v.
Proof. exact H. Qed.

Lemma uniformIs_vertexArrayBinding h : uniformIs p (with_vertexArrayBinding h st) u v.
Proof. exact H. Qed.

Lemma uniformIs_depthWritemask b : uniformIs p (with_depthWritemask b st) u v.
Proof. exact H. Qed.

Lemma uniformIs_currentProgram h : uniformIs p (with_currentProgram h st) u v.
Proof. exact H. Qed.

Lemma uniformIs_framebufferBinding h : uniformIs p (with_framebufferBinding h st) u v.
Proof. exact H. Qed.

End Unchanged.

(** What a program reads after a sequence of calls, by peeling the calls
    off the state.  The lemmas are applied without unfolding, so that the
    proof term names the call it peels. *)
Ltac uniform_tac :=
  repeat first [ eassumption
               | simple apply uniformIs_set
               | simple apply uniformIs_keep; [reflexivity|]
               | simple apply uniformIs_boundTexture
               | simple apply uniformIs_activeTextureUnit
               | simple apply uniformIs_vertexArrayBinding
               | simple apply uniformIs_depthWritemask
               | simple apply uniformIs_currentProgram
               | simple apply uniformIs_framebufferBinding ].

(** ** Draw calls *)

Lemma exec_drawElements (n : nat) (st : GLState) (h : Handle) (l : list Z) :
  currentProgram st = Some h ->
  boundIndices st = Some l ->
  (n <= List.length l)%nat ->
  feedbackLoop st = false ->
  gl.drawElements gl.TRIANGLES n gl.UNSIGNED_SHORT 0 st = Ok tt st [Drawn n st].
Proof.
  intros Hp Hl Hn Hf. unfold gl.drawElements. rewrite Hp, Hl, Hf. cbn [Nat.add].
  now apply Nat.leb_le in Hn as ->.
Qed.

(** No sampler reads the texture being rendered to when rendering goes to
    the canvas. *)
Lemma feedbackLoop_canvas (st : GLState) :
  framebufferBinding st = None -> feedbackLoop st = false.
Proof.
  intros Hf. unfold feedbackLoop, renderTarget. rewrite Hf.
  destruct (currentProgram st) as [h|]; [|easy].
  destruct (programs st h) as [prog|]; [|easy].
  apply not_true_is_false. intros (u & _ & Hu)%existsb_exists.
  destruct (sampledTexture st u); cbn in Hu; now rewrite andb_false_r in Hu.
Qed.

(** A program whose only sampler is [uTexture] makes no feedback loop when
    the texture on the unit of [uTexture] is not the one rendered to. *)
Lemma feedbackLoop_scene (p : Program) (st : GLState) :
  currentProgram st = Some (programHandle p) ->
  programs st (programHandle p) = Some p ->
  activeUniforms p uGlassTexture = false ->
  activeUniforms p uReflectionTexture = false ->
  (activeUniforms p uTexture = true ->
   Handle_option_eqb (sampledTexture st uTexture) (renderTarget st) = false) ->
  feedbackLoop st = false.
Proof.
  intros Hc Hp Hg Hr Ht. unfold feedbackLoop. rewrite Hc, Hp.
  cbn [existsb allUniforms isSampler andb orb]. rewrite Hg, Hr.
  destruct (activeUniforms p uTexture); [now rewrite Ht|reflexivity].
Qed.

(** The state in which object [index] is drawn, and which its iteration of
    the loop leaves. *)
Definition objectState (p : Program) (textures : list Handle) (obj : Renderable)
  (index : nat) (st : GLState) : GLState :=
  boundTexture (nth_error textures index)
    (with_activeTextureUnit 0
       (setUniform p uModelMatrix (Mat4Value (modelMatrix obj))
          (with_vertexArrayBinding (Some (vao obj)) st))).

(** The body of the two loops over [this.objects]. *)
Definition drawObject (this : WebGLApp) (obj : Renderable) (index : nat) : GL unit :=
  gl.bindVertexArray (Some (vao obj)) ;;
  App.setModelMatrix (program this) (modelMatrix obj) ;;
  gl.activeTexture gl.TEXTURE0 ;;
  gl.bindTexture (nth_error (textures this) index) ;;
  gl.drawElements gl.TRIANGLES (count obj) gl.UNSIGNED_SHORT 0.

(** An object can be drawn: its vertex array has an index buffer with at
    least [count] indices. *)
Definition drawable (st : GLState) (obj : Renderable) : Prop :=
  exists l, vaoIndices st (vao obj) = Some l /\ (count obj <= List.length l)%nat.

Lemma exec_drawObject (this : WebGLApp) (p : Program) (obj : Renderable) (index : nat)
  (st : GLState) :
  program this = Some p ->
  currentProgram st = Some (programHandle p) ->
  drawable st obj ->
  feedbackLoop (objectState p (textures this) obj index st) = false ->
  drawObject this obj index st
  = Ok tt (objectState p (textures this) obj index st)
      [Drawn (count obj) (objectState p (textures this) obj index st)].
Proof.
  intros Hprog Hp (l & Hl & Hn) Hf. unfold drawObject. rewrite Hprog.
  erewrite (bind_Ok (gl.bindVertexArray _)) by reflexivity.
  erewrite (bind_Ok (App.setModelMatrix _ _)) by (now apply exec_setModelMatrix).
  gl_go. now apply (exec_drawElements _ _ (programHandle p) l).
Qed.

(** ** What a pass leaves alone *)

(** The objects of the context are the same in two states: nothing was
    created or changed, only bindings, uniforms and parameters differ. *)
Record sameObjects (st0 st : GLState) : Prop := mkSameObjects {
  same_nextHandle : nextHandle st = nextHandle st0;
  same_capabilities : capabilities st = capabilities st0;
  same_blendFactors : blendFactors st = blendFactors st0;
  same_framebuffers : framebuffers st = framebuffers st0;
  same_programs : programs st = programs st0;
  same_vertexArrays : vertexArrays st = vertexArrays st0;
  same_buffers : buffers st = buffers st0 }.

Lemma sameObjects_refl (st : GLState) : sameObjects st st.
Proof. now constructor. Qed.

Lemma sameObjects_trans (st0 st1 st2 : GLState) :
  sameObjects st0 st1 -> sameObjects st1 st2 -> sameObjects st0 st2.
Proof. intros [] []. constructor; etransitivity; eassumption. Qed.

Lemma sameObjects_sym (st0 st1 : GLState) : sameObjects st0 st1 -> sameObjects st1 st0.
Proof. intros []. now constructor. Qed.

#[export] Instance sameObjects_Equivalence : Equivalence sameObjects.
Proof.
  split; [exact sameObjects_refl | exact sameObjects_sym | exact sameObjects_trans].
Qed.

Lemma drawable_same (st0 st : GLState) (obj : Renderable) :
  sameObjects st0 st -> drawable st0 obj -> drawable st obj.
Proof.
  intros [_ _ _ _ _ Hva Hb] (l & Hl & Hn). exists l. split; [|easy].
  unfold vaoIndices in *. now rewrite Hva, Hb.
Qed.

(** States with the same objects draw the same objects. *)
#[export] Instance drawable_Proper : Proper (sameObjects ==> eq ==> iff) drawable.
Proof.
  intros st0 st H obj _ <-. split; apply drawable_same; [exact H | symmetry; exact H].
Qed.

(** A state that differs from [s] in bindings, uniforms and parameters
    only has the objects of [s]. *)
Lemma sameObjects_ext (st0 s s' : GLState) :
  nextHandle s' = nextHandle s -> capabilities s' = capabilities s ->
  blendFactors s' = blendFactors s -> framebuffers s' = framebuffers s ->
  programs s' = programs s -> vertexArrays s' = vertexArrays s ->
  buffers s' = buffers s ->
  sameObjects st0 s -> sameObjects st0 s'.
Proof. intros ? ? ? ? ? ? ? []. constructor; congruence. Qed.

#[export] Hint Resolve sameObjects_refl : gl.

(** ** The loop over the objects *)

Section ScenePass.

Variables (this : WebGLApp) (p : Program).
Variables (view : Mat4) (clip : Vec4) (light : Vec3).
Variables (target : option Handle) (box : Z * Z * Z * Z) (depthWrite : bool).
Variable st0 : GLState.

(** What holds of the state all along a loop over the objects: the
    program and its uniforms as [setupProgramUniforms] left them, the
    target, the viewport and the depth mask, and the objects of [st0]. *)
Record scenePass (st : GLState) : Prop := mkScenePass {
  sp_program : currentProgram st = Some (programHandle p);
  sp_target : framebufferBinding st = target;
  sp_viewport : viewportBox st = box;
  sp_depth : depthWritemask st = depthWrite;
  sp_view : uniformIs p st uViewMatrix (Mat4Value view);
  sp_proj : uniformIs p st uProjectionMatrix (Mat4Value (projectionMatrix (camera this)));
  sp_texture : uniformIs p st uTexture (IntValue 0);
  sp_light : uniformIs p st uLightPosition (Vec3Value light);
  sp_lightColor : uniformIs p st uLightColor (Vec3Value (vec3 1 1 1));
  sp_cameraPos : uniformIs p st uCameraPosition (Vec3Value (getPosition (camera this)));
  sp_clip : uniformIs p st uClippingPlane (Vec4Value clip);
  sp_objects : sameObjects st0 st }.

(** The state in which object [index] is drawn. *)
Record sceneDraw (obj : Renderable) (index : nat) (s : GLState) : Prop := mkSceneDraw {
  sd_pass : scenePass s;
  sd_vao : vertexArrayBinding s = Some (vao obj);
  sd_model : uniformIs p s uModelMatrix (Mat4Value (modelMatrix obj));
  sd_unit : activeTextureUnit s = 0%nat;
  sd_bound : textureBindings s 0 = nth_error (textures this) index }.

Lemma scenePass_objectState (obj : Renderable) (index : nat) (st : GLState) :
  scenePass st -> sceneDraw obj index (objectState p (textures this) obj index st).
Proof.
  intros [? ? ? ? ? ? ? ? ? ? ? Hs].
  constructor; [constructor|..]; try assumption; try reflexivity;
    try (unfold objectState; uniform_tac).
  now apply (sameObjects_ext st0 st).
Qed.

Hypothesis Hprogram : program this = Some p.

(** The objects can be drawn and drawing them makes no feedback loop. *)
Variable objs : list Renderable.
Hypothesis Hdrawable : Forall (drawable st0) objs.
Hypothesis Hloop : forall obj index s,
  sceneDraw obj index s -> feedbackLoop s = false.

Lemma forEach_objects (index : nat) (st : GLState) :
  scenePass st ->
  exists st' out,
    forEach_from (drawObject this) index objs st = Ok tt st' out /\
    scenePass st' /\
    errors out = [] /\ hostEffects out = [] /\
    List.length (draws out) = List.length objs /\
    forall k obj, nth_error objs k = Some obj ->
      exists s, nth_error (draws out) k = Some (count obj, s) /\
                sceneDraw obj (index + k) s.
Proof.
  intros Hst.
  destruct (forEach_from_ok (drawObject this) scenePass
              (fun obj _ => drawable st0 obj)
              (fun obj index out => exists s, out = [Drawn (count obj) s]
                                              /\ sceneDraw obj index s))
    with (l := objs) (index := index) (st := st) as (st' & out & E & Hst' & Hit);
    [| |easy|].
  - intros obj i s Hd Hs.
    pose proof (scenePass_objectState obj i s Hs) as Hdraw.
    exists (objectState p (textures this) obj i s),
      [Drawn (count obj) (objectState p (textures this) obj i s)].
    split; [|split; [apply Hdraw | eauto]].
    apply exec_drawObject; [easy | apply Hs | | now apply (Hloop obj i)].
    apply (drawable_same st0); [apply Hs | easy].
  - intros k obj Hk. apply nth_error_In in Hk.
    now apply (proj1 (Forall_forall _ _) Hdrawable).
  - exists st', out. split; [easy|]. split; [easy|].
    eapply iterations_draws; [|exact Hit]. intros x i o H. exact H.
Qed.

End ScenePass.

(** [setupProgramUniforms] establishes the invariant of the loop. *)
Lemma scenePass_sceneUniforms (this : WebGLApp) (p : Program) (view : Mat4)
  (clip : option Vec4) (light : Vec3) (target : option Handle) (box : Z * Z * Z * Z)
  (depthWrite : bool) (st0 st : GLState) :
  currentProgram st = Some (programHandle p) ->
  framebufferBinding st = target -> viewportBox st = box ->
  depthWritemask st = depthWrite ->
  sameObjects st0 st ->
  scenePass this p view (match clip with Some c => c | None => vec4 0 0 0 0 end) light
    target box depthWrite st0 (sceneUniforms this p view clip light st).
Proof.
  intros Hp Ht Hb Hd Hs. constructor; try assumption; try reflexivity;
    try (unfold sceneUniforms; uniform_tac).
  now apply (sameObjects_ext st0 st).
Qed.

(** The outputs of a loop over the objects: one draw per object, in order,
    each with the count of its object and in a state that satisfies
    [draw]; no error and no effect on the page. *)
Record passDraws (objs : list Renderable) (draw : Renderable -> nat -> GLState -> Prop)
  (out : list Output) : Prop := mkPassDraws {
  pd_errors : errors out = [];
  pd_host : hostEffects out = [];
  pd_length : List.length (draws out) = List.length objs;
  pd_draw : forall k obj, nth_error objs k = Some obj ->
    exists s, nth_error (draws out) k = Some (count obj, s) /\ draw obj k s }.

(** ** A running application *)

(** The application has been initialised and is between two frames: its
    programs, framebuffer and objects exist in the context, every object
    can be drawn, no texture of an object is the texture the reflection is
    rendered to, the scene program samples [uTexture] only, depth writes are
    on and the canvas is the render target. *)
Record ready (this : WebGLApp) (p q : Program) (fbo : ReflectionFBO) (glass : Renderable)
  (st : GLState) : Prop := mkReady {
  ready_program : program this = Some p;
  ready_glassProgram : glassProgram this = Some q;
  ready_fbo : reflectionFBO this = Some fbo;
  ready_glass : glassPlane this = Some glass;
  ready_programs : programs st (programHandle p) = Some p;
  ready_framebuffer :
    framebuffers st (framebuffer fbo)
    = Some (mkFramebufferObject (texture fbo) (fbo_width fbo) (fbo_height fbo));
  ready_objects : Forall (drawable st) (objects this);
  ready_glassDrawable : drawable st glass;
  ready_textures : Forall (fun t => t <> texture fbo) (textures this);
  ready_glassSampler : activeUniforms p uGlassTexture = false;
  ready_reflectionSampler : activeUniforms p uReflectionTexture = false;
  ready_depth : depthWritemask st = true;
  ready_target : framebufferBinding st = None }.

Section Passes.

Variables (this : WebGLApp) (p q : Program) (fbo : ReflectionFBO) (glass : Renderable).

(** The mirrored light of the reflection pass. *)
Definition reflectedLightPos : Vec3 := vec3 (-5) 10 5.

(** The state of a draw of the reflection pass. *)
Definition reflectionDraw (st : GLState) : Renderable -> nat -> GLState -> Prop :=
  sceneDraw this p (calculateReflectionViewMatrix (camera this)) (vec4 1 0 0 0)
    reflectedLightPos (Some (framebuffer fbo))
    (0, 0, fbo_width fbo, fbo_height fbo)%Z true st.

(** The state of a draw of an object in the main pass. *)
Definition mainDraw (st : GLState) : Renderable -> nat -> GLState -> Prop :=
  sceneDraw this p (viewMatrix (camera this)) (vec4 0 0 0 0) (vec3 5 10 5) None
    (0, 0, Camera.width (canvas this), Camera.height (canvas this))%Z true st.

Lemma nth_error_differs (l : list Handle) (index : nat) (t : Handle) :
  Forall (fun x => x <> t) l -> Handle_option_eqb (nth_error l index) (Some t) = false.
Proof.
  intros H. destruct (nth_error l index) as [x|] eqn:E; [|easy].
  apply nth_error_In in E. apply (proj1 (Forall_forall _ _) H) in E.
  now apply Nat.eqb_neq.
Qed.

Lemma reflection_no_feedback (st : GLState) (obj : Renderable) (index : nat)
  (s : GLState) :
  ready this p q fbo glass st ->
  reflectionDraw st obj index s -> feedbackLoop s = false.
Proof.
  intros Hr [Hp Hvao Hmodel Hunit Hbound].
  destruct Hr, Hp, sp_objects0.
  apply (feedbackLoop_scene p); try easy; [congruence|]. intros Ha.
  unfold sampledTexture, renderTarget, samplerUnit.
  rewrite sp_program0, sp_target0, same_framebuffers0, ready_framebuffer0.
  cbn [option_map colorTexture].
  rewrite (sp_texture0 Ha), Z2Nat.inj_0, Hbound.
  now apply nth_error_differs.
Qed.

Lemma exec_renderReflectionPass (st : GLState) :
  ready this p q fbo glass st ->
  exists st' s0 out,
    App.renderReflectionPass this st = Ok tt st' (Cleared true true s0 :: out) /\
    framebufferBinding s0 = Some (framebuffer fbo) /\
    viewportBox s0 = (0, 0, fbo_width fbo, fbo_height fbo)%Z /\
    colorClearValue s0 = (0.1, 0.1, 0.15, 1.0) /\
    depthWritemask s0 = true /\
    passDraws (objects this) (reflectionDraw st) out /\
    framebufferBinding st' = None /\ depthWritemask st' = true /\ sameObjects st st'.
Proof.
  intros Hr. pose proof Hr as [].
  unfold App.renderReflectionPass, forEach.
  change (forEach_from _ 0) with (forEach_from (drawObject this) 0).
  rewrite ready_fbo0, ready_program0.
  gl_go.
  erewrite bind_Ok by (apply exec_setupProgramUniforms; reflexivity).
  lazymatch goal with
  | |- context [bind (forEach_from _ 0 _) _ ?s1] =>
      destruct (forEach_objects this p (calculateReflectionViewMatrix (camera this))
                  (vec4 1 0 0 0) reflectedLightPos (Some (framebuffer fbo))
                  (0, 0, fbo_width fbo, fbo_height fbo)%Z true st ready_program0
                  (objects this) ready_objects0
                  (fun obj index s => reflection_no_feedback st obj index s Hr) 0 s1)
        as (st2 & out & E & Hst2 & He & Hh & Hl & Hn)
  end.
  { apply (scenePass_sceneUniforms this p _ (Some (vec4 1 0 0 0)));
      try easy; now constructor. }
  rewrite (bind_Ok _ _ _ _ _ _ E).
  do 3 eexists. split; [gl_go; reflexivity|].
  destruct Hst2 as [? ? ? ? ? ? ? ? ? ? ? Hsame].
  do 3 (split; [reflexivity|]). split; [assumption|]. split; [now constructor|].
  split; [reflexivity|]. split; [assumption|].
  now apply (sameObjects_ext st st2).
Qed.

(** The state in which the glass plane is drawn. *)
Record glassDraw (st0 s : GLState) : Prop := mkGlassDraw {
  gd_program : currentProgram s = Some (programHandle q);
  gd_target : framebufferBinding s = None;
  gd_viewport :
    viewportBox s = (0, 0, Camera.width (canvas this), Camera.height (canvas this))%Z;
  gd_depth : depthWritemask s = false;
  gd_vao : vertexArrayBinding s = Some (vao glass);
  gd_model : uniformIs q s uModelMatrix (Mat4Value (modelMatrix glass));
  gd_view : uniformIs q s uViewMatrix (Mat4Value (viewMatrix (camera this)));
  gd_proj : uniformIs q s uProjectionMatrix (Mat4Value (projectionMatrix (camera this)));
  gd_glassTexture : uniformIs q s uGlassTexture (IntValue 0);
  gd_reflectionTexture : uniformIs q s uReflectionTexture (IntValue 1);
  gd_transparency : uniformIs q s uTransparency (FloatValue (transparency this));
  gd_cameraPos : uniformIs q s uCameraPosition (Vec3Value (getPosition (camera this)));
  gd_clip : uniformIs q s uClippingPlane (Vec4Value (vec4 0 0 0 0));
  gd_reflectionViewProj :
    uniformIs q s uReflectionViewProjectionMatrix
      (Mat4Value (multiplyMatrices (projectionMatrix (camera this))
                    (calculateReflectionViewMatrix (camera this))));
  gd_unit0 : textureBindings s 0 = glassTexture this;
  gd_unit1 : textureBindings s 1 = Some (texture fbo);
  gd_objects : sameObjects st0 s }.

(** The state of the glass draw, from the state the loop of the main pass
    leaves. *)
Definition glassState (st : GLState) : GLState :=
  boundTexture (Some (texture fbo))
    (with_activeTextureUnit 1
       (boundTexture (glassTexture this)
          (with_activeTextureUnit 0
             (setUniform q uModelMatrix (Mat4Value (modelMatrix glass))
                (with_vertexArrayBinding (Some (vao glass))
                   (boundTexture (Some (texture fbo))
                      (glassUniforms this q
                         (with_depthWritemask false
                            (with_currentProgram (Some (programHandle q)) st))))))))).

Lemma glassDraw_glassState (st0 st : GLState) :
  framebufferBinding st = None ->
  viewportBox st = (0, 0, Camera.width (canvas this), Camera.height (canvas this))%Z ->
  sameObjects st0 st ->
  glassDraw st0 (glassState st).
Proof.
  intros Ht Hv Hs. constructor; try assumption; try reflexivity;
    try (unfold glassState, glassUniforms; uniform_tac).
  now apply (sameObjects_ext st0 st).
Qed.

Lemma exec_glass (st0 st : GLState) :
  ready this p q fbo glass st0 ->
  sameObjects st0 st ->
  framebufferBinding st = None ->
  (gl.useProgram (glassProgram this) ;;
   gl.depthMask false ;;
   App.setupGlassProgramUniforms this ;;
   let* fbo := deref "reflectionFBO" (reflectionFBO this) in
   gl.bindTexture (Some (texture fbo)) ;;
   let* glass := deref "glassPlane" (glassPlane this) in
   gl.bindVertexArray (Some (vao glass)) ;;
   App.setModelMatrix (glassProgram this) (modelMatrix glass) ;;
   gl.activeTexture gl.TEXTURE0 ;;
   gl.bindTexture (glassTexture this) ;;
   gl.activeTexture gl.TEXTURE1 ;;
   gl.bindTexture (Some (texture fbo)) ;;
   gl.drawElements gl.TRIANGLES (count glass) gl.UNSIGNED_SHORT 0 ;;
   gl.depthMask true) st
  = Ok tt (with_depthWritemask true (glassState st))
      [Drawn (count glass) (glassState st)].
Proof.
  intros Hr Hsame Ht. pose proof Hr as [].
  rewrite ready_glassProgram0, ready_fbo0, ready_glass0.
  erewrite bind_Ok by reflexivity.
  erewrite bind_Ok by reflexivity.
  erewrite bind_Ok by (now apply (exec_setupGlassProgramUniforms this q)).
  erewrite bind_Ok by reflexivity.
  erewrite bind_Ok by reflexivity.
  erewrite bind_Ok by reflexivity.
  erewrite bind_Ok by reflexivity.
  erewrite bind_Ok by (now apply exec_setModelMatrix).
  do 4 (erewrite bind_Ok by reflexivity).
  destruct (drawable_same st0 st glass Hsame ready_glassDrawable0) as (l & Hl & Hn).
  erewrite bind_Ok.
  2:{ apply (exec_drawElements _ _ (programHandle q) l); try easy.
      now apply feedbackLoop_canvas. }
  now autorewrite with gl.
Qed.

Lemma exec_renderMainScene (st : GLState) :
  ready this p q fbo glass st ->
  exists st' s0 out sg,
    App.renderMainScene this st
    = Ok tt st' (Cleared true true s0 :: out ++ [Drawn (count glass) sg]) /\
    framebufferBinding s0 = None /\
    viewportBox s0
    = (0, 0, Camera.width (canvas this), Camera.height (canvas this))%Z /\
    colorClearValue s0 = (0.05, 0.05, 0.1, 1.0) /\
    depthWritemask s0 = true /\
    passDraws (objects this) (mainDraw st) out /\
    glassDraw st sg /\
    framebufferBinding st' = None /\ depthWritemask st' = true /\ sameObjects st st'.
Proof.
  intros Hr. pose proof Hr as [].
  unfold App.renderMainScene, forEach.
  change (forEach_from _ 0) with (forEach_from (drawObject this) 0).
  rewrite ready_program0.
  gl_go.
  erewrite bind_Ok by (apply exec_setupProgramUniforms; reflexivity).
  lazymatch goal with
  | |- context [bind (forEach_from _ 0 _) _ ?s1] =>
      destruct (forEach_objects this p (viewMatrix (camera this)) (vec4 0 0 0 0)
                  (vec3 5 10 5) None
                  (0, 0, Camera.width (canvas this), Camera.height (canvas this))%Z
                  true st ready_program0 (objects this) ready_objects0
                  (fun obj index s H =>
                     feedbackLoop_canvas s (sp_target _ _ _ _ _ _ _ _ _ _ (sd_pass _ _ _ _ _ _ _ _ _ _ _ _ H)))
                  0 s1)
        as (st2 & out & E & Hst2 & He & Hh & Hl & Hn)
  end.
  { apply (scenePass_sceneUniforms this p _ None); try easy; now constructor. }
  rewrite (bind_Ok _ _ _ _ _ _ E).
  destruct Hst2 as [? ? ? ? ? ? ? ? ? ? ? Hsame].
  rewrite (exec_glass st st2 Hr Hsame) by assumption.
  do 4 eexists. split; [autorewrite with gl; reflexivity|].
  split; [assumption|]. do 2 (split; [reflexivity|]). split; [assumption|].
  split; [now constructor|]. split; [now apply glassDraw_glassState|].
  split; [assumption|]. split; [reflexivity|].
  now apply (sameObjects_ext st st2).
Qed.

End Passes.
