(* ===== verification/SceneProps.v ===== *)
(** * SceneProps: the scene that createGeometry of src/js/main.js builds

    Where the model matrices put the meshes ([createModelMatrix],
    [createVerticalPlaneMatrix]), what [createVAO] uploads to the context
    and what the vertex array it returns reads, and the objects that
    [createGeometry] and [createTextures] leave in the application. *)

From Stdlib Require Import Reals Lra ZArith Bool List String Lia FunctionalExtensionality.
From S2P Require Import Prelude Lists MatrixMath Camera Reflection Geometry.
From S2P Require Import GeometryProps GL GLProps WebGLApp RenderProps.
Import ListNotations.

(** ** Model matrices *)

(** Where the model matrix [m] puts the vertex [v], and where it turns the
    direction [d]: what the vertex shader computes from [uModelMatrix]. *)
Definition place (m : Mat4) (v : Vec3) : Vec3 := xyz (apply m (point v)).

Definition turn (m : Mat4) (d : Vec3) : Vec3 := xyz (apply m (direction d)).

(** The vertices of a mesh, in the order of their numbers. *)
Definition vertices (l : list R) : list Vec3 :=
  map (fun '(x, y, z) => vec3 x y z) (triples l).

Ltac place_tac :=
  cbv [place turn xyz apply point direction App.createModelMatrix
       App.createVerticalPlaneMatrix index Vec3_Indexed Vec4_Indexed Mat4_Indexed
       v3_0 v3_1 v3_2 v4_0 v4_1 v4_2 v4_3
       m_0 m_1 m_2 m_3 m_4 m_5 m_6 m_7 m_8 m_9 m_10 m_11 m_12 m_13 m_14 m_15].

Lemma createModelMatrix_place (translation rotation scale v : Vec3) :
  place (App.createModelMatrix translation rotation scale) v
  = vec3 (translation.[0] + scale.[0] * v.[0])
         (translation.[1] + scale.[1] * v.[1])
         (translation.[2] + scale.[2] * v.[2]).
Proof. place_tac. apply vec3_eq; lra. Qed.

Lemma createModelMatrix_turn (translation rotation scale d : Vec3) :
  turn (App.createModelMatrix translation rotation scale) d
  = vec3 (scale.[0] * d.[0]) (scale.[1] * d.[1]) (scale.[2] * d.[2]).
Proof. place_tac. apply vec3_eq; lra. Qed.

Lemma createModelMatrix_affine (translation rotation scale : Vec3) :
  affine (App.createModelMatrix translation rotation scale).
Proof. now repeat split. Qed.

Lemma createVerticalPlaneMatrix_place (translation v : Vec3) :
  place (App.createVerticalPlaneMatrix translation) v
  = vec3 (translation.[0] - v.[1]) (translation.[1] + v.[0]) (translation.[2] + v.[2]).
Proof. place_tac. apply vec3_eq; lra. Qed.



(** ** The vertices of a mesh *)

Lemma attribute3_cons (a b c : R) (l : list R) (i : nat) :
  attribute3 (a :: b :: c :: l) (S i) = attribute3 l i.
Proof.
  unfold attribute3. replace (3 * S i)%nat with (S (S (S (3 * i)))) by lia.
  reflexivity.
Qed.

Lemma attribute3_length (l : list R) (i : nat) (v : Vec3) :
  attribute3 l i = Some v -> (3 * i + 2 < List.length l)%nat.
Proof.
  unfold attribute3. destruct (nth_error l (3 * i + 2)) eqn:E.
  - intros _. apply nth_error_Some. now rewrite E.
  - now destruct (nth_error l (3 * i)), (nth_error l (3 * i + 1)).
Qed.

Lemma attribute3_In (l : list R) (i : nat) (v : Vec3) :
  attribute3 l i = Some v -> In v (vertices l).
Proof.
  revert l. induction i as [|i IH]; intros l H; pose proof (attribute3_length _ _ _ H);
    destruct l as [|a [|b [|c l]]]; try (cbn in *; lia).
  - injection H as <-. now left.
  - rewrite attribute3_cons in H. right. now apply IH.
Qed.

(** Every vertex of the sphere is a grid point. *)
Lemma createSphere_vertex_grid (radius : R) (segments i : nat) (v : Vec3) :
  attribute3 (positions (createSphere radius segments)) i = Some v ->
  exists lat lon, (lat <= segments)%nat /\ (lon <= segments)%nat
    /\ v = vscale radius (sphereNormal segments lat lon).
Proof.
  intros H. pose proof (attribute3_length _ _ _ H) as Hi.
  rewrite createSphere_positions_length in Hi.
  assert (Hs : (i < (segments + 1) * (segments + 1))%nat) by lia.
  exists (i / (segments + 1))%nat, (i mod (segments + 1))%nat.
  assert (Hlat : (i / (segments + 1) <= segments)%nat).
  { apply Nat.lt_succ_r. rewrite <- Nat.add_1_r. apply Nat.Div0.div_lt_upper_bound.
    lia. }
  assert (Hlon : (i mod (segments + 1) <= segments)%nat).
  { pose proof (Nat.mod_upper_bound i (segments + 1)). lia. }
  split; [easy|]. split; [easy|].
  pose proof (createSphere_position radius segments _ _ Hlat Hlon) as E.
  unfold sphereVertex in E.
  replace (i / (segments + 1) * (segments + 1) + i mod (segments + 1))%nat with i in E.
  - rewrite E in H. now injection H.
  - rewrite (Nat.div_mod_eq i (segments + 1)) at 1. lia.
Qed.

Lemma sphereNormal_bound (segments lat lon : nat) (k : nat) :
  -1 <= (sphereNormal segments lat lon).[k] <= 1.
Proof.
  pose proof (sphereNormal_unit segments lat lon) as H. unfold dot in H.
  destruct (sphereNormal segments lat lon) as [x y z].
  cbv [index Vec3_Indexed v3_0 v3_1 v3_2] in *.
  pose proof (Rle_0_sqr x). pose proof (Rle_0_sqr y). pose proof (Rle_0_sqr z).
  unfold Rsqr in *. destruct k as [|[|[|k]]]; nra.
Qed.

(** ** Vertex arrays under construction *)

Local Open Scope nat_scope.

Lemma upd_upd {A : Type} (f : nat -> A) (k : nat) (v v' : A) :
  upd (upd f k v) k v' = upd f k v'.
Proof.
  extensionality h. unfold upd. now destruct (Nat.eqb h k).
Qed.

(** The vertex array after [enableVertexAttribArray(index)]. *)
Definition enabledAttrib (index : nat) (va : VertexArray) : VertexArray :=
  let a := attribs va index in
  mkVertexArray
    (upd (attribs va) index
       (mkAttrib true (attribBuffer a) (attribSize a) (attribType a) (attribNormalized a)
          (attribStride a) (attribOffset a)))
    (elementArrayBuffer va).

(** The vertex array after [vertexAttribPointer(index, size, FLOAT, false, 0, 0)]
    with buffer [b] bound to [ARRAY_BUFFER]. *)
Definition pointedAttrib (index size : nat) (b : Handle) (va : VertexArray) : VertexArray :=
  mkVertexArray
    (upd (attribs va) index
       (mkAttrib (attribEnabled (attribs va index)) (Some b) size FLOAT false 0 0))
    (elementArrayBuffer va).

(** The state while [createVAO] fills vertex array [h]: [va] is the vertex
    array so far, [bufs] the buffers, [arr] the buffer bound to
    [ARRAY_BUFFER] and [next] the next free handle; the rest is as in
    [st]. *)
Definition building (st : GLState) (h : Handle) (va : VertexArray)
  (bufs : Handle -> option BufferData) (arr : option Handle) (next : Handle) : GLState :=
  with_nextHandle next
    (with_vertexArrayBinding (Some h)
       (with_arrayBufferBinding arr
          (with_buffers bufs
             (with_vertexArrays (upd (vertexArrays st) h (Some va)) st)))).

Section Building.

Variables (st : GLState) (h : Handle) (va : VertexArray).
Variables (bufs : Handle -> option BufferData) (next : Handle).

Lemma currentVertexArray_building (arr : option Handle) :
  gl.currentVertexArray (building st h va bufs arr next) = (h, va).
Proof.
  unfold gl.currentVertexArray, building. cbn. now rewrite upd_same.
Qed.

Lemma with_vertexArrays_building (arr : option Handle) (va' : VertexArray) :
  with_vertexArrays
    (upd (vertexArrays (building st h va bufs arr next)) h (Some va'))
    (building st h va bufs arr next)
  = building st h va' bufs arr next.
Proof.
  unfold building. cbn [vertexArrays with_nextHandle with_vertexArrayBinding
    with_arrayBufferBinding with_buffers with_vertexArrays].
  now rewrite upd_upd.
Qed.

Lemma exec_createBuffer (arr : option Handle) :
  gl.createBuffer (building st h va bufs arr next)
  = Ok next (building st h va bufs arr (S next)) [].
Proof. reflexivity. Qed.

Lemma exec_bindBuffer_array (arr b : option Handle) :
  gl.bindBuffer gl.ARRAY_BUFFER b (building st h va bufs arr next)
  = Ok tt (building st h va bufs b next) [].
Proof. reflexivity. Qed.

Lemma exec_bindBuffer_element (arr b : option Handle) :
  gl.bindBuffer gl.ELEMENT_ARRAY_BUFFER b (building st h va bufs arr next)
  = Ok tt (building st h (mkVertexArray (attribs va) b) bufs arr next) [].
Proof.
  unfold gl.bindBuffer, modify. cbv beta iota delta [gl.ELEMENT_ARRAY_BUFFER].
  now rewrite currentVertexArray_building, with_vertexArrays_building.
Qed.

Lemma exec_bufferData_array (b : Handle) (data : BufferData) :
  gl.bufferData gl.ARRAY_BUFFER data gl.STATIC_DRAW (building st h va bufs (Some b) next)
  = Ok tt (building st h va (upd bufs b (Some data)) (Some b) next) [].
Proof. reflexivity. Qed.

Lemma exec_bufferData_element (arr : option Handle) (b : Handle) (data : BufferData) :
  elementArrayBuffer va = Some b ->
  gl.bufferData gl.ELEMENT_ARRAY_BUFFER data gl.STATIC_DRAW
    (building st h va bufs arr next)
  = Ok tt (building st h va (upd bufs b (Some data)) arr next) [].
Proof.
  intros E. unfold gl.bufferData. cbv beta iota delta [gl.ELEMENT_ARRAY_BUFFER].
  now rewrite currentVertexArray_building; cbn [snd]; rewrite E.
Qed.

Lemma exec_enableVertexAttribArray (arr : option Handle) (index : nat) :
  gl.enableVertexAttribArray index (building st h va bufs arr next)
  = Ok tt (building st h (enabledAttrib index va) bufs arr next) [].
Proof.
  unfold gl.enableVertexAttribArray, modify.
  now rewrite currentVertexArray_building, with_vertexArrays_building.
Qed.

Lemma exec_vertexAttribPointer (index size : nat) (b : Handle) :
  gl.vertexAttribPointer index size gl.FLOAT false 0 0
    (building st h va bufs (Some b) next)
  = Ok tt (building st h (pointedAttrib index size b va) bufs (Some b) next) [].
Proof.
  unfold gl.vertexAttribPointer.
  change (arrayBufferBinding (building st h va bufs (Some b) next)) with (Some b).
  cbv iota. now rewrite currentVertexArray_building, with_vertexArrays_building.
Qed.

End Building.

Lemma exec_createVertexArray (st : GLState) :
  (let* vao := gl.createVertexArray in
   gl.bindVertexArray (Some vao) ;; ret vao) st
  = Ok (nextHandle st)
      (building st (nextHandle st) emptyVertexArray (buffers st) (arrayBufferBinding st)
         (S (nextHandle st))) [].
Proof. now destruct st. Qed.

Lemma building_start (st : GLState) (h : Handle) (next : Handle) :
  with_vertexArrayBinding (Some h)
    (with_nextHandle next
       (with_vertexArrays (upd (vertexArrays st) h (Some emptyVertexArray)) st))
  = building st h emptyVertexArray (buffers st) (arrayBufferBinding st) next.
Proof. now destruct st. Qed.

#[export] Hint Resolve exec_createBuffer exec_bindBuffer_array exec_bindBuffer_element
  exec_bufferData_array exec_enableVertexAttribArray exec_vertexAttribPointer : gl.

(** ** createVAO *)

(** The vertex array [createVAO] makes when [h] is the first free handle:
    attributes 0, 1 and 2 enabled and reading from the buffers [h + 1],
    [h + 2] and [h + 3], the indices in buffer [h + 4]. *)
Definition meshArray (h : Handle) : VertexArray :=
  mkVertexArray
    (attribs
       (pointedAttrib 2 2 (3 + h)
          (enabledAttrib 2
             (pointedAttrib 1 3 (2 + h)
                (enabledAttrib 1
                   (pointedAttrib 0 3 (1 + h) (enabledAttrib 0 emptyVertexArray)))))))
    (Some (4 + h)).

Definition meshBuffers (g : Geometry) (bufs : Handle -> option BufferData) (h : Handle)
  : Handle -> option BufferData :=
  upd (upd (upd (upd bufs (1 + h) (Some (Float32Data (positions g))))
                (2 + h) (Some (Float32Data (normals g))))
           (3 + h) (Some (Float32Data (texCoords g))))
      (4 + h) (Some (Uint16Data (indices g))).

(** The state after [createVAO(geometry)]. *)
Definition uploaded (g : Geometry) (st : GLState) : GLState :=
  with_vertexArrayBinding None
    (building st (nextHandle st) (meshArray (nextHandle st))
       (meshBuffers g (buffers st) (nextHandle st)) (Some (3 + nextHandle st))
       (5 + nextHandle st)).

Lemma exec_createVAO (g : Geometry) (st : GLState) :
  App.createVAO g st = Ok (nextHandle st) (uploaded g st) [].
Proof.
  unfold App.createVAO. do 2 gl_next. autorewrite with gl. rewrite building_start.
  do 17 gl_next. autorewrite with gl.
  erewrite bind_Ok by (now apply exec_bufferData_element).
  gl_go. reflexivity.
Qed.

(** No object of the context has a handle from [nextHandle] on: the
    handles that the [create...] calls return are new. *)
Record fresh (st : GLState) : Prop := mkFresh {
  fresh_vertexArrays : forall h, nextHandle st <= h -> vertexArrays st h = None;
  fresh_buffers : forall h, nextHandle st <= h -> buffers st h = None;
  fresh_programs : forall h, nextHandle st <= h -> programs st h = None;
  fresh_framebuffers : forall h, nextHandle st <= h -> framebuffers st h = None }.

Lemma fresh_initialState (width height : Z) : fresh (initialState width height).
Proof.
  constructor; intros h Hh; cbn in *; try reflexivity. now rewrite upd_other by lia.
Qed.

Lemma below_nextHandle {A : Type} (f : Handle -> option A) (n h : Handle) (a : A) :
  (forall k, n <= k -> f k = None) -> f h = Some a -> h < n.
Proof.
  intros Hf E. destruct (Nat.lt_ge_cases h n) as [|Hge]; [easy|].
  rewrite (Hf h Hge) in E. discriminate E.
Qed.

Section Uploaded.

Variables (g : Geometry) (st : GLState).

Lemma vertexArrays_uploaded_new :
  vertexArrays (uploaded g st) (nextHandle st) = Some (meshArray (nextHandle st)).
Proof. cbn. now rewrite upd_same. Qed.

Lemma vertexArrays_uploaded_old (v : Handle) :
  v < nextHandle st -> vertexArrays (uploaded g st) v = vertexArrays st v.
Proof. intros Hv. cbn. now rewrite upd_other by lia. Qed.

Lemma buffers_uploaded_old (b : Handle) :
  b < nextHandle st -> buffers (uploaded g st) b = buffers st b.
Proof.
  intros Hb. cbn [uploaded building buffers with_vertexArrayBinding with_nextHandle
    with_arrayBufferBinding with_buffers]. unfold meshBuffers.
  now rewrite !upd_other by lia.
Qed.

Lemma vaoIndices_uploaded :
  vaoIndices (uploaded g st) (nextHandle st) = Some (indices g).
Proof.
  unfold vaoIndices. rewrite vertexArrays_uploaded_new. cbn [meshArray elementArrayBuffer].
  cbn [uploaded building buffers with_vertexArrayBinding with_nextHandle
    with_arrayBufferBinding with_buffers]. unfold meshBuffers. now rewrite upd_same.
Qed.

(** What the three attributes of the new vertex array read. *)
Lemma vaoAttribute_uploaded :
  vaoAttribute (uploaded g st) (nextHandle st) 0 = Some (3, positions g) /\
  vaoAttribute (uploaded g st) (nextHandle st) 1 = Some (3, normals g) /\
  vaoAttribute (uploaded g st) (nextHandle st) 2 = Some (2, texCoords g).
Proof.
  unfold vaoAttribute. rewrite vertexArrays_uploaded_new.
  cbn [uploaded building buffers with_vertexArrayBinding with_nextHandle
    with_arrayBufferBinding with_buffers]. unfold meshBuffers.
  repeat split; cbn; rewrite ?upd_same; repeat (rewrite upd_other by lia);
    now rewrite ?upd_same.
Qed.

Hypothesis Hfresh : fresh st.

Lemma fresh_uploaded : fresh (uploaded g st).
Proof.
  destruct Hfresh as [Hva Hb Hp Hf].
  constructor; intros h Hh; cbn in Hh; cbn; unfold meshBuffers;
    rewrite ?upd_other by lia; auto with arith.
  all: first [apply Hva | apply Hb | apply Hp | apply Hf]; lia.
Qed.

(** The vertex arrays that were there read what they read before. *)
Lemma vaoIndices_uploaded_old (v : Handle) (l : list Z) :
  vaoIndices st v = Some l -> vaoIndices (uploaded g st) v = Some l.
Proof.
  destruct Hfresh as [Hva Hb _ _]. unfold vaoIndices.
  destruct (vertexArrays st v) as [va|] eqn:Ev; [|easy].
  rewrite vertexArrays_uploaded_old, Ev by (now apply (below_nextHandle _ _ _ _ Hva Ev)).
  destruct (elementArrayBuffer va) as [b|]; [|easy].
  destruct (buffers st b) as [d|] eqn:Eb; [|easy].
  now rewrite buffers_uploaded_old, Eb by (now apply (below_nextHandle _ _ _ _ Hb Eb)).
Qed.

Lemma vaoAttribute_uploaded_old (v : Handle) (index : nat) (a : nat * list R) :
  vaoAttribute st v index = Some a -> vaoAttribute (uploaded g st) v index = Some a.
Proof.
  destruct Hfresh as [Hva Hb _ _]. unfold vaoAttribute.
  destruct (vertexArrays st v) as [va|] eqn:Ev; [|easy].
  rewrite vertexArrays_uploaded_old, Ev by (now apply (below_nextHandle _ _ _ _ Hva Ev)).
  cbv zeta. destruct (attribEnabled (attribs va index)); [|easy].
  destruct (attribBuffer (attribs va index)) as [b|]; [|easy].
  destruct (buffers st b) as [d|] eqn:Eb; [|easy].
  now rewrite buffers_uploaded_old, Eb by (now apply (below_nextHandle _ _ _ _ Hb Eb)).
Qed.

Lemma drawable_uploaded (obj : Renderable) :
  drawable st obj -> drawable (uploaded g st) obj.
Proof.
  intros (l & Hl & Hn). exists l. split; [|easy]. now apply vaoIndices_uploaded_old.
Qed.

End Uploaded.

(** ** createGeometry *)

(** The two objects and the glass plane that [createGeometry] makes when
    [h] is the first free handle. *)
Definition cubeObject (h : Handle) : Renderable :=
  mkRenderable h 36
    (App.createModelMatrix (vec3 (-4) 1 (-3)) (vec3 0 0 0) (vec3 1.5 1.5 1.5)).

Definition sphereObject (h : Handle) : Renderable :=
  mkRenderable (5 + h) (6 * (32 * 32))
    (App.createModelMatrix (vec3 4 1.5 (-3)) (vec3 0 0 0) (vec3 1.5 1.5 1.5)).

Definition glassObject (h : Handle) : Renderable :=
  mkRenderable (10 + h) 6 (App.createVerticalPlaneMatrix (vec3 0 2 (-3))).

(** The state after [createGeometry]. *)
Definition geometryCreated (st : GLState) : GLState :=
  uploaded (createPlane 15 10) (uploaded (createSphere 1 32) (uploaded createCube st)).

Lemma exec_createGeometry (this : WebGLApp) (st : GLState) :
  App.createGeometry this st
  = Ok (with_glassPlane (Some (glassObject (nextHandle st)))
          (with_objects
             (objects this ++ [cubeObject (nextHandle st); sphereObject (nextHandle st)])
             this))
      (geometryCreated st) [].
Proof.
  unfold App.createGeometry. cbv zeta.
  rewrite (bind_Ok _ _ _ _ _ _ (exec_createVAO _ _)). cbv beta.
  rewrite (bind_Ok _ _ _ _ _ _ (exec_createVAO _ _)). cbv beta.
  rewrite (bind_Ok _ _ _ _ _ _ (exec_createVAO _ _)). cbv beta.
  rewrite createSphere_indices_length. unfold ret, geometryCreated.
  cbn [prepend app with_objects objects]. rewrite <- app_assoc. reflexivity.
Qed.

Lemma nextHandle_geometryCreated (st : GLState) :
  nextHandle (geometryCreated st) = 15 + nextHandle st.
Proof. reflexivity. Qed.

Lemma fresh_geometryCreated (st : GLState) : fresh st -> fresh (geometryCreated st).
Proof. intros H. now do 3 apply fresh_uploaded. Qed.

Lemma drawable_geometryCreated (st : GLState) (obj : Renderable) :
  fresh st -> drawable st obj -> drawable (geometryCreated st) obj.
Proof.
  intros Hf Hd. unfold geometryCreated.
  now repeat (apply drawable_uploaded; [repeat apply fresh_uploaded|]).
Qed.

(** A new vertex array can be drawn with as many indices as its mesh
    has. *)
Lemma drawable_new (g : Geometry) (st : GLState) (n : nat) (m : Mat4) :
  n = List.length (indices g) ->
  drawable (uploaded g st) (mkRenderable (nextHandle st) n m).
Proof.
  intros ->. exists (indices g). split; [apply vaoIndices_uploaded | apply Nat.le_refl].
Qed.

Lemma geometryCreated_drawable (st : GLState) :
  fresh st ->
  drawable (geometryCreated st) (cubeObject (nextHandle st)) /\
  drawable (geometryCreated st) (sphereObject (nextHandle st)) /\
  drawable (geometryCreated st) (glassObject (nextHandle st)).
Proof.
  intros Hf. unfold geometryCreated. repeat split.
  - do 2 (apply drawable_uploaded; [now repeat apply fresh_uploaded|]).
    now apply drawable_new.
  - apply drawable_uploaded; [now repeat apply fresh_uploaded|].
    apply (drawable_new (createSphere 1 32) (uploaded createCube st)).
    now rewrite createSphere_indices_length.
  - now apply (drawable_new (createPlane 15 10)
                 (uploaded (createSphere 1 32) (uploaded createCube st))).
Qed.

(** What the vertex arrays of the scene read. *)
Lemma geometryCreated_meshes (st : GLState) :
  fresh st ->
  let st' := geometryCreated st in
  (vaoIndices st' (nextHandle st) = Some (indices createCube) /\
   vaoAttribute st' (nextHandle st) 0 = Some (3, positions createCube) /\
   vaoAttribute st' (nextHandle st) 1 = Some (3, normals createCube)) /\
  (vaoIndices st' (5 + nextHandle st) = Some (indices (createSphere 1 32)) /\
   vaoAttribute st' (5 + nextHandle st) 0 = Some (3, positions (createSphere 1 32)) /\
   vaoAttribute st' (5 + nextHandle st) 1 = Some (3, normals (createSphere 1 32))) /\
  (vaoIndices st' (10 + nextHandle st) = Some (indices (createPlane 15 10)) /\
   vaoAttribute st' (10 + nextHandle st) 0 = Some (3, positions (createPlane 15 10)) /\
   vaoAttribute st' (10 + nextHandle st) 1 = Some (3, normals (createPlane 15 10))).
Proof.
  intros Hf st'. subst st'. unfold geometryCreated.
  pose proof (fresh_uploaded createCube st Hf) as Hf1.
  pose proof (fresh_uploaded (createSphere 1 32) _ Hf1) as Hf2.
  destruct (vaoAttribute_uploaded createCube st) as (C0 & C1 & _).
  destruct (vaoAttribute_uploaded (createSphere 1 32) (uploaded createCube st))
    as (S0 & S1 & _).
  destruct (vaoAttribute_uploaded (createPlane 15 10)
              (uploaded (createSphere 1 32) (uploaded createCube st))) as (P0 & P1 & _).
  repeat split.
  - do 2 (apply vaoIndices_uploaded_old; [assumption|]). apply vaoIndices_uploaded.
  - do 2 (apply vaoAttribute_uploaded_old; [assumption|]). exact C0.
  - do 2 (apply vaoAttribute_uploaded_old; [assumption|]). exact C1.
  - apply vaoIndices_uploaded_old; [assumption|].
    apply (vaoIndices_uploaded (createSphere 1 32) (uploaded createCube st)).
  - apply vaoAttribute_uploaded_old; [assumption | exact S0].
  - apply vaoAttribute_uploaded_old; [assumption | exact S1].
  - apply (vaoIndices_uploaded (createPlane 15 10)
             (uploaded (createSphere 1 32) (uploaded createCube st))).
  - exact P0.
  - exact P1.
Qed.

(** ** createTextures *)

Lemma exec_createTextures (this : WebGLApp) (st : GLState) :
  App.createTextures this st
  = Ok (with_glassTexture (Some (nextHandle st))
          (with_textures (textures this ++ [nextHandle st; nextHandle st]) this))
      (with_nextHandle (S (nextHandle st)) st) [].
Proof.
  unfold App.createTextures, loadTexture, bind, ret.
  cbn [app with_textures textures with_glassTexture]. now rewrite <- app_assoc.
Qed.

(** ** Where the meshes are put *)

Local Open Scope R_scope.

Lemma createCube_vertices_bound :
  Forall (fun v => -1 <= v.[0] <= 1) (vertices (positions createCube)).
Proof.
  cbn [vertices positions createCube triples map].
  repeat (apply Forall_cons; [cbn; lra|]). apply Forall_nil.
Qed.

Lemma createPlane_vertices_flat (width height : R) :
  Forall (fun v => v.[1] = 0) (vertices (positions (createPlane width height))).
Proof.
  cbn [vertices positions createPlane triples map].
  repeat (apply Forall_cons; [reflexivity|]). apply Forall_nil.
Qed.

Lemma createSphere_vertices_bound (radius : R) (segments i : nat) (v : Vec3) :
  0 <= radius ->
  attribute3 (positions (createSphere radius segments)) i = Some v ->
  - radius <= v.[0] <= radius.
Proof.
  intros Hr (lat & lon & _ & _ & ->)%createSphere_vertex_grid.
  pose proof (sphereNormal_bound segments lat lon 0) as H.
  cbv [vscale index Vec3_Indexed v3_0] in *. nra.
Qed.

(** ** The scene *)

(** An application as its constructor leaves it, for a canvas of 800 by
    600 pixels: the input of the examples. *)
Definition exampleCanvas : Canvas := mkCanvas 0%nat 800 600 false false false.

Definition exampleApp : WebGLApp :=
  mkWebGLApp exampleCanvas (Camera.constructor exampleCanvas 0) 0.5 None None [] None []
    None None 0%Z 0 0%Z.

(** CreateModelMatrix scales a vertex componentwise and then translates
    it; the rotation argument has no effect on the matrix, so the objects
    of the scene cannot be rotated. *)
Theorem createModelMatrix_spec (translation rotation scale v : Vec3) :
  place (App.createModelMatrix translation rotation scale) v
  = vec3 (translation.[0] + scale.[0] * v.[0])
         (translation.[1] + scale.[1] * v.[1])
         (translation.[2] + scale.[2] * v.[2])
  /\ affine (App.createModelMatrix translation rotation scale)
  /\ forall rotation',
       App.createModelMatrix translation rotation' scale
       = App.createModelMatrix translation rotation scale.
Proof.
  split; [apply createModelMatrix_place|]. split; [apply createModelMatrix_affine|].
  reflexivity.
Qed.


(** C23: createVAO returns a new vertex array and leaves no vertex array
    bound.  Attribute 0 of the new vertex array reads the positions of the
    mesh and attribute 1 its normals, three floats per vertex, attribute 2
    its texture coordinates, two floats per vertex, and its index buffer
    holds the indices of the mesh.  No call fails, the handles of the
    context stay new, and the vertex arrays that existed read what they
    read before. *)
Theorem createVAO_spec (g : Geometry) (st : GLState) :
  fresh st ->
  exists st',
    App.createVAO g st = Ok (nextHandle st) st' [] /\
    vertexArrayBinding st' = None /\
    vaoIndices st' (nextHandle st) = Some (indices g) /\
    vaoAttribute st' (nextHandle st) 0 = Some (3%nat, positions g) /\
    vaoAttribute st' (nextHandle st) 1 = Some (3%nat, normals g) /\
    vaoAttribute st' (nextHandle st) 2 = Some (2%nat, texCoords g) /\
    fresh st' /\
    (forall v l, vaoIndices st v = Some l -> vaoIndices st' v = Some l) /\
    (forall v k a, vaoAttribute st v k = Some a -> vaoAttribute st' v k = Some a).
Proof.
  intros Hf. exists (uploaded g st).
  destruct (vaoAttribute_uploaded g st) as (A0 & A1 & A2).
  split; [apply exec_createVAO|]. split; [reflexivity|].
  split; [apply vaoIndices_uploaded|]. do 3 (split; [assumption|]).
  split; [now apply fresh_uploaded|].
  split; intros; [now apply vaoIndices_uploaded_old|now apply vaoAttribute_uploaded_old].
Qed.

Lemma createVAO_spec_witness :
  fresh (initialState 800 600) /\
  exists st',
    App.createVAO (createPlane 15 10) (initialState 800 600) = Ok 1%nat st' [] /\
    vertexArrayBinding st' = None /\
    vaoIndices st' 1%nat = Some (indices (createPlane 15 10)) /\
    vaoAttribute st' 1%nat 0%nat = Some (3%nat, positions (createPlane 15 10)) /\
    vaoAttribute st' 1%nat 1%nat = Some (3%nat, normals (createPlane 15 10)) /\
    vaoAttribute st' 1%nat 2%nat = Some (2%nat, texCoords (createPlane 15 10)) /\
    fresh st' /\
    (forall v l, vaoIndices (initialState 800 600) v = Some l
                 -> vaoIndices st' v = Some l) /\
    (forall v k a, vaoAttribute (initialState 800 600) v k = Some a
                   -> vaoAttribute st' v k = Some a).
Proof.
  split; [apply fresh_initialState|].
  exact (createVAO_spec (createPlane 15 10) (initialState 800 600)
           (fresh_initialState 800 600)).
Defined.

(** C24: createGeometry appends the cube and the sphere to the objects and
    sets the glass plane, each with a vertex array of its own that reads
    the positions, normals and indices of its mesh, and with as many
    indices to draw as the mesh has: 36, 6144 and 6.  Every object can be
    drawn afterwards, those that existed included, and no call fails. *)
Theorem createGeometry_spec (this : WebGLApp) (st : GLState) :
  fresh st ->
  Forall (drawable st) (objects this) ->
  exists this' st' cube sphere glass,
    App.createGeometry this st = Ok this' st' [] /\
    objects this' = objects this ++ [cube; sphere] /\
    glassPlane this' = Some glass /\
    (count cube = 36 /\ count sphere = 6 * (32 * 32) /\ count glass = 6)%nat /\
    (vaoIndices st' (vao cube) = Some (indices createCube) /\
     vaoAttribute st' (vao cube) 0 = Some (3%nat, positions createCube) /\
     vaoAttribute st' (vao cube) 1 = Some (3%nat, normals createCube)) /\
    (vaoIndices st' (vao sphere) = Some (indices (createSphere 1 32)) /\
     vaoAttribute st' (vao sphere) 0 = Some (3%nat, positions (createSphere 1 32)) /\
     vaoAttribute st' (vao sphere) 1 = Some (3%nat, normals (createSphere 1 32))) /\
    (vaoIndices st' (vao glass) = Some (indices (createPlane 15 10)) /\
     vaoAttribute st' (vao glass) 0 = Some (3%nat, positions (createPlane 15 10)) /\
     vaoAttribute st' (vao glass) 1 = Some (3%nat, normals (createPlane 15 10))) /\
    Forall (drawable st') (objects this') /\ drawable st' glass /\
    fresh st'.
Proof.
  intros Hf Hd.
  destruct (geometryCreated_drawable st Hf) as (Dc & Ds & Dg).
  destruct (geometryCreated_meshes st Hf) as (Mc & Ms & Mg).
  do 5 eexists. split; [apply exec_createGeometry|].
  split; [reflexivity|]. split; [reflexivity|]. split; [now repeat split|].
  do 3 (split; [assumption|]).
  split; [|split; [assumption | now apply fresh_geometryCreated]].
  apply Forall_app. split; [|now repeat constructor].
  eapply Forall_impl; [|exact Hd]. intros obj. now apply drawable_geometryCreated.
Qed.

Lemma createGeometry_spec_witness :
  exists this' st' cube sphere glass,
    App.createGeometry
      exampleApp (initialState 800 600) = Ok this' st' [] /\
    objects this' = objects exampleApp ++ [cube; sphere] /\
    glassPlane this' = Some glass /\
    (count cube = 36 /\ count sphere = 6 * (32 * 32) /\ count glass = 6)%nat /\
    (vaoIndices st' (vao cube) = Some (indices createCube) /\
     vaoAttribute st' (vao cube) 0 = Some (3%nat, positions createCube) /\
     vaoAttribute st' (vao cube) 1 = Some (3%nat, normals createCube)) /\
    (vaoIndices st' (vao sphere) = Some (indices (createSphere 1 32)) /\
     vaoAttribute st' (vao sphere) 0 = Some (3%nat, positions (createSphere 1 32)) /\
     vaoAttribute st' (vao sphere) 1 = Some (3%nat, normals (createSphere 1 32))) /\
    (vaoIndices st' (vao glass) = Some (indices (createPlane 15 10)) /\
     vaoAttribute st' (vao glass) 0 = Some (3%nat, positions (createPlane 15 10)) /\
     vaoAttribute st' (vao glass) 1 = Some (3%nat, normals (createPlane 15 10))) /\
    Forall (drawable st') (objects this') /\ drawable st' glass /\
    fresh st'.
Proof.
  exact (createGeometry_spec exampleApp (initialState 800 600)
           (fresh_initialState 800 600) (Forall_nil _)).
Defined.

(** C25: the scene that createGeometry lays out: every vertex of the cube is
    put at x between -5.5 and -2.5 and every vertex of the sphere at x
    between 2.5 and 5.5, on opposite sides of the plane x = 0, and every
    vertex of the glass plane is put in the plane x = 0, which is the
    plane the reflection mirrors across. *)
Theorem scene_layout (this : WebGLApp) (st : GLState) :
  exists this' st' cube sphere glass,
    App.createGeometry this st = Ok this' st' [] /\
    objects this' = objects this ++ [cube; sphere] /\
    glassPlane this' = Some glass /\
    (forall i v, attribute3 (positions createCube) i = Some v ->
       -5.5 <= (place (modelMatrix cube) v).[0] <= -2.5) /\
    (forall i v, attribute3 (positions (createSphere 1 32)) i = Some v ->
       2.5 <= (place (modelMatrix sphere) v).[0] <= 5.5) /\
    (forall i v, attribute3 (positions (createPlane 15 10)) i = Some v ->
       (place (modelMatrix glass) v).[0] = 0 /\
       mirrorX (place (modelMatrix glass) v) = place (modelMatrix glass) v).
Proof.
  do 5 eexists. split; [apply exec_createGeometry|].
  split; [reflexivity|]. split; [reflexivity|].
  cbn [modelMatrix cubeObject sphereObject glassObject]. repeat split.
  - apply attribute3_In in H.
    apply (proj1 (Forall_forall _ _) createCube_vertices_bound) in H.
    rewrite createModelMatrix_place. cbn in *. lra.
  - apply attribute3_In in H.
    apply (proj1 (Forall_forall _ _) createCube_vertices_bound) in H.
    rewrite createModelMatrix_place. cbn in *. lra.
  - apply createSphere_vertices_bound in H; [|lra].
    rewrite createModelMatrix_place. cbn in *. lra.
  - apply createSphere_vertices_bound in H; [|lra].
    rewrite createModelMatrix_place. cbn in *. lra.
  - apply attribute3_In in H.
    apply (proj1 (Forall_forall _ _) (createPlane_vertices_flat 15 10)) in H.
    rewrite createVerticalPlaneMatrix_place. cbn in *. lra.
  - apply attribute3_In in H.
    apply (proj1 (Forall_forall _ _) (createPlane_vertices_flat 15 10)) in H.
    rewrite createVerticalPlaneMatrix_place. unfold mirrorX.
    apply vec3_eq; cbn in *; lra.
Qed.
