(* ===== verification/AppProps.v ===== *)
(** * AppProps: the methods of WebGLApp that set the application up

    What main.js imports from shaders.js and framebuffer.js does to the
    context, [updateFPS], [resize], the listeners of [setupUI], one frame of
    [render], and [init]: on an environment in which the shaders load and
    link and framebuffers can be completed, the part of [init] that runs
    when the shaders have arrived leaves an application that is [ready] to
    render; the two parts of [init] in sequence are [init]; the [resize]
    listener, when [resize] returns and when it throws; the invariants
    [canRender] and [appInvariant] of an application that renders. *)

From Stdlib Require Import Reals Lra ZArith Bool List String Lia.
From Stdlib Require Import Setoid Morphisms RelationClasses.
From S2P Require Import Prelude Lists MatrixMath Camera CameraProps Reflection Geometry.
From S2P Require Import GeometryProps GL GLProps WebGLApp RenderProps SceneProps.
Import ListNotations.

(** ** Framebuffers, programs and textures *)

(** The state after [createFramebuffer(gl, width, height)], and the object
    it returns. *)
Definition framebufferCreated (width height : Z) (st : GLState) : GLState :=
  with_nextHandle (S (S (nextHandle st)))
    (with_framebuffers
       (upd (framebuffers st) (S (nextHandle st))
          (Some (mkFramebufferObject (nextHandle st) width height))) st).

Definition newFBO (width height : Z) (st : GLState) : ReflectionFBO :=
  mkReflectionFBO (S (nextHandle st)) (nextHandle st) width height.

(** The state after [createProgram] linked a program with the uniforms
    [active]. *)
Definition programCreated (active : Uniform -> bool) (st : GLState) : GLState :=
  with_nextHandle (S (nextHandle st))
    (with_programs
       (upd (programs st) (nextHandle st) (Some (mkProgram (nextHandle st) active))) st).

Lemma exec_createFramebuffer (env : Environment) (width height : Z) (st : GLState) :
  framebufferComplete env width height = true ->
  createFramebuffer env width height st
  = Ok (newFBO width height st) (framebufferCreated width height st) [].
Proof. intros H. unfold createFramebuffer. now rewrite H. Qed.

Lemma exec_createFramebuffer_incomplete (env : Environment) (width height : Z)
  (st : GLState) :
  framebufferComplete env width height = false ->
  createFramebuffer env width height st = Threw (Error "Framebuffer is not complete") st [].
Proof. intros H. unfold createFramebuffer. now rewrite H. Qed.

Lemma exec_createProgram (env : Environment) (vs fs : string) (active : Uniform -> bool)
  (st : GLState) :
  linkProgram env vs fs = Some active ->
  createProgram env vs fs st
  = Ok (mkProgram (nextHandle st) active) (programCreated active st) [].
Proof. intros H. unfold createProgram. now rewrite H. Qed.

Lemma exec_loadShaderFromFile (env : Environment) (path source : string) (st : GLState) :
  fetchText env path = Some source ->
  loadShaderFromFile env path st = Ok source st [].
Proof. intros H. unfold loadShaderFromFile. now rewrite H. Qed.

(** A state with the vertex arrays and buffers of [st] draws what [st]
    draws. *)
Lemma drawable_ext (st st' : GLState) (obj : Renderable) :
  vertexArrays st' = vertexArrays st -> buffers st' = buffers st ->
  drawable st obj -> drawable st' obj.
Proof.
  intros Hva Hb (l & Hl & Hn). exists l. split; [|easy].
  unfold vaoIndices in *. now rewrite Hva, Hb.
Qed.

Lemma fresh_framebufferCreated (width height : Z) (st : GLState) :
  fresh st -> fresh (framebufferCreated width height st).
Proof.
  intros [Hva Hb Hp Hf]. constructor; intros h Hh; cbn in *;
    rewrite ?upd_other by lia; auto with arith.
  all: first [apply Hva | apply Hb | apply Hp | apply Hf]; lia.
Qed.

Lemma fresh_programCreated (active : Uniform -> bool) (st : GLState) :
  fresh st -> fresh (programCreated active st).
Proof.
  intros [Hva Hb Hp Hf]. constructor; intros h Hh; cbn in *;
    rewrite ?upd_other by lia; auto with arith.
  all: first [apply Hva | apply Hb | apply Hp | apply Hf]; lia.
Qed.

(** A state that differs from a state without used handles from
    [nextHandle] on in bindings and parameters only, and has a larger
    [nextHandle], has none either. *)
Lemma fresh_ext (st st' : GLState) :
  (nextHandle st <= nextHandle st')%nat ->
  vertexArrays st' = vertexArrays st -> buffers st' = buffers st ->
  programs st' = programs st -> framebuffers st' = framebuffers st ->
  fresh st -> fresh st'.
Proof.
  intros Hn Eva Eb Ep Ef [Hva Hb Hp Hf].
  constructor; intros h Hh; rewrite ?Eva, ?Eb, ?Ep, ?Ef;
    first [apply Hva | apply Hb | apply Hp | apply Hf]; lia.
Qed.

(** ** updateFPS *)

(** The application after [updateFPS] when less than a second has passed
    since the last report, and when a report is due. *)
Definition counted (this : WebGLApp) : WebGLApp :=
  with_frameCount (frameCount this + 1)%Z this.

Definition reported (now : R) (this : WebGLApp) : WebGLApp :=
  with_lastTime now
    (with_frameCount 0%Z
       (with_fps
          (Math.round (IZR (frameCount this + 1) * 1000 / (now - lastTime this)))
          (counted this))).

Lemma exec_updateFPS_wait (now : R) (this : WebGLApp) (st : GLState) :
  now - lastTime this < 1000 ->
  App.updateFPS now this st = Ok (counted this) st [].
Proof.
  intros H. unfold App.updateFPS. cbv zeta. cbn [lastTime with_frameCount].
  unfold Rgeb. now destruct (Rge_dec (now - lastTime this) 1000) as [Hge|]; [lra|].
Qed.

Lemma exec_updateFPS_report (now : R) (this : WebGLApp) (st : GLState) :
  now - lastTime this >= 1000 ->
  App.updateFPS now this st
  = Ok (reported now this) st
      [Host (SetTextContent "fps" "FPS: " (IZR (fps (reported now this))))].
Proof.
  intros H. unfold App.updateFPS. cbv zeta. cbn [lastTime with_frameCount].
  unfold Rgeb. now destruct (Rge_dec (now - lastTime this) 1000) as [|Hlt]; [|lra].
Qed.

(** The fields that the passes read are the same in two applications. *)
Record sameScene (a b : WebGLApp) : Prop := mkSameScene {
  ss_program : program b = program a;
  ss_glassProgram : glassProgram b = glassProgram a;
  ss_objects : objects b = objects a;
  ss_glassPlane : glassPlane b = glassPlane a;
  ss_textures : textures b = textures a;
  ss_glassTexture : glassTexture b = glassTexture a;
  ss_reflectionFBO : reflectionFBO b = reflectionFBO a }.

Lemma sameScene_refl (a : WebGLApp) : sameScene a a.
Proof. now constructor. Qed.

Lemma sameScene_trans (a b c : WebGLApp) : sameScene a b -> sameScene b c -> sameScene a c.
Proof. intros [] []. constructor; etransitivity; eassumption. Qed.

Lemma sameScene_sym (a b : WebGLApp) : sameScene a b -> sameScene b a.
Proof. intros []. now constructor. Qed.

#[export] Instance sameScene_Equivalence : Equivalence sameScene.
Proof. split; [exact sameScene_refl | exact sameScene_sym | exact sameScene_trans]. Qed.

#[export] Hint Resolve sameScene_refl : gl.

(** [updateFPS] in both cases: it touches the counter, the time of the
    last report and the rate, and the page at most. *)
Lemma exec_updateFPS (now : R) (this : WebGLApp) (st : GLState) :
  exists this' out,
    App.updateFPS now this st = Ok this' st out /\
    sameScene this this' /\ camera this' = camera this /\ canvas this' = canvas this /\
    transparency this' = transparency this /\
    errors out = [] /\ draws out = [] /\ frameRequests out = 0%nat.
Proof.
  destruct (Rlt_or_le (now - lastTime this) 1000) as [H|H].
  - exists (counted this), []. now rewrite exec_updateFPS_wait.
  - eexists _, _. rewrite exec_updateFPS_report by lra. now repeat split.
Qed.

(** ** Staying ready *)

Lemma ready_ext (this this' : WebGLApp) (p q : Program) (fbo : ReflectionFBO)
  (glass : Renderable) (st st' : GLState) :
  sameScene this this' -> sameObjects st st' ->
  depthWritemask st' = true -> framebufferBinding st' = None ->
  ready this p q fbo glass st -> ready this' p q fbo glass st'.
Proof.
  intros [] Hs Hd Ht []. pose proof Hs as [].
  constructor; try congruence.
  - eapply Forall_impl; [|rewrite ss_objects0; eassumption].
    intros obj. now apply drawable_same.
  - now rewrite <- Hs.
Qed.

(** ** One frame *)

(** The state of a clear: the target, the viewport and the clear colour,
    with depth writes on. *)
Record clearState (target : option Handle) (box : Z * Z * Z * Z) (color : R * R * R * R)
  (c : GLState) : Prop := mkClearState {
  cs_target : framebufferBinding c = target;
  cs_viewport : viewportBox c = box;
  cs_color : colorClearValue c = color;
  cs_depth : depthWritemask c = true }.

(** What [render] puts out: what [updateFPS] reports, the reflection pass,
    the main pass with the glass draw at its end, and the request for the
    next frame.  [c1] and [c2] are the states of the two clears, [sg] the
    state of the glass draw. *)
Inductive frame (this : WebGLApp) (p q : Program) (fbo : ReflectionFBO)
  (glass : Renderable) (st : GLState) : list Output -> Prop :=
  | mkFrame (report : list Output) (c1 : GLState) (reflection : list Output)
      (c2 : GLState) (main : list Output) (sg : GLState) :
      errors report = [] -> draws report = [] -> frameRequests report = 0%nat ->
      clearState (Some (framebuffer fbo)) (0, 0, fbo_width fbo, fbo_height fbo)%Z
        (0.1, 0.1, 0.15, 1.0) c1 ->
      passDraws (objects this) (reflectionDraw this p fbo st) reflection ->
      clearState None (0, 0, Camera.width (canvas this), Camera.height (canvas this))%Z
        (0.05, 0.05, 0.1, 1.0) c2 ->
      passDraws (objects this) (mainDraw this p st) main ->
      glassDraw this q fbo glass st sg ->
      frame this p q fbo glass st
        (report
         ++ Cleared true true c1 :: reflection
         ++ Cleared true true c2 :: main
         ++ [Drawn (count glass) sg; Host RequestAnimationFrame]).

(** A pass keeps the application ready for the next one. *)
Lemma ready_pass (this : WebGLApp) (p q : Program) (fbo : ReflectionFBO)
  (glass : Renderable) (st st' : GLState) :
  sameObjects st st' -> depthWritemask st' = true -> framebufferBinding st' = None ->
  ready this p q fbo glass st -> ready this p q fbo glass st'.
Proof. intros. now apply (ready_ext this this p q fbo glass st st'); auto with gl. Qed.

(** The draws of a pass, seen from a state with the same objects. *)
Lemma sceneDraw_from (this : WebGLApp) (p : Program) (view : Mat4) (clip : Vec4)
  (light : Vec3) (target : option Handle) (box : Z * Z * Z * Z) (depthWrite : bool)
  (st st1 : GLState) (obj : Renderable) (index : nat) (s : GLState) :
  sameObjects st st1 ->
  sceneDraw this p view clip light target box depthWrite st1 obj index s ->
  sceneDraw this p view clip light target box depthWrite st obj index s.
Proof.
  intros Hs [[] ? ? ? ?]. constructor; [constructor|..]; try assumption.
  now apply (sameObjects_trans st st1 s).
Qed.

Lemma passDraws_impl (objs : list Renderable)
  (draw draw' : Renderable -> nat -> GLState -> Prop) (out : list Output) :
  (forall obj k s, draw obj k s -> draw' obj k s) ->
  passDraws objs draw out -> passDraws objs draw' out.
Proof.
  intros H [He Hh Hl Hd]. constructor; try assumption. intros k obj Hk.
  destruct (Hd k obj Hk) as (s & E & Hs). eauto.
Qed.

Lemma sameScene_with_camera (c : FlybyCamera) (this : WebGLApp) :
  sameScene this (with_camera c this).
Proof. now constructor. Qed.

Lemma camera_with_camera (c : FlybyCamera) (this : WebGLApp) :
  camera (with_camera c this) = c.
Proof. reflexivity. Qed.

(** [render] after the camera was updated. *)
Lemma exec_frame (now_fps : R) (this : WebGLApp) (p q : Program) (fbo : ReflectionFBO)
  (glass : Renderable) (st : GLState) :
  ready this p q fbo glass st ->
  exists this' st' out,
    (let* this := App.updateFPS now_fps this in
     App.renderReflectionPass this ;;
     App.renderMainScene this ;;
     host RequestAnimationFrame ;;
     ret this) st = Ok this' st' out /\
    sameScene this this' /\
    camera this' = camera this /\
    canvas this' = canvas this /\ transparency this' = transparency this /\
    frame this' p q fbo glass st out /\
    sameObjects st st' /\
    ready this' p q fbo glass st'.
Proof.
  intros Hr.
  destruct (exec_updateFPS now_fps this st)
    as (this1 & outF & EF & Hscene & Hcam & Hcanvas & Htr & HeF & HdF & HqF).
  assert (Hr1 : ready this1 p q fbo glass st).
  { apply (ready_ext this this1 p q fbo glass st st); auto with gl; apply Hr. }
  destruct (exec_renderReflectionPass this1 p q fbo glass st Hr1)
    as (st1 & c1 & out1 & E1 & Ht1 & Hv1 & Hc1 & Hd1 & Hp1 & Hb1 & Hm1 & Hs1).
  assert (Hr2 : ready this1 p q fbo glass st1) by now apply (ready_pass _ _ _ _ _ st).
  destruct (exec_renderMainScene this1 p q fbo glass st1 Hr2)
    as (st2 & c2 & out2 & sg & E2 & Ht2 & Hv2 & Hc2 & Hd2 & Hp2 & Hg & Hb2 & Hm2 & Hs2).
  exists this1, st2. eexists.
  split.
  { rewrite (bind_Ok _ _ _ _ _ _ EF), (bind_Ok _ _ _ _ _ _ E1), (bind_Ok _ _ _ _ _ _ E2).
    cbn [bind host ret prepend app]. reflexivity. }
  split; [exact Hscene|].
  split; [exact Hcam|]. split; [exact Hcanvas|]. split; [exact Htr|].
  split; [|split; [now apply (sameObjects_trans st st1) |
                   now apply (ready_pass _ _ _ _ _ st1)]].
  rewrite <- (app_assoc out2). cbn [app].
  assert (Hmain : passDraws (objects this1) (mainDraw this1 p st) out2).
  { apply (passDraws_impl _ _ _ _ (fun obj k s => sceneDraw_from _ _ _ _ _ _ _ _ st st1
                                                    obj k s Hs1) Hp2). }
  assert (Hglass : glassDraw this1 q fbo glass st sg).
  { destruct Hg. constructor; try assumption. now apply (sameObjects_trans st st1). }
  exact (mkFrame this1 p q fbo glass st outF c1 out1 c2 out2 sg HeF HdF HqF
           (mkClearState _ _ _ _ Ht1 Hv1 Hc1 Hd1) Hp1
           (mkClearState _ _ _ _ Ht2 Hv2 Hc2 Hd2) Hmain Hglass).
Qed.

Lemma exec_render (now_update now_fps : R) (this : WebGLApp) (p q : Program)
  (fbo : ReflectionFBO) (glass : Renderable) (st : GLState) :
  ready this p q fbo glass st ->
  exists this' st' out,
    App.render now_update now_fps this st = Ok this' st' out /\
    sameScene this this' /\
    camera this' = update now_update (camera this) /\
    canvas this' = canvas this /\ transparency this' = transparency this /\
    frame this' p q fbo glass st out /\
    sameObjects st st' /\
    ready this' p q fbo glass st'.
Proof.
  intros Hr.
  pose proof (sameScene_with_camera (update now_update (camera this)) this) as Hsc.
  destruct (exec_frame now_fps (with_camera (update now_update (camera this)) this)
              p q fbo glass st)
    as (this' & st' & out & E & Hscene & Hcam & Hcanvas & Htr & Hf & Hs & Hr');
    [apply (ready_ext this _ p q fbo glass st st); auto with gl; apply Hr|].
  rewrite camera_with_camera in Hcam.
  exists this', st', out. split; [exact E|].
  split; [now rewrite Hsc|].
  split; [exact Hcam|]. split; [exact Hcanvas|]. split; [exact Htr|].
  split; [exact Hf|]. split; [exact Hs | exact Hr'].
Qed.

(** ** resize and createFramebuffers *)

Lemma exec_createFramebuffers (env : Environment) (this : WebGLApp) (st : GLState) :
  framebufferComplete env (Camera.width (canvas this)) (Camera.height (canvas this)) = true ->
  App.createFramebuffers env this st
  = Ok (with_reflectionFBO
          (Some (newFBO (Camera.width (canvas this)) (Camera.height (canvas this)) st))
          this)
      (framebufferCreated (Camera.width (canvas this)) (Camera.height (canvas this)) st)
      [].
Proof.
  intros H. unfold App.createFramebuffers. cbv zeta.
  now rewrite (bind_Ok _ _ _ _ _ _ (exec_createFramebuffer _ _ _ _ H)).
Qed.

(** The application after [resize] for a container of the given size. *)
Definition resized (clientWidth clientHeight : Z) (this : WebGLApp) (st : GLState)
  : WebGLApp :=
  with_reflectionFBO (Some (newFBO clientWidth clientHeight st))
    (with_camera
       (updateProjectionMatrix (with_size clientWidth clientHeight (canvas this))
          (camera this))
       (with_canvas (with_size clientWidth clientHeight (canvas this)) this)).

Lemma exec_resize (env : Environment) (clientWidth clientHeight : Z) (this : WebGLApp)
  (st : GLState) :
  framebufferComplete env clientWidth clientHeight = true ->
  App.resize env clientWidth clientHeight this st
  = Ok (resized clientWidth clientHeight this st)
      (framebufferCreated clientWidth clientHeight
         (with_viewportBox (0, 0, clientWidth, clientHeight)%Z st)) [].
Proof.
  intros H. unfold App.resize. cbv zeta. gl_next.
  rewrite exec_createFramebuffers by exact H. reflexivity.
Qed.

(** When the reflection target cannot be completed, [resize] throws after
    it has set the viewport. *)
Lemma resize_incomplete (env : Environment) (clientWidth clientHeight : Z)
  (this : WebGLApp) (st : GLState) :
  framebufferComplete env clientWidth clientHeight = false ->
  App.resize env clientWidth clientHeight this st
  = Threw (Error "Framebuffer is not complete")
      (with_viewportBox (0, 0, clientWidth, clientHeight)%Z st) [].
Proof.
  intros H. unfold App.resize. cbv zeta.
  erewrite bind_Ok by reflexivity. rewrite prepend_nil.
  unfold App.createFramebuffers. cbv zeta. apply bind_Threw.
  now apply exec_createFramebuffer_incomplete.
Qed.

(** ** Listeners *)

Lemma listener_Ok (body : GL WebGLApp) (partial this' : WebGLApp) (st st' : GLState)
  (out : list Output) :
  body st = Ok this' st' out -> listener body partial st = Ok this' st' out.
Proof. apply try_catch_Ok. Qed.

(** A listener that throws: the page reports the exception, and the
    application is what the listener made of it until then. *)
Lemma listener_Threw (body : GL WebGLApp) (partial : WebGLApp) (e : Exception)
  (st st' : GLState) (out : list Output) :
  body st = Threw e st' out ->
  listener body partial st = Ok partial st' (out ++ [Host (Uncaught (message e))]).
Proof. intros E. unfold listener. now rewrite (try_catch_Threw _ _ _ _ _ _ E). Qed.

Lemma exec_on_resize (env : Environment) (clientWidth clientHeight : Z) (this : WebGLApp)
  (st : GLState) :
  framebufferComplete env clientWidth clientHeight = true ->
  on_resize env clientWidth clientHeight this st
  = Ok (resized clientWidth clientHeight this st)
      (framebufferCreated clientWidth clientHeight
         (with_viewportBox (0, 0, clientWidth, clientHeight)%Z st)) [].
Proof. intros H. now apply listener_Ok, exec_resize. Qed.

(** The [resize] listener when the reflection target cannot be completed:
    the canvas has the new size, the viewport is set, the projection is
    that of the new size, and the reflection target is the old one. *)
Lemma on_resize_incomplete (env : Environment) (clientWidth clientHeight : Z)
  (this : WebGLApp) (st : GLState) :
  framebufferComplete env clientWidth clientHeight = false ->
  on_resize env clientWidth clientHeight this st
  = Ok (resizedCanvas clientWidth clientHeight this)
      (with_viewportBox (0, 0, clientWidth, clientHeight)%Z st)
      [Host (Uncaught "Framebuffer is not complete")].
Proof.
  intros H. unfold on_resize.
  now rewrite (listener_Threw _ _ _ _ _ _ (resize_incomplete env _ _ this st H)).
Qed.

(** ** loadShaders *)

(** The shaders load and link: [active] and [activeGlass] are the uniforms
    of the two programs. *)
Inductive shadersLink (env : Environment) (active activeGlass : Uniform -> bool) : Prop :=
  | mkShadersLink (vertex fragment glassVertex glassFragment : string) :
      fetchText env "shaders/vertex.glsl" = Some vertex ->
      fetchText env "shaders/fragment.glsl" = Some fragment ->
      fetchText env "shaders/glass.v.glsl" = Some glassVertex ->
      fetchText env "shaders/glass.glsl" = Some glassFragment ->
      linkProgram env vertex fragment = Some active ->
      linkProgram env glassVertex glassFragment = Some activeGlass ->
      shadersLink env active activeGlass.

#[export] Hint Resolve exec_loadShaderFromFile exec_createProgram : gl.

(** The state after [loadShaders], and the two programs. *)
Definition shadersLoaded (active activeGlass : Uniform -> bool) (st : GLState) : GLState :=
  programCreated activeGlass (programCreated active st).

Definition sceneProgram (active : Uniform -> bool) (st : GLState) : Program :=
  mkProgram (nextHandle st) active.

Definition glassProgramOf (activeGlass : Uniform -> bool) (st : GLState) : Program :=
  mkProgram (S (nextHandle st)) activeGlass.

Lemma exec_loadShaders (env : Environment) (active activeGlass : Uniform -> bool)
  (this : WebGLApp) (st : GLState) :
  shadersLink env active activeGlass ->
  App.loadShaders env this st
  = Ok (with_glassProgram (Some (glassProgramOf activeGlass st))
          (with_program (Some (sceneProgram active st)) this))
      (shadersLoaded active activeGlass st)
      [Host (ConsoleLog "Loading shaders..."); Host (ConsoleLog "Compiling shaders...");
       Host (ConsoleLog "Main program compiled successfully");
       Host (ConsoleLog "Glass program compiled successfully")].
Proof.
  intros [vs fs gvs gfs Hvs Hfs Hgvs Hgfs Hl Hlg]. unfold App.loadShaders.
  apply try_catch_Ok. gl_go. reflexivity.
Qed.

(** ** The scene after init *)

(** The state after [createGeometry], [createTextures] and
    [createFramebuffers], and the application they leave. *)
Definition textureLoaded (st : GLState) : GLState :=
  with_nextHandle (S (nextHandle st)) st.

Definition sceneCreated (width height : Z) (st : GLState) : GLState :=
  framebufferCreated width height (textureLoaded (geometryCreated st)).

Definition sceneFBO (width height : Z) (st : GLState) : ReflectionFBO :=
  newFBO width height (textureLoaded (geometryCreated st)).

Definition withScene (this : WebGLApp) (st : GLState) : WebGLApp :=
  with_reflectionFBO
    (Some (sceneFBO (Camera.width (canvas this)) (Camera.height (canvas this)) st))
    (with_glassTexture (Some (nextHandle (geometryCreated st)))
       (with_textures
          (textures this
           ++ [nextHandle (geometryCreated st); nextHandle (geometryCreated st)])
          (with_glassPlane (Some (glassObject (nextHandle st)))
             (with_objects
                (objects this ++ [cubeObject (nextHandle st); sphereObject (nextHandle st)])
                this)))).

Lemma exec_scene_bind {B : Type} (k : WebGLApp -> GL B) (env : Environment)
  (this : WebGLApp) (st : GLState) :
  framebufferComplete env (Camera.width (canvas this)) (Camera.height (canvas this)) = true ->
  (let* this := App.createGeometry this in
   let* this := App.createTextures this in
   let* this := App.createFramebuffers env this in
   k this) st
  = k (withScene this st)
      (sceneCreated (Camera.width (canvas this)) (Camera.height (canvas this)) st).
Proof.
  intros H.
  rewrite (bind_Ok _ _ _ _ _ _ (exec_createGeometry this st)).
  rewrite (bind_Ok _ _ _ _ _ _ (exec_createTextures _ _)).
  erewrite bind_Ok by (apply exec_createFramebuffers; exact H).
  now rewrite !prepend_nil.
Qed.

Lemma drawable_framebufferCreated (width height : Z) (st : GLState) (obj : Renderable) :
  drawable st obj -> drawable (framebufferCreated width height st) obj.
Proof. apply (drawable_ext st); reflexivity. Qed.

Lemma drawable_textureLoaded (st : GLState) (obj : Renderable) :
  drawable st obj -> drawable (textureLoaded st) obj.
Proof. apply (drawable_ext st); reflexivity. Qed.

Section ReadyScene.

Variables (this : WebGLApp) (st : GLState) (p q : Program).
Hypothesis Hfresh : fresh st.
Hypothesis Hprogram : program this = Some p.
Hypothesis HglassProgram : glassProgram this = Some q.
Hypothesis Hobjects : Forall (drawable st) (objects this).
Hypothesis Htextures : Forall (fun t => (t < nextHandle st)%nat) (textures this).
Hypothesis Hprograms : programs st (programHandle p) = Some p.
Hypothesis Hdepth : depthWritemask st = true.
Hypothesis Htarget : framebufferBinding st = None.
Hypothesis HglassSampler : activeUniforms p uGlassTexture = false.
Hypothesis HreflectionSampler : activeUniforms p uReflectionTexture = false.

Lemma drawable_sceneCreated (width height : Z) (obj : Renderable) :
  drawable (geometryCreated st) obj -> drawable (sceneCreated width height st) obj.
Proof.
  intros H. unfold sceneCreated.
  exact (drawable_framebufferCreated _ _ _ _ (drawable_textureLoaded _ _ H)).
Qed.

Lemma ready_scene :
  ready (withScene this st) p q
    (sceneFBO (Camera.width (canvas this)) (Camera.height (canvas this)) st)
    (glassObject (nextHandle st))
    (sceneCreated (Camera.width (canvas this)) (Camera.height (canvas this)) st).
Proof.
  destruct (geometryCreated_drawable st Hfresh) as (Dc & Ds & Dg).
  apply mkReady.
  - exact Hprogram.
  - exact HglassProgram.
  - reflexivity.
  - reflexivity.
  - exact Hprograms.
  - unfold sceneCreated, sceneFBO, framebufferCreated, newFBO.
    cbn [framebuffers framebuffer with_nextHandle with_framebuffers texture fbo_width
         fbo_height].
    apply upd_same.
  - change (objects (withScene this st))
      with (objects this ++ [cubeObject (nextHandle st); sphereObject (nextHandle st)]).
    apply Forall_app. split.
    + eapply Forall_impl; [|exact Hobjects]. intros obj Hd.
      now apply drawable_sceneCreated, drawable_geometryCreated.
    + apply Forall_cons; [now apply drawable_sceneCreated|].
      apply Forall_cons; [now apply drawable_sceneCreated | apply Forall_nil].
  - now apply drawable_sceneCreated.
  - change (textures (withScene this st))
      with (textures this
            ++ [nextHandle (geometryCreated st); nextHandle (geometryCreated st)]).
    change (texture (sceneFBO (Camera.width (canvas this)) (Camera.height (canvas this))
                       st))
      with (S (nextHandle (geometryCreated st))).
    rewrite nextHandle_geometryCreated. apply Forall_app. split.
    + eapply Forall_impl; [|exact Htextures]. cbn beta. intros t Ht. lia.
    + apply Forall_cons; [lia|]. apply Forall_cons; [lia | apply Forall_nil].
  - exact HglassSampler.
  - exact HreflectionSampler.
  - exact Hdepth.
  - exact Htarget.
Qed.

End ReadyScene.

(** ** init *)

(** The state after [gl.enable(cap)]. *)
Definition enabledState (cap : Capability) (st : GLState) : GLState :=
  with_capabilities
    (fun c => match cap, c with
              | DEPTH_TEST, DEPTH_TEST | BLEND, BLEND => true
              | _, _ => capabilities st c
              end) st.

(** The context after the first statements of [init]: the viewport and the
    first framebuffer of [resize], depth test and blending. *)
Definition contextPrepared (clientWidth clientHeight : Z) (st : GLState) : GLState :=
  with_blendFactors (SRC_ALPHA, ONE_MINUS_SRC_ALPHA)
    (enabledState BLEND
       (enabledState DEPTH_TEST
          (framebufferCreated clientWidth clientHeight
             (with_viewportBox (0, 0, clientWidth, clientHeight)%Z st)))).

(** The application after [loadShaders], and the context and the
    application when the rest of [init] calls [render]. *)
Definition loaded (active activeGlass : Uniform -> bool) (this : WebGLApp) (st : GLState)
  : WebGLApp :=
  with_glassProgram (Some (glassProgramOf activeGlass st))
    (with_program (Some (sceneProgram active st)) this).

Definition resumed (active activeGlass : Uniform -> bool) (this : WebGLApp) (st : GLState)
  : GLState :=
  sceneCreated (Camera.width (canvas this)) (Camera.height (canvas this))
    (shadersLoaded active activeGlass st).

Definition resumedApp (active activeGlass : Uniform -> bool) (this : WebGLApp)
  (st : GLState) : WebGLApp :=
  withScene (loaded active activeGlass this st) (shadersLoaded active activeGlass st).

(** What [init] puts out inside the constructor, and what the rest of it
    puts out before the first frame. *)
Definition beginOutputs : list Output :=
  [Host (AddEventListener "window" "resize"); Host (ConsoleLog "Loading shaders...")].

Definition resumeOutputs : list Output :=
  [Host (ConsoleLog "Compiling shaders...");
   Host (ConsoleLog "Main program compiled successfully");
   Host (ConsoleLog "Glass program compiled successfully");
   Host (AddEventListener "transparency" "input");
   Host (AddEventListener "reset-camera" "click");
   Host (AddEventListener "document" "keydown")].

(** An environment on which the shaders load: WebGL 2 is there, the
    shaders load and link, and the scene program reads no texture but
    [uTexture].  A framebuffer may be incomplete. *)
Record loads (env : Environment) (active activeGlass : Uniform -> bool) : Prop :=
  mkLoads {
  l_webgl2 : webgl2 env = true;
  l_shaders : shadersLink env active activeGlass;
  l_glassSampler : active uGlassTexture = false;
  l_reflectionSampler : active uReflectionTexture = false }.

(** An environment that works: the shaders load and framebuffers of every
    size can be completed. *)
Record working (env : Environment) (active activeGlass : Uniform -> bool) : Prop :=
  mkWorking {
  w_loads : loads env active activeGlass;
  w_framebuffers : forall width height, framebufferComplete env width height = true }.

(** ** init in two parts *)





Lemma exec_setupUI (st : GLState) :
  App.setupUI st
  = Ok tt st [Host (AddEventListener "transparency" "input");
              Host (AddEventListener "reset-camera" "click");
              Host (AddEventListener "document" "keydown")].
Proof. reflexivity. Qed.

Section Init.

Variables (env : Environment) (active activeGlass : Uniform -> bool).
Hypothesis Hloads : loads env active activeGlass.

Lemma exec_init_begin (clientWidth clientHeight : Z) (this : WebGLApp) (st : GLState) :
  framebufferComplete env clientWidth clientHeight = true ->
  App.init_begin env clientWidth clientHeight this st
  = Ok (resized clientWidth clientHeight this st)
      (contextPrepared clientWidth clientHeight st) beginOutputs.
Proof.
  intros Hf. unfold App.init_begin.
  rewrite (bind_Ok _ _ _ _ _ _ (exec_resize env _ _ this st Hf)).
  do 4 (erewrite bind_Ok by reflexivity). now autorewrite with gl.
Qed.

Lemma exec_loadShaders_resume (this : WebGLApp) (st : GLState) :
  App.loadShaders_resume env this st
  = Ok (loaded active activeGlass this st) (shadersLoaded active activeGlass st)
      [Host (ConsoleLog "Compiling shaders...");
       Host (ConsoleLog "Main program compiled successfully");
       Host (ConsoleLog "Glass program compiled successfully")].
Proof.
  destruct Hloads as [_ [vs fs gvs gfs Hvs Hfs Hgvs Hgfs Hl Hlg] _ _].
  unfold App.loadShaders_resume. apply try_catch_Ok. gl_go. reflexivity.
Qed.

Lemma canvas_loaded (this : WebGLApp) (st : GLState) :
  canvas (loaded active activeGlass this st) = canvas this.
Proof. reflexivity. Qed.

(** The rest of [init] comes to the first frame, when the reflection
    target can be completed. *)
Lemma exec_init_resume (now_update now_fps : R) (this : WebGLApp) (st : GLState) :
  framebufferComplete env (Camera.width (canvas this)) (Camera.height (canvas this)) = true ->
  App.init_resume env now_update now_fps this st
  = prepend resumeOutputs
      (App.render now_update now_fps (resumedApp active activeGlass this st)
         (resumed active activeGlass this st)).
Proof.
  intros Hf. unfold App.init_resume.
  rewrite (bind_Ok _ _ _ _ _ _ (exec_loadShaders_resume this st)).
  rewrite exec_scene_bind by exact Hf.
  rewrite canvas_loaded.
  rewrite (bind_Ok _ _ _ _ _ _ (exec_setupUI _)).
  rewrite !prepend_prepend.
  unfold resumedApp, resumed, resumeOutputs. reflexivity.
Qed.

Lemma fresh_contextPrepared (clientWidth clientHeight : Z) (st : GLState) :
  fresh st -> fresh (contextPrepared clientWidth clientHeight st).
Proof.
  intros H. unfold contextPrepared.
  apply (fresh_ext (framebufferCreated clientWidth clientHeight
                      (with_viewportBox (0, 0, clientWidth, clientHeight)%Z st)));
    try reflexivity.
  apply fresh_framebufferCreated. now apply (fresh_ext st).
Qed.

Lemma fresh_shadersLoaded (st : GLState) :
  fresh st -> fresh (shadersLoaded active activeGlass st).
Proof. intros H. now do 2 apply fresh_programCreated. Qed.

(** The rest of [init] leaves the application ready for its first frame,
    on a context without objects that writes depth and renders to the
    canvas. *)
Lemma ready_resumed (this : WebGLApp) (st : GLState) :
  fresh st -> objects this = [] -> textures this = [] ->
  depthWritemask st = true -> framebufferBinding st = None ->
  ready (resumedApp active activeGlass this st) (sceneProgram active st)
    (glassProgramOf activeGlass st)
    (sceneFBO (Camera.width (canvas this)) (Camera.height (canvas this))
       (shadersLoaded active activeGlass st))
    (glassObject (nextHandle (shadersLoaded active activeGlass st)))
    (resumed active activeGlass this st).
Proof.
  intros Hfresh Hobjs Htexs Hdepth Htarget. destruct Hloads as [_ _ Hg Hr].
  apply (ready_scene (loaded active activeGlass this st)
           (shadersLoaded active activeGlass st)).
  - now apply fresh_shadersLoaded.
  - reflexivity.
  - reflexivity.
  - change (Forall (drawable (shadersLoaded active activeGlass st)) (objects this)).
    rewrite Hobjs. apply Forall_nil.
  - change (Forall (fun t => (t < nextHandle (shadersLoaded active activeGlass st))%nat)
              (textures this)).
    rewrite Htexs. apply Forall_nil.
  - unfold shadersLoaded, programCreated, sceneProgram.
    cbn [programs programHandle with_nextHandle with_programs nextHandle].
    rewrite upd_other by lia. apply upd_same.
  - exact Hdepth.
  - exact Htarget.
  - exact Hg.
  - exact Hr.
Qed.

End Init.


(** ** The invariants of a running application *)

(** The application can render: it is ready to render with programs [p]
    and [q], reflection target [fbo] and glass plane [glass]; the handles
    of the context from [nextHandle] on are unused, those of the textures
    are smaller, and the camera is [good]: a predicate that satisfies the
    contract of the camera. *)
Record canRender (good : FlybyCamera -> Prop) (this : WebGLApp) (st : GLState)
  (p q : Program) (fbo : ReflectionFBO) (glass : Renderable) : Prop := mkCanRender {
  cr_ready : ready this p q fbo glass st;
  cr_fresh : fresh st;
  cr_textures : Forall (fun t => (t < nextHandle st)%nat) (textures this);
  cr_camera : good (camera this) }.

(** Between two events of a life in which every reflection target could be
    completed, the application can render and the reflection target has
    the size of the canvas. *)
Record appInvariant (good : FlybyCamera -> Prop) (this : WebGLApp) (st : GLState)
  (p q : Program) (fbo : ReflectionFBO) (glass : Renderable) : Prop := mkAppInvariant {
  ai_can : canRender good this st p q fbo glass;
  ai_fbo_width : fbo_width fbo = Camera.width (canvas this);
  ai_fbo_height : fbo_height fbo = Camera.height (canvas this) }.

Lemma fresh_same (st st' : GLState) : sameObjects st st' -> fresh st -> fresh st'.
Proof.
  intros [Hn _ _ Hf Hp Hva Hb]. apply fresh_ext; try assumption. now rewrite Hn.
Qed.

(** States with the same objects have the same unused handles. *)
#[export] Instance fresh_Proper : Proper (sameObjects ==> iff) fresh.
Proof. intros st st' H. split; apply fresh_same; [exact H | symmetry; exact H]. Qed.

Section Invariant.

Context {good : FlybyCamera -> Prop}.
Variables (this this' : WebGLApp) (st st' : GLState) (p q : Program).
Variables (fbo : ReflectionFBO) (glass : Renderable).

Lemma ai_ready : appInvariant good this st p q fbo glass -> ready this p q fbo glass st.
Proof. now intros [[] _ _]. Qed.

Lemma ai_fresh : appInvariant good this st p q fbo glass -> fresh st.
Proof. now intros [[] _ _]. Qed.

Lemma ai_camera : appInvariant good this st p q fbo glass -> good (camera this).
Proof. now intros [[] _ _]. Qed.

(** A step that changes neither the scene nor the objects of the
    context. *)
Lemma canRender_ext :
  sameScene this this' -> sameObjects st st' ->
  depthWritemask st' = true -> framebufferBinding st' = None ->
  good (camera this') ->
  canRender good this st p q fbo glass -> canRender good this' st' p q fbo glass.
Proof.
  intros Hsc Hso Hd Ht Hcam [Hr Hf Htex _].
  constructor.
  - now apply (ready_ext this this' p q fbo glass st st').
  - now rewrite <- Hso.
  - destruct Hsc as [_ _ _ _ Htx _ _], Hso as [Hn _ _ _ _ _ _]. now rewrite Htx, Hn.
  - exact Hcam.
Qed.

(** A step that keeps the reflection target and the size of the canvas. *)
Lemma appInvariant_sized :
  canRender good this' st' p q fbo glass -> canvas this' = canvas this ->
  appInvariant good this st p q fbo glass -> appInvariant good this' st' p q fbo glass.
Proof. intros Hcan Hcv [_ Hw Hh]. constructor; [exact Hcan | | ]; now rewrite Hcv. Qed.

(** A step that changes neither the scene nor the objects of the context,
    nor the canvas. *)
Lemma appInvariant_ext :
  sameScene this this' -> sameObjects st st' ->
  depthWritemask st' = true -> framebufferBinding st' = None ->
  canvas this' = canvas this -> good (camera this') ->
  appInvariant good this st p q fbo glass -> appInvariant good this' st' p q fbo glass.
Proof.
  intros Hsc Hso Hd Ht Hcv Hcam Hinv.
  apply appInvariant_sized; [|exact Hcv | exact Hinv].
  now apply canRender_ext; [.. | apply Hinv].
Qed.

End Invariant.

Section WithCamera.

Context {good : FlybyCamera -> Prop}.
Variables (c : FlybyCamera) (this : WebGLApp) (st : GLState) (p q : Program).
Variables (fbo : ReflectionFBO) (glass : Renderable).
Hypothesis Hc : good c.

(** The application that differs from [this] in its camera. *)
Lemma canRender_with_camera :
  canRender good this st p q fbo glass -> canRender good (with_camera c this) st p q fbo glass.
Proof.
  intros H. pose proof H as [[] _ _ _].
  apply (canRender_ext this _ st st); auto with gl. apply sameScene_with_camera.
Qed.

Lemma appInvariant_with_camera :
  appInvariant good this st p q fbo glass ->
  appInvariant good (with_camera c this) st p q fbo glass.
Proof.
  intros H. apply (appInvariant_sized this _ st); [|reflexivity | exact H].
  apply canRender_with_camera, H.
Qed.

End WithCamera.
