(* ===== verification/FrameProps.v ===== *)
(** * FrameProps: the frames and the events of an application that renders

    What a frame puts out (no error, one draw per object and pass and one of
    the glass plane, one request for the next frame), and that every event
    of an application that can render is handled without an error of the
    context: [canRender] is kept on every environment, also by a resize
    that throws, and [appInvariant] when the new reflection target can be
    completed.  The lemmas hold for every predicate on cameras that
    satisfies [CameraContract].  The theorems are in [Application]. *)

From Stdlib Require Import Reals Lra ZArith Bool List String Lia.
From S2P Require Import Prelude Lists MatrixMath Camera CameraProps Contract Reflection.
From S2P Require Import Geometry.
From S2P Require Import GeometryProps GL GLProps WebGLApp RenderProps SceneProps AppProps.
Import ListNotations.

(** ** The outputs of a frame *)

Lemma nth_error_map_fst {A B : Type} (l : list (A * B)) (k : nat) (a : A) (b : B) :
  nth_error l k = Some (a, b) -> nth_error (map fst l) k = Some a.
Proof. intros H. now rewrite nth_error_map, H. Qed.

(** The counts of the draws of a pass are the counts of the objects. *)
Lemma passDraws_counts (objs : list Renderable)
  (draw : Renderable -> nat -> GLState -> Prop) (out : list Output) :
  passDraws objs draw out -> map fst (draws out) = map count objs.
Proof.
  intros [_ _ Hl Hd]. apply nth_error_ext. intros k.
  destruct (nth_error objs k) as [obj|] eqn:E.
  - destruct (Hd k obj E) as (s & Hs & _).
    now rewrite (nth_error_map_fst _ _ _ _ Hs), nth_error_map, E.
  - rewrite !nth_error_map, E. cbn [option_map].
    replace (nth_error (draws out) k) with (@None (nat * GLState)); [reflexivity|].
    symmetry. apply nth_error_None. rewrite Hl. now apply nth_error_None.
Qed.

Section Frame.

Variables (this : WebGLApp) (p q : Program) (fbo : ReflectionFBO) (glass : Renderable).
Variables (st : GLState) (out : list Output).
Hypothesis Hframe : frame this p q fbo glass st out.

Lemma frame_errors : errors out = [].
Proof.
  destruct Hframe as [report c1 reflection c2 main sg He _ _ _ [He1 _ _ _] _ [He2 _ _ _] _].
  rewrite errors_app, He. cbn [app errors flat_map].
  rewrite <- (app_nil_l (flat_map _ _)). fold (errors (reflection ++ Cleared true true c2
    :: main ++ [Drawn (count glass) sg; Host RequestAnimationFrame])).
  rewrite errors_app, He1. cbn [app errors flat_map].
  fold (errors (main ++ [Drawn (count glass) sg; Host RequestAnimationFrame])).
  now rewrite errors_app, He2.
Qed.

(** The draws of a frame: those of the reflection pass, those of the main
    pass, and the glass draw. *)
Lemma frame_split :
  exists reflection main sg,
    draws out = draws reflection ++ draws main ++ [(count glass, sg)] /\
    passDraws (objects this) (reflectionDraw this p fbo st) reflection /\
    passDraws (objects this) (mainDraw this p st) main /\
    glassDraw this q fbo glass st sg.
Proof.
  destruct Hframe as [report c1 reflection c2 main sg _ Hd _ _ H1 _ H2 Hg].
  exists reflection, main, sg. split; [|easy].
  rewrite draws_app, Hd. cbn [app draws flat_map].
  fold (draws (reflection ++ Cleared true true c2
                 :: main ++ [Drawn (count glass) sg; Host RequestAnimationFrame])).
  rewrite draws_app. cbn [draws flat_map app].
  fold (draws (main ++ [Drawn (count glass) sg; Host RequestAnimationFrame])).
  now rewrite draws_app.
Qed.

(** A frame makes one draw per object in the reflection pass, one per
    object in the main pass, and the glass draw. *)
Lemma frame_draws :
  map fst (draws out)
  = map count (objects this) ++ map count (objects this) ++ [count glass].
Proof.
  destruct frame_split as (reflection & main & sg & E & H1 & H2 & _).
  now rewrite E, !map_app, (passDraws_counts _ _ _ H1), (passDraws_counts _ _ _ H2).
Qed.

(** Every object is drawn twice: object [k] by draw [k] of the frame, in
    the reflection pass, and by draw [k] after those, in the main pass. *)
Lemma frame_passes (k : nat) (obj : Renderable) :
  nth_error (objects this) k = Some obj ->
  exists sr sm,
    nth_error (draws out) k = Some (count obj, sr) /\
    nth_error (draws out) (List.length (objects this) + k) = Some (count obj, sm) /\
    reflectionDraw this p fbo st obj k sr /\ mainDraw this p st obj k sm.
Proof.
  intros Hk. destruct frame_split as (reflection & main & sg & E & H1 & H2 & _).
  destruct H1 as [_ _ Hl1 Hd1], H2 as [_ _ Hl2 Hd2].
  destruct (Hd1 k obj Hk) as (sr & Hsr & Hr), (Hd2 k obj Hk) as (sm & Hsm & Hm).
  assert (Hlt : (k < List.length (objects this))%nat)
    by (apply nth_error_Some; now rewrite Hk).
  exists sr, sm. rewrite E. split; [|split; [|easy]].
  - rewrite nth_error_app1 by lia. exact Hsr.
  - rewrite nth_error_app2 by lia. rewrite Hl1, Nat.add_comm, Nat.add_sub.
    rewrite nth_error_app1 by lia. exact Hsm.
Qed.

(** The last output of a frame asks for the next one. *)
Lemma frame_requests_next : exists out', out = out' ++ [Host RequestAnimationFrame].
Proof.
  destruct Hframe as [report c1 reflection c2 main sg _ _ _ _ _ _ _ _].
  exists (report ++ Cleared true true c1 :: reflection
          ++ Cleared true true c2 :: main ++ [Drawn (count glass) sg]).
  rewrite <- app_assoc. cbn [app]. do 2 f_equal.
  rewrite <- app_assoc. cbn [app]. do 2 f_equal.
  now rewrite <- app_assoc.
Qed.

(** The last draw of a frame is the glass draw. *)
Lemma frame_glass :
  exists out' sg,
    out = out' ++ [Drawn (count glass) sg; Host RequestAnimationFrame] /\
    glassDraw this q fbo glass st sg.
Proof.
  destruct Hframe as [report c1 reflection c2 main sg _ _ _ _ _ _ _ Hg].
  exists (report ++ Cleared true true c1 :: reflection ++ Cleared true true c2 :: main), sg.
  split; [|exact Hg].
  rewrite <- app_assoc. cbn [app]. do 2 f_equal.
  rewrite <- app_assoc. reflexivity.
Qed.

(** A frame asks for one frame. *)
Lemma frame_requests : frameRequests out = 1%nat.
Proof.
  destruct Hframe as [report c1 reflection c2 main sg _ _ Hq _ [_ Hh1 _ _] _ [_ Hh2 _ _] _].
  rewrite frameRequests_app, Hq, frameRequests_Cleared, frameRequests_app,
    (frameRequests_quiet _ Hh1), frameRequests_Cleared, frameRequests_app,
    (frameRequests_quiet _ Hh2).
  reflexivity.
Qed.

End Frame.

(** ** Steps of an application that can render *)

Section Steps.

Context {good : FlybyCamera -> Prop} `{!CameraContract good}.
Variable env : Environment.
Variables (this : WebGLApp) (st : GLState) (p q : Program) (fbo : ReflectionFBO).
Variable glass : Renderable.

Section CanRender.

Hypothesis Hcan : canRender good this st p q fbo glass.

Lemma can_requestedFrame (now_update now_fps : R) :
  exists this' st' out,
    App.render now_update now_fps this st = Ok this' st' out /\
    sameScene this this' /\
    frame this' p q fbo glass st out /\
    camera this' = update now_update (camera this) /\
    canvas this' = canvas this /\ transparency this' = transparency this /\
    canRender good this' st' p q fbo glass.
Proof.
  destruct Hcan as [Hr Hf Htex Hcam].
  destruct (exec_render now_update now_fps this p q fbo glass st Hr)
    as (this' & st' & out & E & Hsc & Hc & Hcv & Htr & Hfr & Hso & Hr').
  exists this', st', out. do 6 (split; [assumption|]).
  apply (canRender_ext this this' st st'); try assumption; try apply Hr'.
  rewrite Hc. now apply good_update.
Qed.

(** [resize] replaces the reflection target by one of the new size. *)
Lemma can_windowResized (clientWidth clientHeight : Z) :
  framebufferComplete env clientWidth clientHeight = true ->
  on_resize env clientWidth clientHeight this st
  = Ok (resized clientWidth clientHeight this st)
      (framebufferCreated clientWidth clientHeight
         (with_viewportBox (0, 0, clientWidth, clientHeight)%Z st)) []
  /\ canRender good (resized clientWidth clientHeight this st)
       (framebufferCreated clientWidth clientHeight
          (with_viewportBox (0, 0, clientWidth, clientHeight)%Z st))
       p q (newFBO clientWidth clientHeight st) glass.
Proof.
  intros Hc. destruct Hcan as [Hr Hf Htex Hcam].
  split; [now apply exec_on_resize|].
  assert (Hf' : fresh (with_viewportBox (0, 0, clientWidth, clientHeight)%Z st))
    by now apply (fresh_ext st).
  constructor.
  - destruct Hr as [Hp Hq _ Hg Hps _ Hobjs Hgl _ Hgs Hrs Hd Ht].
    apply mkReady; try assumption; try reflexivity.
    + apply upd_same.
    + eapply Forall_impl; [|exact Htex]. cbn. intros t Ht'. lia.
  - now apply fresh_framebufferCreated.
  - eapply Forall_impl; [|exact Htex]. cbn. intros t Ht. lia.
  - now apply good_updateProjectionMatrix.
Qed.

(** When the new reflection target cannot be completed the listener
    throws: the canvas, the viewport and the projection have the new size,
    and the application renders on with the reflection target it had. *)
Lemma can_resize_incomplete (clientWidth clientHeight : Z) :
  framebufferComplete env clientWidth clientHeight = false ->
  on_resize env clientWidth clientHeight this st
  = Ok (resizedCanvas clientWidth clientHeight this)
      (with_viewportBox (0, 0, clientWidth, clientHeight)%Z st)
      [Host (Uncaught "Framebuffer is not complete")]
  /\ canRender good (resizedCanvas clientWidth clientHeight this)
       (with_viewportBox (0, 0, clientWidth, clientHeight)%Z st) p q fbo glass.
Proof.
  intros Hc. split; [now apply on_resize_incomplete|].
  pose proof Hcan as [[] _ _ Hcam].
  apply (canRender_ext this _ st _); try assumption; try (now constructor).
  now apply good_updateProjectionMatrix.
Qed.

Lemma can_transparencyInput (value : R) :
  canRender good (with_transparency (value / 100) this) st p q fbo glass.
Proof.
  pose proof Hcan as [[] _ _ Hcam].
  apply (canRender_ext this _ st st); auto with gl. now constructor.
Qed.

Lemma can_resetClicked (now : R) :
  canRender good (App.on_reset_click now this) st p q fbo glass.
Proof. apply canRender_with_camera; [|exact Hcan]. apply good_reset, Hcan. Qed.

Lemma can_keydown_r (key : string) (now : R) :
  canRender good (App.on_keydown_r key now this) st p q fbo glass.
Proof.
  unfold App.on_keydown_r.
  destruct (String.eqb key "r" || String.eqb key "R"); [|exact Hcan].
  exact (can_resetClicked now).
Qed.

Lemma can_camera (ev : Event) :
  canRender good (with_camera (fst (handle (canvas this) ev (camera this))) this) st p q
    fbo glass.
Proof. apply canRender_with_camera; [|exact Hcan]. apply good_handle, Hcan. Qed.

End CanRender.

(** ** Steps keep the invariant *)

Hypothesis Hinv : appInvariant good this st p q fbo glass.

Lemma step_requestedFrame (now_update now_fps : R) :
  exists this' st' out,
    App.render now_update now_fps this st = Ok this' st' out /\
    sameScene this this' /\
    frame this' p q fbo glass st out /\
    camera this' = update now_update (camera this) /\
    canvas this' = canvas this /\ transparency this' = transparency this /\
    appInvariant good this' st' p q fbo glass.
Proof.
  destruct (can_requestedFrame (ai_can _ _ _ _ _ _ _ Hinv) now_update now_fps)
    as (this' & st' & out & E & Hsc & Hfr & Hc & Hcv & Htr & Hcan).
  exists this', st', out. do 6 (split; [assumption|]).
  now apply (appInvariant_sized this _ st).
Qed.

Lemma step_windowResized (clientWidth clientHeight : Z) :
  framebufferComplete env clientWidth clientHeight = true ->
  on_resize env clientWidth clientHeight this st
  = Ok (resized clientWidth clientHeight this st)
      (framebufferCreated clientWidth clientHeight
         (with_viewportBox (0, 0, clientWidth, clientHeight)%Z st)) []
  /\ appInvariant good (resized clientWidth clientHeight this st)
       (framebufferCreated clientWidth clientHeight
          (with_viewportBox (0, 0, clientWidth, clientHeight)%Z st))
       p q (newFBO clientWidth clientHeight st) glass.
Proof.
  intros Hc.
  destruct (can_windowResized (ai_can _ _ _ _ _ _ _ Hinv) clientWidth clientHeight Hc)
    as [E Hcan].
  split; [exact E|]. now constructor.
Qed.

Lemma step_transparencyInput (value : R) :
  App.on_transparency_input value this st
  = Ok (with_transparency (value / 100) this) st
      [Host (SetTextContent "transparency-value" "" value)]
  /\ appInvariant good (with_transparency (value / 100) this) st p q fbo glass.
Proof.
  split; [reflexivity|].
  apply (appInvariant_sized this _ st); [|reflexivity | exact Hinv].
  apply can_transparencyInput, Hinv.
Qed.

Lemma step_resetClicked (now : R) :
  appInvariant good (App.on_reset_click now this) st p q fbo glass.
Proof. apply appInvariant_with_camera; [|exact Hinv]. apply good_reset, Hinv. Qed.

Lemma step_keydown_r (key : string) (now : R) :
  appInvariant good (App.on_keydown_r key now this) st p q fbo glass.
Proof.
  unfold App.on_keydown_r.
  destruct (String.eqb key "r" || String.eqb key "R"); [|exact Hinv].
  exact (step_resetClicked now).
Qed.

Lemma step_camera (ev : Event) :
  appInvariant good (with_camera (fst (handle (canvas this) ev (camera this))) this) st p q
    fbo glass.
Proof. apply appInvariant_with_camera; [|exact Hinv]. apply good_handle, Hinv. Qed.

End Steps.

(** ** The events of an application that renders *)

(** The frames among the events. *)
Definition frames (evs : list AppEvent) : nat :=
  List.length (filter (fun ev => match ev with requestedFrame _ _ => true | _ => false end)
                 evs).

Lemma frames_app (evs1 evs2 : list AppEvent) :
  frames (evs1 ++ evs2) = (frames evs1 + frames evs2)%nat.
Proof. unfold frames. now rewrite filter_app, length_app. Qed.

(** The application can render, and it runs, with some programs,
    reflection target and glass plane. *)
Definition renders (good : FlybyCamera -> Prop) (this : WebGLApp) (st : GLState) : Prop :=
  exists p q fbo glass, canRender good this st p q fbo glass.

Definition runs (good : FlybyCamera -> Prop) (this : WebGLApp) (st : GLState) : Prop :=
  exists p q fbo glass, appInvariant good this st p q fbo glass.

Lemma runs_renders (good : FlybyCamera -> Prop) (this : WebGLApp) (st : GLState) :
  runs good this st -> renders good this st.
Proof. intros (p & q & fbo & glass & H). exists p, q, fbo, glass. apply H. Qed.

(** Events are handled one after the other: when every event keeps [inv]
    and asks for a frame if it is a frame, so does a sequence of events. *)
Lemma runEvents_invariant (env : Environment) (inv : WebGLApp -> GLState -> Prop) :
  (forall ev this st, inv this st ->
     exists this' st' out,
       step env ev this st = Ok this' st' out /\ errors out = [] /\
       frameRequests out = frames [ev] /\ inv this' st') ->
  forall evs this st,
    inv this st ->
    exists this' st' out,
      runEvents env evs this st = Ok this' st' out /\ errors out = [] /\
      frameRequests out = frames evs /\ inv this' st'.
Proof.
  intros Hstep. induction evs as [|ev evs IH]; intros this st H.
  - now exists this, st, [].
  - destruct (Hstep ev this st H) as (this1 & st1 & out1 & E1 & He1 & Hq1 & H1).
    destruct (IH this1 st1 H1) as (this2 & st2 & out2 & E2 & He2 & Hq2 & H2).
    exists this2, st2, (out1 ++ out2). split.
    + cbn [runEvents]. now rewrite (bind_Ok _ _ _ _ _ _ E1), E2.
    + rewrite errors_app, He1, He2, frameRequests_app, Hq1, Hq2. repeat split; [|exact H2].
      change (ev :: evs) with ([ev] ++ evs). apply eq_sym, frames_app.
Qed.

Section Running.

Context {good : FlybyCamera -> Prop} `{!CameraContract good}.
Variable env : Environment.

(** A DOM event changes the camera and nothing of the context. *)
Lemma step_dom (ev : Event) (now : R) (this : WebGLApp) (st : GLState) :
  exists this',
    step env (dom ev now) this st = Ok this' st [] /\ canvas this' = canvas this /\
    forall p q fbo glass,
      canRender good this st p q fbo glass -> canRender good this' st p q fbo glass.
Proof.
  destruct ev; (eexists; split; [reflexivity|]);
    (split; [try reflexivity|]); try (intros p q fbo glass Hcan);
    first [ exact Hcan | apply can_keydown_r, can_camera, Hcan | apply can_camera, Hcan
          | unfold App.on_keydown_r; now destruct (_ || _) ].
Qed.

(** Whatever the environment, every event of an application that can
    render is handled without an error of the context, a frame asks for one
    frame and another event for none, and the application can render on:
    with a new reflection target after a resize that the environment
    completes, and with the one it had after a resize that throws. *)
Lemma step_renders (ev : AppEvent) (this : WebGLApp) (st : GLState) :
  renders good this st ->
  exists this' st' out,
    step env ev this st = Ok this' st' out /\ errors out = [] /\
    frameRequests out = frames [ev] /\ renders good this' st'.
Proof.
  intros (p & q & fbo & glass & Hcan).
  destruct ev as [now_update now_fps|clientWidth clientHeight|value|now|ev now].
  - destruct (can_requestedFrame _ _ _ _ _ _ Hcan now_update now_fps)
      as (this' & st' & out & E & _ & Hfr & _ & _ & _ & Hcan').
    exists this', st', out. split; [exact E|].
    split; [exact (frame_errors _ _ _ _ _ _ _ Hfr)|].
    split; [exact (frame_requests _ _ _ _ _ _ _ Hfr)|]. now exists p, q, fbo, glass.
  - destruct (framebufferComplete env clientWidth clientHeight) eqn:Hc.
    + destruct (can_windowResized env _ _ _ _ _ _ Hcan _ _ Hc) as [E Hcan'].
      eexists _, _, _. split; [exact E|]. do 2 (split; [reflexivity|]).
      now exists p, q, (newFBO clientWidth clientHeight st), glass.
    + destruct (can_resize_incomplete env _ _ _ _ _ _ Hcan _ _ Hc) as [E Hcan'].
      eexists _, _, _. split; [exact E|]. do 2 (split; [reflexivity|]).
      now exists p, q, fbo, glass.
  - eexists _, _, _. split; [reflexivity|]. do 2 (split; [reflexivity|]).
    exists p, q, fbo, glass. now apply can_transparencyInput.
  - exists (App.on_reset_click now this), st, []. do 3 (split; [reflexivity|]).
    exists p, q, fbo, glass. now apply can_resetClicked.
  - destruct (step_dom ev now this st) as (this' & E & _ & H).
    exists this', st, []. split; [exact E|]. do 2 (split; [reflexivity|]).
    exists p, q, fbo, glass. now apply H.
Qed.

Lemma runEvents_renders (evs : list AppEvent) (this : WebGLApp) (st : GLState) :
  renders good this st ->
  exists this' st' out,
    runEvents env evs this st = Ok this' st' out /\ errors out = [] /\
    frameRequests out = frames evs /\ renders good this' st'.
Proof. exact (runEvents_invariant env (renders good) step_renders evs this st). Qed.

Variables (active activeGlass : Uniform -> bool).
Hypothesis Hworking : working env active activeGlass.

(** On an environment that works the reflection target keeps the size of
    the canvas. *)
Lemma step_runs (ev : AppEvent) (this : WebGLApp) (st : GLState) :
  runs good this st ->
  exists this' st' out,
    step env ev this st = Ok this' st' out /\ errors out = [] /\
    frameRequests out = frames [ev] /\ runs good this' st'.
Proof.
  intros (p & q & fbo & glass & Hinv).
  destruct ev as [now_update now_fps|clientWidth clientHeight|value|now|ev now].
  - destruct (step_requestedFrame _ _ _ _ _ _ Hinv now_update now_fps)
      as (this' & st' & out & E & _ & Hfr & _ & _ & _ & Hinv').
    exists this', st', out. split; [exact E|].
    split; [exact (frame_errors _ _ _ _ _ _ _ Hfr)|].
    split; [exact (frame_requests _ _ _ _ _ _ _ Hfr)|]. now exists p, q, fbo, glass.
  - destruct (step_windowResized env _ _ _ _ _ _ Hinv clientWidth clientHeight
                (w_framebuffers _ _ _ Hworking _ _)) as [E Hinv'].
    eexists _, _, _. split; [exact E|]. do 2 (split; [reflexivity|]).
    now exists p, q, (newFBO clientWidth clientHeight st), glass.
  - destruct (step_transparencyInput _ _ _ _ _ _ Hinv value) as [E Hinv'].
    eexists _, _, _. split; [exact E|]. do 2 (split; [reflexivity|]).
    now exists p, q, fbo, glass.
  - exists (App.on_reset_click now this), st, []. do 3 (split; [reflexivity|]).
    exists p, q, fbo, glass. now apply step_resetClicked.
  - destruct (step_dom ev now this st) as (this' & E & Hcv & H).
    exists this', st, []. split; [exact E|]. do 2 (split; [reflexivity|]).
    exists p, q, fbo, glass. apply (appInvariant_sized this _ st); [|exact Hcv | exact Hinv].
    apply H, Hinv.
Qed.

Lemma runEvents_runs (evs : list AppEvent) (this : WebGLApp) (st : GLState) :
  runs good this st ->
  exists this' st' out,
    runEvents env evs this st = Ok this' st' out /\ errors out = [] /\
    frameRequests out = frames evs /\ runs good this' st'.
Proof. exact (runEvents_invariant env (runs good) step_runs evs this st). Qed.

End Running.
