(* ===== verification/MirrorProps.v ===== *)
(** * MirrorProps: the reflection pass draws what the main pass draws, mirrored

    The camera, the reflection transform and the two passes of a frame
    together: for a camera that keeps its contract, the state in which the
    reflection pass draws an object and the state in which the main pass
    draws it differ by the mirror ([mirrors]).  The theorem about the
    frames of the application is [Application.reflection_mirrors_scene]. *)

From Stdlib Require Import Reals Lra ZArith Bool List String Lia.
From S2P Require Import Prelude Lists MatrixMath Camera CameraProps Contract Reflection.
From S2P Require Import ReflectionProps Geometry GL GLProps WebGLApp RenderProps AppProps.
From S2P Require Import FrameProps.
Import ListNotations.

(** ** Two draws of one object *)

(** Both states give uniform [u] of program [p] the value [v]. *)
Definition bothRead (p : Program) (u : Uniform) (v : UniformValue) (sr sm : GLState)
  : Prop :=
  uniformIs p sr u v /\ uniformIs p sm u v.

(** State [sr] draws for the reflection what state [sm] draws for the
    canvas: the vertex array, the texture, the model matrix and the
    projection are the same; the view matrix of [sr] is that of [sm]
    conjugated by the mirror, and its light is the mirror image of the
    light of [sm]; [sr] clips at the glass plane and [sm] does not clip.
    The camera position that the two states give the shader is the same:
    it is not mirrored. *)
Record mirrors (p : Program) (sr sm : GLState) : Prop := mkMirrors {
  mr_vao : vertexArrayBinding sr = vertexArrayBinding sm;
  mr_unit : activeTextureUnit sr = 0%nat /\ activeTextureUnit sm = 0%nat;
  mr_texture : textureBindings sr 0 = textureBindings sm 0;
  mr_model : exists m, bothRead p uModelMatrix (Mat4Value m) sr sm;
  mr_projection : exists m, bothRead p uProjectionMatrix (Mat4Value m) sr sm;
  mr_view : exists view,
    uniformIs p sm uViewMatrix (Mat4Value view) /\
    uniformIs p sr uViewMatrix
      (Mat4Value (multiplyMatrices mirrorMatrix (multiplyMatrices view mirrorMatrix)));
  mr_light : exists light,
    uniformIs p sm uLightPosition (Vec3Value light) /\
    uniformIs p sr uLightPosition (Vec3Value (mirrorX light));
  mr_eye : exists eye, bothRead p uCameraPosition (Vec3Value eye) sr sm;
  mr_clip :
    uniformIs p sr uClippingPlane (Vec4Value (vec4 1 0 0 0)) /\
    uniformIs p sm uClippingPlane (Vec4Value (vec4 0 0 0 0)) }.

(** The light of the reflection pass is the mirror image of the light of
    the main pass. *)
Lemma reflectedLightPos_mirrored : reflectedLightPos = mirrorX (vec3 5 10 5).
Proof. unfold reflectedLightPos, mirrorX. apply vec3_ext; index_simpl; lra. Qed.

(** Where the view matrix of [sr] puts a point of the world: where that
    of [sm] puts its mirror image, with the x axis of the eye flipped. *)
Lemma mirrors_point (p : Program) (sr sm : GLState) :
  mirrors p sr sm -> activeUniforms p uViewMatrix = true ->
  exists viewR viewM,
    uniforms sr (programHandle p) uViewMatrix = Some (Mat4Value viewR) /\
    uniforms sm (programHandle p) uViewMatrix = Some (Mat4Value viewM) /\
    forall x, apply viewR (point x) = apply mirrorMatrix (apply viewM (point (mirrorX x))).
Proof.
  intros [_ _ _ _ _ (view & Hm & Hr) _ _ _] Ha.
  exists (multiplyMatrices mirrorMatrix (multiplyMatrices view mirrorMatrix)), view.
  split; [exact (Hr Ha)|]. split; [exact (Hm Ha)|]. intros x.
  now rewrite !multiplyMatrices_apply, mirrorMatrix_apply.
Qed.

(** ** The two passes of a frame *)

Section Mirror.

Context {good : FlybyCamera -> Prop} `{!CameraContract good}.
Variables (this : WebGLApp) (p : Program) (fbo : ReflectionFBO) (st : GLState).
Hypothesis Hcamera : good (camera this).

(** The draw of an object in the reflection pass mirrors its draw in the
    main pass. *)
Lemma mirrors_draws (obj : Renderable) (k : nat) (sr sm : GLState) :
  reflectionDraw this p fbo st obj k sr -> mainDraw this p st obj k sm ->
  mirrors p sr sm.
Proof.
  intros [[_ _ _ _ Hvr Hpr _ Hlr _ Her Hcr _] Hvaor Hmr Hur Hbr]
         [[_ _ _ _ Hvm Hpm _ Hlm _ Hem Hcm _] Hvaom Hmm Hum Hbm].
  constructor.
  - now rewrite Hvaor, Hvaom.
  - easy.
  - now rewrite Hbr, Hbm.
  - now exists (modelMatrix obj).
  - now exists (projectionMatrix (camera this)).
  - exists (viewMatrix (camera this)). split; [exact Hvm|].
    rewrite <- (good_mirrored_view _ Hcamera). exact Hvr.
  - exists (vec3 5 10 5). split; [exact Hlm|].
    rewrite <- reflectedLightPos_mirrored. exact Hlr.
  - now exists (getPosition (camera this)).
  - easy.
Qed.

End Mirror.
