(* ===== verification/StartProps.v ===== *)
(** * StartProps: startup, in the constructor and after the shaders arrived

    The constructor runs [init] to its first [await] and returns an
    application that is [loading]; the listeners registered by then keep
    the invariant of a loading application ([loadingInvariant]); when the
    shader files have arrived, [settle] runs the rest of [init], which
    renders the first frame and leaves an application that satisfies
    [appInvariant].  When the environment does not work, startup ends in an
    alert, in the constructor or in [settle], and nothing is drawn.  On an
    environment on which the shaders load, every state of [running]
    satisfies the invariant of its phase: [survives], and [lives] when
    every framebuffer can be completed.  The theorems are in
    [Application]. *)

From Stdlib Require Import Reals Lra ZArith Bool List String Lia.
From S2P Require Import Prelude Lists MatrixMath Camera CameraProps Contract Reflection.
From S2P Require Import Geometry.
From S2P Require Import GeometryProps GL GLProps WebGLApp RenderProps SceneProps AppProps.
From S2P Require Import FrameProps.
Import ListNotations.

(** ** The constructor *)

(** The fields that the constructor sets before it calls [init]. *)
Definition newApp (element : Canvas) (now_camera now : R) : WebGLApp :=
  {| canvas := element;
     camera := Camera.constructor element now_camera;
     transparency := 0.5;
     program := None;
     glassProgram := None;
     objects := [];
     glassPlane := None;
     textures := [];
     glassTexture := None;
     reflectionFBO := None;
     frameCount := 0%Z;
     lastTime := now;
     fps := 0%Z |}.

Lemma exec_constructor (env : Environment) (element : Canvas) (now_camera now : R)
  (st : GLState) :
  webgl2 env = true ->
  App.constructor env element now_camera now st = Ok (newApp element now_camera now) st [].
Proof. intros H. unfold App.constructor. now rewrite H. Qed.

Lemma exec_constructor_unsupported (env : Environment) (element : Canvas)
  (now_camera now : R) (st : GLState) :
  webgl2 env = false ->
  App.constructor env element now_camera now st
  = Threw (Error "WebGL2 not supported") st [].
Proof. intros H. unfold App.constructor. now rewrite H. Qed.

Lemma fresh_textureLoaded (st : GLState) : fresh st -> fresh (textureLoaded st).
Proof. apply fresh_ext; try reflexivity. cbn. lia. Qed.

Lemma fresh_sceneCreated (width height : Z) (st : GLState) :
  fresh st -> fresh (sceneCreated width height st).
Proof.
  intros H. apply fresh_framebufferCreated, fresh_textureLoaded.
  now apply fresh_geometryCreated.
Qed.

Lemma nextHandle_sceneCreated (width height : Z) (st : GLState) :
  nextHandle (sceneCreated width height st) = (3 + nextHandle (geometryCreated st))%nat.
Proof. reflexivity. Qed.

Lemma objects_withScene (this : WebGLApp) (st : GLState) :
  objects (withScene this st)
  = objects this ++ [cubeObject (nextHandle st); sphereObject (nextHandle st)].
Proof. reflexivity. Qed.

Lemma textures_withScene (this : WebGLApp) (st : GLState) :
  textures (withScene this st)
  = textures this ++ [nextHandle (geometryCreated st); nextHandle (geometryCreated st)].
Proof. reflexivity. Qed.

(** ** Loading *)

(** While the shaders load the context has no unused handle in use, the
    application has no objects and no textures yet, depth writes are on,
    the canvas is the render target, and the camera is [good]. *)
Record loadingInvariant (good : FlybyCamera -> Prop) (this : WebGLApp) (st : GLState)
  : Prop := mkLoading {
  li_fresh : fresh st;
  li_objects : objects this = [];
  li_textures : textures this = [];
  li_depth : depthWritemask st = true;
  li_target : framebufferBinding st = None;
  li_camera : good (camera this) }.

Section LoadingInvariant.

Context {good : FlybyCamera -> Prop} `{!CameraContract good}.

Lemma loading_with_camera (c : FlybyCamera) (this : WebGLApp) (st : GLState) :
  good c -> loadingInvariant good this st -> loadingInvariant good (with_camera c this) st.
Proof. intros Hc []. now constructor. Qed.

Lemma loading_resized (clientWidth clientHeight : Z) (this : WebGLApp) (st : GLState) :
  loadingInvariant good this st ->
  loadingInvariant good (resized clientWidth clientHeight this st)
    (framebufferCreated clientWidth clientHeight
       (with_viewportBox (0, 0, clientWidth, clientHeight)%Z st)).
Proof.
  intros [Hf Ho Ht Hd Hb Hc]. constructor; try assumption.
  - apply fresh_framebufferCreated. now apply (fresh_ext st).
  - now apply good_updateProjectionMatrix.
Qed.

Lemma loading_prepared (clientWidth clientHeight : Z) (this : WebGLApp) (st : GLState) :
  loadingInvariant good this st ->
  loadingInvariant good (resized clientWidth clientHeight this st)
    (contextPrepared clientWidth clientHeight st).
Proof.
  intros [Hf Ho Ht Hd Hb Hc]. constructor; try assumption.
  - now apply fresh_contextPrepared.
  - now apply good_updateProjectionMatrix.
Qed.

Lemma loading_resize_incomplete (clientWidth clientHeight : Z) (this : WebGLApp)
  (st : GLState) :
  loadingInvariant good this st ->
  loadingInvariant good (resizedCanvas clientWidth clientHeight this)
    (with_viewportBox (0, 0, clientWidth, clientHeight)%Z st).
Proof.
  intros [Hf Ho Ht Hd Hb Hc]. constructor; try assumption.
  - now apply (fresh_ext st).
  - now apply good_updateProjectionMatrix.
Qed.

Lemma loading_newApp (element : Canvas) (now_camera now : R) (st : GLState) :
  fresh st -> depthWritemask st = true -> framebufferBinding st = None ->
  loadingInvariant good (newApp element now_camera now) st.
Proof.
  intros Hf Hd Hb. apply mkLoading; try assumption; try reflexivity.
  unfold newApp. cbn [camera]. apply good_constructor.
Qed.

End LoadingInvariant.

(** What the [resize] listener reports: nothing, or the exception that
    [resize] threw. *)
Definition resizeReport (env : Environment) (ev : AppEvent) : list Output :=
  match ev with
  | windowResized clientWidth clientHeight =>
      if framebufferComplete env clientWidth clientHeight then []
      else [Host (Uncaught "Framebuffer is not complete")]
  | _ => []
  end.

Lemma resizeReport_working (env : Environment) (active activeGlass : Uniform -> bool)
  (ev : AppEvent) :
  working env active activeGlass -> resizeReport env ev = [].
Proof. intros [_ Hf]. destruct ev; try reflexivity. cbn. now rewrite Hf. Qed.

Section Loading.

Context {good : FlybyCamera -> Prop} `{!CameraContract good}.
Variables (env : Environment) (active activeGlass : Uniform -> bool).
Hypothesis Hloads : loads env active activeGlass.
Variables (this : WebGLApp) (st : GLState).
Hypothesis Hloading : loadingInvariant good this st.

(** The listeners of a loading application draw nothing and keep it
    loading. *)
Lemma stepLoading_loading (ev : AppEvent) :
  exists this' st',
    stepLoading env ev this st = Ok this' st' (resizeReport env ev) /\
    loadingInvariant good this' st'.
Proof.
  destruct ev as [now_update now_fps|clientWidth clientHeight|value|now|ev now].
  - now exists this, st.
  - cbn [resizeReport stepLoading].
    destruct (framebufferComplete env clientWidth clientHeight) eqn:Hc; eexists _, _.
    + split; [now apply exec_on_resize | now apply loading_resized].
    + split; [now apply on_resize_incomplete | now apply loading_resize_incomplete].
  - now exists this, st.
  - now exists this, st.
  - destruct ev; (eexists _, st; split; [reflexivity|]);
      first [ exact Hloading
            | apply loading_with_camera; [apply good_handle, Hloading | exact Hloading] ].
Qed.

(** The programs, the reflection target and the glass plane of the
    application that the rest of [init] leaves. *)
Lemma appInvariant_resumed :
  appInvariant good (resumedApp active activeGlass this st) (resumed active activeGlass this st)
    (sceneProgram active st) (glassProgramOf activeGlass st)
    (sceneFBO (Camera.width (canvas this)) (Camera.height (canvas this))
       (shadersLoaded active activeGlass st))
    (glassObject (nextHandle (shadersLoaded active activeGlass st))).
Proof.
  destruct Hloading as [Hf Ho Ht Hd Hb Hc].
  apply mkAppInvariant; [apply mkCanRender | reflexivity | reflexivity].
  - now apply (ready_resumed env _ _ Hloads).
  - now apply fresh_sceneCreated, fresh_shadersLoaded.
  - unfold resumedApp, resumed. rewrite textures_withScene, nextHandle_sceneCreated.
    change (textures (loaded active activeGlass this st)) with (textures this).
    rewrite Ht. apply Forall_cons; [lia|]. apply Forall_cons; [lia | apply Forall_nil].
  - exact Hc.
Qed.

(** When the shaders have arrived and the reflection target can be
    completed, the rest of [init] registers the listeners of the controls
    and renders the first frame. *)
Lemma exec_settle (now_update now_fps : R) :
  framebufferComplete env (Camera.width (canvas this)) (Camera.height (canvas this)) = true ->
  exists this' st' out,
    settle env now_update now_fps this st
    = Ok (rendering, this') st' (resumeOutputs ++ out) /\
    frame this' (sceneProgram active st) (glassProgramOf activeGlass st)
      (sceneFBO (Camera.width (canvas this)) (Camera.height (canvas this))
         (shadersLoaded active activeGlass st))
      (glassObject (nextHandle (shadersLoaded active activeGlass st)))
      (resumed active activeGlass this st) out /\
    canvas this' = canvas this /\
    objects this'
    = [cubeObject (nextHandle (shadersLoaded active activeGlass st));
       sphereObject (nextHandle (shadersLoaded active activeGlass st))] /\
    appInvariant good this' st' (sceneProgram active st) (glassProgramOf activeGlass st)
      (sceneFBO (Camera.width (canvas this)) (Camera.height (canvas this))
         (shadersLoaded active activeGlass st))
      (glassObject (nextHandle (shadersLoaded active activeGlass st))).
Proof.
  intros Hc.
  destruct (step_requestedFrame _ _ _ _ _ _ appInvariant_resumed now_update now_fps)
    as (this' & st' & out & E & [_ _ Hobjs _ _ _ _] & Hfr & _ & Hcv & _ & Hinv').
  exists this', st', out. split; [|split; [exact Hfr | split; [exact Hcv|split]]].
  - unfold settle. apply try_catch_Ok.
    erewrite bind_Ok by (rewrite (exec_init_resume env active activeGlass Hloads _ _ _ _ Hc), E;
                         apply prepend_Ok).
    unfold ret. now rewrite prepend_Ok, app_nil_r.
  - rewrite Hobjs. unfold resumedApp. rewrite objects_withScene.
    change (objects (loaded active activeGlass this st)) with (objects this).
    now rewrite (li_objects _ _ _ Hloading).
  - exact Hinv'.
Qed.

End Loading.

(** ** The constructor and the listener of DOMContentLoaded *)

(** What the listener of [DOMContentLoaded] puts out when the constructor
    returns an application that loads its shaders. *)
Definition mainOutputs : list Output :=
  beginOutputs ++ [Host (ConsoleLog "WebGL application initialized successfully")].

Lemma exec_main (env : Environment) (active activeGlass : Uniform -> bool)
  (element : Canvas) (clientWidth clientHeight : Z) (now_camera now : R) (st : GLState) :
  loads env active activeGlass ->
  framebufferComplete env clientWidth clientHeight = true ->
  App.main env element clientWidth clientHeight now_camera now st
  = Ok (Some (resized clientWidth clientHeight (newApp element now_camera now) st))
      (contextPrepared clientWidth clientHeight st) mainOutputs.
Proof.
  intros Hw Hc. unfold App.main.
  erewrite bind_Ok.
  2: { apply try_catch_Ok. erewrite bind_Ok.
       2: { unfold App.start.
            rewrite (bind_Ok _ _ _ _ _ _ (exec_constructor env element now_camera now st
                                            (l_webgl2 _ _ _ Hw))), prepend_nil.
            apply try_catch_Ok.
            erewrite bind_Ok by apply (exec_init_begin env _ _ _ _ Hc).
            reflexivity. }
       reflexivity. }
  reflexivity.
Qed.

(** ** Startup that fails *)

(** Outputs among which there is no draw, no clear and no request for a
    frame. *)
Definition noFrame (out : list Output) : Prop :=
  Forall (fun o => match o with
                   | Drawn _ _ | Cleared _ _ _ | Host RequestAnimationFrame => False
                   | _ => True
                   end) out.

Lemma noFrame_app (o1 o2 : list Output) : noFrame o1 -> noFrame o2 -> noFrame (o1 ++ o2).
Proof. intros H1 H2. apply Forall_app. now split. Qed.

Ltac noFrame_tac := repeat first [apply noFrame_app | apply Forall_cons | apply Forall_nil];
                    try exact I; try assumption.


Lemma noFrame_beginOutputs : noFrame beginOutputs.
Proof. unfold beginOutputs. noFrame_tac. Qed.

Section Failure.

Variables (env : Environment) (element : Canvas) (clientWidth clientHeight : Z).
Variables (now_camera now : R).

(** Without WebGL 2 the constructor throws, and the listener of
    [DOMContentLoaded] reports it. *)
Lemma main_unsupported (st : GLState) :
  webgl2 env = false ->
  App.main env element clientWidth clientHeight now_camera now st
  = Ok None st [Host (ConsoleError "Failed to initialize application:");
                Host (ConsoleError "Error stack:");
                Host (Alert "Failed to initialize WebGL application.")].
Proof.
  intros H. unfold App.main.
  erewrite bind_Ok.
  2: { erewrite try_catch_Threw.
       2: { apply bind_Threw. unfold App.start. apply bind_Threw.
            now apply exec_constructor_unsupported. }
       reflexivity. }
  reflexivity.
Qed.

Lemma init_begin_incomplete (this : WebGLApp) (st : GLState) :
  framebufferComplete env clientWidth clientHeight = false ->
  App.init_begin env clientWidth clientHeight this st
  = Threw (Error "Framebuffer is not complete")
      (with_viewportBox (0, 0, clientWidth, clientHeight)%Z st) [].
Proof.
  intros H. unfold App.init_begin. now apply bind_Threw, resize_incomplete.
Qed.

(** When the first reflection target cannot be completed, the promise of
    [init] is rejected inside the constructor: the listener logs success,
    and then the rejection is reported. *)
Lemma main_incomplete (st : GLState) :
  webgl2 env = true -> framebufferComplete env clientWidth clientHeight = false ->
  App.main env element clientWidth clientHeight now_camera now st
  = Ok None (with_viewportBox (0, 0, clientWidth, clientHeight)%Z st)
      [Host (ConsoleLog "WebGL application initialized successfully");
       Host (ConsoleError "Initialization error:"); Host (Alert "Failed to initialize: ")].
Proof.
  intros Hw Hc. unfold App.main.
  erewrite bind_Ok.
  2: { apply try_catch_Ok. erewrite bind_Ok.
       2: { unfold App.start.
            rewrite (bind_Ok _ _ _ _ _ _ (exec_constructor env element now_camera now st
                                            Hw)), prepend_nil.
            erewrite try_catch_Threw by (apply bind_Threw, init_begin_incomplete, Hc).
            reflexivity. }
       reflexivity. }
  reflexivity.
Qed.

End Failure.

Ltac failed := eexists _, _, _; split; [reflexivity | noFrame_tac].

Section ShadersFail.

Variable env : Environment.
Hypothesis Hfail : forall active activeGlass, ~ shadersLink env active activeGlass.

(** When a shader does not load, or a program does not compile or link,
    [loadShaders] logs the error and throws it again. *)
Lemma loadShaders_resume_fails (this : WebGLApp) (st : GLState) :
  exists e st' out, App.loadShaders_resume env this st = Threw e st' out /\ noFrame out.
Proof.
  unfold App.loadShaders_resume, try_catch, bind, loadShaderFromFile, createProgram, host,
    ret, throw.
  destruct (fetchText env "shaders/vertex.glsl") as [vs|] eqn:E1; [|failed].
  destruct (fetchText env "shaders/fragment.glsl") as [fs|] eqn:E2; [|failed].
  destruct (fetchText env "shaders/glass.v.glsl") as [gvs|] eqn:E3; [|failed].
  destruct (fetchText env "shaders/glass.glsl") as [gfs|] eqn:E4; [|failed].
  destruct (linkProgram env vs fs) as [active|] eqn:E5; [|failed].
  destruct (linkProgram env gvs gfs) as [activeGlass|] eqn:E6; [|failed].
  destruct (Hfail active activeGlass). now apply (mkShadersLink _ _ _ vs fs gvs gfs).
Qed.

End ShadersFail.

(** When the rest of [init] throws, the callback of the constructor shows
    an alert and the application has failed. *)
Lemma settle_threw (env : Environment) (now_update now_fps : R) (this : WebGLApp)
  (e : Exception) (st st' : GLState) (out : list Output) :
  App.init_resume env now_update now_fps this st = Threw e st' out ->
  settle env now_update now_fps this st
  = Ok (failed, this) st'
      (out ++ [Host (ConsoleError "Initialization error:");
               Host (Alert "Failed to initialize: ")]).
Proof.
  intros E. unfold settle.
  erewrite try_catch_Threw by (apply bind_Threw; exact E). reflexivity.
Qed.

Lemma init_resume_shaders_fail (env : Environment) (now_update now_fps : R)
  (this : WebGLApp) (st : GLState) :
  (forall active activeGlass, ~ shadersLink env active activeGlass) ->
  exists e st' out,
    App.init_resume env now_update now_fps this st = Threw e st' out /\ noFrame out.
Proof.
  intros H. destruct (loadShaders_resume_fails env H this st) as (e & st' & out & E & Hn).
  exists e, st', out. split; [|exact Hn]. unfold App.init_resume. now apply bind_Threw.
Qed.

(** The same when the shaders are there and the reflection target of the
    size the canvas then has cannot be completed. *)
Lemma init_resume_incomplete (env : Environment) (active activeGlass : Uniform -> bool)
  (now_update now_fps : R) (this : WebGLApp) (st : GLState) :
  shadersLink env active activeGlass ->
  framebufferComplete env (Camera.width (canvas this)) (Camera.height (canvas this))
  = false ->
  exists e st' out,
    App.init_resume env now_update now_fps this st = Threw e st' out /\ noFrame out.
Proof.
  intros [vs fs gvs gfs Hvs Hfs Hgvs Hgfs Hl Hlg] Hc. unfold App.init_resume.
  erewrite bind_Ok.
  2: { unfold App.loadShaders_resume. apply try_catch_Ok. gl_go. reflexivity. }
  rewrite (bind_Ok _ _ _ _ _ _ (exec_createGeometry _ _)).
  rewrite (bind_Ok _ _ _ _ _ _ (exec_createTextures _ _)).
  erewrite bind_Threw.
  2: { unfold App.createFramebuffers. cbv zeta. apply bind_Threw.
       apply exec_createFramebuffer_incomplete. exact Hc. }
  eexists _, _, _. split; [reflexivity|]. noFrame_tac.
Qed.

(** ** The states of the application *)

(** What holds of the application in each phase on an environment on which
    the shaders load: while it loads, the invariant of a loading
    application; when it renders, it can render.  It fails only when a
    reflection target cannot be completed. *)
Definition survives (good : FlybyCamera -> Prop) (env : Environment) (phase : Phase)
  (this : WebGLApp) (st : GLState) : Prop :=
  match phase with
  | loading => loadingInvariant good this st
  | rendering => renders good this st
  | failed => exists width height, framebufferComplete env width height = false
  end.

(** What holds of the application in each phase on an environment that
    works: it never fails, and the reflection target has the size of the
    canvas. *)
Definition lives (good : FlybyCamera -> Prop) (phase : Phase) (this : WebGLApp)
  (st : GLState) : Prop :=
  match phase with
  | loading => loadingInvariant good this st
  | rendering => runs good this st
  | failed => False
  end.

Section Surviving.

Context {good : FlybyCamera -> Prop} `{!CameraContract good}.
Variables (env : Environment) (active activeGlass : Uniform -> bool).
Hypothesis Hloads : loads env active activeGlass.

Lemma survives_running (phase : Phase) (this : WebGLApp) (st : GLState) :
  running env phase this st -> survives good env phase this st.
Proof.
  induction 1 as [element cw ch w h nc n this st out E
                 |ev this this' st st' out _ IH E
                 |nu nf phase this this' st st' out _ IH E
                 |ev this this' st st' out _ IH E
                 |ev this this' st st' out _ IH E]; cbn [survives] in *.
  - destruct (framebufferComplete env cw ch) eqn:Hc.
    + rewrite (exec_main env active activeGlass element cw ch nc n _ Hloads Hc) in E.
      injection E as <- <- _. apply loading_prepared, loading_newApp; try reflexivity.
      apply fresh_initialState.
    + rewrite (main_incomplete env element cw ch nc n _ (l_webgl2 _ _ _ Hloads) Hc) in E.
      discriminate E.
  - destruct (stepLoading_loading env this st IH ev) as (this0 & st0 & E0 & H).
    rewrite E in E0. now injection E0 as -> -> _.
  - destruct (framebufferComplete env (Camera.width (canvas this))
                (Camera.height (canvas this))) eqn:Hc.
    + destruct (exec_settle env active activeGlass Hloads this st IH nu nf Hc)
        as (this0 & st0 & out0 & E0 & _ & _ & _ & H).
      rewrite E in E0. injection E0 as -> -> -> _. cbn [survives].
      eexists _, _, _, _. exact (ai_can _ _ _ _ _ _ _ H).
    + destruct (init_resume_incomplete env active activeGlass nu nf this st
                  (l_shaders _ _ _ Hloads) Hc) as (e & st1 & out1 & E1 & _).
      rewrite (settle_threw env nu nf this e st st1 out1 E1) in E.
      injection E as <- _ _ _. eexists _, _. exact Hc.
  - destruct (step_renders env ev this st IH) as (this0 & st0 & out0 & E0 & _ & _ & H).
    rewrite E in E0. now injection E0 as -> -> _.
  - exact IH.
Qed.

(** An application that renders handles every event and renders on. *)
Lemma step_running (ev : AppEvent) (this : WebGLApp) (st : GLState) :
  running env rendering this st ->
  exists this' st' out,
    step env ev this st = Ok this' st' out /\ errors out = [] /\
    frameRequests out = frames [ev] /\ running env rendering this' st'.
Proof.
  intros H.
  destruct (step_renders env ev this st (survives_running _ _ _ H))
    as (this' & st' & out & E & He & Hq & _).
  exists this', st', out. do 3 (split; [assumption|]).
  exact (running_step env ev this this' st st' out H E).
Qed.

(** The events of an application that renders, one after the other. *)
Lemma runEvents_running (evs : list AppEvent) (this : WebGLApp) (st : GLState) :
  running env rendering this st ->
  exists this' st' out,
    runEvents env evs this st = Ok this' st' out /\ errors out = [] /\
    frameRequests out = frames evs /\ running env rendering this' st'.
Proof. exact (runEvents_invariant env (running env rendering) step_running evs this st). Qed.

End Surviving.

Section Running.

Context {good : FlybyCamera -> Prop} `{!CameraContract good}.
Variables (env : Environment) (active activeGlass : Uniform -> bool).
Hypothesis Hworking : working env active activeGlass.

Lemma lives_running (phase : Phase) (this : WebGLApp) (st : GLState) :
  running env phase this st -> lives good phase this st.
Proof.
  pose proof Hworking as [Hloads Hf].
  induction 1 as [element cw ch w h nc n this st out E
                 |ev this this' st st' out _ IH E
                 |nu nf phase this this' st st' out _ IH E
                 |ev this this' st st' out _ IH E
                 |ev this this' st st' out _ IH E]; cbn [lives] in *.
  - rewrite (exec_main env active activeGlass element cw ch nc n _ Hloads (Hf _ _)) in E.
    injection E as <- <- _. apply loading_prepared, loading_newApp; try reflexivity.
    apply fresh_initialState.
  - destruct (stepLoading_loading env this st IH ev) as (this0 & st0 & E0 & H).
    rewrite E in E0. now injection E0 as -> -> _.
  - destruct (exec_settle env active activeGlass Hloads this st IH nu nf (Hf _ _))
      as (this0 & st0 & out0 & E0 & _ & _ & _ & H).
    rewrite E in E0. injection E0 as -> -> -> _. cbn [lives]. eexists _, _, _, _. exact H.
  - destruct (step_runs env active activeGlass Hworking ev this st IH)
      as (this0 & st0 & out0 & E0 & _ & _ & H).
    rewrite E in E0. now injection E0 as -> -> _.
  - destruct IH.
Qed.

End Running.
