(* ===== verification/Application.v ===== *)
(** * Application: the theorems about the application

    The life of the application on an environment on which the shaders
    load: the listener of [DOMContentLoaded] returns an application that
    loads its shaders ([main_spec]); whatever events arrive meanwhile, the
    rest of [init] renders the first frame ([loading_completes],
    [settle_spec]); from then on every event is handled without an error of
    the context ([events_handled]), every frame asks for exactly one frame
    ([frame_loop]) and draws the scene and its mirror image
    ([reflection_mirrors_scene]), also after a resize that throws
    ([resize_failure]); when every framebuffer can be completed every
    state satisfies the invariant of its phase ([running_invariant]).
    What a frame and each of its passes clear and draw ([render_spec],
    [renderReflectionPass_spec], [renderMainScene_spec]), [resize],
    [updateFPS] and the transparency slider.  On an environment that does
    not work, startup ends with an alert and nothing is drawn
    ([main_failure], [settle_failure]).  The theorems are stated for the
    cameras that are [reachable]. *)

From Stdlib Require Import Reals Lra ZArith Bool List String Lia.
From S2P Require Import Prelude Lists MatrixMath Camera CameraProps Contract Reflection.
From S2P Require Import ReflectionProps Geometry.
From S2P Require Import GeometryProps GL GLProps WebGLApp RenderProps SceneProps AppProps.
From S2P Require Import FrameProps MirrorProps StartProps.
Import ListNotations.

(** ** An environment that works *)

(** The uniforms of the scene program and of the glass program. *)
Definition exampleActive (u : Uniform) : bool :=
  match u with
  | uGlassTexture | uReflectionTexture | uTransparency
  | uReflectionViewProjectionMatrix => false
  | _ => true
  end.

Definition exampleActiveGlass (u : Uniform) : bool :=
  match u with
  | uTexture | uLightPosition | uLightColor => false
  | _ => true
  end.

(** A browser with WebGL 2 in which every file loads, every pair of
    shaders links and every framebuffer is complete. *)
Definition exampleEnv : Environment :=
  {| webgl2 := true;
     fetchText := fun path => Some path;
     linkProgram := fun _ fragment =>
       Some (if String.eqb fragment "shaders/glass.glsl"
             then exampleActiveGlass else exampleActive);
     framebufferComplete := fun _ _ => true |}.

(** A browser that cannot complete a framebuffer without pixels, as when
    the container of the canvas has collapsed, or of more than 4096 pixels
    in a direction. *)
Definition fragileEnv : Environment :=
  {| webgl2 := true;
     fetchText := fun path => Some path;
     linkProgram := fun _ fragment =>
       Some (if String.eqb fragment "shaders/glass.glsl"
             then exampleActiveGlass else exampleActive);
     framebufferComplete := fun width height =>
       ((0 <? width) && (0 <? height) && (width <=? 4096) && (height <=? 4096))%Z |}.

(** A browser without WebGL 2. *)
Definition unsupportedEnv : Environment :=
  {| webgl2 := false;
     fetchText := fun _ => None;
     linkProgram := fun _ _ => None;
     framebufferComplete := fun _ _ => false |}.

(** A browser in which the shader files do not load. *)
Definition offlineEnv : Environment :=
  {| webgl2 := true;
     fetchText := fun _ => None;
     linkProgram := fun _ _ => None;
     framebufferComplete := fun _ _ => true |}.

(** The application and the context when the constructor has returned, on
    a canvas in a container of 800 by 600 pixels, and when the rest of
    [init] calls [render] for the first time. *)
Definition exampleLoading : WebGLApp :=
  resized 800 600 (newApp exampleCanvas 0 0) (initialState 800 600).

Definition exampleLoadingState : GLState := contextPrepared 800 600 (initialState 800 600).

Definition exampleThis : WebGLApp :=
  resumedApp exampleActive exampleActiveGlass exampleLoading exampleLoadingState.

Definition exampleState : GLState :=
  resumed exampleActive exampleActiveGlass exampleLoading exampleLoadingState.

(** Its programs, its reflection target and its glass plane. *)
Definition exampleProgram : Program := sceneProgram exampleActive exampleLoadingState.

Definition exampleGlassProgram : Program :=
  glassProgramOf exampleActiveGlass exampleLoadingState.

Definition exampleFBO : ReflectionFBO :=
  sceneFBO (Camera.width (canvas exampleLoading)) (Camera.height (canvas exampleLoading))
    (shadersLoaded exampleActive exampleActiveGlass exampleLoadingState).

Definition exampleGlass : Renderable :=
  glassObject (nextHandle (shadersLoaded exampleActive exampleActiveGlass
                             exampleLoadingState)).

Lemma exampleEnv_working : working exampleEnv exampleActive exampleActiveGlass.
Proof.
  apply mkWorking; [apply mkLoads|]; try reflexivity.
  now apply (mkShadersLink _ _ _ "shaders/vertex.glsl" "shaders/fragment.glsl"
               "shaders/glass.v.glsl" "shaders/glass.glsl").
Qed.

Lemma exampleEnv_loads : loads exampleEnv exampleActive exampleActiveGlass.
Proof. apply exampleEnv_working. Qed.

Lemma fragileEnv_loads : loads fragileEnv exampleActive exampleActiveGlass.
Proof.
  apply mkLoads; try reflexivity.
  now apply (mkShadersLink _ _ _ "shaders/vertex.glsl" "shaders/fragment.glsl"
               "shaders/glass.v.glsl" "shaders/glass.glsl").
Qed.

Lemma offlineEnv_fails (active activeGlass : Uniform -> bool) :
  ~ shadersLink offlineEnv active activeGlass.
Proof. intros [vs fs gvs gfs H _ _ _ _ _]. discriminate H. Qed.

Lemma example_loading : loadingInvariant reachable exampleLoading exampleLoadingState.
Proof.
  apply loading_prepared, loading_newApp; try reflexivity. apply fresh_initialState.
Qed.

Lemma example_invariant :
  appInvariant reachable exampleThis exampleState exampleProgram exampleGlassProgram exampleFBO
    exampleGlass.
Proof. exact (appInvariant_resumed exampleEnv _ _ exampleEnv_loads _ _ example_loading). Qed.

Lemma example_loading_running :
  running exampleEnv loading exampleLoading exampleLoadingState.
Proof.
  apply (running_main exampleEnv exampleCanvas 800 600 800 600 0 0 _ _ mainOutputs).
  now apply (exec_main exampleEnv _ _ exampleCanvas 800 600 0 0 _ exampleEnv_loads).
Qed.

Lemma example_running : exists this st, running exampleEnv rendering this st.
Proof.
  destruct (exec_settle exampleEnv _ _ exampleEnv_loads _ _ example_loading 16 16 eq_refl)
    as (this & st & out & E & _).
  exists this, st. exact (running_settle _ _ _ _ _ _ _ _ _ example_loading_running E).
Qed.

Lemma fragile_loading_running :
  running fragileEnv loading exampleLoading exampleLoadingState.
Proof.
  apply (running_main fragileEnv exampleCanvas 800 600 800 600 0 0 _ _ mainOutputs).
  now apply (exec_main fragileEnv _ _ exampleCanvas 800 600 0 0 _ fragileEnv_loads).
Qed.

(** The application renders on the browser that cannot complete an empty
    framebuffer, with the cube and the sphere as its objects. *)
Lemma fragile_running :
  exists this st,
    running fragileEnv rendering this st /\
    exists obj, nth_error (objects this) 1 = Some obj.
Proof.
  pose proof fragile_loading_running as H.
  destruct (exec_settle (good:=reachable) fragileEnv _ _ fragileEnv_loads _ _
              example_loading 16 16 eq_refl) as (this & st & out & E & _ & _ & Hobjs & _).
  exists this, st. split.
  - exact (running_settle _ _ _ _ _ _ _ _ _ H E).
  - rewrite Hobjs. eexists. reflexivity.
Qed.

(** ** The life of the application *)

(** C2: in every state of the application on an environment on which the
    shaders load, from the return of the listener of [DOMContentLoaded] on
    and after every event since: while the shaders load the context has no
    stray objects, depth writes are on, the canvas is the render target and
    the camera is in a state its events lead to; once it renders, the
    programs, the reflection target and the glass plane are set and exist
    in the context, every object can be drawn, depth writes are on and the
    canvas is the render target between two frames, and the reflection
    target has the size of the canvas if every framebuffer can be
    completed; and the application fails only if some framebuffer
    cannot. *)
Theorem running_invariant (env : Environment) (active activeGlass : Uniform -> bool)
  (phase : Phase) (this : WebGLApp) (st : GLState) :
  loads env active activeGlass -> running env phase this st ->
  match phase with
  | loading => loadingInvariant reachable this st
  | rendering =>
      exists p q fbo glass,
        canRender reachable this st p q fbo glass /\
        ((forall width height, framebufferComplete env width height = true) ->
         fbo_width fbo = Camera.width (canvas this) /\
         fbo_height fbo = Camera.height (canvas this))
  | failed => exists width height, framebufferComplete env width height = false
  end.
Proof.
  intros Hw H.
  pose proof (survives_running (good:=reachable) env active activeGlass Hw phase this st H)
    as Hs.
  destruct phase; [exact Hs | | exact Hs].
  destruct Hs as (p & q & fbo & glass & Hcan). exists p, q, fbo, glass.
  split; [exact Hcan|]. intros Hall.
  destruct (lives_running (good:=reachable) env active activeGlass (mkWorking _ _ _ Hw Hall)
              rendering this st H) as (p' & q' & fbo' & glass' & [Hcan' Hwidth Hheight]).
  pose proof (ready_fbo _ _ _ _ _ _ (cr_ready _ _ _ _ _ _ _ Hcan)) as E.
  rewrite (ready_fbo _ _ _ _ _ _ (cr_ready _ _ _ _ _ _ _ Hcan')) in E.
  injection E as <-. now split.
Qed.

Lemma running_invariant_witness :
  exists this st,
    running fragileEnv rendering this st /\
    exists p q fbo glass,
      canRender reachable this st p q fbo glass /\
      ((forall width height, framebufferComplete fragileEnv width height = true) ->
       fbo_width fbo = Camera.width (canvas this) /\
       fbo_height fbo = Camera.height (canvas this)).
Proof.
  destruct fragile_running as (this & st & H & _). exists this, st. split; [exact H|].
  exact (running_invariant fragileEnv _ _ rendering this st fragileEnv_loads H).
Defined.

(** C5: the reflection is the scene seen in the mirror: in every frame of
    an application that renders, each object is drawn twice with its own
    index count, first into the reflection target and then on the canvas,
    and the two draws differ by the mirror and by nothing else.  They use
    the same vertex array, texture, model matrix and projection; the view
    matrix of the main draw is that of the camera after [update], and the
    view matrix of the reflection draw is that matrix conjugated by the
    reflection across the glass plane; the light of the reflection draw is
    the mirror image of the light of the main draw; the reflection draw
    clips at the glass plane and the main draw does not clip. *)
Theorem reflection_mirrors_scene (env : Environment) (active activeGlass : Uniform -> bool)
  (this : WebGLApp) (st : GLState) (now_update now_fps : R) (k : nat) (obj : Renderable) :
  loads env active activeGlass -> running env rendering this st ->
  nth_error (objects this) k = Some obj ->
  exists this' st' out p sr sm,
    step env (requestedFrame now_update now_fps) this st = Ok this' st' out /\
    program this = Some p /\
    nth_error (draws out) k = Some (count obj, sr) /\
    nth_error (draws out) (List.length (objects this) + k) = Some (count obj, sm) /\
    mirrors p sr sm /\
    uniformIs p sm uViewMatrix (Mat4Value (viewMatrix (update now_update (camera this)))).
Proof.
  intros Hw H Hk.
  destruct (survives_running (good:=reachable) env active activeGlass Hw _ this st H)
    as (p & q & fbo & glass & Hcan).
  destruct (can_requestedFrame _ _ _ _ _ _ Hcan now_update now_fps)
    as (this' & st' & out & E & [_ _ Hobjs _ _ _ _] & Hfr & Hc & _ & _ & Hcan').
  rewrite <- Hobjs in Hk |- *.
  destruct (frame_passes _ _ _ _ _ _ _ Hfr k obj Hk) as (sr & sm & Hr & Hm & Hdr & Hdm).
  exists this', st', out, p, sr, sm. split; [exact E|].
  split; [exact (ready_program _ _ _ _ _ _ (cr_ready _ _ _ _ _ _ _ Hcan))|].
  split; [exact Hr|]. split; [exact Hm|]. split.
  - exact (mirrors_draws this' p fbo st (cr_camera _ _ _ _ _ _ _ Hcan') obj k sr sm Hdr Hdm).
  - rewrite <- Hc. exact (sp_view _ _ _ _ _ _ _ _ _ _ (sd_pass _ _ _ _ _ _ _ _ _ _ _ _ Hdm)).
Qed.

Lemma reflection_mirrors_scene_witness :
  exists this st obj,
    running fragileEnv rendering this st /\
    nth_error (objects this) 1 = Some obj /\
    exists this' st' out p sr sm,
      step fragileEnv (requestedFrame 32 32) this st = Ok this' st' out /\
      program this = Some p /\
      nth_error (draws out) 1 = Some (count obj, sr) /\
      nth_error (draws out) (List.length (objects this) + 1) = Some (count obj, sm) /\
      mirrors p sr sm /\
      uniformIs p sm uViewMatrix (Mat4Value (viewMatrix (update 32 (camera this)))).
Proof.
  destruct fragile_running as (this & st & H & obj & Hk).
  exists this, st, obj. split; [exact H|]. split; [exact Hk|].
  exact (reflection_mirrors_scene fragileEnv _ _ this st 32 32 1 obj
           fragileEnv_loads H Hk).
Defined.

(** C6: on every environment on which the shaders load, an application
    that renders handles every event (a frame, a resize of the window, the
    transparency slider, the reset button, a key, the mouse, the wheel)
    without an error of the context, and renders on; also after a resize
    for which the new reflection target cannot be completed, when [resize]
    throws in its listener. *)
Theorem events_handled (env : Environment) (active activeGlass : Uniform -> bool)
  (this : WebGLApp) (st : GLState) (ev : AppEvent) :
  loads env active activeGlass -> running env rendering this st ->
  exists this' st' out,
    step env ev this st = Ok this' st' out /\ errors out = [] /\
    running env rendering this' st'.
Proof.
  intros Hw H.
  destruct (step_running (good:=reachable) env active activeGlass Hw ev this st H)
    as (this' & st' & out & E & He & _ & H').
  now exists this', st', out.
Qed.

Lemma events_handled_witness :
  exists this st,
    running fragileEnv rendering this st /\
    exists this' st' out,
      step fragileEnv (windowResized 0 0) this st = Ok this' st' out /\
      errors out = [] /\ running fragileEnv rendering this' st'.
Proof.
  destruct fragile_running as (this & st & H & _). exists this, st. split; [exact H|].
  exact (events_handled fragileEnv _ _ this st (windowResized 0 0) fragileEnv_loads H).
Defined.

(** C17: startup completes whatever arrives while the shaders load: an event
    of the page is handled by the listeners of the camera and the [resize]
    listener, which draw nothing, report at most the exception of [resize]
    and leave the application loading; and when the shader files have
    arrived and the reflection target of the size the canvas then has can
    be completed, the rest of [init] renders the first frame without error,
    asks for one frame and leaves the application rendering. *)
Theorem loading_completes (env : Environment) (active activeGlass : Uniform -> bool)
  (this : WebGLApp) (st : GLState) :
  loads env active activeGlass -> running env loading this st ->
  (forall ev, exists this' st',
      stepLoading env ev this st = Ok this' st' (resizeReport env ev) /\
      running env loading this' st') /\
  (forall now_update now_fps,
      framebufferComplete env (Camera.width (canvas this)) (Camera.height (canvas this))
      = true ->
      exists this' st' out,
        settle env now_update now_fps this st = Ok (rendering, this') st' out /\
        errors out = [] /\ frameRequests out = 1%nat /\
        running env rendering this' st').
Proof.
  intros Hw H.
  pose proof (survives_running (good:=reachable) env active activeGlass Hw _ this st H)
    as Hl.
  split.
  - intros ev. destruct (stepLoading_loading env this st Hl ev) as (this' & st' & E & _).
    exists this', st'. split; [exact E|]. exact (running_early env ev _ _ _ _ _ H E).
  - intros now_update now_fps Hc.
    destruct (exec_settle env active activeGlass Hw this st Hl now_update now_fps Hc)
      as (this' & st' & out & E & Hfr & _).
    exists this', st', (resumeOutputs ++ out). split; [exact E|].
    rewrite errors_app, frameRequests_app, (frame_errors _ _ _ _ _ _ _ Hfr),
      (frame_requests _ _ _ _ _ _ _ Hfr).
    do 2 (split; [reflexivity|]). exact (running_settle env _ _ _ _ _ _ _ _ H E).
Qed.

Lemma loading_completes_witness :
  (forall ev, exists this' st',
      stepLoading fragileEnv ev exampleLoading exampleLoadingState
      = Ok this' st' (resizeReport fragileEnv ev) /\
      running fragileEnv loading this' st') /\
  (forall now_update now_fps,
      framebufferComplete fragileEnv (Camera.width (canvas exampleLoading))
        (Camera.height (canvas exampleLoading)) = true ->
      exists this' st' out,
        settle fragileEnv now_update now_fps exampleLoading exampleLoadingState
        = Ok (rendering, this') st' out /\
        errors out = [] /\ frameRequests out = 1%nat /\
        running fragileEnv rendering this' st').
Proof.
  exact (loading_completes fragileEnv _ _ _ _ fragileEnv_loads fragile_loading_running).
Defined.

(** C21: the render loop neither stops nor multiplies: over any sequence of
    events of an application that renders there are exactly as many
    requests for an animation frame as frames were rendered, so one frame is
    pending after every frame and after every other event, a resize that
    throws included. *)
Theorem frame_loop (env : Environment) (active activeGlass : Uniform -> bool)
  (this : WebGLApp) (st : GLState) (evs : list AppEvent) :
  loads env active activeGlass -> running env rendering this st ->
  exists this' st' out,
    runEvents env evs this st = Ok this' st' out /\
    frameRequests out = frames evs /\ running env rendering this' st'.
Proof.
  intros Hw H.
  destruct (runEvents_running (good:=reachable) env active activeGlass Hw evs this st H)
    as (this' & st' & out & E & _ & Hq & H').
  now exists this', st', out.
Qed.

Lemma frame_loop_witness :
  exists this st,
    running fragileEnv rendering this st /\
    exists this' st' out,
      runEvents fragileEnv
        [requestedFrame 16 16; windowResized 8192 600; dom (wheel 100) 20; requestedFrame 32 32]
        this st
      = Ok this' st' out /\
      frameRequests out = 2%nat /\ running fragileEnv rendering this' st'.
Proof.
  destruct fragile_running as (this & st & H & _). exists this, st. split; [exact H|].
  exact (frame_loop fragileEnv _ _ this st
           [requestedFrame 16 16; windowResized 8192 600; dom (wheel 100) 20;
            requestedFrame 32 32]
           fragileEnv_loads H).
Defined.

(** ** Startup *)

(** C15: on an environment on which the shaders load and the first
    reflection target can be completed, the listener of [DOMContentLoaded]
    constructs the application, which sizes the canvas and the viewport to
    the container, registers the [resize] listener and starts to load the
    shaders; the listener logs success and returns while the shaders load:
    nothing has been drawn and no frame has been asked for. *)
Theorem main_spec (env : Environment) (active activeGlass : Uniform -> bool)
  (element : Canvas) (clientWidth clientHeight width height : Z) (now_camera now : R) :
  loads env active activeGlass ->
  framebufferComplete env clientWidth clientHeight = true ->
  exists this st,
    App.main env element clientWidth clientHeight now_camera now
      (initialState width height)
    = Ok (Some this) st
        [Host (AddEventListener "window" "resize"); Host (ConsoleLog "Loading shaders...");
         Host (ConsoleLog "WebGL application initialized successfully")] /\
    canvas this = with_size clientWidth clientHeight element /\
    viewportBox st = (0, 0, clientWidth, clientHeight)%Z /\
    program this = None /\ objects this = [] /\
    loadingInvariant reachable this st /\ running env loading this st.
Proof.
  intros Hw Hc.
  pose proof (exec_main env active activeGlass element clientWidth clientHeight now_camera
                now (initialState width height) Hw Hc) as E.
  eexists _, _. split; [exact E|]. do 4 (split; [reflexivity|]). split.
  - apply loading_prepared, loading_newApp; try reflexivity. apply fresh_initialState.
  - exact (running_main env element clientWidth clientHeight width height now_camera now
             _ _ _ E).
Qed.

Lemma main_spec_witness :
  exists this st,
    App.main fragileEnv exampleCanvas 800 600 0 0 (initialState 800 600)
    = Ok (Some this) st
        [Host (AddEventListener "window" "resize"); Host (ConsoleLog "Loading shaders...");
         Host (ConsoleLog "WebGL application initialized successfully")] /\
    canvas this = with_size 800 600 exampleCanvas /\
    viewportBox st = (0, 0, 800, 600)%Z /\
    program this = None /\ objects this = [] /\
    loadingInvariant reachable this st /\ running fragileEnv loading this st.
Proof.
  exact (main_spec fragileEnv _ _ exampleCanvas 800 600 800 600 0 0 fragileEnv_loads
           eq_refl).
Defined.

(** C16: when the shader files have arrived and the reflection target of
    the size of the canvas can be completed, the rest of [init] compiles the
    two programs, creates the scene and a reflection target of the size of
    the canvas, registers the listeners of the controls and renders the
    first frame, without error; the application then satisfies the
    invariant of an application that renders. *)
Theorem settle_spec (env : Environment) (active activeGlass : Uniform -> bool)
  (this : WebGLApp) (st : GLState) (now_update now_fps : R) :
  loads env active activeGlass -> loadingInvariant reachable this st ->
  framebufferComplete env (Camera.width (canvas this)) (Camera.height (canvas this)) = true ->
  exists this' st' out p q fbo glass,
    settle env now_update now_fps this st = Ok (rendering, this') st' (resumeOutputs ++ out) /\
    frame this' p q fbo glass (resumed active activeGlass this st) out /\
    errors out = [] /\
    map fst (draws out) = [36; 6 * (32 * 32); 36; 6 * (32 * 32); 6]%nat /\
    canvas this' = canvas this /\
    fbo_width fbo = Camera.width (canvas this) /\
    fbo_height fbo = Camera.height (canvas this) /\
    appInvariant reachable this' st' p q fbo glass.
Proof.
  intros Hw Hl Hc.
  destruct (exec_settle env active activeGlass Hw this st Hl now_update now_fps Hc)
    as (this' & st' & out & E & Hfr & Hcv & Hobjs & Hinv).
  eexists this', st', out, _, _, _, _. split; [exact E|]. split; [exact Hfr|].
  split; [exact (frame_errors _ _ _ _ _ _ _ Hfr)|].
  split; [|split; [exact Hcv|]; do 2 (split; [reflexivity|]); exact Hinv].
  now rewrite (frame_draws _ _ _ _ _ _ _ Hfr), Hobjs.
Qed.

Lemma settle_spec_witness :
  exists this' st' out p q fbo glass,
    settle exampleEnv 16 16 exampleLoading exampleLoadingState
    = Ok (rendering, this') st' (resumeOutputs ++ out) /\
    frame this' p q fbo glass
      (resumed exampleActive exampleActiveGlass exampleLoading exampleLoadingState) out /\
    errors out = [] /\
    map fst (draws out) = [36; 6 * (32 * 32); 36; 6 * (32 * 32); 6]%nat /\
    canvas this' = canvas exampleLoading /\
    fbo_width fbo = Camera.width (canvas exampleLoading) /\
    fbo_height fbo = Camera.height (canvas exampleLoading) /\
    appInvariant reachable this' st' p q fbo glass.
Proof.
  exact (settle_spec exampleEnv _ _ _ _ 16 16 exampleEnv_loads example_loading eq_refl).
Defined.

(** C18: when the browser has no WebGL 2, or when the first reflection target
    cannot be completed, startup fails in the constructor and no exception
    reaches the page: the listener of [DOMContentLoaded] returns no
    application, an alert is shown, and nothing is cleared, nothing is
    drawn and no frame is requested. *)
Theorem main_failure (env : Environment) (element : Canvas) (clientWidth clientHeight : Z)
  (now_camera now : R) (st : GLState) :
  webgl2 env = false \/ framebufferComplete env clientWidth clientHeight = false ->
  exists st' out,
    App.main env element clientWidth clientHeight now_camera now st = Ok None st' out /\
    noFrame out /\ exists message, In (Host (Alert message)) out.
Proof.
  intros H. destruct (webgl2 env) eqn:Hw.
  - destruct H as [H|H]; [discriminate H|].
    eexists _, _. split; [now apply main_incomplete|]. split; [noFrame_tac|].
    eexists. right. right. left. reflexivity.
  - eexists _, _. split; [now apply main_unsupported|].
    split; [noFrame_tac|]. eexists. right. right. left. reflexivity.
Qed.

Lemma main_failure_witness :
  exists st' out,
    App.main unsupportedEnv exampleCanvas 800 600 0 0 (initialState 800 600)
    = Ok None st' out /\
    noFrame out /\ exists message, In (Host (Alert message)) out.
Proof.
  exact (main_failure unsupportedEnv exampleCanvas 800 600 0 0 (initialState 800 600)
           (or_introl eq_refl)).
Defined.

(** C19: when a shader file does not load or a program does not compile or
    link, or when the shaders are there and the reflection target of the
    size of the canvas cannot be completed, the rest of [init] throws, the
    callback of the constructor shows an alert, and the application has
    failed: nothing is cleared, nothing is drawn and no frame is
    requested. *)
Theorem settle_failure (env : Environment) (this : WebGLApp) (st : GLState)
  (now_update now_fps : R) :
  (forall active activeGlass, ~ shadersLink env active activeGlass) \/
  ((exists active activeGlass, shadersLink env active activeGlass) /\
   framebufferComplete env (Camera.width (canvas this)) (Camera.height (canvas this))
   = false) ->
  exists st' out,
    settle env now_update now_fps this st = Ok (failed, this) st' out /\
    noFrame out /\ exists message, In (Host (Alert message)) out.
Proof.
  intros H.
  assert (exists e st' out,
             App.init_resume env now_update now_fps this st = Threw e st' out /\
             noFrame out) as (e & st' & out & E & Hn).
  { destruct H as [H|[(active & activeGlass & Hs) Hc]].
    - now apply init_resume_shaders_fail.
    - now apply (init_resume_incomplete env active activeGlass). }
  eexists _, _. split; [exact (settle_threw env _ _ _ e st st' out E)|].
  split; [noFrame_tac|]. eexists. apply in_or_app. right. right. left. reflexivity.
Qed.

Lemma settle_failure_witness :
  exists st' out,
    settle offlineEnv 16 16 exampleLoading exampleLoadingState
    = Ok (failed, exampleLoading) st' out /\
    noFrame out /\ exists message, In (Host (Alert message)) out.
Proof.
  exact (settle_failure offlineEnv exampleLoading exampleLoadingState 16 16
           (or_introl offlineEnv_fails)).
Defined.

(** ** Frames *)

(** C14: a frame of an application that can render: [render] moves the
    camera by [update], reports the frame rate when it is due, clears the
    reflection target and draws every object into it as seen from the
    mirrored camera, clears the canvas and draws every object and then the
    glass plane on it, asks for the next frame, raises no error, and leaves
    the application able to render the next frame. *)
Theorem render_spec (this : WebGLApp) (st : GLState) (p q : Program) (fbo : ReflectionFBO)
  (glass : Renderable) (now_update now_fps : R) :
  appInvariant reachable this st p q fbo glass ->
  exists this' st' out,
    App.render now_update now_fps this st = Ok this' st' out /\
    camera this' = update now_update (camera this) /\
    frame this' p q fbo glass st out /\
    errors out = [] /\
    map fst (draws out)
    = map count (objects this') ++ map count (objects this') ++ [count glass] /\
    appInvariant reachable this' st' p q fbo glass.
Proof.
  intros Hinv.
  destruct (step_requestedFrame _ _ _ _ _ _ Hinv now_update now_fps)
    as (this' & st' & out & E & _ & Hfr & Hc & _ & _ & Hinv').
  exists this', st', out. split; [exact E|]. split; [exact Hc|]. split; [exact Hfr|].
  split; [exact (frame_errors _ _ _ _ _ _ _ Hfr)|].
  split; [exact (frame_draws _ _ _ _ _ _ _ Hfr) | exact Hinv'].
Qed.

Lemma render_spec_witness :
  exists this' st' out,
    App.render 16 16 exampleThis exampleState = Ok this' st' out /\
    camera this' = update 16 (camera exampleThis) /\
    frame this' exampleProgram exampleGlassProgram exampleFBO exampleGlass exampleState
      out /\
    errors out = [] /\
    map fst (draws out)
    = map count (objects this') ++ map count (objects this') ++ [count exampleGlass] /\
    appInvariant reachable this' st' exampleProgram exampleGlassProgram exampleFBO exampleGlass.
Proof. exact (render_spec _ _ _ _ _ _ 16 16 example_invariant). Defined.

(** C8: the reflection pass binds the reflection target, sets the viewport
    to its size, clears it to (0.1, 0.1, 0.15, 1), draws every object in
    order with its vertex array, its model matrix and its texture on unit
    0, with the view matrix of the mirrored camera, the clipping plane
    (1, 0, 0, 0) and the light mirrored to (-5, 10, 5), raises no error,
    and leaves the canvas as the render target. *)
Theorem renderReflectionPass_spec (this : WebGLApp) (p q : Program) (fbo : ReflectionFBO)
  (glass : Renderable) (st : GLState) :
  ready this p q fbo glass st ->
  exists st' s0 out,
    App.renderReflectionPass this st = Ok tt st' (Cleared true true s0 :: out) /\
    clearState (Some (framebuffer fbo)) (0, 0, fbo_width fbo, fbo_height fbo)%Z
      (0.1, 0.1, 0.15, 1.0) s0 /\
    passDraws (objects this)
      (sceneDraw this p (calculateReflectionViewMatrix (camera this)) (vec4 1 0 0 0)
         (vec3 (-5) 10 5) (Some (framebuffer fbo))
         (0, 0, fbo_width fbo, fbo_height fbo)%Z true st) out /\
    framebufferBinding st' = None /\ depthWritemask st' = true /\ sameObjects st st'.
Proof.
  intros Hr.
  destruct (exec_renderReflectionPass this p q fbo glass st Hr)
    as (st' & s0 & out & E & Ht & Hv & Hc & Hd & Hp & Hb & Hm & Hs).
  exists st', s0, out. split; [exact E|].
  split; [exact (mkClearState _ _ _ _ Ht Hv Hc Hd)|].
  split; [exact Hp|]. split; [exact Hb|]. split; [exact Hm | exact Hs].
Qed.

Lemma renderReflectionPass_spec_witness :
  exists st' s0 out,
    App.renderReflectionPass exampleThis exampleState
    = Ok tt st' (Cleared true true s0 :: out) /\
    clearState (Some (framebuffer exampleFBO))
      (0, 0, fbo_width exampleFBO, fbo_height exampleFBO)%Z (0.1, 0.1, 0.15, 1.0) s0 /\
    passDraws (objects exampleThis)
      (sceneDraw exampleThis exampleProgram
         (calculateReflectionViewMatrix (camera exampleThis)) (vec4 1 0 0 0)
         (vec3 (-5) 10 5) (Some (framebuffer exampleFBO))
         (0, 0, fbo_width exampleFBO, fbo_height exampleFBO)%Z true exampleState) out /\
    framebufferBinding st' = None /\ depthWritemask st' = true /\
    sameObjects exampleState st'.
Proof.
  exact (renderReflectionPass_spec _ _ _ _ _ _ (ai_ready _ _ _ _ _ _ example_invariant)).
Defined.

(** C7: the main pass sets the viewport to the canvas, clears it to
    (0.05, 0.05, 0.1, 1), draws every object with the view matrix of the
    camera, no clipping and the light at (5, 10, 5), and then draws the
    glass plane with the glass program, depth writes off, the glass texture
    on unit 0 and the texture of the reflection target on unit 1, the
    transparency of the slider and the reflection view-projection matrix;
    it raises no error and turns depth writes on again. *)
Theorem renderMainScene_spec (this : WebGLApp) (p q : Program) (fbo : ReflectionFBO)
  (glass : Renderable) (st : GLState) :
  ready this p q fbo glass st ->
  exists st' s0 out sg,
    App.renderMainScene this st
    = Ok tt st' (Cleared true true s0 :: out ++ [Drawn (count glass) sg]) /\
    clearState None (0, 0, Camera.width (canvas this), Camera.height (canvas this))%Z
      (0.05, 0.05, 0.1, 1.0) s0 /\
    passDraws (objects this)
      (sceneDraw this p (viewMatrix (camera this)) (vec4 0 0 0 0) (vec3 5 10 5) None
         (0, 0, Camera.width (canvas this), Camera.height (canvas this))%Z true st) out /\
    glassDraw this q fbo glass st sg /\
    framebufferBinding st' = None /\ depthWritemask st' = true /\ sameObjects st st'.
Proof.
  intros Hr.
  destruct (exec_renderMainScene this p q fbo glass st Hr)
    as (st' & s0 & out & sg & E & Ht & Hv & Hc & Hd & Hp & Hg & Hb & Hm & Hs).
  exists st', s0, out, sg. split; [exact E|].
  split; [exact (mkClearState _ _ _ _ Ht Hv Hc Hd)|].
  split; [exact Hp|]. split; [exact Hg|]. split; [exact Hb|]. split; [exact Hm | exact Hs].
Qed.

Lemma renderMainScene_spec_witness :
  exists st' s0 out sg,
    App.renderMainScene exampleThis exampleState
    = Ok tt st' (Cleared true true s0 :: out ++ [Drawn (count exampleGlass) sg]) /\
    clearState None
      (0, 0, Camera.width (canvas exampleThis), Camera.height (canvas exampleThis))%Z
      (0.05, 0.05, 0.1, 1.0) s0 /\
    passDraws (objects exampleThis)
      (sceneDraw exampleThis exampleProgram (viewMatrix (camera exampleThis))
         (vec4 0 0 0 0) (vec3 5 10 5) None
         (0, 0, Camera.width (canvas exampleThis), Camera.height (canvas exampleThis))%Z
         true exampleState) out /\
    glassDraw exampleThis exampleGlassProgram exampleFBO exampleGlass exampleState sg /\
    framebufferBinding st' = None /\ depthWritemask st' = true /\
    sameObjects exampleState st'.
Proof.
  exact (renderMainScene_spec _ _ _ _ _ _ (ai_ready _ _ _ _ _ _ example_invariant)).
Defined.

(** C26: [resize] gives the canvas the size of its container, sets the
    viewport and the projection of the camera to it, and, when a
    framebuffer of that size can be completed, replaces the reflection
    target by a new one of that size, so that the application can render at
    the new size; the framebuffer of the old target is not deleted and
    stays in the context. *)
Theorem resize_spec (env : Environment) (this : WebGLApp) (st : GLState) (p q : Program)
  (fbo : ReflectionFBO)
  (glass : Renderable) (clientWidth clientHeight : Z) :
  framebufferComplete env clientWidth clientHeight = true ->
  appInvariant reachable this st p q fbo glass ->
  exists this' st' fbo',
    App.resize env clientWidth clientHeight this st = Ok this' st' [] /\
    canvas this' = with_size clientWidth clientHeight (canvas this) /\
    camera this' = updateProjectionMatrix (canvas this') (camera this) /\
    viewportBox st' = (0, 0, clientWidth, clientHeight)%Z /\
    reflectionFBO this' = Some fbo' /\
    fbo_width fbo' = clientWidth /\ fbo_height fbo' = clientHeight /\
    framebuffer fbo' <> framebuffer fbo /\
    framebuffers st' (framebuffer fbo) = framebuffers st (framebuffer fbo) /\
    appInvariant reachable this' st' p q fbo' glass.
Proof.
  intros Hw Hinv.
  destruct (step_windowResized env this st p q fbo glass Hinv clientWidth clientHeight Hw)
    as [_ Hinv'].
  eexists _, _, _. split; [apply exec_resize, Hw|]. do 6 (split; [reflexivity|]).
  pose proof (ready_framebuffer _ _ _ _ _ _ (ai_ready _ _ _ _ _ _ Hinv)) as Hfb.
  pose proof (below_nextHandle _ _ _ _ (fresh_framebuffers _ (ai_fresh _ _ _ _ _ _ Hinv)) Hfb)
    as Hlt.
  assert (Hne : S (nextHandle st) <> framebuffer fbo) by lia.
  split; [exact Hne|]. split; [|exact Hinv'].
  cbn [framebufferCreated framebuffers with_nextHandle with_framebuffers with_viewportBox].
  now apply upd_other, not_eq_sym.
Qed.

Lemma resize_spec_witness :
  exists this' st' fbo',
    App.resize exampleEnv 1024 768 exampleThis exampleState = Ok this' st' [] /\
    canvas this' = with_size 1024 768 (canvas exampleThis) /\
    camera this' = updateProjectionMatrix (canvas this') (camera exampleThis) /\
    viewportBox st' = (0, 0, 1024, 768)%Z /\
    reflectionFBO this' = Some fbo' /\
    fbo_width fbo' = 1024%Z /\ fbo_height fbo' = 768%Z /\
    framebuffer fbo' <> framebuffer exampleFBO /\
    framebuffers st' (framebuffer exampleFBO)
    = framebuffers exampleState (framebuffer exampleFBO) /\
    appInvariant reachable this' st' exampleProgram exampleGlassProgram fbo' exampleGlass.
Proof.
  exact (resize_spec exampleEnv _ _ _ _ _ _ 1024 768 eq_refl example_invariant).
Defined.

(** C20: a resize that fails: when a framebuffer of the new size cannot be
    completed, [resize] throws in its listener after it has given the
    canvas, the viewport and the projection the new size, and the page
    reports the exception.  The application renders on: the next frame
    draws without an error of the context, into the reflection target that
    the application had, which has not been replaced, and on the canvas at
    its new size. *)
Theorem resize_failure (env : Environment) (active activeGlass : Uniform -> bool)
  (this : WebGLApp) (st : GLState) (clientWidth clientHeight : Z) (now_update now_fps : R) :
  loads env active activeGlass -> running env rendering this st ->
  framebufferComplete env clientWidth clientHeight = false ->
  exists this' st' out p q fbo glass,
    runEvents env [windowResized clientWidth clientHeight;
                   requestedFrame now_update now_fps] this st
    = Ok this' st' (Host (Uncaught "Framebuffer is not complete") :: out) /\
    frame this' p q fbo glass (with_viewportBox (0, 0, clientWidth, clientHeight)%Z st)
      out /\
    errors out = [] /\
    canvas this' = with_size clientWidth clientHeight (canvas this) /\
    camera this'
    = update now_update (updateProjectionMatrix (canvas this') (camera this)) /\
    reflectionFBO this = Some fbo /\ reflectionFBO this' = Some fbo /\
    running env rendering this' st'.
Proof.
  intros Hw H Hc.
  destruct (survives_running (good:=reachable) env active activeGlass Hw _ this st H)
    as (p & q & fbo & glass & Hcan).
  destruct (can_resize_incomplete env _ _ _ _ _ _ Hcan _ _ Hc) as [E1 Hcan1].
  destruct (can_requestedFrame _ _ _ _ _ _ Hcan1 now_update now_fps)
    as (this' & st' & out & E & [_ _ _ _ _ _ Hfbo] & Hfr & Hcam & Hcv & _ & _).
  assert (E2 : runEvents env [windowResized clientWidth clientHeight;
                              requestedFrame now_update now_fps] this st
               = Ok this' st' (Host (Uncaught "Framebuffer is not complete") :: out)).
  { cbn [runEvents step]. rewrite (bind_Ok _ _ _ _ _ _ E1).
    erewrite bind_Ok by exact E. cbn [ret prepend app]. now rewrite app_nil_r. }
  exists this', st', out, p, q, fbo, glass. split; [exact E2|]. split; [exact Hfr|].
  split; [exact (frame_errors _ _ _ _ _ _ _ Hfr)|]. split; [exact Hcv|].
  split; [now rewrite Hcam, Hcv|].
  pose proof (ready_fbo _ _ _ _ _ _ (cr_ready _ _ _ _ _ _ _ Hcan)) as Hf.
  split; [exact Hf|]. split; [now rewrite Hfbo|].
  destruct (runEvents_running (good:=reachable) env active activeGlass Hw
              [windowResized clientWidth clientHeight; requestedFrame now_update now_fps]
              this st H) as (this2 & st2 & out2 & E3 & _ & _ & H2).
  rewrite E2 in E3. now injection E3 as -> -> _.
Qed.

Lemma resize_failure_witness :
  exists this st,
    running fragileEnv rendering this st /\
    exists this' st' out p q fbo glass,
      runEvents fragileEnv [windowResized 8192 4320; requestedFrame 32 32] this st
      = Ok this' st' (Host (Uncaught "Framebuffer is not complete") :: out) /\
      frame this' p q fbo glass (with_viewportBox (0, 0, 8192, 4320)%Z st) out /\
      errors out = [] /\
      canvas this' = with_size 8192 4320 (canvas this) /\
      camera this' = update 32 (updateProjectionMatrix (canvas this') (camera this)) /\
      reflectionFBO this = Some fbo /\ reflectionFBO this' = Some fbo /\
      running fragileEnv rendering this' st'.
Proof.
  destruct fragile_running as (this & st & H & _). exists this, st. split; [exact H|].
  exact (resize_failure fragileEnv _ _ this st 8192 4320 32 32 fragileEnv_loads H eq_refl).
Defined.

(** C33: [updateFPS] counts the frame; when a second or more has passed since
    the last report it shows the frame rate, which is the number of frames
    counted per second rounded to the nearest integer, and starts counting
    again from the time it read; otherwise it shows nothing.  It changes no
    field that a pass reads. *)
Theorem updateFPS_spec (now : R) (this : WebGLApp) (st : GLState) :
  exists this' out,
    App.updateFPS now this st = Ok this' st out /\ sameScene this this' /\
    ((now - lastTime this < 1000 /\ out = [] /\
      frameCount this' = (frameCount this + 1)%Z /\
      lastTime this' = lastTime this /\ fps this' = fps this) \/
     (now - lastTime this >= 1000 /\
      out = [Host (SetTextContent "fps" "FPS: " (IZR (fps this')))] /\
      frameCount this' = 0%Z /\ lastTime this' = now /\
      IZR (fps this') - 0.5
      <= IZR (frameCount this + 1) * 1000 / (now - lastTime this)
      < IZR (fps this') + 0.5)).
Proof.
  destruct (Rlt_or_le (now - lastTime this) 1000) as [H|H].
  - exists (counted this), []. rewrite exec_updateFPS_wait by exact H.
    split; [reflexivity|]. split; [now constructor|]. left. now repeat split.
  - exists (reported now this), [Host (SetTextContent "fps" "FPS: "
                                        (IZR (fps (reported now this))))].
    rewrite exec_updateFPS_report by lra.
    split; [reflexivity|]. split; [now constructor|]. right.
    split; [lra|]. do 3 (split; [reflexivity|]). apply round_spec.
Qed.

(** C27: the transparency slider takes effect in the next frame: after an
    input of [value] the glass plane is drawn, as the last draw of the
    frame, with the glass program, depth writes off and the uniform
    [uTransparency] at [value / 100]. *)
Theorem transparency_frame (env : Environment) (this : WebGLApp) (st : GLState)
  (p q : Program) (fbo : ReflectionFBO) (glass : Renderable)
  (value now_update now_fps : R) :
  appInvariant reachable this st p q fbo glass ->
  exists this' st' out sg,
    runEvents env [transparencyInput value; requestedFrame now_update now_fps] this st
    = Ok this' st'
        (Host (SetTextContent "transparency-value" "" value)
         :: out ++ [Drawn (count glass) sg; Host RequestAnimationFrame]) /\
    currentProgram sg = Some (programHandle q) /\
    depthWritemask sg = false /\
    uniformIs q sg uTransparency (FloatValue (value / 100)).
Proof.
  intros Hinv.
  destruct (step_transparencyInput _ _ _ _ _ _ Hinv value) as [E1 Hinv1].
  destruct (step_requestedFrame _ _ _ _ _ _ Hinv1 now_update now_fps)
    as (this' & st' & out & E & _ & Hfr & _ & _ & Htr & _).
  destruct (frame_glass _ _ _ _ _ _ _ Hfr) as (out' & sg & -> & Hg).
  exists this', st', out', sg. split.
  - cbn [runEvents step]. rewrite (bind_Ok _ _ _ _ _ _ E1).
    erewrite bind_Ok by exact E. cbn [ret prepend app]. now rewrite app_nil_r.
  - split; [exact (gd_program _ _ _ _ _ _ Hg)|]. split; [exact (gd_depth _ _ _ _ _ _ Hg)|].
    pose proof (gd_transparency _ _ _ _ _ _ Hg) as Hu. now rewrite Htr in Hu.
Qed.

Lemma transparency_frame_witness :
  exists this' st' out sg,
    runEvents exampleEnv [transparencyInput 80; requestedFrame 16 16] exampleThis
      exampleState
    = Ok this' st'
        (Host (SetTextContent "transparency-value" "" 80)
         :: out ++ [Drawn (count exampleGlass) sg; Host RequestAnimationFrame]) /\
    currentProgram sg = Some (programHandle exampleGlassProgram) /\
    depthWritemask sg = false /\
    uniformIs exampleGlassProgram sg uTransparency (FloatValue (80 / 100)).
Proof. exact (transparency_frame exampleEnv _ _ _ _ _ _ 80 16 16 example_invariant). Defined.
